(** * claude-compte: the ingestion pipeline of [claude_compte/parser.py]

    A shallow embedding of the parser module (pricing table, JSONL record
    parser, query extractor, incremental cache and aggregator) together
    with the properties its specification states about it.  The two
    consumers of the snapshot, the optimizer of
    [claude_compte/optimizer.py] and the [/api/usage] route of
    [claude_compte/server.py], are embedded after it.

    Conventions of the embedding.
    - A Python [str] is a Rocq [string] holding its UTF-8 bytes.  Byte-wise
      lexicographic order coincides with Python's code-point order, and a
      substring test with an ASCII needle gives the same answer on bytes
      as on code points.
    - A Python [int] is a [Z]; a Python [float] is a primitive binary64
      [float], so every rate and every cost is computed with the rounding
      the interpreter performs.
    - An insertion-ordered [dict] is an association list updated in place
      ([od_set]); the persisted cache, which is only ever looked up by
      key, is a [gmap].
    - A function that can raise returns an [option]; [None] is the
      exception escaping the function.
    - The one built-in whose result depends on the version of the
      interpreter, [sum] over [float]s, takes the [interpreter] as a
      parameter. *)

From Stdlib Require Import ZArith Floats String Ascii List Permutation.
From Stdlib Require Import Numbers.DecimalString Numbers.DecimalZ.
From stdpp Require Import base option list sorting gmap strings.

Set Warnings "-inexact-float".
Set Default Proof Using "Type".

(** ** Python built-ins on strings *)

Module Py.

(** Truthiness of a [str]: only the empty string is falsy. *)
Definition truthy (s : string) : bool :=
  match s with EmptyString => false | String _ _ => true end.

(** Truthiness of an optional [str] ([None] is falsy). *)
Definition truthy_opt (o : option string) : bool :=
  match o with Some s => truthy s | None => false end.

(** [x or None] on an optional [str]. *)
Definition or_none (o : option string) : option string :=
  match o with Some s => if truthy s then Some s else None | None => None end.

(** [s.startswith(p)]. *)
Fixpoint startswith (s p : string) : bool :=
  match p, s with
  | EmptyString, _ => true
  | String _ _, EmptyString => false
  | String a p', String b s' => if Ascii.eqb a b then startswith s' p' else false
  end.

(** [needle in s]. *)
Fixpoint contains (needle s : string) : bool :=
  startswith s needle
  || match s with
     | EmptyString => false
     | String _ s' => contains needle s'
     end.

Definition lower_byte (c : ascii) : ascii :=
  let n := N_of_ascii c in
  if ((65 <=? n) && (n <=? 90))%N then ascii_of_N (n + 32) else c.

(** [s.lower()], as far as a test against ASCII text can observe it: the
    ASCII capitals are folded, and so are the only two code points
    outside ASCII whose lower-case form contains an ASCII letter, the
    Kelvin sign U+212A (bytes E2 84 AA), which lowers to [k], and the
    dotted capital I U+0130 (bytes C4 B0), which lowers to [i] followed
    by U+0307 (bytes CC 87).  Every other byte is kept. *)
Fixpoint lower (s : string) : string :=
  match s with
  | EmptyString => EmptyString
  | String c s' =>
      match s' with
      | String c1 s1 =>
          if (Ascii.eqb c "196" && Ascii.eqb c1 "176")%char
          then String "i" (String "204" (String "135" (lower s1)))
          else
            match s1 with
            | String c2 s2 =>
                if (Ascii.eqb c "226" && Ascii.eqb c1 "132" && Ascii.eqb c2 "170")%char
                then String "k" (lower s2)
                else String (lower_byte c) (lower s')
            | EmptyString => String (lower_byte c) (lower s')
            end
      | EmptyString => String (lower_byte c) EmptyString
      end
  end.

(** A byte that continues a UTF-8 sequence (10xxxxxx). *)
Definition is_continuation (c : ascii) : bool :=
  let n := N_of_ascii c in ((128 <=? n) && (n <? 192))%N.

(** The bytes of [s] up to the end of the code point that starts at its
    head: the continuation bytes that follow the first byte. *)
Fixpoint take_continuation (s : string) : string :=
  match s with
  | String c s' => if is_continuation c then String c (take_continuation s') else EmptyString
  | EmptyString => EmptyString
  end.

(** [s[:n]]: the first [n] code points of [s]. *)
Fixpoint slice_to (n : nat) (s : string) : string :=
  match n, s with
  | O, _ => EmptyString
  | _, EmptyString => EmptyString
  | S n', String c s' =>
      if is_continuation c then String c (slice_to n s')
      else
        match n' with
        | O => String c (take_continuation s')
        | S _ => String c (slice_to n' s')
        end
  end.

(** [len(s)]: the number of code points. *)
Fixpoint len (s : string) : nat :=
  match s with
  | EmptyString => O
  | String c s' => if is_continuation c then len s' else S (len s')
  end.

(** [s.split(sep)[0]] for a one-character separator. *)
Fixpoint split_head (sep : ascii) (s : string) : string :=
  match s with
  | EmptyString => EmptyString
  | String c s' => if Ascii.eqb c sep then EmptyString else String c (split_head sep s')
  end.

(** The UTF-8 encodings of the code points for which [str.isspace] holds. *)
Definition whitespace : list string :=
  let b (l : list N) := string_of_list_ascii (map ascii_of_N l) in
  map b
    [ [9]; [10]; [11]; [12]; [13]; [28]; [29]; [30]; [31]; [32];
      [194; 133]; [194; 160]; [225; 154; 128];
      [226; 128; 128]; [226; 128; 129]; [226; 128; 130]; [226; 128; 131];
      [226; 128; 132]; [226; 128; 133]; [226; 128; 134]; [226; 128; 135];
      [226; 128; 136]; [226; 128; 137]; [226; 128; 138];
      [226; 128; 168]; [226; 128; 169]; [226; 128; 175];
      [226; 129; 159]; [227; 128; 128] ]%N.

Fixpoint drop_bytes (n : nat) (s : string) : string :=
  match n, s with
  | S n', String _ s' => drop_bytes n' s'
  | _, _ => s
  end.

(** One white-space code point removed from the front, if there is one. *)
Definition lstrip1 (ws : list string) (s : string) : option string :=
  match filter (fun w => Is_true (startswith s w)) ws with
  | w :: _ => Some (drop_bytes (String.length w) s)
  | [] => None
  end.

Fixpoint lstrip_with (ws : list string) (fuel : nat) (s : string) : string :=
  match fuel with
  | O => s
  | S fuel' =>
      match lstrip1 ws s with
      | Some s' => lstrip_with ws fuel' s'
      | None => s
      end
  end.

Definition rev_string (s : string) : string :=
  string_of_list_ascii (rev (list_ascii_of_string s)).

(** [s.strip()]: white space removed at both ends.  The right end is
    stripped on the reversed bytes with the reversed encodings. *)
Definition strip (s : string) : string :=
  let l := lstrip_with whitespace (String.length s) s in
  rev_string (lstrip_with (map rev_string whitespace) (String.length l) (rev_string l)).

(** [sep.join(parts)]. *)
Fixpoint join (sep : string) (parts : list string) : string :=
  match parts with
  | [] => EmptyString
  | [p] => p
  | p :: rest => p +:+ sep +:+ join sep rest
  end.

(** [str(n)] for an [int]. *)
Definition str_of_int (n : Z) : string :=
  NilZero.string_of_int (Z.to_int n).

(** *** Numbers *)

(** The [float] nearest to an integer, ties to even; infinite when the
    integer is out of range. *)
Definition round_int (n : Z) : float :=
  SF2Prim (binary_normalize prec emax n 0 false).

Definition is_finite (x : float) : bool :=
  negb (PrimFloat.is_infinity x || PrimFloat.is_nan x).

(** [float(n)]: raises [OverflowError] when [n] is too large. *)
Definition float_of_int (n : Z) : option float :=
  let x := round_int n in
  if is_finite x then Some x else None.

(** [n * x] for an [int] [n] and a [float] [x]. *)
Definition int_mul_float (n : Z) (x : float) : option float :=
  f ← float_of_int n; Some (f * x)%float.

Definition exact_of_int (n : Z) : spec_float :=
  match n with
  | Z0 => S754_zero false
  | Zpos p => S754_finite false p 0
  | Zneg p => S754_finite true p 0
  end.

(** [a / b] for two [int]s: the quotient correctly rounded; raises
    [ZeroDivisionError] when [b] is zero and [OverflowError] when the
    quotient is out of range. *)
Definition truediv (a b : Z) : option float :=
  if (b =? 0)%Z then None
  else
    let x := SF2Prim (SFdiv prec emax (exact_of_int a) (exact_of_int b)) in
    if is_finite x then Some x else None.

(** [round(x)] for a [float]: the nearest integer, ties to even; raises
    on an infinity or a NaN. *)
Definition round (x : float) : option Z :=
  match Prim2SF x with
  | S754_zero _ => Some 0%Z
  | S754_finite s m e =>
      let mag :=
        match e with
        | Zneg p =>
            let d := Z.pow_pos 2 p in
            let q := (Zpos m / d)%Z in
            let r := (Zpos m mod d)%Z in
            match (2 * r ?= d)%Z with
            | Lt => q
            | Gt => (q + 1)%Z
            | Eq => if Z.even q then q else (q + 1)%Z
            end
        | _ => (Zpos m * 2 ^ e)%Z
        end in
      Some (if s then (- mag)%Z else mag)
  | _ => None
  end.

(** *** Replacement *)

(** [s.replace(old, new, count)] for a non-empty [old]: the occurrences
    of [old] are replaced from left to right, without overlap, [count]
    of them at most ([None]: all of them).  [skip] counts the bytes of an
    occurrence that are still to be passed over. *)
Fixpoint replace_from (old new : string) (skip : nat) (count : option nat) (s : string)
  : string :=
  match s with
  | EmptyString => EmptyString
  | String c s' =>
      match skip with
      | S skip' => replace_from old new skip' count s'
      | O =>
          let exhausted := match count with Some O => true | _ => false end in
          if negb exhausted && startswith s old
          then new +:+ replace_from old new (String.length old - 1) (Nat.pred <$> count) s'
          else String c (replace_from old new O count s')
      end
  end.

Definition replace (old new : string) (count : option nat) (s : string) : string :=
  replace_from old new O count s.

(** *** Numbers *)

(** [x / y] for two [float]s: raises [ZeroDivisionError] when [y] is
    zero. *)
Definition float_div (x y : float) : option float :=
  if (y =? 0)%float then None else Some (x / y)%float.

(** [n / y] and [x / n] for an [int] [n], which is converted first. *)
Definition int_div_float (n : Z) (y : float) : option float :=
  f ← float_of_int n; float_div f y.

Definition float_div_int (x : float) (n : Z) : option float :=
  f ← float_of_int n; float_div x f.

(** The comparison of an [int] with a [float], which Python makes on
    the exact values; [None] when the [float] is a NaN, with which every
    comparison is false. *)
Definition compare_int_float (n : Z) (x : float) : option comparison :=
  match Prim2SF x with
  | S754_nan => None
  | S754_infinity s => Some (if s then Gt else Lt)
  | S754_zero _ => Some (n ?= 0)%Z
  | S754_finite s m e =>
      let v := if s then Zneg m else Zpos m in
      Some match e with
           | Zneg p => (n * Z.pow_pos 2 p ?= v)%Z
           | _ => (n ?= v * 2 ^ e)%Z
           end
  end.

(** [n > x], [n >= x] and [x > n]. *)
Definition int_gt_float (n : Z) (x : float) : bool :=
  match compare_int_float n x with Some Gt => true | _ => false end.

Definition int_ge_float (n : Z) (x : float) : bool :=
  match compare_int_float n x with Some Gt | Some Eq => true | _ => false end.

Definition float_gt_int (x : float) (n : Z) : bool :=
  match compare_int_float n x with Some Lt => true | _ => false end.

(** *** Formatting *)

(** [num / den] rounded to the nearest integer, ties to even, for
    [num >= 0] and [den > 0]. *)
Definition div_half_even (num den : Z) : Z :=
  let q := (num / den)%Z in
  let r := (num mod den)%Z in
  match (2 * r ?= den)%Z with
  | Lt => q
  | Gt => (q + 1)%Z
  | Eq => if Z.even q then q else (q + 1)%Z
  end.

(** [n] in decimal, with zeros on the left up to [width] digits. *)
Definition zero_padded (width : nat) (n : Z) : string :=
  let digits := str_of_int n in
  string_of_list_ascii (repeat "0"%char (width - String.length digits)) +:+ digits.

(** The decimal writing of [n / 10^precision] with [precision] digits
    after the point, for [n >= 0]. *)
Definition fixed_point (precision : nat) (n : Z) : string :=
  let unit := (10 ^ Z.of_nat precision)%Z in
  match precision with
  | O => str_of_int n
  | S _ => str_of_int (n / unit) +:+ "." +:+ zero_padded precision (n mod unit)
  end.

(** [format(x, ".<precision>f")] for a [float]: the exact value of [x]
    rounded to [precision] decimals, ties to even. *)
Definition format_f (precision : nat) (x : float) : string :=
  match Prim2SF x with
  | S754_nan => "nan"
  | S754_infinity s => if s then "-inf" else "inf"
  | S754_zero s => (if s then "-" else "") +:+ fixed_point precision 0
  | S754_finite s m e =>
      let num := (Zpos m * 10 ^ Z.of_nat precision)%Z in
      let n :=
        match e with
        | Zneg p => div_half_even num (Z.pow_pos 2 p)
        | _ => (num * 2 ^ e)%Z
        end in
      (if s then "-" else "") +:+ fixed_point precision n
  end.

End Py.

(** ** Insertion-ordered dictionaries *)

Section odict.
Context {K V : Type} `{EqDecision K}.

(** [d.get(k)] *)
Fixpoint od_get (k : K) (d : list (K * V)) : option V :=
  match d with
  | [] => None
  | (k', v) :: d' => if decide (k = k') then Some v else od_get k d'
  end.

(** [d[k] = v]: an existing key keeps its position, a new key goes last. *)
Fixpoint od_set (k : K) (v : V) (d : list (K * V)) : list (K * V) :=
  match d with
  | [] => [(k, v)]
  | (k', v') :: d' =>
      if decide (k = k') then (k, v) :: d' else (k', v') :: od_set k v d'
  end.

Definition od_keys (d : list (K * V)) : list K := map fst d.
Definition od_values (d : list (K * V)) : list V := map snd d.
End odict.


(** A loop body that can raise, run over a list. *)
Fixpoint for_each {S A : Type} (body : S -> A -> option S) (s : S) (l : list A)
  : option S :=
  match l with
  | [] => Some s
  | a :: l' => match body s a with Some s' => for_each body s' l' | None => None end
  end.

(** ** The pricing table *)

Record pricing := {
  input : float;
  output : float;
  cacheWrite : float;
  cacheRead : float
}.

(** API-equivalent pricing per token. *)
Definition MODEL_PRICING : list (string * pricing) :=
  [ ("opus-4.5", {| input := 5 / 1e6; output := 25 / 1e6; cacheWrite := 6.25 / 1e6; cacheRead := 0.50 / 1e6 |});
    ("opus-4.6", {| input := 5 / 1e6; output := 25 / 1e6; cacheWrite := 6.25 / 1e6; cacheRead := 0.50 / 1e6 |});
    ("opus-4.0", {| input := 15 / 1e6; output := 75 / 1e6; cacheWrite := 18.75 / 1e6; cacheRead := 1.50 / 1e6 |});
    ("opus-4.1", {| input := 15 / 1e6; output := 75 / 1e6; cacheWrite := 18.75 / 1e6; cacheRead := 1.50 / 1e6 |});
    ("sonnet", {| input := 3 / 1e6; output := 15 / 1e6; cacheWrite := 3.75 / 1e6; cacheRead := 0.30 / 1e6 |});
    ("haiku-4.5", {| input := 1 / 1e6; output := 5 / 1e6; cacheWrite := 1.25 / 1e6; cacheRead := 0.10 / 1e6 |});
    ("haiku-3.5", {| input := 0.80 / 1e6; output := 4 / 1e6; cacheWrite := 1.00 / 1e6; cacheRead := 0.08 / 1e6 |})
  ]%float.

(** [get_pricing(model)].  [MODEL_PRICING[key]] is a dictionary lookup, so
    the result is an [option]: [None] would be a [KeyError]. *)
Definition get_pricing (model : option string) : option pricing :=
  match model with
  | None => od_get "sonnet" MODEL_PRICING
  | Some model =>
      if negb (Py.truthy model) then od_get "sonnet" MODEL_PRICING
      else
        let m := Py.lower model in
        if Py.contains "opus" m then
          if Py.contains "4-6" m || Py.contains "4.6" m then od_get "opus-4.6" MODEL_PRICING
          else if Py.contains "4-5" m || Py.contains "4.5" m then od_get "opus-4.5" MODEL_PRICING
          else if Py.contains "4-1" m || Py.contains "4.1" m then od_get "opus-4.1" MODEL_PRICING
          else od_get "opus-4.0" MODEL_PRICING
        else if Py.contains "sonnet" m then od_get "sonnet" MODEL_PRICING
        else if Py.contains "haiku" m then
          if Py.contains "4-5" m || Py.contains "4.5" m then od_get "haiku-4.5" MODEL_PRICING
          else od_get "haiku-3.5" MODEL_PRICING
        else od_get "sonnet" MODEL_PRICING
  end.

(** ** Log records

    One line of a session file, after [json.loads].  The records keep the
    keys the parser reads, with values of the types the logs give them.
    A key read with [d.get(key)] is an [option]: [None] when the key is
    missing or holds [null].  A key read with [d.get(key, default)] is a
    [field]: the default stands for a missing key only, and a [null] is
    returned as Python's [None]. *)

Inductive field (A : Type) :=
  | Missing
  | Null
  | Value (a : A).
Arguments Missing {A}.
Arguments Null {A}.
Arguments Value {A} a.

(** [d.get(key)]. *)
Definition get {A : Type} (f : field A) : option A :=
  match f with
  | Value a => Some a
  | _ => None
  end.

(** [d.get(key, default)]: [None] is Python's [None]. *)
Definition get_default {A : Type} (f : field A) (default : A) : option A :=
  match f with
  | Missing => Some default
  | Null => None
  | Value a => Some a
  end.

(** A content block. *)
Record block := {
  b_type : option string;
  b_text : field string;
  b_name : option string
}.

(** [message["content"]]: a string, a list of blocks, or anything else
    (missing included). *)
Inductive content :=
  | ContentStr (s : string)
  | ContentList (blocks : list block)
  | ContentOther.

(** [message["usage"]], when it is a non-empty object. *)
Record usage := {
  input_tokens : field Z;
  cache_creation_input_tokens : field Z;
  cache_read_input_tokens : field Z;
  output_tokens : field Z
}.

(** [message["model"]]: missing, [null], or a string. *)
Inductive model_field :=
  | ModelMissing
  | ModelNull
  | ModelStr (s : string).

(** [entry["message"]], when it is a non-empty object.  [m_usage] is
    [None] when the key is missing or its value is falsy. *)
Record message := {
  m_role : option string;
  m_id : option string;
  m_model : model_field;
  m_usage : option usage;
  m_content : content
}.

(** A line that holds a JSON object.  [e_isSidechain] and [e_isMeta] are
    the truth values of their keys.  [e_message_field] is the key
    [message]: missing (an empty object reads as a missing key
    everywhere), [null], or a non-empty object.  A time stamp is a string
    (ISO 8601 in the logs), [None] when the key is missing or [null];
    time stamps are compared as Python compares [str]. *)
Record entry := {
  e_isSidechain : bool;
  e_type : option string;
  e_message_field : field message;
  e_isMeta : bool;
  e_timestamp : option string;
  e_uuid : option string
}.

(** [entry.get("message")]: [None] is a falsy value. *)
Definition e_message (e : entry) : option message := get (e_message_field e).

(** A line of a file, as the loop of [parse_jsonl_file] sees it: blank
    after [strip], rejected by [json.loads], a JSON value that is not an
    object (on which [entry.get] raises), or an object. *)
Inductive line :=
  | Blank
  | Malformed
  | NotObject
  | Object (e : entry).

(** ** The record parser *)

Record parsed := {
  assistantEntries : list entry;
  userMessages : list entry
}.

(** The body of the loop over the lines of the file, on the pair
    [message_map], [user_messages]. *)
Definition parse_line (st : list (string * entry) * list entry) (l : line)
  : option (list (string * entry) * list entry) :=
  let '(message_map, user_messages) := st in
  match l with
  | Blank => Some st
  | Malformed => Some st
  | NotObject => None
  | Object entry =>
      if e_isSidechain entry then Some st
      else
        let entry_type := e_type entry in
        if negb (bool_decide (entry_type = Some "user")
                 || bool_decide (entry_type = Some "assistant")) then Some st
        else
          match e_message entry with
          | None => Some st
          | Some msg =>
              let user_messages :=
                if bool_decide (entry_type = Some "user")
                   && bool_decide (m_role msg = Some "user")
                then user_messages ++ [entry] else user_messages in
              let message_map :=
                match m_id msg with
                | Some id =>
                    if bool_decide (entry_type = Some "assistant") && Py.truthy id
                    then od_set id entry message_map else message_map
                | None => message_map
                end in
              Some (message_map, user_messages)
          end
  end.

(** [parse_jsonl_file(file_path)] on the content of the file: [None] as
    content is a file that cannot be opened.  The result is [None] when
    the function raises. *)
Definition parse_jsonl_file (file : option (list line)) : option parsed :=
  match file with
  | None => None
  | Some lines =>
      match for_each parse_line ([], []) lines with
      | Some (message_map, user_messages) =>
          Some {| assistantEntries := od_values message_map;
                  userMessages := user_messages |}
      | None => None
      end
  end.

(** ** The query extractor *)

(** An element of [user_timeline]. *)
Record user_item := {
  text : option string;
  u_timestamp : option string;
  u_uuid : option string
}.

Record Query := {
  q_messageId : option string;
  q_userPrompt : option string;
  q_userTimestamp : option string;
  q_assistantTimestamp : option string;
  q_model : option string;
  q_inputTokens : Z;
  q_cacheCreationTokens : Z;
  q_cacheReadTokens : Z;
  q_outputTokens : Z;
  q_totalTokens : Z;
  q_cost : float;
  q_tools : list string;
  q_hasThinking : bool
}.

(** [e.get("message", {}).get("content")]: [None] when the message is
    [null], which has no [get]. *)
Definition entry_content (e : entry) : option content :=
  match e_message_field e with
  | Missing => Some ContentOther
  | Null => None
  | Value msg => Some (m_content msg)
  end.

(** The body of the loop that builds [user_timeline]: [Some None] is a
    [continue], [Some (Some item)] the item appended, and [None] an
    exception: the message is [null], or [join] meets the [None] of a
    text block whose text is [null]. *)
Definition timeline_item (e : entry) : option (option user_item) :=
  if e_isMeta e then Some None
  else
    content ← entry_content e;
    let is_command :=
      match content with
      | ContentStr s => Py.startswith s "<local-command" || Py.startswith s "<command-name"
      | _ => false
      end in
    if is_command then Some None
    else
      text ←
        match content with
        | ContentStr s => Some (Some s)
        | ContentList blocks =>
            texts ← mapM (fun b => get_default (b_text b) EmptyString)
                         (filter (fun b => b_type b = Some "text"%string) blocks);
            Some (Some (Py.strip (Py.join (String "010" EmptyString) texts)))
        | ContentOther => Some None
        end;
      Some (Some {| text := Py.or_none text;
                    u_timestamp := e_timestamp e;
                    u_uuid := e_uuid e |}).

(** The loop [for e in user_messages]. *)
Definition build_timeline (user_messages : list entry) : option (list user_item) :=
  for_each
    (fun user_timeline e =>
       item ← timeline_item e;
       Some match item with
            | Some item => user_timeline ++ [item]
            | None => user_timeline
            end)
    [] user_messages.

(** The condition of the [while] loop that advances the cursor. *)
Definition next_precedes (user_timeline : list user_item)
    (entry_timestamp : option string) (user_idx : nat) : bool :=
  bool_decide (Z.of_nat user_idx < Z.of_nat (length user_timeline) - 1)%Z
  && match user_timeline !! S user_idx with
     | Some next =>
         match u_timestamp next, entry_timestamp with
         | Some tu, Some te => String.leb tu te
         | _, _ => false
         end
     | None => false
     end.

(** The [while] loop: [user_idx += 1] as long as the condition holds.
    Every turn moves the cursor, which stays below the length of the
    time line, so [length user_timeline] turns are enough. *)
Fixpoint advance_cursor (fuel : nat) (user_timeline : list user_item)
    (entry_timestamp : option string) (user_idx : nat) : nat :=
  match fuel with
  | O => user_idx
  | S fuel' =>
      if next_precedes user_timeline entry_timestamp user_idx
      then advance_cursor fuel' user_timeline entry_timestamp (S user_idx)
      else user_idx
  end.

(** [msg.get("model", "unknown")] *)
Definition model_of (msg : message) : option string :=
  match m_model msg with
  | ModelMissing => Some "unknown"%string
  | ModelNull => None
  | ModelStr s => Some s
  end.

Definition tools_of (c : content) : list string :=
  match c with
  | ContentList blocks =>
      omap (fun b =>
              if bool_decide (b_type b = Some "tool_use"%string)
              then Py.or_none (b_name b) else None) blocks
  | _ => []
  end.

Definition thinking_of (c : content) : bool :=
  match c with
  | ContentList blocks =>
      existsb (fun b => bool_decide (b_type b = Some "thinking"%string)) blocks
  | _ => false
  end.

(** The body of the loop over [assistant_entries], on the pair
    [user_idx], [queries]: [None] when it raises, on a [null] message
    (which has no [get]), on a [null] token count (which cannot be
    added) or on a token count that has no [float]. *)
Definition extract_entry (user_timeline : list user_item)
    (st : nat * list Query) (entry : entry) : option (nat * list Query) :=
  let '(user_idx, queries) := st in
  match e_message_field entry with
  | Missing => Some st
  | Null => None
  | Value msg =>
      match m_usage msg with
      | None => Some st
      | Some usage =>
          let model := model_of msg in
          if bool_decide (model = Some "<synthetic>"%string) then Some st
          else
            let user_idx :=
              advance_cursor (length user_timeline) user_timeline
                (e_timestamp entry) user_idx in
            let user_msg := user_timeline !! user_idx in
            pricing ← get_pricing model;
            input_tokens ← get_default (input_tokens usage) 0%Z;
            cache_creation_tokens ← get_default (cache_creation_input_tokens usage) 0%Z;
            cache_read_tokens ← get_default (cache_read_input_tokens usage) 0%Z;
            output_tokens ← get_default (output_tokens usage) 0%Z;
            let total_tokens :=
              (input_tokens + cache_creation_tokens + cache_read_tokens + output_tokens)%Z in
            c_in ← Py.int_mul_float input_tokens (input pricing);
            c_cw ← Py.int_mul_float cache_creation_tokens (cacheWrite pricing);
            c_cr ← Py.int_mul_float cache_read_tokens (cacheRead pricing);
            c_out ← Py.int_mul_float output_tokens (output pricing);
            let cost := (c_in + c_cw + c_cr + c_out)%float in
            Some (user_idx,
                  queries ++
                  [{| q_messageId := m_id msg;
                      q_userPrompt := user_msg ≫= text;
                      q_userTimestamp := user_msg ≫= u_timestamp;
                      q_assistantTimestamp := e_timestamp entry;
                      q_model := model;
                      q_inputTokens := input_tokens;
                      q_cacheCreationTokens := cache_creation_tokens;
                      q_cacheReadTokens := cache_read_tokens;
                      q_outputTokens := output_tokens;
                      q_totalTokens := total_tokens;
                      q_cost := cost;
                      q_tools := tools_of (m_content msg);
                      q_hasThinking := thinking_of (m_content msg) |}])
      end
  end.

(** [extract_session_data(assistant_entries, user_messages)]; [None] when
    it raises. *)
Definition extract_session_data (assistant_entries user_messages : list entry)
  : option (list Query) :=
  user_timeline ← build_timeline user_messages;
  snd <$> for_each (extract_entry user_timeline) (O, []) assistant_entries.

(** ** The aggregator: records of the snapshot *)

Record Session := {
  s_sessionId : string;
  s_project : string;
  s_date : string;
  s_timestamp : option string;
  s_firstPrompt : string;
  s_model : option string;
  s_queryCount : Z;
  s_inputTokens : Z;
  s_outputTokens : Z;
  s_cacheCreationTokens : Z;
  s_cacheReadTokens : Z;
  s_totalTokens : Z;
  s_cost : float;
  s_thinkingTurns : Z;
  s_totalToolCalls : Z;
  s_toolDensity : float
}.

Record Daily := {
  d_date : string;
  d_inputTokens : Z;
  d_outputTokens : Z;
  d_cacheCreationTokens : Z;
  d_cacheReadTokens : Z;
  d_totalTokens : Z;
  d_cost : float;
  d_sessions : Z;
  d_queries : Z
}.

Record ModelRollup := {
  mm_model : option string;
  mm_inputTokens : Z;
  mm_outputTokens : Z;
  mm_cacheCreationTokens : Z;
  mm_cacheReadTokens : Z;
  mm_totalTokens : Z;
  mm_cost : float;
  mm_queryCount : Z
}.

Record Prompt := {
  pr_prompt : string;
  pr_inputTokens : Z;
  pr_outputTokens : Z;
  pr_cacheCreationTokens : Z;
  pr_cacheReadTokens : Z;
  pr_totalTokens : Z;
  pr_cost : float;
  pr_date : string;
  pr_sessionId : string;
  pr_model : option string
}.

Record Project := {
  pj_project : string;
  pj_inputTokens : Z;
  pj_outputTokens : Z;
  pj_cacheCreationTokens : Z;
  pj_cacheReadTokens : Z;
  pj_totalTokens : Z;
  pj_cost : float;
  pj_sessionCount : Z;
  pj_queryCount : Z
}.

Record ToolStat := {
  t_name : string;
  t_count : Z
}.

Record Totals := {
  totalTokens : Z;
  totalInput : Z;
  totalOutput : Z;
  totalCacheCreation : Z;
  totalCacheRead : Z;
  totalCost : float;
  totalSessions : Z;
  totalQueries : Z;
  totalThinkingTurns : Z;
  cacheHitRate : float;
  avgTokensPerSession : Z;
  avgTokensPerQuery : Z
}.

Record Snapshot := {
  sessions : list Session;
  dailyUsage : list Daily;
  modelBreakdown : list ModelRollup;
  topPrompts : list Prompt;
  projects : list Project;
  toolStats : list ToolStat;
  totals : Totals
}.

Definition _empty_result : Snapshot :=
  {| sessions := [];
     dailyUsage := [];
     modelBreakdown := [];
     topPrompts := [];
     projects := [];
     toolStats := [];
     totals :=
       {| totalTokens := 0; totalInput := 0; totalOutput := 0;
          totalCacheCreation := 0; totalCacheRead := 0; totalCost := 0;
          totalSessions := 0; totalQueries := 0; totalThinkingTurns := 0;
          cacheHitRate := 0; avgTokensPerSession := 0; avgTokensPerQuery := 0 |} |}.

(** ** Python built-ins on lists *)

(** [sum(f(x) for x in l)] on [int]s. *)
Definition sum_with {A : Type} (f : A -> Z) (l : list A) : Z :=
  fold_left (fun acc x => (acc + f x)%Z) l 0%Z.

(** [acc += f(x)] for [x] in [l], from [0.0]. *)
Definition fsum_with {A : Type} (f : A -> float) (l : list A) : float :=
  fold_left (fun acc x => (acc + f x)%float) l 0%float.

(** What the scan depends on in the interpreter that runs it: from
    CPython 3.12 on, [sum] over [float]s carries a compensation term
    (Neumaier's variant of Kahan summation); before, it adds from left to
    right. *)
Record interpreter := {
  compensated_sum : bool
}.

(** [sum(xs)] over [float]s.  The sum starts from the [int] 0, which the
    first addition converts. *)
Definition sum_floats (py : interpreter) (xs : list float) : float :=
  match xs with
  | [] => 0%float
  | x :: rest =>
      let first := (0 + x)%float in
      if compensated_sum py then
        let step (fc : float * float) (x : float) : float * float :=
          let '(f, c) := fc in
          let t := (f + x)%float in
          if (abs x <=? abs f)%float
          then (t, (c + ((f - t) + x))%float)
          else (t, (c + ((x - t) + f))%float) in
        let '(f, c) := fold_left step rest (first, 0%float) in
        if negb (c =? 0)%float && Py.is_finite c then (f + c)%float else f
      else fold_left (fun acc x => (acc + x)%float) rest first
  end.

(** The first [x] of [l] for which [f x] is truthy. *)
Definition first_truthy {A : Type} (f : A -> option string) (l : list A)
  : option string :=
  head (omap (fun x => Py.or_none (f x)) l).

Section sorting.
Context {A : Type} (before : A -> A -> bool).

Fixpoint insert_sorted (x : A) (l : list A) : list A :=
  match l with
  | [] => [x]
  | y :: l' => if before x y then x :: l else y :: insert_sorted x l'
  end.

(** [sorted(l, key=...)]: a stable sort.  [before x y] says that [x],
    which stands before [y] in [l], stays before it: [key x <= key y],
    or [key x >= key y] under [reverse=True]. *)
Definition sorted (l : list A) : list A := foldr insert_sorted [] l.
End sorting.

(** [max(d, key=d.get)]: the first key that has the largest count. *)
Definition max_key {K : Type} (d : list (K * Z)) : option K :=
  match d with
  | [] => None
  | kc :: d' =>
      Some (fst (fold_left
                   (fun best kc' => if (snd best <? snd kc')%Z then kc' else best)
                   d' kc))
  end.

(** [d[k] = d.get(k, 0) + 1] *)
Definition count_up {K : Type} `{EqDecision K} (d : list (K * Z)) (k : K)
  : list (K * Z) :=
  od_set k (default 0 (od_get k d) + 1)%Z d.

(** ** The aggregator: one session *)

(** The state of the per-prompt grouping: [current_prompt], the five
    accumulators, and [all_prompts]. *)
Record prompt_state := {
  current_prompt : option string;
  p_input : Z;
  p_output : Z;
  p_cache_create : Z;
  p_cache_read : Z;
  p_cost : float;
  all_prompts : list Prompt
}.

Definition flush_prompt (date session_id : string) (primary_model : option string)
    (ps : prompt_state) : list Prompt :=
  let total := (p_input ps + p_output ps + p_cache_create ps + p_cache_read ps)%Z in
  match current_prompt ps with
  | Some cp =>
      if Py.truthy cp && bool_decide (total > 0)%Z then
        all_prompts ps ++
        [{| pr_prompt := Py.slice_to 300 cp;
            pr_inputTokens := p_input ps;
            pr_outputTokens := p_output ps;
            pr_cacheCreationTokens := p_cache_create ps;
            pr_cacheReadTokens := p_cache_read ps;
            pr_totalTokens := total;
            pr_cost := p_cost ps;
            pr_date := date;
            pr_sessionId := session_id;
            pr_model := primary_model |}]
      else all_prompts ps
  | None => all_prompts ps
  end.

(** The body of the loop [for q in queries] of the per-prompt grouping. *)
Definition group_prompt (date session_id : string) (primary_model : option string)
    (ps : prompt_state) (q : Query) : prompt_state :=
  let ps :=
    if Py.truthy_opt (q_userPrompt q)
       && negb (bool_decide (q_userPrompt q = current_prompt ps))
    then
      {| current_prompt := q_userPrompt q;
         p_input := 0; p_output := 0; p_cache_create := 0; p_cache_read := 0;
         p_cost := 0;
         all_prompts := flush_prompt date session_id primary_model ps |}
    else ps in
  {| current_prompt := current_prompt ps;
     p_input := p_input ps + q_inputTokens q;
     p_output := p_output ps + q_outputTokens q;
     p_cache_create := p_cache_create ps + q_cacheCreationTokens q;
     p_cache_read := p_cache_read ps + q_cacheReadTokens q;
     p_cost := (p_cost ps + q_cost q)%float;
     all_prompts := all_prompts ps |}.

(** The daily aggregation of one session. *)
Definition add_daily (daily_map : list (string * Daily)) (date : string)
    (input_tokens output_tokens cache_creation_tokens cache_read_tokens total_tokens : Z)
    (cost : float) (n_queries : Z) : list (string * Daily) :=
  if bool_decide (date = "unknown"%string) then daily_map
  else
    let d :=
      default {| d_date := date; d_inputTokens := 0; d_outputTokens := 0;
                 d_cacheCreationTokens := 0; d_cacheReadTokens := 0;
                 d_totalTokens := 0; d_cost := 0; d_sessions := 0; d_queries := 0 |}
              (od_get date daily_map) in
    od_set date
      {| d_date := d_date d;
         d_inputTokens := d_inputTokens d + input_tokens;
         d_outputTokens := d_outputTokens d + output_tokens;
         d_cacheCreationTokens := d_cacheCreationTokens d + cache_creation_tokens;
         d_cacheReadTokens := d_cacheReadTokens d + cache_read_tokens;
         d_totalTokens := d_totalTokens d + total_tokens;
         d_cost := (d_cost d + cost)%float;
         d_sessions := d_sessions d + 1;
         d_queries := d_queries d + n_queries |}
      daily_map.

(** The body of the loop [for q in queries] of the model aggregation. *)
Definition add_model (model_map : list (option string * ModelRollup)) (q : Query)
  : list (option string * ModelRollup) :=
  let qm := q_model q in
  if bool_decide (qm = Some "<synthetic>"%string)
     || bool_decide (qm = Some "unknown"%string) then model_map
  else
    let mm :=
      default {| mm_model := qm; mm_inputTokens := 0; mm_outputTokens := 0;
                 mm_cacheCreationTokens := 0; mm_cacheReadTokens := 0;
                 mm_totalTokens := 0; mm_cost := 0; mm_queryCount := 0 |}
              (od_get qm model_map) in
    od_set qm
      {| mm_model := mm_model mm;
         mm_inputTokens := mm_inputTokens mm + q_inputTokens q;
         mm_outputTokens := mm_outputTokens mm + q_outputTokens q;
         mm_cacheCreationTokens := mm_cacheCreationTokens mm + q_cacheCreationTokens q;
         mm_cacheReadTokens := mm_cacheReadTokens mm + q_cacheReadTokens q;
         mm_totalTokens := mm_totalTokens mm + q_totalTokens q;
         mm_cost := (mm_cost mm + q_cost q)%float;
         mm_queryCount := mm_queryCount mm + 1 |}
      model_map.

(** ** The file system and the persisted cache *)

(** A path the scan meets: [str(file_path)], [file_path.suffix] and
    [file_path.stem], what [os.stat] gives for it ([st_mtime_ns] and
    [st_size], [None] when it raises) and what opening and reading it
    gives ([None] when it cannot be opened). *)
Record file := {
  f_path : string;
  f_suffix : string;
  f_stem : string;
  f_stat : option (Z * Z);
  f_content : option (list line)
}.

(** An entry of the projects directory: its name, whether it is a
    directory, and its listing ([None] when [iterdir] raises). *)
Record project_entry := {
  pe_name : string;
  pe_is_dir : bool;
  pe_files : option (list file)
}.

(** A line of [history.jsonl]: an object carries [sessionId] and
    [display], each [None] when missing or falsy. *)
Inductive history_line :=
  | HBlank
  | HMalformed
  | HNotObject
  | HObject (sessionId display : option string).

(** The JSON value of the cache file:
    - an object, with the query lists that a scan wrote under the
      fingerprints;
    - an array, of which [ck in cache] sees the strings among its
      elements;
    - a string, in which [ck in cache] looks for a substring;
    - [null], a number, [true] or [false], on which [ck in cache]
      raises. *)
Inductive cache_file :=
  | CacheObject (entries : gmap string (list Query))
  | CacheArray (strings : list string)
  | CacheString (s : string)
  | CacheScalar.

(** What the scan reads and writes under the Claude directory:
    - [dk_projects]: [None] when the projects directory does not exist,
      [Some None] when listing it raises;
    - [dk_history]: [None] when [history.jsonl] does not exist or cannot
      be opened;
    - [dk_cache]: what [json.loads] gives for the cache file, [None]
      when the file is absent or is not valid JSON;
    - [dk_cache_writable]: whether writing the cache file succeeds. *)
Record disk := {
  dk_projects : option (option (list project_entry));
  dk_history : option (list history_line);
  dk_cache : option cache_file;
  dk_cache_writable : bool
}.

(** [_load_cache()]: the value in the file, whatever it is, and the
    empty dictionary when reading or decoding raises. *)
Definition _load_cache (d : disk) : cache_file :=
  default (CacheObject ∅) (dk_cache d).

Definition _save_cache (cache : gmap string (list Query)) (d : disk) : disk :=
  if dk_cache_writable d then
    {| dk_projects := dk_projects d;
       dk_history := dk_history d;
       dk_cache := Some (CacheObject cache);
       dk_cache_writable := dk_cache_writable d |}
  else d.

Definition _cache_key (file_path : file) : option string :=
  match f_stat file_path with
  | Some (st_mtime_ns, st_size) =>
      Some (f_path file_path +:+ ":" +:+ Py.str_of_int st_mtime_ns
            +:+ ":" +:+ Py.str_of_int st_size)
  | None => None
  end.

(** The body of the loop over the lines of [history.jsonl].  The outer
    [try] swallows an exception and keeps the entries read so far: [None]
    stops the loop there. *)
Definition history_entry (session_first_prompt : list (string * string))
    (l : history_line) : option (list (string * string)) :=
  match l with
  | HBlank => Some session_first_prompt
  | HMalformed => Some session_first_prompt
  | HNotObject => None
  | HObject sid display =>
      let display := Py.strip (default EmptyString display) in
      match sid with
      | Some sid =>
          if Py.truthy sid && Py.truthy display
             && negb (bool_decide (is_Some (od_get sid session_first_prompt)))
          then
            if Py.startswith display "/" && bool_decide (Py.len display < 30)%nat
            then Some session_first_prompt
            else Some (od_set sid display session_first_prompt)
          else Some session_first_prompt
      | None => Some session_first_prompt
      end
  end.

Fixpoint read_history (session_first_prompt : list (string * string))
    (lines : list history_line) : list (string * string) :=
  match lines with
  | [] => session_first_prompt
  | l :: lines' =>
      match history_entry session_first_prompt l with
      | Some m => read_history m lines'
      | None => session_first_prompt
      end
  end.

(** ** The aggregator: the scan *)

(** The variables of [parse_all_sessions] that the loop over the files
    updates.  [st_parsed] is not in the source: it logs the path of every
    file handed to [parse_jsonl_file], the instrumented parse count. *)
Record scan_state := {
  st_new_cache : gmap string (list Query);
  st_sessions : list Session;
  st_daily_map : list (string * Daily);
  st_model_map : list (option string * ModelRollup);
  st_all_prompts : list Prompt;
  st_tool_frequency : list (string * Z);
  st_parsed : list string
}.

Definition initial_state : scan_state :=
  {| st_new_cache := ∅; st_sessions := []; st_daily_map := []; st_model_map := [];
     st_all_prompts := []; st_tool_frequency := []; st_parsed := [] |}.

(** [new_cache[ck] = queries] *)
Definition store_queries (k : string) (queries : list Query) (st : scan_state)
  : scan_state :=
  {| st_new_cache := <[k := queries]> (st_new_cache st);
     st_sessions := st_sessions st;
     st_daily_map := st_daily_map st;
     st_model_map := st_model_map st;
     st_all_prompts := st_all_prompts st;
     st_tool_frequency := st_tool_frequency st;
     st_parsed := st_parsed st |}.

Definition log_parse (path : string) (st : scan_state) : scan_state :=
  {| st_new_cache := st_new_cache st;
     st_sessions := st_sessions st;
     st_daily_map := st_daily_map st;
     st_model_map := st_model_map st;
     st_all_prompts := st_all_prompts st;
     st_tool_frequency := st_tool_frequency st;
     st_parsed := st_parsed st ++ [path] |}.

(** [ck and ck in cache], with [cache[ck]] when it holds.  The outer
    [None] is an exception: [ck in cache] raises on a value that is not
    a container, and [cache[ck]] raises on an array or a string in which
    [ck] was found. *)
Definition cache_hit (cache : cache_file) (ck : option string)
  : option (option (string * list Query)) :=
  match ck with
  | Some k =>
      if Py.truthy k then
        match cache with
        | CacheObject entries => Some (pair k <$> entries !! k)
        | CacheArray strings => if bool_decide (k ∈ strings) then None else Some None
        | CacheString s => if Py.contains k s then None else Some None
        | CacheScalar => None
        end
      else Some None
  | None => Some None
  end.

(** The first part of the body of the loop over the files: the queries
    of the file, from the cache or from a parse.  The inner [None] is a
    [continue]; the outer one an exception out of the cache lookup or out
    of [extract_session_data]. *)
Definition load_queries (cache : cache_file) (st : scan_state)
    (file_path : file) : option (scan_state * option (list Query)) :=
  let ck := _cache_key file_path in
  hit ← cache_hit cache ck;
  match hit with
  | Some (k, queries) => Some (store_queries k queries st, Some queries)
  | None =>
      let st := log_parse (f_path file_path) st in
      match parse_jsonl_file (f_content file_path) with
      | None => Some (st, None)
      | Some parsed =>
          match assistantEntries parsed with
          | [] => Some (st, None)
          | _ :: _ =>
              queries ← extract_session_data (assistantEntries parsed) (userMessages parsed);
              let st :=
                match ck with
                | Some k => if Py.truthy k then store_queries k queries st else st
                | None => st
                end in
              Some (st, Some queries)
          end
      end
  end.

(** The second part: the session of a file with at least one query, and
    its contribution to the rollups. *)
Definition aggregate_session (session_first_prompt : list (string * string))
    (project_dir session_id : string) (queries : list Query) (st : scan_state)
  : option scan_state :=
  let input_tokens := sum_with q_inputTokens queries in
  let output_tokens := sum_with q_outputTokens queries in
  let cache_creation_tokens := sum_with q_cacheCreationTokens queries in
  let cache_read_tokens := sum_with q_cacheReadTokens queries in
  let cost := fsum_with q_cost queries in
  let thinking_turns := Z.of_nat (length (filter (fun q => Is_true (q_hasThinking q)) queries)) in
  let tool_frequency :=
    fold_left (fun tf q => fold_left count_up (q_tools q) tf) queries (st_tool_frequency st) in
  let total_tokens :=
    (input_tokens + cache_creation_tokens + cache_read_tokens + output_tokens)%Z in
  let first_timestamp :=
    match first_truthy q_assistantTimestamp queries with
    | Some t => Some t
    | None => first_truthy q_userTimestamp queries
    end in
  let date :=
    match first_timestamp with
    | Some t => Py.split_head "T" t
    | None => "unknown"%string
    end in
  let model_counts := fold_left (fun mc q => count_up mc (q_model q)) queries [] in
  let primary_model := default (Some "unknown"%string) (max_key model_counts) in
  let first_prompt :=
    match Py.or_none (od_get session_id session_first_prompt) with
    | Some p => p
    | None => default "(no prompt)"%string (first_truthy q_userPrompt queries)
    end in
  let grouped :=
    fold_left (group_prompt date session_id primary_model) queries
      {| current_prompt := None;
         p_input := 0; p_output := 0; p_cache_create := 0; p_cache_read := 0;
         p_cost := 0;
         all_prompts := st_all_prompts st |} in
  let all_prompts := flush_prompt date session_id primary_model grouped in
  let total_tool_calls := sum_with (fun q => Z.of_nat (length (q_tools q))) queries in
  tool_density ←
    (match queries with
     | [] => Some 0%float
     | _ :: _ => Py.truediv total_tool_calls (Z.of_nat (length queries))
     end);
  let session :=
    {| s_sessionId := session_id;
       s_project := project_dir;
       s_date := date;
       s_timestamp := first_timestamp;
       s_firstPrompt := Py.slice_to 200 first_prompt;
       s_model := primary_model;
       s_queryCount := Z.of_nat (length queries);
       s_inputTokens := input_tokens;
       s_outputTokens := output_tokens;
       s_cacheCreationTokens := cache_creation_tokens;
       s_cacheReadTokens := cache_read_tokens;
       s_totalTokens := total_tokens;
       s_cost := cost;
       s_thinkingTurns := thinking_turns;
       s_totalToolCalls := total_tool_calls;
       s_toolDensity := tool_density |} in
  Some
    {| st_new_cache := st_new_cache st;
       st_sessions := st_sessions st ++ [session];
       st_daily_map :=
         add_daily (st_daily_map st) date input_tokens output_tokens
           cache_creation_tokens cache_read_tokens total_tokens cost
           (Z.of_nat (length queries));
       st_model_map := fold_left add_model queries (st_model_map st);
       st_all_prompts := all_prompts;
       st_tool_frequency := tool_frequency;
       st_parsed := st_parsed st |}.

(** The body of the loop [for file_path in files]. *)
Definition scan_file (cache : cache_file)
    (session_first_prompt : list (string * string)) (project_dir : string)
    (st : scan_state) (file_path : file) : option scan_state :=
  let session_id := f_stem file_path in
  '(st, loaded) ← load_queries cache st file_path;
  match loaded with
  | None => Some st
  | Some [] => Some st
  | Some queries =>
      aggregate_session session_first_prompt project_dir session_id queries st
  end.

(** The body of the loop [for project_dir in project_dirs]. *)
Definition scan_project (cache : cache_file)
    (session_first_prompt : list (string * string))
    (st : scan_state) (project : project_entry) : option scan_state :=
  match pe_files project with
  | None => Some st
  | Some listing =>
      let files := filter (fun f => f_suffix f = ".jsonl"%string) listing in
      for_each (scan_file cache session_first_prompt (pe_name project)) st files
  end.

(** The project aggregation: the body of the loop over the sorted
    sessions. *)
Definition add_project (project_map : list (string * Project)) (session : Session)
  : list (string * Project) :=
  let proj := s_project session in
  let p :=
    default {| pj_project := proj; pj_inputTokens := 0; pj_outputTokens := 0;
               pj_cacheCreationTokens := 0; pj_cacheReadTokens := 0;
               pj_totalTokens := 0; pj_cost := 0; pj_sessionCount := 0;
               pj_queryCount := 0 |}
            (od_get proj project_map) in
  od_set proj
    {| pj_project := pj_project p;
       pj_inputTokens := pj_inputTokens p + s_inputTokens session;
       pj_outputTokens := pj_outputTokens p + s_outputTokens session;
       pj_cacheCreationTokens := pj_cacheCreationTokens p + s_cacheCreationTokens session;
       pj_cacheReadTokens := pj_cacheReadTokens p + s_cacheReadTokens session;
       pj_totalTokens := pj_totalTokens p + s_totalTokens session;
       pj_cost := (pj_cost p + s_cost session)%float;
       pj_sessionCount := pj_sessionCount p + 1;
       pj_queryCount := pj_queryCount p + s_queryCount session |}
    project_map.

(** What follows the loops: the sorts, the project rollup and the
    totals. *)
Definition build_snapshot (py : interpreter) (st : scan_state) : option Snapshot :=
  let sessions :=
    sorted (fun a b => (s_totalTokens b <=? s_totalTokens a)%Z) (st_sessions st) in
  let daily_usage :=
    sorted (fun a b => String.leb (d_date a) (d_date b)) (od_values (st_daily_map st)) in
  let model_breakdown :=
    sorted (fun a b => (mm_totalTokens b <=? mm_totalTokens a)%Z)
      (od_values (st_model_map st)) in
  let top_prompts :=
    take 50 (sorted (fun a b => (pr_totalTokens b <=? pr_totalTokens a)%Z)
               (st_all_prompts st)) in
  let project_map := fold_left add_project sessions [] in
  let projects :=
    sorted (fun a b => (pj_totalTokens b <=? pj_totalTokens a)%Z) (od_values project_map) in
  let total_input := sum_with s_inputTokens sessions in
  let total_output := sum_with s_outputTokens sessions in
  let total_cache_creation := sum_with s_cacheCreationTokens sessions in
  let total_cache_read := sum_with s_cacheReadTokens sessions in
  let total_tokens :=
    (total_input + total_output + total_cache_creation + total_cache_read)%Z in
  let total_cost := sum_floats py (map s_cost sessions) in
  let total_queries := sum_with s_queryCount sessions in
  let total_thinking_turns := sum_with s_thinkingTurns sessions in
  let hit_denominator := (total_cache_read + total_cache_creation + total_input)%Z in
  cache_hit_rate ←
    (if bool_decide (hit_denominator > 0)%Z
     then Py.truediv total_cache_read hit_denominator
     else Some 0%float);
  let tool_stats :=
    sorted (fun a b => (t_count b <=? t_count a)%Z)
      (map (fun nc => {| t_name := fst nc; t_count := snd nc |}) (st_tool_frequency st)) in
  avg_session ←
    (match sessions with
     | [] => Some 0%Z
     | _ :: _ => Py.truediv total_tokens (Z.of_nat (length sessions)) ≫= Py.round
     end);
  avg_query ←
    (if bool_decide (total_queries = 0)%Z then Some 0%Z
     else Py.truediv total_tokens total_queries ≫= Py.round);
  Some
    {| sessions := sessions;
       dailyUsage := daily_usage;
       modelBreakdown := model_breakdown;
       topPrompts := top_prompts;
       projects := projects;
       toolStats := tool_stats;
       totals :=
         {| totalTokens := total_tokens;
            totalInput := total_input;
            totalOutput := total_output;
            totalCacheCreation := total_cache_creation;
            totalCacheRead := total_cache_read;
            totalCost := total_cost;
            totalSessions := Z.of_nat (length sessions);
            totalQueries := total_queries;
            totalThinkingTurns := total_thinking_turns;
            cacheHitRate := cache_hit_rate;
            avgTokensPerSession := avg_session;
            avgTokensPerQuery := avg_query |} |}.

(** What a call of [parse_all_sessions] leaves: the snapshot it returns,
    the disk after it, and the log of the files it parsed. *)
Record outcome := {
  result : Snapshot;
  disk_after : disk;
  parsed_files : list string
}.

(** [parse_all_sessions(force_refresh)] under an interpreter and on a
    disk; [None] when an exception escapes. *)
Definition parse_all_sessions (py : interpreter) (d : disk) (force_refresh : bool)
  : option outcome :=
  match dk_projects d with
  | None => Some {| result := _empty_result; disk_after := d; parsed_files := [] |}
  | Some listing =>
      let cache := if force_refresh then CacheObject ∅ else _load_cache d in
      let session_first_prompt :=
        match dk_history d with
        | Some lines => read_history [] lines
        | None => []
        end in
      match listing with
      | None => Some {| result := _empty_result; disk_after := d; parsed_files := [] |}
      | Some entries =>
          let project_dirs := filter (fun e => Is_true (pe_is_dir e)) entries in
          st ← for_each (scan_project cache session_first_prompt) initial_state project_dirs;
          let d := _save_cache (st_new_cache st) d in
          snapshot ← build_snapshot py st;
          Some {| result := snapshot; disk_after := d; parsed_files := st_parsed st |}
      end
  end.

(** * The optimizer: [claude_compte/optimizer.py] *)

Definition _format_project_name (name : string) : string :=
  if Py.startswith name "-"
  then Py.replace "-" "/" None (Py.replace "-" "/" (Some 1%nat) name)
  else Py.replace "-" "/" None name.

(** [_format_tokens(n)]; [None] when it raises. *)
Definition _format_tokens (n : Z) : option string :=
  if Py.int_ge_float n 1e6 then
    x ← Py.int_div_float n 1e6; Some (Py.format_f 1 x +:+ "M")
  else if Py.int_ge_float n 1e3 then
    x ← Py.int_div_float n 1e3; Some (Py.format_f 1 x +:+ "K")
  else Some (Py.str_of_int n).

(** A tip. *)
Record Tip := {
  tip_id : string;
  tip_icon : string;
  tip_title : string;
  tip_description : string;
  tip_impact : string
}.

(** The character U+0022. *)
Definition quotation_mark : string := String "034" EmptyString.

(** [len(l)] *)
Definition len_list {A : Type} (l : list A) : Z := Z.of_nat (length l).

(** [l[-n:]] *)
Definition last_n {A : Type} (n : nat) (l : list A) : list A := drop (length l - n) l.

(** The blocks of [generate_optimizations], in their order: each one
    takes the list of tips and returns it, with one more tip when its
    condition holds; [None] when it raises. *)

(** 1. Cache hit rate *)
Definition cache_tip (totals : Totals) (tips : list Tip) : list Tip :=
  if (cacheHitRate totals <? 0.5)%float && bool_decide (totalSessions totals > 3)%Z
  then
    tips ++
    [{| tip_id := "low-cache-hit";
        tip_icon := "cache";
        tip_title := "Low cache hit rate";
        tip_description :=
          "Your cache hit rate is "
          +:+ Py.format_f 0 (cacheHitRate totals * 100)%float +:+ "%. "
          +:+ "Try keeping sessions open longer instead of starting new ones frequently. "
          +:+ "Claude Code caches your conversation context — reusing a session means less re-reading.";
        tip_impact := "high" |}]
  else if (0.8 <=? cacheHitRate totals)%float && bool_decide (totalSessions totals > 3)%Z
  then
    tips ++
    [{| tip_id := "great-cache";
        tip_icon := "check";
        tip_title := "Great cache reuse";
        tip_description :=
          "Your cache hit rate is "
          +:+ Py.format_f 0 (cacheHitRate totals * 100)%float +:+ "% — "
          +:+ "you're efficiently reusing conversation context. Keep it up!";
        tip_impact := "positive" |}]
  else tips.

(** 2. Short sessions *)
Definition short_sessions_tip (sessions : list Session) (tips : list Tip)
  : option (list Tip) :=
  let short_sessions := filter (fun s => (s_queryCount s <= 3)%Z) sessions in
  half ← Py.int_mul_float (len_list sessions) 0.5;
  if Py.int_gt_float (len_list short_sessions) half && bool_decide (len_list sessions > 5)%Z
  then
    Some (tips ++
          [{| tip_id := "many-short-sessions";
              tip_icon := "session";
              tip_title := "Many short sessions";
              tip_description :=
                Py.str_of_int (len_list short_sessions) +:+ " of your "
                +:+ Py.str_of_int (len_list sessions) +:+ " sessions have 3 or fewer turns. "
                +:+ "Each new session requires Claude to re-read your project context. "
                +:+ "Try staying in one session for related tasks.";
              tip_impact := "medium" |}])
  else Some tips.

(** 3. Heavy tool usage *)
Definition tool_density_tip (py : interpreter) (sessions : list Session) (totals : Totals)
    (tips : list Tip) : option (list Tip) :=
  avg_tool_density ←
    (match sessions with
     | [] => Some 0%float
     | _ :: _ =>
         Py.float_div_int (sum_floats py (map s_toolDensity sessions)) (len_list sessions)
     end);
  if Py.float_gt_int avg_tool_density 3 && bool_decide (totalQueries totals > 10)%Z
  then
    Some (tips ++
          [{| tip_id := "high-tool-density";
              tip_icon := "tool";
              tip_title := "High tool usage per turn";
              tip_description :=
                "Claude averages " +:+ Py.format_f 1 avg_tool_density
                +:+ " tool calls per response. "
                +:+ "Providing more context upfront (paste relevant code, describe file locations) "
                +:+ "can help Claude work with fewer tool calls.";
              tip_impact := "medium" |}])
  else Some tips.

(** 4. Thinking usage *)
Definition thinking_tip (totals : Totals) (tips : list Tip) : option (list Tip) :=
  if bool_decide (totalThinkingTurns totals > 0)%Z && bool_decide (totalQueries totals > 0)%Z
  then
    thinking_ratio ← Py.truediv (totalThinkingTurns totals) (totalQueries totals);
    if (0.3 <? thinking_ratio)%float
    then
      Some (tips ++
            [{| tip_id := "heavy-thinking";
                tip_icon := "think";
                tip_title := "Extended thinking is active often";
                tip_description :=
                  Py.format_f 0 (thinking_ratio * 100)%float
                  +:+ "% of responses use extended thinking. "
                  +:+ "For simpler tasks (renaming, small edits), try using /fast mode to skip "
                  +:+ "extended thinking and get faster responses.";
                tip_impact := "low" |}])
    else Some tips
  else Some tips.

(** [[m for m in model_breakdown if "opus" in m["model"].lower()]]: a
    row whose model is [None] raises. *)
Definition opus_rows (model_breakdown : list ModelRollup) : option (list ModelRollup) :=
  for_each
    (fun (opus_models : list ModelRollup) m =>
       model ← mm_model m;
       Some (if Py.contains "opus" (Py.lower model) then opus_models ++ [m]
             else opus_models))
    [] model_breakdown.

(** 5. Model usage: Opus heavy *)
Definition opus_tip (model_breakdown : list ModelRollup) (totals : Totals)
    (tips : list Tip) : option (list Tip) :=
  opus_models ← opus_rows model_breakdown;
  let opus_tokens := sum_with mm_totalTokens opus_models in
  half ← Py.int_mul_float (totalTokens totals) 0.5;
  if Py.int_gt_float opus_tokens half && bool_decide (totalTokens totals > 0)%Z
  then
    share ← Py.truediv opus_tokens (totalTokens totals);
    Some (tips ++
          [{| tip_id := "opus-heavy";
              tip_icon := "model";
              tip_title := "Heavy Opus usage";
              tip_description :=
                Py.format_f 0 (share * 100)%float
                +:+ "% of your tokens go to Opus models. "
                +:+ "Sonnet handles most coding tasks well and uses fewer tokens per turn. "
                +:+ "Consider reserving Opus for complex architecture decisions.";
              tip_impact := "medium" |}])
  else Some tips.

(** 6. Single project dominance *)
Definition project_tip (projects : list Project) (totals : Totals) (tips : list Tip)
  : option (list Tip) :=
  match projects with
  | top_project :: _ :: _ =>
      ratio ←
        (if bool_decide (totalTokens totals = 0)%Z then Some 0%float
         else Py.truediv (pj_totalTokens top_project) (totalTokens totals));
      if (0.7 <? ratio)%float
      then
        Some (tips ++
              [{| tip_id := "project-concentration";
                  tip_icon := "project";
                  tip_title := "Concentrated on one project";
                  tip_description :=
                    Py.format_f 0 (ratio * 100)%float +:+ "% of your tokens go to "
                    +:+ quotation_mark +:+ _format_project_name (pj_project top_project)
                    +:+ quotation_mark +:+ ". "
                    +:+ "This is typical for focused work — just be aware this project drives most of your usage.";
                  tip_impact := "info" |}])
      else Some tips
  | _ => Some tips
  end.

(** 7. Large input-to-output ratio *)
Definition input_ratio_tip (totals : Totals) (tips : list Tip) : option (list Tip) :=
  if bool_decide (totalOutput totals > 0)%Z && bool_decide (totalInput totals > 0)%Z
  then
    let total_input_all :=
      (totalInput totals + totalCacheCreation totals + totalCacheRead totals)%Z in
    ratio ← Py.truediv total_input_all (totalOutput totals);
    if Py.float_gt_int ratio 20
    then
      Some (tips ++
            [{| tip_id := "high-input-ratio";
                tip_icon := "input";
                tip_title := "Very high input-to-output ratio";
                tip_description :=
                  "Claude is reading " +:+ Py.format_f 0 ratio
                  +:+ "x more tokens than it outputs. "
                  +:+ "This often means large codebases being re-scanned. Try using /compact to reduce "
                  +:+ "context size, or use more specific file references in your prompts.";
                tip_impact := "medium" |}])
    else Some tips
  else Some tips.

(** 8. Usage spikes *)
Definition usage_spike_tip (daily_usage : list Daily) (tips : list Tip)
  : option (list Tip) :=
  if bool_decide (len_list daily_usage > 7)%Z
  then
    let recent7 := last_n 7 daily_usage in
    avg7 ← Py.truediv (sum_with d_totalTokens recent7) 7;
    max_day ← max_key (map (fun d => (d, d_totalTokens d)) recent7);
    if Py.int_gt_float (d_totalTokens max_day) (avg7 * 3)%float && Py.float_gt_int avg7 0
    then
      formatted ← _format_tokens (d_totalTokens max_day);
      times ← Py.int_div_float (d_totalTokens max_day) avg7;
      Some (tips ++
            [{| tip_id := "usage-spike";
                tip_icon := "spike";
                tip_title := "Usage spike detected";
                tip_description :=
                  d_date max_day +:+ " used " +:+ formatted +:+ " tokens — "
                  +:+ Py.format_f 1 times +:+ "x your 7-day average. "
                  +:+ "Heavy days are normal during complex tasks, but if this was unintentional, "
                  +:+ "review that day's sessions.";
                tip_impact := "info" |}])
    else Some tips
  else Some tips.

(** [generate_optimizations(data)] under an interpreter; [None] when it
    raises. *)
Definition generate_optimizations (py : interpreter) (data : Snapshot) : option (list Tip) :=
  let tips : list Tip := [] in
  let totals := totals data in
  let sessions := sessions data in
  let model_breakdown := modelBreakdown data in
  let daily_usage := dailyUsage data in
  if bool_decide (totalSessions totals = 0)%Z then Some tips
  else
    let tips := cache_tip totals tips in
    tips ← short_sessions_tip sessions tips;
    tips ← tool_density_tip py sessions totals tips;
    tips ← thinking_tip totals tips;
    tips ← opus_tip model_breakdown totals tips;
    let projects := projects data in
    tips ← project_tip projects totals tips;
    tips ← input_ratio_tip totals tips;
    tips ← usage_spike_tip daily_usage tips;
    Some tips.

(** * The server: the [/api/usage] route of [claude_compte/server.py] *)

Module server.

(** What the route returns: the snapshot with its [optimizations] key. *)
Record Response := {
  data : Snapshot;
  optimizations : list Tip
}.

(** [usage(refresh)] on the module variable [_cached_data] and on the
    disk: what it returns, and the variable and the disk after it;
    [None] when it raises. *)
Definition usage (py : interpreter) (_cached_data : option Response) (d : disk)
    (refresh : bool) : option (Response * option Response * disk) :=
  match _cached_data, refresh with
  | Some cached, false => Some (cached, _cached_data, d)
  | _, _ =>
      o ← parse_all_sessions py d refresh;
      tips ← generate_optimizations py (result o);
      let data := {| data := result o; optimizations := tips |} in
      Some (data, Some data, disk_after o)
  end.

End server.

(** * The vocabulary of the specification *)

(** ** Pricing: the resolution policy of the specification *)

Definition rates (rate_in rate_out rate_cache_write rate_cache_read : float) : pricing :=
  {| input := rate_in; output := rate_out;
     cacheWrite := rate_cache_write; cacheRead := rate_cache_read |}.

Definition opus_4_5_rates : pricing := rates (5 / 1e6) (25 / 1e6) (6.25 / 1e6) (0.50 / 1e6).
Definition opus_4_6_rates : pricing := rates (5 / 1e6) (25 / 1e6) (6.25 / 1e6) (0.50 / 1e6).
Definition opus_4_0_rates : pricing := rates (15 / 1e6) (75 / 1e6) (18.75 / 1e6) (1.50 / 1e6).
Definition opus_4_1_rates : pricing := rates (15 / 1e6) (75 / 1e6) (18.75 / 1e6) (1.50 / 1e6).
Definition sonnet_rates : pricing := rates (3 / 1e6) (15 / 1e6) (3.75 / 1e6) (0.30 / 1e6).
Definition haiku_4_5_rates : pricing := rates (1 / 1e6) (5 / 1e6) (1.25 / 1e6) (0.10 / 1e6).
Definition haiku_3_5_rates : pricing := rates (0.80 / 1e6) (4 / 1e6) (1.00 / 1e6) (0.08 / 1e6).

Inductive family := Opus | Sonnet | Haiku | Unmatched.

(** The family of a lower-cased model name: the first of opus, sonnet
    and haiku that it contains. *)
Definition family_of (m : string) : family :=
  if Py.contains "opus" m then Opus
  else if Py.contains "sonnet" m then Sonnet
  else if Py.contains "haiku" m then Haiku
  else Unmatched.

(** A sub-version token is present in either spelling, [4-6] or [4.6]. *)
Definition has_version (major minor : string) (m : string) : bool :=
  Py.contains (major +:+ "-" +:+ minor) m || Py.contains (major +:+ "." +:+ minor) m.

(** The resolution policy, in priority order. *)
Definition resolve_pricing (model : option string) : pricing :=
  match Py.or_none model with
  | None => sonnet_rates
  | Some name =>
      let m := Py.lower name in
      match family_of m with
      | Opus =>
          if has_version "4" "6" m then opus_4_6_rates
          else if has_version "4" "5" m then opus_4_5_rates
          else if has_version "4" "1" m then opus_4_1_rates
          else opus_4_0_rates
      | Haiku => if has_version "4" "5" m then haiku_4_5_rates else haiku_3_5_rates
      | Sonnet => sonnet_rates
      | Unmatched => sonnet_rates
      end
  end.

(** ** Deduplication: assistant records and their identities *)

(** The assistant record a line holds, with its message identity: the
    line is an object that is not a side chain, has type [assistant] and
    a message with a non-empty id. *)
Definition assistant_record (l : line) : option (string * entry) :=
  match l with
  | Object e =>
      if e_isSidechain e then None
      else if bool_decide (e_type e = Some "assistant"%string) then
        match e_message e with
        | Some msg =>
            match m_id msg with
            | Some id => if Py.truthy id then Some (id, e) else None
            | None => None
            end
        | None => None
        end
      else None
  | _ => None
  end.

(** The assistant records of a file, in file order. *)
Definition assistant_records (lines : list line) : list (string * entry) :=
  omap assistant_record lines.

(** The identities of a list, each once, in the order in which they
    first occur. *)
Fixpoint first_occurrences (keys : list string) : list string :=
  match keys with
  | [] => []
  | k :: keys' => k :: filter (fun k' => k' <> k) (first_occurrences keys')
  end.

(** [message_map[id] = entry] for a record. *)
Definition set_record (message_map : list (string * entry)) (r : string * entry)
  : list (string * entry) :=
  od_set (fst r) (snd r) message_map.

Definition entry_id (e : entry) : option string :=
  e_message e ≫= m_id.

(** ** Pairing *)

(** The time line that the loop over the user messages builds ([[]] when
    the loop raises, in which case nothing is extracted). *)
Definition user_timeline_of (user_messages : list entry) : list user_item :=
  default [] (build_timeline user_messages).

(** Optional time stamps compared as the cursor loop does: both known
    and the first not after the second. *)
Definition stamp_leb (a b : option string) : bool :=
  match a, b with
  | Some x, Some y => String.leb x y
  | _, _ => false
  end.

(** The paired user message of [q] is the nearest preceding one of the
    time line: when both time stamps of [q] are known, the user time
    stamp is not after the assistant one, and no user message of the time
    line with a later time stamp is also not after the assistant one. *)
Definition nearest_preceding (user_timeline : list user_item) (q : Query) : Prop :=
  forall tu ta,
    q_userTimestamp q = Some tu -> q_assistantTimestamp q = Some ta ->
    String.leb tu ta = true
    /\ forall u t, u ∈ user_timeline -> u_timestamp u = Some t ->
         String.ltb tu t = true -> String.leb t ta = false.

(** The time line is time-ordered: every message carries a time stamp
    that is not after the time stamps of the messages behind it. *)
Definition time_ordered (user_timeline : list user_item) : Prop :=
  StronglySorted (fun u v => stamp_leb (u_timestamp u) (u_timestamp v) = true)
    user_timeline.

(** The assistant records come in the order of their known time stamps. *)
Definition responses_ordered (assistant_entries : list entry) : Prop :=
  StronglySorted (fun a b => String.leb a b = true) (omap e_timestamp assistant_entries).

(** No user message with a later time stamp is also not after the
    assistant record. *)
Definition no_later_candidate (user_timeline : list user_item) (q : Query) : Prop :=
  forall tu ta,
    q_userTimestamp q = Some tu -> q_assistantTimestamp q = Some ta ->
    forall u t, u ∈ user_timeline -> u_timestamp u = Some t ->
      String.ltb tu t = true -> String.leb t ta = false.

(** The paired user message is not after the assistant record, provided
    the first user message of the time line is not. *)
Definition not_after_response (user_timeline : list user_item) (q : Query) : Prop :=
  forall tu ta,
    q_userTimestamp q = Some tu -> q_assistantTimestamp q = Some ta ->
    (forall u0, head user_timeline = Some u0 ->
                stamp_leb (u_timestamp u0) (Some ta) = true) ->
    String.leb tu ta = true.

(** What the cursor carries from one assistant record to the next: it
    has not moved yet, or it stands on a message that is not after any of
    the records still to come. *)
Definition cursor_not_after (user_timeline : list user_item) (user_idx : nat)
    (remaining : list entry) : Prop :=
  user_idx = O
  \/ exists v tv, user_timeline !! user_idx = Some v /\ u_timestamp v = Some tv
       /\ Forall (fun ta => String.leb tv ta = true) (omap e_timestamp remaining).

(** ** Token and cost invariant of a query *)

(** The cost of [q] is the sum of its four counts, each converted to a
    [float] and multiplied by its rate in [p], added from left to right. *)
Definition priced_by (p : pricing) (q : Query) : Prop :=
  exists f_in f_cw f_cr f_out,
    Py.float_of_int (q_inputTokens q) = Some f_in
    /\ Py.float_of_int (q_cacheCreationTokens q) = Some f_cw
    /\ Py.float_of_int (q_cacheReadTokens q) = Some f_cr
    /\ Py.float_of_int (q_outputTokens q) = Some f_out
    /\ q_cost q
       = (f_in * input p + f_cw * cacheWrite p + f_cr * cacheRead p + f_out * output p)%float.

Definition tokens_add_up (q : Query) : Prop :=
  q_totalTokens q
  = (q_inputTokens q + q_cacheCreationTokens q + q_cacheReadTokens q + q_outputTokens q)%Z.

(** ** The scan *)

(** The files a scan visits, each with the name of its project
    directory, in the order of the two loops. *)
Definition targets_of (entries : list project_entry) : list (string * file) :=
  flat_map
    (fun project =>
       match pe_files project with
       | Some listing =>
           map (pair (pe_name project))
             (filter (fun f => f_suffix f = ".jsonl"%string) listing)
       | None => []
       end)
    (filter (fun e => Is_true (pe_is_dir e)) entries).

Definition scanned_files (d : disk) : list (string * file) :=
  match dk_projects d with
  | Some (Some entries) => targets_of entries
  | _ => []
  end.

(** The value a scan takes for its cache: the empty dictionary when it
    is forced, what [_load_cache] returns otherwise. *)
Definition scan_cache (d : disk) (force_refresh : bool) : cache_file :=
  if force_refresh then CacheObject ∅ else _load_cache d.

(** The entries of a cache: those of the object, and none for a value
    that is not an object, in which no lookup succeeds. *)
Definition entries_of (cache : cache_file) : gmap string (list Query) :=
  match cache with
  | CacheObject entries => entries
  | _ => ∅
  end.

(** The file holds a JSON object, or nothing that can be decoded. *)
Definition cache_is_object (d : disk) : bool :=
  match dk_cache d with
  | Some (CacheObject _) | None => true
  | Some _ => false
  end.

(** The cache a scan starts from. *)
Definition loaded_cache (d : disk) (force_refresh : bool) : gmap string (list Query) :=
  entries_of (scan_cache d force_refresh).

(** The display texts a scan reads from the history file. *)
Definition history_of (d : disk) : list (string * string) :=
  match dk_history d with
  | Some lines => read_history [] lines
  | None => []
  end.

Definition scan_target (cache : gmap string (list Query))
    (session_first_prompt : list (string * string))
    (st : scan_state) (target : string * file) : option scan_state :=
  scan_file (CacheObject cache) session_first_prompt (fst target) st (snd target).

(** The entry of a dictionary under a fingerprint. *)
Definition lookup_key (cache : gmap string (list Query)) (ck : option string)
  : option (string * list Query) :=
  k ← ck; pair k <$> cache !! k.


(** The file is served from the cache. *)
Definition is_hit (cache : gmap string (list Query)) (f : file) : bool :=
  bool_decide (is_Some (lookup_key cache (_cache_key f))).

(** The queries the scan obtains for a file, whatever the state of the
    scan: [Some None] when the file is skipped, [None] when the
    extraction raises. *)
Definition loaded (cache : gmap string (list Query)) (f : file)
  : option (option (list Query)) :=
  snd <$> load_queries (CacheObject cache) initial_state f.

(** The result of a parse and an extraction, which is what a file that
    is not served from the cache gives. *)
Definition parse_result (f : file) : option (option (list Query)) :=
  match parse_jsonl_file (f_content f) with
  | None => Some None
  | Some p =>
      match assistantEntries p with
      | [] => Some None
      | _ :: _ => Some <$> extract_session_data (assistantEntries p) (userMessages p)
      end
  end.

(** What obtaining them leaves in the state of the scan: the path in the
    parse log unless the file is served from the cache, and the queries
    under the fingerprint of the file. *)
Definition record_load (cache : gmap string (list Query)) (f : file)
    (queries : option (list Query)) (st : scan_state) : scan_state :=
  let st := if is_hit cache f then st else log_parse (f_path f) st in
  match _cache_key f, queries with
  | Some k, Some qs => store_queries k qs st
  | _, _ => st
  end.

(** The state of a scan without its cache and its parse log: the
    sessions and the rollups. *)
Definition rollups (st : scan_state) : scan_state :=
  {| st_new_cache := ∅;
     st_sessions := st_sessions st;
     st_daily_map := st_daily_map st;
     st_model_map := st_model_map st;
     st_all_prompts := st_all_prompts st;
     st_tool_frequency := st_tool_frequency st;
     st_parsed := [] |}.

(** The queries that the sessions of a scan are made of. *)
Definition queries_of (cache : gmap string (list Query)) (f : file) : list Query :=
  match loaded cache f with
  | Some (Some qs) => qs
  | _ => []
  end.

Definition scan_queries (cache : gmap string (list Query))
    (targets : list (string * file)) : list Query :=
  flat_map (fun target => queries_of cache (snd target)) targets.

(** The fingerprints of the files of a scan. *)
Definition fingerprints (targets : list (string * file)) : list string :=
  omap (fun target => _cache_key (snd target)) targets.

(** The entries that a scan over [targets] writes into the new cache. *)
Definition cache_entries (cache : gmap string (list Query))
    (targets : list (string * file)) (new_cache : gmap string (list Query))
  : gmap string (list Query) :=
  fold_left
    (fun m target =>
       match _cache_key (snd target), loaded cache (snd target) with
       | Some k, Some (Some qs) => <[k := qs]> m
       | _, _ => m
       end)
    targets new_cache.

(** The paths that a scan over [targets] hands to the parser. *)
Definition parse_log (cache : gmap string (list Query))
    (targets : list (string * file)) : list string :=
  map (fun target => f_path (snd target))
    (filter (fun target => is_hit cache (snd target) = false) targets).

(** The paths of the files of a scan. *)
Definition paths (targets : list (string * file)) : list string :=
  map (fun target => f_path (snd target)) targets.

(** The text holds no colon. *)
Fixpoint colon_free (s : string) : bool :=
  match s with
  | EmptyString => true
  | String c s' => negb (Ascii.eqb c ":") && colon_free s'
  end.



(** The file cannot be parsed or holds no assistant record: a parse
    gives no query list for it. *)
Definition skipped (f : file) : bool :=
  match parse_result f with
  | Some None => true
  | _ => false
  end.

(** A scan that starts from [cache] leaves no entry for the file in the
    cache it saves: the file has no fingerprint, or it is not served from
    [cache] and is skipped. *)
Definition left_uncached (cache : gmap string (list Query)) (f : file) : bool :=
  match _cache_key f with
  | None => true
  | Some _ => negb (is_hit cache f) && skipped f
  end.

(** ** Rollups *)

(** The file contributes no query to the scan. *)
Definition yields_no_query (cache : gmap string (list Query)) (f : file) : Prop :=
  loaded cache f = Some None \/ loaded cache f = Some (Some []).

(** The session enters the daily rollup. *)
Definition dated (s : Session) : Prop := s_date s <> "unknown"%string.

(** The query enters the model rollup. *)
Definition billed (q : Query) : bool :=
  negb (bool_decide (q_model q = Some "<synthetic>"%string)
        || bool_decide (q_model q = Some "unknown"%string)).

Definition four_counts (q : Query) : Z :=
  (q_inputTokens q + q_cacheCreationTokens q + q_cacheReadTokens q + q_outputTokens q)%Z.

(** The total of a session is the sum of its four token fields, as the
    totals of the snapshot add them. *)
Definition session_adds_up (s : Session) : Prop :=
  s_totalTokens s
  = (s_inputTokens s + s_outputTokens s + s_cacheCreationTokens s + s_cacheReadTokens s)%Z.

(** Every query kept in the cache has a total that is the sum of its
    four counts, as the queries the extractor builds have. *)
Definition cache_adds_up (cache : gmap string (list Query)) : Prop :=
  forall k qs, cache !! k = Some qs -> Forall tokens_add_up qs.

(** ** Sample records *)

Module Sample.

(** A user line with a time stamp and a text. *)
Definition user_entry (ts : option string) (txt : string) : entry :=
  {| e_isSidechain := false; e_type := Some "user"%string;
     e_message_field :=
       Value {| m_role := Some "user"%string; m_id := None; m_model := ModelMissing;
               m_usage := None; m_content := ContentStr txt |};
     e_isMeta := false; e_timestamp := ts; e_uuid := None |}.

(** An assistant line with an identity, a time stamp, a model and an
    input-token count (7 cache-read and 3 output tokens, one tool). *)
Definition assistant_entry (id : string) (ts : option string) (model : model_field)
    (n : Z) : entry :=
  {| e_isSidechain := false; e_type := Some "assistant"%string;
     e_message_field :=
       Value {| m_role := Some "assistant"%string; m_id := Some id; m_model := model;
               m_usage :=
                 Some {| input_tokens := Value n;
                         cache_creation_input_tokens := Missing;
                         cache_read_input_tokens := Value 7%Z;
                         output_tokens := Value 3%Z |};
               m_content :=
                 ContentList
                   [ {| b_type := Some "tool_use"%string; b_text := Missing;
                        b_name := Some "Bash"%string |} ] |};
     e_isMeta := false; e_timestamp := ts; e_uuid := None |}.

Definition opus : model_field := ModelStr "claude-opus-4-6".
Definition haiku : model_field := ModelStr "claude-haiku-4-5".

(** The identity [m1] recurs after [m2]. *)
Definition recurring_lines : list line :=
  [ Object (user_entry (Some "2025-01-01T10"%string) "hello"); Blank;
    Object (assistant_entry "m1" (Some "2025-01-01T11"%string) opus 100); Malformed;
    Object (assistant_entry "m2" (Some "2025-01-01T13"%string) opus 5);
    Object (assistant_entry "m1" (Some "2025-01-01T14"%string) haiku 1000) ].

Definition recurring_parsed : parsed :=
  {| assistantEntries :=
       [ assistant_entry "m1" (Some "2025-01-01T14"%string) haiku 1000;
         assistant_entry "m2" (Some "2025-01-01T13"%string) opus 5 ];
     userMessages := [ user_entry (Some "2025-01-01T10"%string) "hello" ] |}.

(** User messages at 10 and 20. *)
Definition users_10_20 : list entry :=
  [ user_entry (Some "10"%string) "first"; user_entry (Some "20"%string) "second" ].

(** User messages at 10 and 20 with one in between that has no time
    stamp. *)
Definition users_10_null_20 : list entry :=
  [ user_entry (Some "10"%string) "first"; user_entry None "undated";
    user_entry (Some "20"%string) "second" ].

(** Responses at 15 and at 20 to the user messages at 10 and 20, and
    the queries extracted from them. *)
Definition responses_15_20 : list entry :=
  [ assistant_entry "m1" (Some "15"%string) opus 100;
    assistant_entry "m2" (Some "20"%string) haiku 1000 ].

Definition queries_15_20 : list Query :=
  Eval vm_compute in default [] (extract_session_data responses_15_20 users_10_20).

Definition no_query : Query :=
  {| q_messageId := None; q_userPrompt := None; q_userTimestamp := None;
     q_assistantTimestamp := None; q_model := None;
     q_inputTokens := 0; q_cacheCreationTokens := 0; q_cacheReadTokens := 0;
     q_outputTokens := 0; q_totalTokens := 0; q_cost := 0;
     q_tools := []; q_hasThinking := false |}.

(** The queries of the response at 15 and of the response at 20. *)
Definition query_at_15 : Query := Eval vm_compute in hd no_query queries_15_20.
Definition query_at_20 : Query := Eval vm_compute in nth 1 queries_15_20 no_query.

(** The items of the time line of [users_10_20]. *)
Definition item_10 : user_item :=
  {| text := Some "first"%string; u_timestamp := Some "10"%string; u_uuid := None |}.
Definition item_20 : user_item :=
  {| text := Some "second"%string; u_timestamp := Some "20"%string; u_uuid := None |}.

(** A response at 25 to the user messages at 10, at no known time and
    at 20, and its query. *)
Definition response_25 : entry := assistant_entry "m1" (Some "25"%string) opus 100.

(** A response at 15 to a single user message at 20. *)
Definition response_15 : entry := assistant_entry "m1" (Some "15"%string) opus 100.
Definition users_20 : list entry := [ user_entry (Some "20"%string) "second" ].

Definition query_at_25 : Query :=
  Eval vm_compute in
    hd no_query (default [] (extract_session_data [response_25] users_10_null_20)).

End Sample.

(** ** Sample disks *)

Module SampleDisk.

(** A session file with two assistant identities. *)
Definition session_file : file :=
  {| f_path := "/home/u/.claude/projects/p/a.jsonl";
     f_suffix := ".jsonl"; f_stem := "a";
     f_stat := Some (1735729200000000000, 2048)%Z;
     f_content := Some Sample.recurring_lines |}.

(** A session file that holds a user line and no assistant record. *)
Definition quiet_file : file :=
  {| f_path := "/home/u/.claude/projects/p/b.jsonl";
     f_suffix := ".jsonl"; f_stem := "b";
     f_stat := Some (1735729300000000000, 96)%Z;
     f_content := Some [ Object (Sample.user_entry (Some "2025-01-01T09"%string) "hi") ] |}.

(** A session file whose only assistant record has neither a model nor
    a time stamp. *)
Definition undated_file : file :=
  {| f_path := "/home/u/.claude/projects/p/c.jsonl";
     f_suffix := ".jsonl"; f_stem := "c";
     f_stat := Some (1735729400000000000, 512)%Z;
     f_content := Some [ Object (Sample.assistant_entry "m9" None ModelMissing 100) ] |}.

Definition disk_of (files : list file) : disk :=
  {| dk_projects :=
       Some (Some [ {| pe_name := "p"; pe_is_dir := true; pe_files := Some files |} ]);
     dk_history := None;
     dk_cache := None;
     dk_cache_writable := true |}.

Definition two_files : disk := disk_of [session_file; quiet_file].


Definition quiet_only : disk := disk_of [quiet_file].
Definition undated_only : disk := disk_of [undated_file].

(** The interpreter of the samples. *)
Definition python : interpreter := {| compensated_sum := true |}.

Definition no_outcome : outcome :=
  {| result := _empty_result; disk_after := quiet_only; parsed_files := [] |}.

(** The first scan of [two_files]. *)
Definition first_scan : outcome :=
  Eval vm_compute in default no_outcome (parse_all_sessions python two_files false).

(** The scan of [quiet_only]. *)
Definition quiet_scan : outcome :=
  Eval vm_compute in default no_outcome (parse_all_sessions python quiet_only false).



(** The scan of [undated_only]. *)
Definition undated_scan : outcome :=
  Eval vm_compute in default no_outcome (parse_all_sessions python undated_only false).

End SampleDisk.

(** * The vocabulary of the further properties *)

(** The user record a line holds: the line is an object that is not a
    side chain, has type [user] and a message whose role is [user]. *)
Definition user_record (l : line) : option entry :=
  match l with
  | Object e =>
      if e_isSidechain e then None
      else if bool_decide (e_type e = Some "user"%string) then
        match e_message e with
        | Some msg =>
            if bool_decide (m_role msg = Some "user"%string) then Some e else None
        | None => None
        end
      else None
  | _ => None
  end.

(** A line the parser passes over: blank, or rejected by [json.loads]. *)
Definition passed_over (l : line) : bool :=
  match l with
  | Blank | Malformed => true
  | _ => false
  end.

(** The assistant record yields a query: it has a message with a usage
    object, and its model is not [<synthetic>]. *)
Definition counted (e : entry) : bool :=
  match e_message e with
  | Some msg =>
      match m_usage msg with
      | Some _ => negb (bool_decide (model_of msg = Some "<synthetic>"%string))
      | None => false
      end
  | None => false
  end.

(** The token count is not [null], and its value, 0 when the key is
    missing, has a [float]. *)
Definition in_float_range (n : field Z) : bool :=
  bool_decide (is_Some (get_default n 0%Z ≫= Py.float_of_int)).

(** The four token counts of the record can be priced. *)
Definition priceable (e : entry) : bool :=
  match e_message e ≫= m_usage with
  | Some u =>
      in_float_range (input_tokens u)
      && in_float_range (cache_creation_input_tokens u)
      && in_float_range (cache_read_input_tokens u)
      && in_float_range (output_tokens u)
  | None => true
  end.

(** What a query takes from its assistant record. *)
Definition query_of_record (e : entry) (q : Query) : Prop :=
  q_messageId q = entry_id e
  /\ q_assistantTimestamp q = e_timestamp e
  /\ Some (q_model q) = model_of <$> e_message e
  /\ Some (q_tools q) = tools_of <$> entry_content e
  /\ Some (q_hasThinking q) = thinking_of <$> entry_content e.

(** The user message makes the loop that builds the time line raise:
    it is not a meta message, and its message is [null], or its content
    is a list with a text block whose text is [null]. *)
Definition breaks_timeline (e : entry) : bool :=
  negb (e_isMeta e)
  && match e_message_field e with
     | Missing => false
     | Null => true
     | Value msg =>
         match m_content msg with
         | ContentList blocks =>
             existsb (fun b => bool_decide (b_type b = Some "text"%string)
                               && match b_text b with Null => true | _ => false end)
                     blocks
         | _ => false
         end
     end.

(** The assistant record makes the loop over the records raise: its
    message is [null], or it yields a query and cannot be priced. *)
Definition breaks_extraction (e : entry) : bool :=
  match e_message_field e with
  | Null => true
  | _ => counted e && negb (priceable e)
  end.

(** The query is paired with the item at position [j] of the time line:
    it carries its text and its time stamp, and nothing when there is no
    such item. *)
Definition paired_at (user_timeline : list user_item) (j : nat) (q : Query) : Prop :=
  q_userPrompt q = user_timeline !! j ≫= text
  /\ q_userTimestamp q = user_timeline !! j ≫= u_timestamp.

(** A display text the history loop stores: not empty, and not a slash
    command of fewer than 30 characters. *)
Definition usable_display (display : string) : bool :=
  Py.truthy display
  && negb (Py.startswith display "/" && bool_decide (Py.len display < 30)%nat).

(** The display text of a session: that of the first line of the history
    that names the session and has a usable text, among the lines that
    come before the first one that is not an object. *)
Fixpoint first_display (lines : list history_line) (sid : string) : option string :=
  match lines with
  | [] => None
  | HNotObject :: _ => None
  | HObject (Some s) display :: lines' =>
      let display := Py.strip (default EmptyString display) in
      if bool_decide (s = sid) && Py.truthy s && usable_display display
      then Some display
      else first_display lines' sid
  | _ :: lines' => first_display lines' sid
  end.

Module SampleHuge.

(** An assistant record whose input-token count is 2^1024. *)
Definition huge_file : file :=
  {| f_path := "/home/u/.claude/projects/p/d.jsonl";
     f_suffix := ".jsonl"; f_stem := "d";
     f_stat := Some (1735729500000000000, 700)%Z;
     f_content :=
       Some [ Object (Sample.assistant_entry "m7" (Some "2025-01-02T08"%string)
                        Sample.opus (2 ^ 1024)) ] |}.

Definition huge_disk : disk := SampleDisk.disk_of [SampleDisk.session_file; huge_file].

End SampleHuge.

(** The pattern of the rollups: [m[key(a)]] is created from [init] when
    it is missing and then updated with [a]. *)
Section group_by.
Context {K V A : Type} `{EqDecision K}.
Context (key : A -> K) (init : K -> V) (add : V -> A -> V).

Definition group_step (m : list (K * V)) (a : A) : list (K * V) :=
  od_set (key a) (add (default (init (key a)) (od_get (key a) m)) a) m.

(** The row of [k] after the elements of [l]: none when [k] had no row
    and no element of [l] has this key. *)
Definition group_row (m : list (K * V)) (l : list A) (k : K) : option V :=
  match od_get k m, filter (fun a => key a = k) l with
  | None, [] => None
  | row, group => Some (fold_left add group (default (init k) row))
  end.
End group_by.

(** What a scan aggregates: for each file that gives at least one query,
    in the order of the scan, the name of its project directory, its
    stem and its queries. *)
Definition session_inputs (cache : gmap string (list Query))
    (targets : list (string * file)) : list (string * string * list Query) :=
  omap (fun target =>
          match queries_of cache (snd target) with
          | [] => None
          | queries => Some (fst target, f_stem (snd target), queries)
          end)
       targets.

(** [s] is the session that the aggregation builds from [input]. *)
Definition session_built (session_first_prompt : list (string * string))
    (input : string * string * list Query) (s : Session) : Prop :=
  exists st st',
    aggregate_session session_first_prompt (fst (fst input)) (snd (fst input)) (snd input) st
    = Some st'
    /\ st_sessions st' = st_sessions st ++ [s].

(** The daily aggregation of a session, from its fields. *)
Definition daily_step (daily_map : list (string * Daily)) (s : Session)
  : list (string * Daily) :=
  add_daily daily_map (s_date s) (s_inputTokens s) (s_outputTokens s)
    (s_cacheCreationTokens s) (s_cacheReadTokens s) (s_totalTokens s) (s_cost s)
    (s_queryCount s).

(** The number of tool calls of a query. *)
Definition tool_calls (q : Query) : Z := Z.of_nat (length (q_tools q)).

(** The number of elements of [l] that satisfy [P]. *)
Definition count_of {A : Type} (P : A -> Prop) `{!forall x, Decision (P x)} (l : list A) : Z :=
  Z.of_nat (length (filter P l)).

(** What a session takes from the file it is built from. *)
Definition session_facts (input : string * string * list Query) (s : Session) : Prop :=
  let queries := snd input in
  s_project s = fst (fst input)
  /\ s_sessionId s = snd (fst input)
  /\ s_queryCount s = Z.of_nat (length queries)
  /\ s_inputTokens s = sum_with q_inputTokens queries
  /\ s_outputTokens s = sum_with q_outputTokens queries
  /\ s_cacheCreationTokens s = sum_with q_cacheCreationTokens queries
  /\ s_cacheReadTokens s = sum_with q_cacheReadTokens queries
  /\ s_totalTokens s = sum_with four_counts queries
  /\ s_thinkingTurns s = count_of (fun q => q_hasThinking q = true) queries
  /\ s_totalToolCalls s = sum_with tool_calls queries.

(** The rows of the rollups, as the code creates and updates them. *)
Definition daily_init (date : string) : Daily :=
  {| d_date := date; d_inputTokens := 0; d_outputTokens := 0;
     d_cacheCreationTokens := 0; d_cacheReadTokens := 0;
     d_totalTokens := 0; d_cost := 0; d_sessions := 0; d_queries := 0 |}.

Definition daily_add (row : Daily) (s : Session) : Daily :=
  {| d_date := d_date row;
     d_inputTokens := d_inputTokens row + s_inputTokens s;
     d_outputTokens := d_outputTokens row + s_outputTokens s;
     d_cacheCreationTokens := d_cacheCreationTokens row + s_cacheCreationTokens s;
     d_cacheReadTokens := d_cacheReadTokens row + s_cacheReadTokens s;
     d_totalTokens := d_totalTokens row + s_totalTokens s;
     d_cost := (d_cost row + s_cost s)%float;
     d_sessions := d_sessions row + 1;
     d_queries := d_queries row + s_queryCount s |}.

Definition project_init (proj : string) : Project :=
  {| pj_project := proj; pj_inputTokens := 0; pj_outputTokens := 0;
     pj_cacheCreationTokens := 0; pj_cacheReadTokens := 0;
     pj_totalTokens := 0; pj_cost := 0; pj_sessionCount := 0; pj_queryCount := 0 |}.

Definition project_add (row : Project) (s : Session) : Project :=
  {| pj_project := pj_project row;
     pj_inputTokens := pj_inputTokens row + s_inputTokens s;
     pj_outputTokens := pj_outputTokens row + s_outputTokens s;
     pj_cacheCreationTokens := pj_cacheCreationTokens row + s_cacheCreationTokens s;
     pj_cacheReadTokens := pj_cacheReadTokens row + s_cacheReadTokens s;
     pj_totalTokens := pj_totalTokens row + s_totalTokens s;
     pj_cost := (pj_cost row + s_cost s)%float;
     pj_sessionCount := pj_sessionCount row + 1;
     pj_queryCount := pj_queryCount row + s_queryCount s |}.

Definition model_init (qm : option string) : ModelRollup :=
  {| mm_model := qm; mm_inputTokens := 0; mm_outputTokens := 0;
     mm_cacheCreationTokens := 0; mm_cacheReadTokens := 0;
     mm_totalTokens := 0; mm_cost := 0; mm_queryCount := 0 |}.

Definition model_add (row : ModelRollup) (q : Query) : ModelRollup :=
  {| mm_model := mm_model row;
     mm_inputTokens := mm_inputTokens row + q_inputTokens q;
     mm_outputTokens := mm_outputTokens row + q_outputTokens q;
     mm_cacheCreationTokens := mm_cacheCreationTokens row + q_cacheCreationTokens q;
     mm_cacheReadTokens := mm_cacheReadTokens row + q_cacheReadTokens q;
     mm_totalTokens := mm_totalTokens row + q_totalTokens q;
     mm_cost := (mm_cost row + q_cost q)%float;
     mm_queryCount := mm_queryCount row + 1 |}.

(** [acc += f(x)] for [x] in [l], from [acc]. *)
Definition fsum_from {A : Type} (f : A -> float) (acc : float) (l : list A) : float :=
  fold_left (fun acc x => (acc + f x)%float) l acc.

(** What an entry of the prompt list satisfies, when it was grouped from
    [queries] in a session with this date, identifier and primary
    model: it carries them, its total is positive and is the sum of its
    four counts, and its text is the first 300 characters of the prompt
    of one of the queries. *)
Definition prompt_grouped (date session_id : string) (primary_model : option string)
    (queries : list Query) (p : Prompt) : Prop :=
  pr_sessionId p = session_id
  /\ pr_date p = date
  /\ pr_model p = primary_model
  /\ (0 < pr_totalTokens p)%Z
  /\ pr_totalTokens p
     = (pr_inputTokens p + pr_outputTokens p + pr_cacheCreationTokens p
        + pr_cacheReadTokens p)%Z
  /\ exists q text, q ∈ queries /\ q_userPrompt q = Some text /\ text <> EmptyString
                    /\ pr_prompt p = Py.slice_to 300 text.

Definition prompt_of_session (queries : list Query) (s : Session) (p : Prompt) : Prop :=
  prompt_grouped (s_date s) (s_sessionId s) (s_model s) queries p.

(** What the per-prompt grouping keeps from one query to the next: the
    current prompt is that of a query, and the entries added to [base]
    are grouped ones. *)
Definition grouping (date session_id : string) (primary_model : option string)
    (queries : list Query) (base : list Prompt) (ps : prompt_state) : Prop :=
  (forall text, current_prompt ps = Some text ->
     exists q, q ∈ queries /\ q_userPrompt q = Some text)
  /\ exists new, all_prompts ps = base ++ new
                 /\ Forall (prompt_grouped date session_id primary_model queries) new.

(** [m] is the most frequent of [models], and the first to occur among
    the most frequent ones: every model that occurs before it is less
    frequent. *)
Definition most_frequent (models : list (option string)) (m : option string) : Prop :=
  (forall m', (count_of (fun x => x = m') models <= count_of (fun x => x = m) models)%Z)
  /\ exists pre post,
       models = pre ++ m :: post /\ (m ∉ pre)
       /\ forall m', m' ∈ pre ->
            (count_of (fun x => x = m') models < count_of (fun x => x = m) models)%Z.

(** The disk with another content of the cache file. *)
Definition with_cache (cache : option cache_file) (d : disk) : disk :=
  {| dk_projects := dk_projects d;
     dk_history := dk_history d;
     dk_cache := cache;
     dk_cache_writable := dk_cache_writable d |}.


(** Every hyphen turned into a slash. *)
Fixpoint slashes (s : string) : string :=
  match s with
  | EmptyString => EmptyString
  | String c s' => String (if Ascii.eqb c "-" then "/"%char else c) (slashes s')
  end.

(** The tips, in the order in which they can appear: identifier, icon,
    title and impact. *)
Definition tip_catalogue : list (string * string * string * string) :=
  [ ("low-cache-hit", "cache", "Low cache hit rate", "high");
    ("great-cache", "check", "Great cache reuse", "positive");
    ("many-short-sessions", "session", "Many short sessions", "medium");
    ("high-tool-density", "tool", "High tool usage per turn", "medium");
    ("heavy-thinking", "think", "Extended thinking is active often", "low");
    ("opus-heavy", "model", "Heavy Opus usage", "medium");
    ("project-concentration", "project", "Concentrated on one project", "info");
    ("high-input-ratio", "input", "Very high input-to-output ratio", "medium");
    ("usage-spike", "spike", "Usage spike detected", "info") ]%string.

Definition tip_ids : list string := map (fun e => fst (fst (fst e))) tip_catalogue.

Definition tip_entry (t : Tip) : string * string * string * string :=
  (tip_id t, tip_icon t, tip_title t, tip_impact t).

(** What the data must satisfy for the tip to be given. *)
Definition tip_condition (data : Snapshot) (id : string) : Prop :=
  let t := totals data in
  (id = "low-cache-hit"%string ->
     (cacheHitRate t <? 0.5)%float = true /\ (totalSessions t > 3)%Z)
  /\ (id = "great-cache"%string ->
        (0.8 <=? cacheHitRate t)%float = true /\ (totalSessions t > 3)%Z)
  /\ (id = "many-short-sessions"%string -> (length (sessions data) > 5)%nat)
  /\ (id = "high-tool-density"%string -> (totalQueries t > 10)%Z)
  /\ (id = "heavy-thinking"%string ->
        (totalThinkingTurns t > 0)%Z /\ (totalQueries t > 0)%Z)
  /\ (id = "opus-heavy"%string -> (totalTokens t > 0)%Z)
  /\ (id = "project-concentration"%string ->
        (length (projects data) > 1)%nat /\ totalTokens t <> 0%Z)
  /\ (id = "high-input-ratio"%string -> (totalOutput t > 0)%Z /\ (totalInput t > 0)%Z)
  /\ (id = "usage-spike"%string -> (length (dailyUsage data) > 7)%nat).

(** A block leaves the tips as they are or appends the tip [id]. *)
Definition appends (data : Snapshot) (id : string) (tips tips' : list Tip) : Prop :=
  tips' = tips
  \/ exists t, tips' = tips ++ [t] /\ tip_id t = id /\ tip_entry t ∈ tip_catalogue
               /\ tip_condition data id.

(** What the tips are after the blocks up to the [k]-th of those that
    follow the first: at most one of the two cache tips, then tips of
    these blocks, in their order, each with its entry of the catalogue
    and its condition. *)
Definition staged (data : Snapshot) (k : nat) (tips : list Tip) : Prop :=
  exists first rest,
    tips = first ++ rest
    /\ (first = [] \/ (exists t, first = [t] /\ tip_id t = "low-cache-hit"%string)
        \/ (exists t, first = [t] /\ tip_id t = "great-cache"%string))
    /\ sublist (map tip_id rest) (take k (drop 2 tip_ids))
    /\ Forall (fun t => tip_entry t ∈ tip_catalogue /\ tip_condition data (tip_id t)) tips.

(** The route called once per element of [requests], each call on the
    variable and the disk that the call before it left: the responses,
    [None] when a call raises. *)
Fixpoint serve (py : interpreter) (_cached_data : option server.Response) (d : disk)
    (requests : list bool) : option (list server.Response) :=
  match requests with
  | [] => Some []
  | refresh :: requests' =>
      '(r, _cached_data, d) ← server.usage py _cached_data d refresh;
      rs ← serve py _cached_data d requests';
      Some (r :: rs)
  end.

Module SampleNull.

(** A session file whose assistant record has a [null] model. *)
Definition null_model_file : file :=
  {| f_path := "/home/u/.claude/projects/p/e.jsonl";
     f_suffix := ".jsonl"; f_stem := "e";
     f_stat := Some (1735729600000000000, 300)%Z;
     f_content :=
       Some [ Object (Sample.assistant_entry "m5" (Some "2025-01-03T08"%string)
                        ModelNull 100) ] |}.

Definition null_model_disk : disk := SampleDisk.disk_of [null_model_file].

Definition null_model_scan : outcome :=
  Eval vm_compute in
    default SampleDisk.no_outcome
      (parse_all_sessions SampleDisk.python null_model_disk false).

Definition null_model_query : Query :=
  Eval vm_compute in
    hd Sample.no_query
      (scan_queries (loaded_cache null_model_disk false) (scanned_files null_model_disk)).

End SampleNull.

Module SampleScan.

(** A file with the path, the modification time and the size of
    [SampleDisk.session_file], and another content. *)
Definition twin_file : file :=
  {| f_path := "/home/u/.claude/projects/p/a.jsonl";
     f_suffix := ".jsonl"; f_stem := "a";
     f_stat := Some (1735729200000000000, 2048)%Z;
     f_content := None |}.

(** The queries of [Sample.recurring_parsed]. *)
Definition recurring_queries : list Query :=
  Eval vm_compute in
    default []
      (extract_session_data (assistantEntries Sample.recurring_parsed)
         (userMessages Sample.recurring_parsed)).

(** The forced scan of [SampleDisk.two_files]. *)
Definition forced_scan : outcome :=
  Eval vm_compute in
    default SampleDisk.no_outcome
      (parse_all_sessions SampleDisk.python SampleDisk.two_files true).

(** A snapshot of eight short sessions on two projects, read mostly
    from the cache. *)
Definition short_session (project : string) (n : Z) : Session :=
  {| s_sessionId := "s"; s_project := project; s_date := "2025-01-01";
     s_timestamp := Some "2025-01-01T10"%string; s_firstPrompt := "hello";
     s_model := Some "claude-opus-4-6"%string; s_queryCount := 2;
     s_inputTokens := n; s_outputTokens := 10; s_cacheCreationTokens := 0;
     s_cacheReadTokens := 9 * n; s_totalTokens := 10 * n + 10; s_cost := 0.5;
     s_thinkingTurns := 1; s_totalToolCalls := 8; s_toolDensity := 4 |}.

Definition busy : Snapshot :=
  {| sessions :=
       [ short_session "-home-u-big" 900; short_session "-home-u-big" 800;
         short_session "-home-u-big" 700; short_session "-home-u-big" 600;
         short_session "-home-u-big" 500; short_session "-home-u-big" 400;
         short_session "-home-u-big" 300; short_session "-home-u-small" 100 ];
     dailyUsage := [];
     modelBreakdown :=
       [ {| mm_model := Some "claude-opus-4-6"%string; mm_inputTokens := 4300;
            mm_outputTokens := 80; mm_cacheCreationTokens := 0;
            mm_cacheReadTokens := 38700; mm_totalTokens := 43080; mm_cost := 4;
            mm_queryCount := 16 |} ];
     topPrompts := [];
     projects :=
       [ {| pj_project := "-home-u-big"; pj_inputTokens := 4200; pj_outputTokens := 70;
            pj_cacheCreationTokens := 0; pj_cacheReadTokens := 37800;
            pj_totalTokens := 42070; pj_cost := 3.5; pj_sessionCount := 7;
            pj_queryCount := 14 |};
         {| pj_project := "-home-u-small"; pj_inputTokens := 100; pj_outputTokens := 10;
            pj_cacheCreationTokens := 0; pj_cacheReadTokens := 900;
            pj_totalTokens := 1010; pj_cost := 0.5; pj_sessionCount := 1;
            pj_queryCount := 2 |} ];
     toolStats := [ {| t_name := "Bash"; t_count := 64 |} ];
     totals :=
       {| totalTokens := 43080; totalInput := 4300; totalOutput := 80;
          totalCacheCreation := 0; totalCacheRead := 38700; totalCost := 4;
          totalSessions := 8; totalQueries := 16; totalThinkingTurns := 8;
          cacheHitRate := 0.9; avgTokensPerSession := 5385; avgTokensPerQuery := 2692 |} |}.

Definition busy_tips : list Tip :=
  Eval vm_compute in default [] (generate_optimizations SampleDisk.python busy).

(** The session and the prompt that come first in the scan
    [SampleDisk.first_scan]. *)
Definition scanned_session : Session :=
  Eval vm_compute in hd (short_session "p" 0) (sessions (result SampleDisk.first_scan)).

(** What the route answers to the first request on [SampleDisk.two_files]. *)
Definition first_response : server.Response :=
  Eval vm_compute in
    {| server.data := result SampleDisk.first_scan;
       server.optimizations :=
         default [] (generate_optimizations SampleDisk.python (result SampleDisk.first_scan)) |}.

Definition scanned_prompt : Prompt :=
  Eval vm_compute in
    hd {| pr_prompt := "hello"; pr_inputTokens := 0; pr_outputTokens := 0;
          pr_cacheCreationTokens := 0; pr_cacheReadTokens := 0; pr_totalTokens := 0;
          pr_cost := 0; pr_date := "2025-01-01"; pr_sessionId := "s"; pr_model := None |}
       (topPrompts (result SampleDisk.first_scan)).

End SampleScan.

(** The requests of [requests], one after the other, on a tree that
    changes: each request comes with the disk as it is when the request
    arrives. *)
Fixpoint serve_on (py : interpreter) (_cached_data : option server.Response)
    (requests : list (bool * disk)) : option (list server.Response) :=
  match requests with
  | [] => Some []
  | (refresh, d) :: requests' =>
      '(r, _cached_data, _) ← server.usage py _cached_data d refresh;
      rs ← serve_on py _cached_data requests';
      Some (r :: rs)
  end.


(** * Properties *)

(** ** Python built-ins *)

Lemma drop_bytes_length (n : nat) : forall s,
  String.length (Py.drop_bytes n s) = (String.length s - n)%nat.
Proof.
  induction n as [|n IH]; intros s; [destruct s; cbn; lia|].
  destruct s as [|c s]; [reflexivity|]. cbn [Py.drop_bytes String.length]. rewrite IH. lia.
Qed.

Lemma startswith_empty (w : string) : w <> EmptyString -> Py.startswith EmptyString w = false.
Proof. destruct w; [congruence|reflexivity]. Qed.

Lemma lstrip1_shorter (ws : list string) (s s' : string) :
  Forall (fun w => w <> EmptyString) ws ->
  Py.lstrip1 ws s = Some s' -> (String.length s' < String.length s)%nat.
Proof.
  intros Hws. unfold Py.lstrip1.
  destruct (filter (fun w => Is_true (Py.startswith s w)) ws) as [|w rest] eqn:Hfilter;
    [discriminate|].
  intros [= <-].
  assert (Hw : w ∈ filter (fun w => Is_true (Py.startswith s w)) ws)
    by (rewrite Hfilter; left).
  apply list_elem_of_filter in Hw as [Hstarts Hin].
  rewrite Forall_forall in Hws. specialize (Hws w Hin).
  rewrite drop_bytes_length.
  destruct s as [|c s]; [rewrite startswith_empty in Hstarts by exact Hws; contradiction|].
  destruct w as [|c' w]; [congruence|]. cbn [String.length]. lia.
Qed.

(** The strip loop is given enough turns: when it stops, no white space
    is left at the front. *)
Lemma lstrip_with_done (ws : list string) :
  Forall (fun w => w <> EmptyString) ws ->
  forall fuel s, (String.length s <= fuel)%nat ->
    Py.lstrip1 ws (Py.lstrip_with ws fuel s) = None.
Proof.
  intros Hws. induction fuel as [|fuel IH]; intros s Hlen; cbn [Py.lstrip_with].
  - destruct (Py.lstrip1 ws s) as [s'|] eqn:Hstrip; [|reflexivity].
    apply lstrip1_shorter in Hstrip; [lia|exact Hws].
  - destruct (Py.lstrip1 ws s) as [s'|] eqn:Hstrip; [|exact Hstrip].
    apply IH. apply lstrip1_shorter in Hstrip; [lia|exact Hws].
Qed.

Lemma whitespace_nonempty : Forall (fun w => w <> EmptyString) Py.whitespace.
Proof. vm_compute. repeat constructor; discriminate. Qed.

(** ** Pricing *)

Lemma get_pricing_resolve (model : option string) :
  get_pricing model = Some (resolve_pricing model).
Proof.
  unfold get_pricing, resolve_pricing, Py.or_none.
  destruct model as [name|]; [|reflexivity].
  destruct (Py.truthy name); simpl; [|reflexivity].
  unfold family_of, has_version.
  change ("4" +:+ "-" +:+ "6") with "4-6"%string.
  change ("4" +:+ "." +:+ "6") with "4.6"%string.
  change ("4" +:+ "-" +:+ "5") with "4-5"%string.
  change ("4" +:+ "." +:+ "5") with "4.5"%string.
  change ("4" +:+ "-" +:+ "1") with "4-1"%string.
  change ("4" +:+ "." +:+ "1") with "4.1"%string.
  generalize (Py.lower name); intros m.
  destruct (Py.contains "opus" m); [|destruct (Py.contains "sonnet" m);
                                      [|destruct (Py.contains "haiku" m)]];
    repeat match goal with
           | |- context [Py.contains ?n m] => destruct (Py.contains n m)
           end; reflexivity.
Qed.

(** C5. [get_pricing] is a total function: whatever the optional model
    string, the dictionary lookups succeed and it returns the rates that
    the resolution policy of the specification selects.  A missing or
    empty model has the sonnet rates; otherwise, on the lower-cased name,
    opus selects the 4.6, 4.5 or 4.1 rates when that sub-version is
    present (in the spelling [4-6] or [4.6], tried in this order) and the
    4.0 rates when none is; a name without opus that contains sonnet has
    the sonnet rates; a name with neither that contains haiku has the 4.5
    rates when that sub-version is present and the 3.5 rates when not;
    any other name has the sonnet rates. *)
Theorem get_pricing_total_resolution :
  (forall model, is_Some (get_pricing model))
  /\ get_pricing None = Some sonnet_rates
  /\ get_pricing (Some EmptyString) = Some sonnet_rates
  /\ (forall name, Py.truthy name = true ->
      let m := Py.lower name in
      (Py.contains "opus" m = true ->
         (has_version "4" "6" m = true -> get_pricing (Some name) = Some opus_4_6_rates)
         /\ (has_version "4" "6" m = false -> has_version "4" "5" m = true ->
             get_pricing (Some name) = Some opus_4_5_rates)
         /\ (has_version "4" "6" m = false -> has_version "4" "5" m = false ->
             has_version "4" "1" m = true ->
             get_pricing (Some name) = Some opus_4_1_rates)
         /\ (has_version "4" "6" m = false -> has_version "4" "5" m = false ->
             has_version "4" "1" m = false ->
             get_pricing (Some name) = Some opus_4_0_rates))
      /\ (Py.contains "opus" m = false -> Py.contains "sonnet" m = true ->
          get_pricing (Some name) = Some sonnet_rates)
      /\ (Py.contains "opus" m = false -> Py.contains "sonnet" m = false ->
          Py.contains "haiku" m = true ->
          (has_version "4" "5" m = true -> get_pricing (Some name) = Some haiku_4_5_rates)
          /\ (has_version "4" "5" m = false ->
              get_pricing (Some name) = Some haiku_3_5_rates))
      /\ (Py.contains "opus" m = false -> Py.contains "sonnet" m = false ->
          Py.contains "haiku" m = false ->
          get_pricing (Some name) = Some sonnet_rates)).
Proof.
  split; [intros model; rewrite get_pricing_resolve; eauto|].
  split; [reflexivity|]. split; [reflexivity|].
  intros name Hname m.
  assert (Hres : forall r, resolve_pricing (Some name) = r ->
                           get_pricing (Some name) = Some r)
    by (intros r <-; apply get_pricing_resolve).
  unfold resolve_pricing, Py.or_none, family_of in Hres.
  rewrite Hname in Hres. fold m in Hres.
  repeat split; intros; apply Hres;
    repeat match goal with H : _ = _ |- _ => rewrite H; clear H end; reflexivity.
Qed.

(** The model names in use resolve as expected. *)
Example get_pricing_examples :
  get_pricing (Some "claude-opus-4-6"%string) = Some opus_4_6_rates
  /\ get_pricing (Some "claude-opus-4-5-20251101"%string) = Some opus_4_5_rates
  /\ get_pricing (Some "claude-opus-4-1-20250805"%string) = Some opus_4_1_rates
  /\ get_pricing (Some "claude-opus-4-20250514"%string) = Some opus_4_0_rates
  /\ get_pricing (Some "Claude-Sonnet-4-5"%string) = Some sonnet_rates
  /\ get_pricing (Some "claude-haiku-4-5-20251001"%string) = Some haiku_4_5_rates
  /\ get_pricing (Some "claude-3-5-haiku-20241022"%string) = Some haiku_3_5_rates
  /\ get_pricing (Some "gpt-4.5"%string) = Some sonnet_rates.
Proof. repeat split; vm_compute; reflexivity. Qed.

(** ** Insertion-ordered dictionaries *)

Section odict_facts.
Context {K V : Type} `{EqDecision K}.
Implicit Types (d : list (K * V)) (k : K) (v : V).

Lemma od_keys_set k v d :
  od_keys (od_set k v d)
  = if decide (k ∈ od_keys d) then od_keys d else od_keys d ++ [k].
Proof.
  induction d as [|[k' v'] d IH]; simpl; [reflexivity|].
  destruct (decide (k = k')) as [->|Hne]; simpl.
  - rewrite decide_True by left. reflexivity.
  - rewrite IH. unfold od_keys. simpl.
    destruct (decide (k ∈ map fst d)) as [Hin|Hnin].
    + rewrite decide_True by (right; exact Hin). reflexivity.
    + rewrite decide_False; [reflexivity|].
      intros Hin'. apply elem_of_cons in Hin' as [?|?]; congruence.
Qed.

Lemma od_set_NoDup k v d : NoDup (od_keys d) -> NoDup (od_keys (od_set k v d)).
Proof.
  intros Hnd. rewrite od_keys_set. case_decide; [exact Hnd|].
  apply NoDup_app. split; [exact Hnd|]. split.
  - intros x Hx Hx'. apply list_elem_of_singleton in Hx'. congruence.
  - apply NoDup_singleton.
Qed.

Lemma od_get_set_eq k v d : od_get k (od_set k v d) = Some v.
Proof.
  induction d as [|[k' v'] d IH]; simpl.
  - rewrite decide_True; reflexivity.
  - destruct (decide (k = k')) as [->|Hne]; simpl.
    + rewrite decide_True; reflexivity.
    + rewrite decide_False by exact Hne. exact IH.
Qed.

Lemma od_get_set_ne k k' v d : k <> k' -> od_get k' (od_set k v d) = od_get k' d.
Proof.
  intros Hne. induction d as [|[k0 v0] d IH]; simpl.
  - rewrite decide_False by congruence. reflexivity.
  - destruct (decide (k = k0)) as [->|Hne0]; simpl.
    + rewrite !decide_False by congruence. reflexivity.
    + destruct (decide (k' = k0)); [reflexivity|exact IH].
Qed.

Lemma od_get_None k d : od_get k d = None <-> k ∉ od_keys d.
Proof.
  induction d as [|[k' v'] d IH]; simpl.
  - split; [intros _; apply not_elem_of_nil|reflexivity].
  - unfold od_keys; simpl. rewrite not_elem_of_cons.
    destruct (decide (k = k')) as [->|Hne].
    + split; [discriminate|intros [? _]; congruence].
    + rewrite IH. unfold od_keys. tauto.
Qed.

Lemma od_get_Some_elem k v d : od_get k d = Some v -> (k, v) ∈ d.
Proof.
  induction d as [|[k' v'] d IH]; simpl; [discriminate|].
  destruct (decide (k = k')) as [->|Hne].
  - intros [= ->]. left.
  - intros Hget. right. apply IH, Hget.
Qed.

Lemma od_set_elem k v k' v' d :
  NoDup (od_keys d) ->
  (k', v') ∈ od_set k v d ->
  (k' = k /\ v' = v) \/ (k' <> k /\ (k', v') ∈ d).
Proof.
  induction d as [|[k0 v0] d IH]; simpl; intros Hnd Hin.
  - apply list_elem_of_singleton in Hin as [= -> ->]. left. split; reflexivity.
  - unfold od_keys in Hnd. simpl in Hnd. apply NoDup_cons in Hnd as [Hk0 Hnd].
    destruct (decide (k = k0)) as [->|Hne].
    + apply elem_of_cons in Hin as [[= -> ->]|Hin]; [left; split; reflexivity|].
      right. split; [|right; exact Hin].
      intros ->. apply Hk0. apply (list_elem_of_fmap_2 fst) in Hin. exact Hin.
    + apply elem_of_cons in Hin as [[= -> ->]|Hin].
      * right. split; [congruence|left].
      * destruct (IH Hnd Hin) as [?|[? ?]]; [left; assumption|].
        right. split; [assumption|right; assumption].
Qed.

End odict_facts.

(** ** Deduplication *)

Lemma first_occurrences_elem (keys : list string) k :
  k ∈ first_occurrences keys <-> k ∈ keys.
Proof.
  induction keys as [|k0 keys IH]; simpl; [reflexivity|].
  rewrite !elem_of_cons, list_elem_of_filter, IH.
  destruct (decide (k = k0)); intuition.
Qed.

Lemma first_occurrences_snoc (keys : list string) k :
  first_occurrences (keys ++ [k])
  = if decide (k ∈ keys) then first_occurrences keys else first_occurrences keys ++ [k].
Proof.
  induction keys as [|k0 keys IH]; cbn [first_occurrences app].
  - rewrite decide_False by apply not_elem_of_nil. reflexivity.
  - rewrite IH. destruct (decide (k ∈ keys)) as [Hin|Hnin].
    + rewrite decide_True by (right; exact Hin). reflexivity.
    + rewrite filter_app.
      destruct (decide (k = k0)) as [->|Hne].
      * rewrite decide_True by left.
        rewrite filter_cons_False by (intros Hc; apply Hc; reflexivity).
        rewrite filter_nil, app_nil_r. reflexivity.
      * rewrite decide_False
          by (intros Hc; apply elem_of_cons in Hc as [?|?]; congruence).
        rewrite filter_cons_True by exact Hne. reflexivity.
Qed.

Lemma parse_line_map message_map user_messages l message_map' user_messages' :
  parse_line (message_map, user_messages) l = Some (message_map', user_messages') ->
  message_map' = fold_left set_record (option_list (assistant_record l)) message_map.
Proof.
  unfold parse_line, assistant_record.
  destruct l as [| | |e]; try (intros [= <- <-]; reflexivity); try discriminate.
  destruct (e_isSidechain e); [intros [= <- <-]; reflexivity|].
  destruct (bool_decide (e_type e = Some "assistant"%string)) eqn:Hassistant;
    destruct (bool_decide (e_type e = Some "user"%string)) eqn:Huser; simpl;
    try (intros [= <- <-]; reflexivity);
    destruct (e_message e) as [msg|]; try (intros [= <- <-]; reflexivity);
    destruct (m_id msg) as [id|]; try (intros [= <- <-]; reflexivity);
    try (destruct (Py.truthy id)); intros [= <- <-]; reflexivity.
Qed.

Lemma parse_lines_map lines : forall message_map user_messages message_map' user_messages',
  for_each parse_line (message_map, user_messages) lines
  = Some (message_map', user_messages') ->
  message_map' = fold_left set_record (assistant_records lines) message_map.
Proof.
  induction lines as [|l lines IH]; cbn [for_each]; intros mm um mm' um' Hrun.
  - injection Hrun as <- <-. reflexivity.
  - destruct (parse_line (mm, um) l) as [[mm1 um1]|] eqn:Hline; [|discriminate].
    apply parse_line_map in Hline. apply IH in Hrun. subst mm1.
    unfold assistant_records. simpl. fold (assistant_records lines).
    destruct (assistant_record l); simpl in *; exact Hrun.
Qed.

(** What the overwrite-in-place map holds after the records [recs]. *)
Lemma set_records_spec (recs : list (string * entry)) :
  od_keys (fold_left set_record recs []) = first_occurrences (map fst recs)
  /\ NoDup (od_keys (fold_left set_record recs []))
  /\ forall k e, (k, e) ∈ fold_left set_record recs [] ->
       exists pre post, recs = pre ++ (k, e) :: post /\ k ∉ map fst post.
Proof.
  induction recs as [|[k0 e0] recs IH] using rev_ind.
  - split; [reflexivity|]. split; [apply NoDup_nil_2|].
    intros k e Hin. apply elem_of_nil in Hin. contradiction.
  - rewrite fold_left_app. cbn [fold_left].
    destruct IH as (Hkeys & Hnd & Hlast).
    set (d := fold_left set_record recs []) in *.
    unfold set_record. cbn [fst snd].
    split; [|split].
    + rewrite od_keys_set, map_app. cbn [map fst].
      rewrite first_occurrences_snoc, Hkeys.
      destruct (decide (k0 ∈ map fst recs)) as [Hin|Hnin].
      * rewrite decide_True by (apply first_occurrences_elem; exact Hin). reflexivity.
      * rewrite decide_False
          by (rewrite first_occurrences_elem; exact Hnin). reflexivity.
    + apply od_set_NoDup, Hnd.
    + intros k e Hin. apply od_set_elem in Hin as [[-> ->]|[Hne Hin]]; [| |exact Hnd].
      * exists recs, []. split; [reflexivity|apply not_elem_of_nil].
      * destruct (Hlast k e Hin) as (pre & post & -> & Hpost).
        exists pre, (post ++ [(k0, e0)]). split.
        -- rewrite <- app_assoc. reflexivity.
        -- rewrite map_app. cbn [map fst]. intros Hc.
           apply elem_of_app in Hc as [Hc|Hc]; [exact (Hpost Hc)|].
           apply list_elem_of_singleton in Hc. congruence.
Qed.

Lemma assistant_record_id l k e :
  assistant_record l = Some (k, e) -> l = Object e /\ entry_id e = Some k.
Proof.
  unfold assistant_record, entry_id. destruct l as [| | |e']; try discriminate.
  destruct (e_isSidechain e'); [discriminate|].
  destruct (bool_decide _); [|discriminate].
  destruct (e_message e') as [msg|] eqn:Hmsg; [|discriminate].
  destruct (m_id msg) as [id|] eqn:Hid; [|discriminate].
  destruct (Py.truthy id); [|discriminate].
  intros [= <- <-]. rewrite Hmsg. split; [reflexivity|exact Hid].
Qed.

(** C2. Whatever the file, [parse_jsonl_file] returns at most one
    assistant record per message identity (the identities of the returned
    records are pairwise distinct); the returned list follows the order in
    which the identities first occur in the file; and the record returned
    for an identity is its last occurrence in file order: no record with
    this identity comes after it in the file. *)
Theorem parse_jsonl_file_dedup (lines : list line) (p : parsed) :
  parse_jsonl_file (Some lines) = Some p ->
  let recs := assistant_records lines in
  NoDup (map entry_id (assistantEntries p))
  /\ map entry_id (assistantEntries p) = map Some (first_occurrences (map fst recs))
  /\ forall i e, assistantEntries p !! i = Some e ->
       exists k pre post,
         first_occurrences (map fst recs) !! i = Some k
         /\ entry_id e = Some k
         /\ recs = pre ++ (k, e) :: post
         /\ k ∉ map fst post.
Proof.
  unfold parse_jsonl_file.
  destruct (for_each parse_line ([], []) lines) as [[message_map user_messages]|] eqn:Hrun;
    [|discriminate].
  intros [= <-]. simpl. apply parse_lines_map in Hrun.
  destruct (set_records_spec (assistant_records lines)) as (Hkeys & Hnd & Hlast).
  rewrite <- Hrun in Hkeys, Hnd, Hlast.
  assert (Hids : forall i e, od_values message_map !! i = Some e ->
            exists k, message_map !! i = Some (k, e) /\ entry_id e = Some k).
  { intros i e Hi. unfold od_values in Hi. rewrite list_lookup_fmap in Hi.
    destruct (message_map !! i) as [[k e']|] eqn:Hmi; [|discriminate].
    simpl in Hi. injection Hi as ->. exists k. split; [reflexivity|].
    assert (Hin : (k, e) ∈ message_map) by (apply list_elem_of_lookup; eauto).
    destruct (Hlast k e Hin) as (pre & post & Hrecs & _).
    assert (Hrec : (k, e) ∈ assistant_records lines)
      by (rewrite Hrecs; apply elem_of_app; right; left).
    unfold assistant_records in Hrec. apply list_elem_of_omap in Hrec as (l & _ & Hl).
    apply assistant_record_id in Hl as [_ Hid]. exact Hid. }
  assert (Hmap : map entry_id (od_values message_map) = map Some (od_keys message_map)).
  { apply list_eq. intros i. unfold od_keys. rewrite !list_lookup_fmap.
    destruct (od_values message_map !! i) as [e|] eqn:Hi.
    - destruct (Hids i e Hi) as (k & Hmi & Hid). rewrite Hmi. simpl. congruence.
    - unfold od_values in Hi. rewrite list_lookup_fmap in Hi.
      destruct (message_map !! i); [discriminate|reflexivity]. }
  split; [|split].
  - rewrite Hmap. apply (NoDup_fmap_2 Some), Hnd.
  - rewrite Hmap, Hkeys. reflexivity.
  - intros i e Hi. destruct (Hids i e Hi) as (k & Hmi & Hid).
    assert (Hin : (k, e) ∈ message_map) by (apply list_elem_of_lookup; eauto).
    destruct (Hlast k e Hin) as (pre & post & Hrecs & Hpost).
    exists k, pre, post. repeat split; try assumption.
    rewrite <- Hkeys. unfold od_keys. rewrite list_lookup_fmap, Hmi. reflexivity.
Qed.

Lemma parse_jsonl_file_dedup_witness :
  parse_jsonl_file (Some Sample.recurring_lines) = Some Sample.recurring_parsed
  /\ NoDup (map entry_id (assistantEntries Sample.recurring_parsed))
  /\ map entry_id (assistantEntries Sample.recurring_parsed)
     = map Some (first_occurrences (map fst (assistant_records Sample.recurring_lines)))
  /\ forall i e, assistantEntries Sample.recurring_parsed !! i = Some e ->
       exists k pre post,
         first_occurrences (map fst (assistant_records Sample.recurring_lines)) !! i = Some k
         /\ entry_id e = Some k
         /\ assistant_records Sample.recurring_lines = pre ++ (k, e) :: post
         /\ k ∉ map fst post.
Proof.
  split; [vm_compute; reflexivity|].
  apply (parse_jsonl_file_dedup Sample.recurring_lines Sample.recurring_parsed).
  vm_compute; reflexivity.
Defined.

(** The record kept for [m1] is its second occurrence, and it stands
    before [m2], which first occurs after the first [m1]. *)
Example parse_jsonl_file_recurring :
  assistantEntries <$> parse_jsonl_file (Some Sample.recurring_lines)
  = Some [ Sample.assistant_entry "m1" (Some "2025-01-01T14"%string) Sample.haiku 1000;
           Sample.assistant_entry "m2" (Some "2025-01-01T13"%string) Sample.opus 5 ].
Proof. vm_compute; reflexivity. Qed.

(** ** The extractor *)

Lemma for_each_invariant {S A : Type} (I : S -> Prop) (body : S -> A -> option S)
    (l : list A) :
  (forall s a s', I s -> body s a = Some s' -> I s') ->
  forall s s', I s -> for_each body s l = Some s' -> I s'.
Proof.
  intros Hstep. induction l as [|a l IH]; cbn [for_each]; intros s s' Hs Hrun.
  - injection Hrun as <-. exact Hs.
  - destruct (body s a) as [s1|] eqn:Hbody; [|discriminate].
    eapply IH; [|exact Hrun]. eapply Hstep; eassumption.
Qed.

(** When the extraction returns, the loop over the user messages has
    built the time line, and the loop over the records has run on it. *)
Lemma build_timeline_of user_messages user_timeline :
  build_timeline user_messages = Some user_timeline ->
  user_timeline_of user_messages = user_timeline.
Proof. unfold user_timeline_of. intros ->. reflexivity. Qed.

Lemma extract_session_data_loop assistant_entries user_messages queries :
  extract_session_data assistant_entries user_messages = Some queries ->
  is_Some (build_timeline user_messages)
  /\ snd <$> for_each (extract_entry (user_timeline_of user_messages)) (O, []) assistant_entries
     = Some queries.
Proof.
  unfold extract_session_data, user_timeline_of.
  destruct (build_timeline user_messages) as [user_timeline|]; [|discriminate].
  cbn [mbind option_bind default]. intros Hloop. split; [eauto|exact Hloop].
Qed.

Lemma extract_session_data_built assistant_entries user_messages user_timeline :
  build_timeline user_messages = Some user_timeline ->
  extract_session_data assistant_entries user_messages
  = snd <$> for_each (extract_entry (user_timeline_of user_messages)) (O, []) assistant_entries.
Proof.
  unfold extract_session_data, user_timeline_of. intros ->. reflexivity.
Qed.

(** A turn of the loop over the assistant records either skips the
    record or appends one query, paired with the item under the cursor
    after the [while] loop. *)
Lemma extract_entry_inv user_timeline user_idx queries entry user_idx' queries' :
  extract_entry user_timeline (user_idx, queries) entry = Some (user_idx', queries') ->
  (user_idx' = user_idx /\ queries' = queries)
  \/ exists q,
       user_idx' = advance_cursor (length user_timeline) user_timeline
                     (e_timestamp entry) user_idx
       /\ queries' = queries ++ [q]
       /\ q_userPrompt q = user_timeline !! user_idx' ≫= text
       /\ q_userTimestamp q = user_timeline !! user_idx' ≫= u_timestamp
       /\ q_assistantTimestamp q = e_timestamp entry
       /\ tokens_add_up q
       /\ exists p, get_pricing (q_model q) = Some p /\ priced_by p q.
Proof.
  unfold extract_entry.
  destruct (e_message_field entry) as [| |msg];
    [intros [= <- <-]; left; split; reflexivity|discriminate|].
  destruct (m_usage msg) as [usage|]; [|intros [= <- <-]; left; split; reflexivity].
  destruct (bool_decide (model_of msg = Some "<synthetic>"%string));
    [intros [= <- <-]; left; split; reflexivity|].
  destruct (get_pricing (model_of msg)) as [p|] eqn:Hp; [|discriminate].
  cbn [mbind option_bind].
  destruct (get_default (input_tokens usage) 0%Z) as [n_in|]; [|discriminate].
  destruct (get_default (cache_creation_input_tokens usage) 0%Z) as [n_cw|]; [|discriminate].
  destruct (get_default (cache_read_input_tokens usage) 0%Z) as [n_cr|]; [|discriminate].
  destruct (get_default (output_tokens usage) 0%Z) as [n_out|]; [|discriminate].
  cbn [mbind option_bind]. unfold Py.int_mul_float.
  destruct (Py.float_of_int n_in) as [f_in|] eqn:Hin; [|discriminate].
  destruct (Py.float_of_int n_cw) as [f_cw|] eqn:Hcw; [|discriminate].
  destruct (Py.float_of_int n_cr) as [f_cr|] eqn:Hcr; [|discriminate].
  destruct (Py.float_of_int n_out) as [f_out|] eqn:Hout; [|discriminate].
  cbn [mbind option_bind]. intros [= <- <-]. right.
  eexists. split; [reflexivity|]. split; [reflexivity|].
  cbn [q_userPrompt q_userTimestamp q_assistantTimestamp q_model].
  repeat (split; [reflexivity|]).
  exists p. split; [exact Hp|].
  exists f_in, f_cw, f_cr, f_out. cbn. repeat (split; [assumption|]). reflexivity.
Qed.

Lemma extract_session_data_queries (assistant_entries user_messages : list entry)
    (queries : list Query) :
  extract_session_data assistant_entries user_messages = Some queries ->
  Forall (fun q => tokens_add_up q
                   /\ exists p, get_pricing (q_model q) = Some p /\ priced_by p q) queries.
Proof.
  intros Hrun. apply extract_session_data_loop in Hrun as [_ Hrun].
  destruct (for_each _ _ assistant_entries) as [[user_idx qs]|] eqn:Hloop; [|discriminate].
  injection Hrun as <-. cbn [snd].
  refine (for_each_invariant (fun s => Forall _ (snd s)) _ _ _ (O, []) _ _ Hloop).
  - intros [i qs0] a [i' qs'] Hqs0 Hstep. cbn [snd] in *.
    apply extract_entry_inv in Hstep as [[_ ->]|(q & _ & -> & _ & _ & _ & Htok & Hcost)];
      [exact Hqs0|].
    apply Forall_app. split; [exact Hqs0|]. apply Forall_singleton. split; assumption.
  - apply Forall_nil_2.
Qed.

(** C7. Every query that [extract_session_data] emits has a total that
    is exactly the sum of its four token counts, and a cost that is
    exactly input x input rate + cache creation x cache-write rate +
    cache read x cache-read rate + output x output rate, in binary64
    arithmetic from left to right, for the rates that [get_pricing]
    resolves for the model of the query, whatever that model is. *)
Theorem extract_session_data_tokens_cost
    (assistant_entries user_messages : list entry) (queries : list Query) :
  extract_session_data assistant_entries user_messages = Some queries ->
  forall q, q ∈ queries ->
    q_totalTokens q
    = (q_inputTokens q + q_cacheCreationTokens q + q_cacheReadTokens q + q_outputTokens q)%Z
    /\ exists p, get_pricing (q_model q) = Some p
         /\ exists f_in f_cw f_cr f_out,
              Py.float_of_int (q_inputTokens q) = Some f_in
              /\ Py.float_of_int (q_cacheCreationTokens q) = Some f_cw
              /\ Py.float_of_int (q_cacheReadTokens q) = Some f_cr
              /\ Py.float_of_int (q_outputTokens q) = Some f_out
              /\ q_cost q
                 = (f_in * input p + f_cw * cacheWrite p
                    + f_cr * cacheRead p + f_out * output p)%float.
Proof.
  intros Hrun q Hq.
  pose proof (extract_session_data_queries _ _ _ Hrun) as Hall.
  rewrite Forall_forall in Hall. exact (Hall q Hq).
Qed.

Lemma extract_session_data_tokens_cost_witness :
  extract_session_data Sample.responses_15_20 Sample.users_10_20
  = Some Sample.queries_15_20
  /\ forall q, q ∈ Sample.queries_15_20 ->
       q_totalTokens q
       = (q_inputTokens q + q_cacheCreationTokens q + q_cacheReadTokens q
          + q_outputTokens q)%Z
       /\ exists p, get_pricing (q_model q) = Some p
            /\ exists f_in f_cw f_cr f_out,
                 Py.float_of_int (q_inputTokens q) = Some f_in
                 /\ Py.float_of_int (q_cacheCreationTokens q) = Some f_cw
                 /\ Py.float_of_int (q_cacheReadTokens q) = Some f_cr
                 /\ Py.float_of_int (q_outputTokens q) = Some f_out
                 /\ q_cost q
                    = (f_in * input p + f_cw * cacheWrite p
                       + f_cr * cacheRead p + f_out * output p)%float.
Proof.
  split; [vm_compute; reflexivity|].
  apply (extract_session_data_tokens_cost Sample.responses_15_20 Sample.users_10_20).
  vm_compute; reflexivity.
Defined.

(** ** The order of time stamps *)

Lemma leb_trans (a b c : string) :
  String.leb a b = true -> String.leb b c = true -> String.leb a c = true.
Proof.
  intros Hab Hbc. apply Is_true_true.
  change (String.le a c). transitivity b; apply Is_true_true; assumption.
Qed.

Lemma leb_refl (a : string) : String.leb a a = true.
Proof. apply Is_true_true. change (String.le a a). reflexivity. Qed.

Lemma ltb_not_leb (a b : string) : String.ltb a b = true -> String.leb b a = false.
Proof.
  unfold String.ltb, String.leb. rewrite (String.compare_antisym a b).
  destruct (String.compare b a); simpl; congruence.
Qed.

Lemma stamp_leb_Some (a b : option string) :
  stamp_leb a b = true -> exists x y, a = Some x /\ b = Some y /\ String.leb x y = true.
Proof.
  destruct a as [x|], b as [y|]; simpl; try discriminate. intros H. eauto.
Qed.

(** ** The cursor *)

Lemma next_precedes_true user_timeline ts user_idx :
  next_precedes user_timeline ts user_idx = true ->
  exists next, user_timeline !! S user_idx = Some next
               /\ stamp_leb (u_timestamp next) ts = true.
Proof.
  unfold next_precedes. intros H. apply andb_true_iff in H as [_ H].
  destruct (user_timeline !! S user_idx) as [next|]; [|discriminate].
  exists next. split; [reflexivity|]. unfold stamp_leb.
  destruct (u_timestamp next), ts; first [exact H|discriminate].
Qed.

Lemma next_precedes_false user_timeline ts user_idx next :
  next_precedes user_timeline ts user_idx = false ->
  user_timeline !! S user_idx = Some next ->
  stamp_leb (u_timestamp next) ts = false.
Proof.
  unfold next_precedes. intros H Hnext. rewrite Hnext in H.
  rewrite bool_decide_eq_true_2 in H.
  - simpl in H. unfold stamp_leb. destruct (u_timestamp next), ts; first [exact H|reflexivity].
  - apply lookup_lt_Some in Hnext. lia.
Qed.

(** The [while] loop only moves forward; every item it moves onto is not
    after the assistant record; and with the fuel it is given it stops
    only when its condition fails. *)
Lemma advance_cursor_spec user_timeline ts : forall fuel user_idx,
  let user_idx' := advance_cursor fuel user_timeline ts user_idx in
  (user_idx <= user_idx')%nat
  /\ ((user_idx < user_idx')%nat ->
      exists u, user_timeline !! user_idx' = Some u
                /\ stamp_leb (u_timestamp u) ts = true)
  /\ ((length user_timeline <= fuel + user_idx)%nat ->
      next_precedes user_timeline ts user_idx' = false).
Proof.
  induction fuel as [|fuel IH]; intros user_idx; cbn [advance_cursor].
  - split; [lia|]. split; [lia|]. intros Hlen.
    unfold next_precedes. rewrite bool_decide_eq_false_2 by lia. reflexivity.
  - destruct (next_precedes user_timeline ts user_idx) eqn:Hnext.
    + destruct (IH (S user_idx)) as (Hle & Hmoved & Hstop).
      split; [lia|]. split.
      * intros _.
        destruct (decide (S user_idx
                          < advance_cursor fuel user_timeline ts (S user_idx))%nat)
          as [Hlt|Hge]; [exact (Hmoved Hlt)|].
        assert (Heq : advance_cursor fuel user_timeline ts (S user_idx) = S user_idx) by lia.
        rewrite Heq. apply next_precedes_true in Hnext. exact Hnext.
      * intros Hlen. apply Hstop. lia.
    + split; [lia|]. split; [lia|]. intros _. exact Hnext.
Qed.

(** C3. With a filtered user time line that holds a record at 10 and a
    record at 20, an assistant record at 15 that yields a query is paired
    with the record at 10 (its text and its time stamp), and an assistant
    record at exactly 20 is paired with the record at 20: on equal time
    stamps the cursor advances. *)
Theorem pairing_example_10_15_20
    (user_messages : list entry) (first second : user_item)
    (response : entry) (q : Query) :
  user_timeline_of user_messages = [first; second] ->
  u_timestamp first = Some "10"%string ->
  u_timestamp second = Some "20"%string ->
  extract_session_data [response] user_messages = Some [q] ->
  (e_timestamp response = Some "15"%string ->
   q_userTimestamp q = Some "10"%string /\ q_userPrompt q = text first)
  /\ (e_timestamp response = Some "20"%string ->
      q_userTimestamp q = Some "20"%string /\ q_userPrompt q = text second).
Proof.
  intros Htl Hfirst Hsecond Hrun. apply extract_session_data_loop in Hrun as [_ Hrun].
  rewrite Htl in Hrun. revert Hrun. cbn [for_each].
  destruct (extract_entry [first; second] (O, []) response) as [[user_idx qs]|] eqn:Hstep;
    [|discriminate].
  cbn [fmap option_fmap option_map snd]. intros [= ->].
  apply extract_entry_inv in Hstep as [[_ [=]]|(q' & -> & Hq & Hprompt & Hstamp & _)].
  injection Hq as <-. rewrite Hprompt, Hstamp.
  split; intros ->; cbn [advance_cursor length]; unfold next_precedes;
    cbn [lookup list_lookup length]; rewrite Hsecond.
  - change (String.leb "20" "15") with false. rewrite andb_false_r.
    cbn [lookup list_lookup mbind option_bind]. rewrite Hfirst. split; reflexivity.
  - change (String.leb "20" "20") with true.
    rewrite bool_decide_eq_true_2 by lia. rewrite bool_decide_eq_false_2 by lia.
    cbn [andb lookup list_lookup mbind option_bind]. rewrite Hsecond. split; reflexivity.
Qed.

Lemma pairing_example_10_15_20_witness :
  let at_15 := Sample.assistant_entry "m1" (Some "15"%string) Sample.opus 100 in
  let at_20 := Sample.assistant_entry "m2" (Some "20"%string) Sample.haiku 1000 in
  user_timeline_of Sample.users_10_20 = [Sample.item_10; Sample.item_20]
  /\ extract_session_data [at_15] Sample.users_10_20 = Some [Sample.query_at_15]
  /\ extract_session_data [at_20] Sample.users_10_20 = Some [Sample.query_at_20]
  /\ (q_userTimestamp Sample.query_at_15 = Some "10"%string
      /\ q_userPrompt Sample.query_at_15 = Some "first"%string)
  /\ (q_userTimestamp Sample.query_at_20 = Some "20"%string
      /\ q_userPrompt Sample.query_at_20 = Some "second"%string).
Proof.
  intros at_15 at_20.
  assert (Htl : user_timeline_of Sample.users_10_20 = [Sample.item_10; Sample.item_20])
    by (vm_compute; reflexivity).
  assert (H15 : extract_session_data [at_15] Sample.users_10_20 = Some [Sample.query_at_15])
    by (vm_compute; reflexivity).
  assert (H20 : extract_session_data [at_20] Sample.users_10_20 = Some [Sample.query_at_20])
    by (vm_compute; reflexivity).
  repeat (split; [assumption|]). split.
  - apply (pairing_example_10_15_20 Sample.users_10_20 Sample.item_10 Sample.item_20
             at_15 Sample.query_at_15 Htl eq_refl eq_refl H15).
    reflexivity.
  - apply (pairing_example_10_15_20 Sample.users_10_20 Sample.item_10 Sample.item_20
             at_20 Sample.query_at_20 Htl eq_refl eq_refl H20).
    reflexivity.
Defined.

(** ** Nearest preceding user message *)

Lemma StronglySorted_lookup_lt {A : Type} (R : A -> A -> Prop) (l : list A) :
  StronglySorted R l ->
  forall i j x y, (i < j)%nat -> l !! i = Some x -> l !! j = Some y -> R x y.
Proof.
  induction 1 as [|a l Hsorted IH Hall]; intros i j x y Hlt Hi Hj.
  - rewrite lookup_nil in Hi. discriminate.
  - destruct j as [|j]; [lia|]. cbn in Hj. destruct i as [|i].
    + cbn in Hi. injection Hi as <-. rewrite Forall_forall in Hall.
      apply Hall. eapply list_elem_of_lookup_2, Hj.
    + cbn in Hi. eapply (IH i j); [lia|eassumption|eassumption].
Qed.

Lemma cursor_stop_no_later user_timeline ts user_idx v tu ta :
  time_ordered user_timeline ->
  next_precedes user_timeline ts user_idx = false ->
  user_timeline !! user_idx = Some v -> u_timestamp v = Some tu -> ts = Some ta ->
  forall u t, u ∈ user_timeline -> u_timestamp u = Some t ->
    String.ltb tu t = true -> String.leb t ta = false.
Proof.
  intros Hsorted Hstop Hv Htu -> u t Hu Ht Hlater.
  apply list_elem_of_lookup in Hu as [j Hj].
  pose proof (ltb_not_leb _ _ Hlater) as Hnle.
  destruct (lt_eq_lt_dec j user_idx) as [[Hlt| ->]|Hgt].
  - pose proof (StronglySorted_lookup_lt _ _ Hsorted j user_idx u v Hlt Hj Hv) as Hle.
    cbn beta in Hle. rewrite Ht, Htu in Hle. cbn in Hle. congruence.
  - rewrite Hv in Hj. injection Hj as <-. rewrite Htu in Ht. injection Ht as <-.
    rewrite leb_refl in Hnle. discriminate.
  - destruct (user_timeline !! S user_idx) as [w|] eqn:Hw.
    2:{ apply lookup_ge_None in Hw. apply lookup_lt_Some in Hj. lia. }
    pose proof (next_precedes_false _ _ _ _ Hstop Hw) as Hnext.
    destruct (decide (j = S user_idx)) as [->|Hne].
    + rewrite Hw in Hj. injection Hj as <-. rewrite Ht in Hnext. exact Hnext.
    + assert (Hlt : (S user_idx < j)%nat) by lia.
      pose proof (StronglySorted_lookup_lt _ _ Hsorted (S user_idx) j w u Hlt Hw Hj) as Hle.
      cbn beta in Hle. apply stamp_leb_Some in Hle as (tw & t' & Htw & Ht' & Hle).
      rewrite Ht in Ht'. injection Ht' as <-. rewrite Htw in Hnext. cbn in Hnext.
      destruct (String.leb t ta) eqn:Hta; [|reflexivity].
      rewrite (leb_trans _ _ _ Hle Hta) in Hnext. discriminate.
Qed.

Lemma extract_loop_no_later user_timeline assistant_entries user_idx queries :
  time_ordered user_timeline ->
  for_each (extract_entry user_timeline) (O, []) assistant_entries
  = Some (user_idx, queries) ->
  Forall (no_later_candidate user_timeline) queries.
Proof.
  intros Hsorted Hloop.
  refine (for_each_invariant (fun s => Forall _ (snd s)) _ _ _ (O, []) _ _ Hloop);
    [|apply Forall_nil_2].
  intros [i qs0] a [i' qs'] Hqs0 Hstep. cbn [snd] in *.
  apply extract_entry_inv in Hstep
    as [[_ ->]|(q & Hi' & -> & _ & Hstamp & Hresponse & _)]; [exact Hqs0|].
  apply Forall_app. split; [exact Hqs0|]. apply Forall_singleton.
  intros tu ta Htu Hta. rewrite Hstamp in Htu. rewrite Hresponse in Hta.
  destruct (user_timeline !! i') as [v|] eqn:Hv; [|discriminate]. cbn in Htu.
  destruct (advance_cursor_spec user_timeline (e_timestamp a) (length user_timeline) i)
    as (_ & _ & Hstop).
  rewrite <- Hi' in Hstop.
  eapply cursor_stop_no_later; try eassumption. apply Hstop. lia.
Qed.

Lemma cursor_not_after_tail user_timeline user_idx a remaining :
  cursor_not_after user_timeline user_idx (a :: remaining) ->
  cursor_not_after user_timeline user_idx remaining.
Proof.
  intros [->|(v & tv & Hv & Htv & Hall)]; [left; reflexivity|].
  right. exists v, tv. repeat (split; [assumption|]).
  cbn [omap list_omap] in Hall. destruct (e_timestamp a); [|exact Hall].
  apply Forall_cons in Hall as [_ Hall]. exact Hall.
Qed.

Lemma responses_ordered_tail a remaining :
  responses_ordered (a :: remaining) -> responses_ordered remaining.
Proof.
  unfold responses_ordered. cbn [omap list_omap]. destruct (e_timestamp a); [|tauto].
  intros H. apply StronglySorted_inv in H as [H _]. exact H.
Qed.

Lemma extract_loop_not_after user_timeline : forall assistant_entries user_idx queries
    user_idx' queries',
  responses_ordered assistant_entries ->
  cursor_not_after user_timeline user_idx assistant_entries ->
  Forall (not_after_response user_timeline) queries ->
  for_each (extract_entry user_timeline) (user_idx, queries) assistant_entries
  = Some (user_idx', queries') ->
  Forall (not_after_response user_timeline) queries'.
Proof.
  induction assistant_entries as [|a rest IH]; cbn [for_each];
    intros i qs i' qs' Hordered Hcursor Hqs Hloop.
  - injection Hloop as <- <-. exact Hqs.
  - destruct (extract_entry user_timeline (i, qs) a) as [[i1 qs1]|] eqn:Hstep; [|discriminate].
    apply extract_entry_inv in Hstep
      as [[-> ->]|(q & Hi1 & -> & _ & Hstamp & Hresponse & _)].
    + eapply IH; [| |exact Hqs|exact Hloop].
      * eapply responses_ordered_tail, Hordered.
      * eapply cursor_not_after_tail, Hcursor.
    + destruct (advance_cursor_spec user_timeline (e_timestamp a) (length user_timeline) i)
        as (Hle & Hmoved & _).
      rewrite <- Hi1 in Hle, Hmoved.
      eapply IH; [eapply responses_ordered_tail, Hordered| | |exact Hloop].
      * (* the cursor for the records to come *)
        destruct (decide (i < i1)%nat) as [Hlt|Hge].
        -- destruct (Hmoved Hlt) as (v & Hv & Hva).
           apply stamp_leb_Some in Hva as (tv & ta & Htv & Hta & Hva).
           right. exists v, tv. repeat (split; [assumption|]).
           unfold responses_ordered in Hordered. cbn [omap list_omap] in Hordered.
           rewrite Hta in Hordered. apply StronglySorted_inv in Hordered as [_ Hall].
           eapply Forall_impl; [exact Hall|]. intros ta' Hta'. cbn beta in Hta'.
           eapply leb_trans; eassumption.
        -- assert (i1 = i) as -> by lia. eapply cursor_not_after_tail, Hcursor.
      * (* the query of this record *)
        apply Forall_app. split; [exact Hqs|]. apply Forall_singleton.
        intros tu ta Htu Hta Hhead. rewrite Hstamp in Htu. rewrite Hresponse in Hta.
        destruct (user_timeline !! i1) as [v|] eqn:Hv; [|discriminate]. cbn in Htu.
        destruct (decide (i < i1)%nat) as [Hlt|Hge].
        -- destruct (Hmoved Hlt) as (v' & Hv' & Hva).
           assert (v' = v) as -> by congruence.
           rewrite Htu, Hta in Hva. exact Hva.
        -- assert (i1 = i) as -> by lia.
           destruct Hcursor as [->|(v' & tv & Hv' & Htv & Hall)].
           ++ specialize (Hhead v). rewrite Htu in Hhead. apply Hhead.
              rewrite head_lookup. exact Hv.
           ++ assert (v' = v) as -> by congruence.
              assert (tv = tu) as -> by congruence.
              cbn [omap list_omap] in Hall. rewrite Hta in Hall.
              apply Forall_cons in Hall as [Hall _]. exact Hall.
Qed.

(** C4, as the code has it.  When the filtered user time line is
    time-ordered (every message carries a time stamp, none after those of
    the messages behind it), every query with both time stamps known is
    paired with a user message behind which no user message with a later
    time stamp is also at or before the assistant record.  When moreover
    the assistant records come in the order of their time stamps and the
    first user message is not after the assistant record of the query, the
    paired user message is at or before that assistant record: it is the
    nearest preceding one. *)
Theorem pairing_nearest_when_ordered
    (assistant_entries user_messages : list entry) (queries : list Query) :
  time_ordered (user_timeline_of user_messages) ->
  extract_session_data assistant_entries user_messages = Some queries ->
  forall q tu ta, q ∈ queries ->
    q_userTimestamp q = Some tu -> q_assistantTimestamp q = Some ta ->
    (forall u t, u ∈ user_timeline_of user_messages -> u_timestamp u = Some t ->
       String.ltb tu t = true -> String.leb t ta = false)
    /\ (responses_ordered assistant_entries ->
        (forall u0, head (user_timeline_of user_messages) = Some u0 ->
                    stamp_leb (u_timestamp u0) (Some ta) = true) ->
        String.leb tu ta = true).
Proof.
  intros Hsorted Hrun q tu ta Hq Htu Hta.
  apply extract_session_data_loop in Hrun as [_ Hrun].
  destruct (for_each _ _ assistant_entries) as [[user_idx qs]|] eqn:Hloop; [|discriminate].
  injection Hrun as <-. cbn [snd] in Hq. split.
  - pose proof (extract_loop_no_later _ _ _ _ Hsorted Hloop) as Hall.
    rewrite Forall_forall in Hall. exact (Hall q Hq tu ta Htu Hta).
  - intros Hordered Hhead.
    assert (Hall : Forall (not_after_response (user_timeline_of user_messages)) qs).
    { eapply extract_loop_not_after; [exact Hordered|left; reflexivity| |exact Hloop].
      apply Forall_nil_2. }
    rewrite Forall_forall in Hall. exact (Hall q Hq tu ta Htu Hta Hhead).
Qed.

Lemma pairing_nearest_when_ordered_witness :
  time_ordered (user_timeline_of Sample.users_10_20)
  /\ extract_session_data Sample.responses_15_20 Sample.users_10_20
     = Some Sample.queries_15_20
  /\ Sample.query_at_15 ∈ Sample.queries_15_20
  /\ (forall u t, u ∈ user_timeline_of Sample.users_10_20 -> u_timestamp u = Some t ->
        String.ltb "10" t = true -> String.leb t "15" = false)
  /\ String.leb "10" "15" = true.
Proof.
  assert (Hordered : time_ordered (user_timeline_of Sample.users_10_20))
    by (vm_compute; repeat constructor).
  assert (Hrun : extract_session_data Sample.responses_15_20 Sample.users_10_20
                 = Some Sample.queries_15_20) by (vm_compute; reflexivity).
  assert (Hq : Sample.query_at_15 ∈ Sample.queries_15_20) by (vm_compute; left).
  destruct (pairing_nearest_when_ordered Sample.responses_15_20 Sample.users_10_20
              Sample.queries_15_20 Hordered Hrun Sample.query_at_15 "10"%string "15"%string
              Hq eq_refl eq_refl) as [Hnone Hbound].
  repeat (split; [assumption|]). apply Hbound.
  - vm_compute. repeat constructor.
  - intros u0 Hhead. vm_compute in Hhead. injection Hhead as <-. reflexivity.
Defined.

(** C4, as stated, fails: a user message without a time stamp stops the
    cursor, so the response at 25 is paired with the user message at 10
    although the one at 20 is later and also precedes it. *)
Lemma pairing_nearest_counterexample :
  extract_session_data [Sample.response_25] Sample.users_10_null_20
  = Some [Sample.query_at_25]
  /\ q_userTimestamp Sample.query_at_25 = Some "10"%string
  /\ q_assistantTimestamp Sample.query_at_25 = Some "25"%string
  /\ ~ nearest_preceding (user_timeline_of Sample.users_10_null_20) Sample.query_at_25.
Proof.
  split; [vm_compute; reflexivity|]. split; [reflexivity|]. split; [reflexivity|].
  intros Hnearest.
  destruct (Hnearest "10"%string "25"%string eq_refl eq_refl) as [_ Hlater].
  specialize (Hlater {| text := Some "second"%string; u_timestamp := Some "20"%string;
                        u_uuid := None |} "20"%string).
  assert (Hfalse : String.leb "20" "25" = false).
  { apply Hlater; [|reflexivity|reflexivity].
    vm_compute. right. right. left. }
  vm_compute in Hfalse. discriminate.
Qed.

(** A response that precedes every eligible user message is paired with
    the first of them. *)
Example pairing_before_first_user :
  exists q,
    extract_session_data [Sample.response_15] Sample.users_20 = Some [q]
    /\ q_assistantTimestamp q = Some "15"%string
    /\ q_userTimestamp q = Some "20"%string
    /\ q_userPrompt q = Some "second"%string.
Proof. eexists. split; [vm_compute; reflexivity|]. repeat split. Qed.

(** ** The structure of the scan *)

Lemma for_each_app {S A : Type} (body : S -> A -> option S) (l1 l2 : list A) (s : S) :
  for_each body s (l1 ++ l2) = for_each body s l1 ≫= fun s' => for_each body s' l2.
Proof.
  revert s. induction l1 as [|a l1 IH]; intros s; cbn [for_each app].
  - reflexivity.
  - destruct (body s a) as [s1|]; [apply IH|reflexivity].
Qed.

Lemma for_each_map {S A B : Type} (body : S -> B -> option S) (g : A -> B)
    (l : list A) (s : S) :
  for_each body s (map g l) = for_each (fun s a => body s (g a)) s l.
Proof.
  revert s. induction l as [|a l IH]; intros s; cbn [for_each map]; [reflexivity|].
  destruct (body s (g a)); [apply IH|reflexivity].
Qed.

(** The two nested loops visit the files of [targets_of] in order. *)
Lemma scan_projects_files (cache : cache_file) session_first_prompt
    (entries : list project_entry) :
  forall st,
  for_each (scan_project cache session_first_prompt) st
    (filter (fun e => Is_true (pe_is_dir e)) entries)
  = for_each (fun st target => scan_file cache session_first_prompt (fst target) st (snd target))
      st (targets_of entries).
Proof.
  unfold targets_of.
  induction (filter (fun e => Is_true (pe_is_dir e)) entries) as [|project dirs IH];
    intros st; cbn [for_each flat_map]; [reflexivity|].
  rewrite for_each_app. unfold scan_project at 1.
  destruct (pe_files project) as [listing|]; cbn [for_each mbind option_bind].
  - rewrite for_each_map. cbn [fst snd].
    change (fun (s : scan_state) (a : file) =>
              scan_file cache session_first_prompt (pe_name project) s a)
      with (scan_file cache session_first_prompt (pe_name project)).
    destruct (for_each _ st _) as [st1|]; cbn [mbind option_bind]; [apply IH|reflexivity].
  - apply IH.
Qed.

Lemma scan_projects_targets cache session_first_prompt (entries : list project_entry) :
  forall st,
  for_each (scan_project (CacheObject cache) session_first_prompt) st
    (filter (fun e => Is_true (pe_is_dir e)) entries)
  = for_each (scan_target cache session_first_prompt) st (targets_of entries).
Proof. intros st. apply scan_projects_files. Qed.

Lemma cache_key_truthy f k : _cache_key f = Some k -> Py.truthy k = true.
Proof.
  unfold _cache_key. destruct (f_stat f) as [[mtime size]|]; [|discriminate].
  intros [= <-]. destruct (f_path f); reflexivity.
Qed.

(** The lookup of a fingerprint in a dictionary does not raise. *)
Lemma cache_hit_object cache f :
  cache_hit (CacheObject cache) (_cache_key f) = Some (lookup_key cache (_cache_key f)).
Proof.
  unfold cache_hit, lookup_key. destruct (_cache_key f) as [k|] eqn:Hk; [|reflexivity].
  rewrite (cache_key_truthy f k Hk). reflexivity.
Qed.

(** In a value that is not a dictionary a lookup raises or fails, as it
    fails in the empty dictionary. *)
Lemma cache_hit_entries (cache : cache_file) (ck : option string) :
  cache_hit cache ck = None
  \/ cache_hit cache ck = cache_hit (CacheObject (entries_of cache)) ck.
Proof.
  unfold cache_hit. destruct ck as [k|]; [|right; reflexivity].
  destruct (Py.truthy k); [|right; reflexivity].
  destruct cache as [entries|strings|s|]; cbn [entries_of].
  - right. reflexivity.
  - destruct (bool_decide (k ∈ strings)); [left|right]; reflexivity.
  - destruct (Py.contains k s); [left|right]; reflexivity.
  - left. reflexivity.
Qed.

Lemma cache_hit_Some cache f k qs :
  lookup_key cache (_cache_key f) = Some (k, qs) <->
  _cache_key f = Some k /\ cache !! k = Some qs.
Proof.
  unfold lookup_key. destruct (_cache_key f) as [k'|] eqn:Hk; cbn [mbind option_bind].
  - destruct (cache !! k') as [qs'|] eqn:Hc; cbn.
    + split; [intros [= <- <-]; split; [reflexivity|exact Hc]|].
      intros [[= <-] Hqs]. congruence.
    + split; [discriminate|]. intros [[= <-] Hqs]. congruence.
  - split; [discriminate|intros [[=] _]].
Qed.

Lemma cache_hit_None cache f :
  lookup_key cache (_cache_key f) = None <->
  forall k, _cache_key f = Some k -> cache !! k = None.
Proof.
  unfold lookup_key. destruct (_cache_key f) as [k'|] eqn:Hk; cbn [mbind option_bind].
  - destruct (cache !! k') as [qs'|] eqn:Hc; cbn.
    + split; [discriminate|]. intros H. specialize (H k' eq_refl). congruence.
    + split; [|reflexivity]. intros _ k [= <-]. exact Hc.
  - split; [|reflexivity]. intros _ k [=].
Qed.

Lemma is_hit_true cache f :
  is_hit cache f = true <-> exists k qs, _cache_key f = Some k /\ cache !! k = Some qs.
Proof.
  unfold is_hit. rewrite bool_decide_eq_true. split.
  - intros [[k qs] Hhit]. apply cache_hit_Some in Hhit. eauto.
  - intros (k & qs & Hk & Hc). exists (k, qs). apply cache_hit_Some. auto.
Qed.

Lemma is_hit_false cache f :
  is_hit cache f = false <-> lookup_key cache (_cache_key f) = None.
Proof.
  unfold is_hit. rewrite bool_decide_eq_false.
  destruct (lookup_key cache (_cache_key f)); split; intros H;
    first [reflexivity|discriminate|exfalso; apply H; eauto|intros [? [=]]].
Qed.

(** What [load_queries] does to the state, apart from the queries. *)
Lemma load_queries_eq cache st f :
  load_queries (CacheObject cache) st f
  = (fun queries => (record_load cache f queries st, queries)) <$> loaded cache f.
Proof.
  unfold loaded, load_queries, record_load. rewrite cache_hit_object.
  cbn [mbind option_bind].
  destruct (lookup_key cache (_cache_key f)) as [[k qs]|] eqn:Hhit.
  - apply cache_hit_Some in Hhit as Hk. destruct Hk as [Hk Hc].
    assert (Hh : is_hit cache f = true) by (apply is_hit_true; eauto).
    rewrite Hh, Hk. reflexivity.
  - assert (Hh : is_hit cache f = false) by (apply is_hit_false; exact Hhit).
    rewrite Hh.
    destruct (parse_jsonl_file (f_content f)) as [p|];
      [|destruct (_cache_key f); reflexivity].
    destruct (assistantEntries p) as [|e es]; [destruct (_cache_key f); reflexivity|].
    destruct (extract_session_data (e :: es) (userMessages p)) as [qs|]; [|reflexivity].
    destruct (_cache_key f) as [k|] eqn:Hk; [|reflexivity].
    rewrite (cache_key_truthy f k Hk). reflexivity.
Qed.

(** The body of the loop over the files, in terms of the queries
    obtained, their record in the state, and the aggregation. *)
Lemma scan_file_eq cache session_first_prompt project_dir st f :
  scan_file (CacheObject cache) session_first_prompt project_dir st f
  = loaded cache f ≫= fun queries =>
      let st1 := record_load cache f queries st in
      match queries with
      | None => Some st1
      | Some [] => Some st1
      | Some qs => aggregate_session session_first_prompt project_dir (f_stem f) qs st1
      end.
Proof.
  unfold scan_file. rewrite load_queries_eq.
  destruct (loaded cache f) as [queries|]; reflexivity.
Qed.

(** With a value that is not a dictionary, the body of the loop raises
    or does what it does with the empty dictionary; so do the loops. *)
Lemma scan_file_entries (cache : cache_file) session_first_prompt project_dir st f :
  scan_file cache session_first_prompt project_dir st f = None
  \/ scan_file cache session_first_prompt project_dir st f
     = scan_file (CacheObject (entries_of cache)) session_first_prompt project_dir st f.
Proof.
  unfold scan_file, load_queries.
  destruct (cache_hit_entries cache (_cache_key f)) as [Hraise|Heq].
  - left. rewrite Hraise. reflexivity.
  - right. rewrite Heq. reflexivity.
Qed.

Lemma scan_targets_entries (cache : cache_file) session_first_prompt
    (targets : list (string * file)) :
  forall st,
  let raw :=
    for_each (fun st target => scan_file cache session_first_prompt (fst target) st (snd target))
      st targets in
  raw = None \/ raw = for_each (scan_target (entries_of cache) session_first_prompt) st targets.
Proof.
  induction targets as [|target targets IH]; intros st; cbn [for_each]; [right; reflexivity|].
  unfold scan_target at 1.
  destruct (scan_file_entries cache session_first_prompt (fst target) st (snd target))
    as [Hraise|Heq].
  - left. rewrite Hraise. reflexivity.
  - rewrite Heq.
    destruct (scan_file (CacheObject (entries_of cache)) _ _ st (snd target)) as [st1|];
      [apply IH|right; reflexivity].
Qed.

Lemma aggregate_session_rollups session_first_prompt project_dir session_id queries st :
  aggregate_session session_first_prompt project_dir session_id queries (rollups st)
  = rollups <$> aggregate_session session_first_prompt project_dir session_id queries st.
Proof.
  unfold aggregate_session. cbn [rollups st_all_prompts st_tool_frequency st_sessions
    st_daily_map st_model_map st_new_cache st_parsed].
  destruct queries as [|q qs].
  - reflexivity.
  - destruct (Py.truediv _ _); reflexivity.
Qed.

Lemma aggregate_session_frame session_first_prompt project_dir session_id queries st st' :
  aggregate_session session_first_prompt project_dir session_id queries st = Some st' ->
  st_new_cache st' = st_new_cache st /\ st_parsed st' = st_parsed st.
Proof.
  unfold aggregate_session.
  destruct (match queries with [] => _ | _ => _ end); [|discriminate].
  cbn. intros [= <-]. split; reflexivity.
Qed.

Lemma record_load_rollups cache f queries st :
  rollups (record_load cache f queries st) = rollups st.
Proof.
  unfold record_load. destruct (is_hit cache f), (_cache_key f), queries; reflexivity.
Qed.

Lemma build_snapshot_rollups {py : interpreter} st :
  build_snapshot py (rollups st) = build_snapshot py st.
Proof. reflexivity. Qed.

(** ** The scan, file by file *)

(** A scan raises, or does what the loop over the files does with the
    entries of its cache. *)
Lemma parse_all_sessions_entries {py : interpreter} d force_refresh entries :
  dk_projects d = Some (Some entries) ->
  parse_all_sessions py d force_refresh = None
  \/ parse_all_sessions py d force_refresh
     = for_each (scan_target (loaded_cache d force_refresh) (history_of d))
         initial_state (scanned_files d)
       ≫= fun st =>
            build_snapshot py st ≫= fun snapshot =>
              Some {| result := snapshot;
                      disk_after := _save_cache (st_new_cache st) d;
                      parsed_files := st_parsed st |}.
Proof.
  intros Hentries. unfold parse_all_sessions, scanned_files. rewrite Hentries.
  rewrite scan_projects_files.
  fold (scan_cache d force_refresh). fold (history_of d).
  destruct (scan_targets_entries (scan_cache d force_refresh) (history_of d)
              (targets_of entries) initial_state) as [Hraise|Heq].
  - left. rewrite Hraise. reflexivity.
  - right. rewrite Heq. reflexivity.
Qed.




(** When the cache is a dictionary, in particular when the scan is
    forced, the scan is this loop. *)
Lemma scan_cache_object d force_refresh :
  force_refresh = true \/ cache_is_object d = true ->
  scan_cache d force_refresh = CacheObject (loaded_cache d force_refresh).
Proof.
  unfold loaded_cache, scan_cache, cache_is_object, _load_cache.
  intros [->|Hobject]; [reflexivity|]. destruct force_refresh; [reflexivity|].
  destruct (dk_cache d) as [[entries|strings|s|]|]; (reflexivity || discriminate).
Qed.

Lemma parse_all_sessions_scan {py : interpreter} d force_refresh entries :
  force_refresh = true \/ cache_is_object d = true ->
  dk_projects d = Some (Some entries) ->
  parse_all_sessions py d force_refresh
  = for_each (scan_target (loaded_cache d force_refresh) (history_of d))
      initial_state (scanned_files d)
    ≫= fun st =>
         build_snapshot py st ≫= fun snapshot =>
           Some {| result := snapshot;
                   disk_after := _save_cache (st_new_cache st) d;
                   parsed_files := st_parsed st |}.
Proof.
  intros Hobject Hentries. unfold parse_all_sessions, scanned_files. rewrite Hentries.
  fold (scan_cache d force_refresh). rewrite (scan_cache_object d force_refresh Hobject).
  rewrite scan_projects_targets. reflexivity.
Qed.

Lemma loaded_hit cache f k qs :
  _cache_key f = Some k -> cache !! k = Some qs -> loaded cache f = Some (Some qs).
Proof.
  intros Hk Hc. unfold loaded, load_queries. rewrite cache_hit_object.
  cbn [mbind option_bind].
  assert (Hhit : lookup_key cache (_cache_key f) = Some (k, qs))
    by (apply cache_hit_Some; auto).
  rewrite Hhit. reflexivity.
Qed.

Lemma loaded_miss cache f :
  lookup_key cache (_cache_key f) = None -> loaded cache f = parse_result f.
Proof.
  intros Hmiss. unfold loaded, load_queries, parse_result.
  rewrite cache_hit_object, Hmiss. cbn [mbind option_bind].
  destruct (parse_jsonl_file (f_content f)) as [p|]; [|reflexivity].
  destruct (assistantEntries p) as [|e es]; [reflexivity|].
  destruct (extract_session_data (e :: es) (userMessages p)); reflexivity.
Qed.

Lemma loaded_skip_miss cache f :
  loaded cache f = Some None -> lookup_key cache (_cache_key f) = None.
Proof.
  intros Hskip. destruct (lookup_key cache (_cache_key f)) as [[k qs]|] eqn:Hhit;
    [|reflexivity].
  apply cache_hit_Some in Hhit as [Hk Hc].
  rewrite (loaded_hit _ _ _ _ Hk Hc) in Hskip. discriminate.
Qed.

Lemma cache_entries_cons cache target targets m :
  cache_entries cache (target :: targets) m
  = cache_entries cache targets
      match _cache_key (snd target), loaded cache (snd target) with
      | Some k, Some (Some qs) => <[k := qs]> m
      | _, _ => m
      end.
Proof. reflexivity. Qed.

Lemma fingerprints_cons target targets :
  fingerprints (target :: targets)
  = match _cache_key (snd target) with
    | Some k => k :: fingerprints targets
    | None => fingerprints targets
    end.
Proof. reflexivity. Qed.

(** The new cache and the parse log after the loop over the files. *)
Lemma scan_targets_state cache session_first_prompt targets : forall st st',
  for_each (scan_target cache session_first_prompt) st targets = Some st' ->
  st_new_cache st' = cache_entries cache targets (st_new_cache st)
  /\ st_parsed st' = st_parsed st ++ parse_log cache targets
  /\ Forall (fun target => is_Some (loaded cache (snd target))) targets.
Proof.
  induction targets as [|[project f] targets IH]; cbn [for_each]; intros st st' Hrun.
  - injection Hrun as <-. unfold parse_log. cbn. rewrite app_nil_r.
    split; [reflexivity|]. split; [reflexivity|apply Forall_nil_2].
  - unfold scan_target at 1 in Hrun. cbn [fst snd] in Hrun. rewrite scan_file_eq in Hrun.
    destruct (loaded cache f) as [queries|] eqn:Hloaded; [|discriminate].
    cbn [mbind option_bind] in Hrun.
    set (st1 := record_load cache f queries st) in *.
    assert (Hstep : exists st2, for_each (scan_target cache session_first_prompt) st2 targets
                                = Some st'
                      /\ st_new_cache st2 = st_new_cache st1
                      /\ st_parsed st2 = st_parsed st1).
    { destruct queries as [[|q qs]|]; try (exists st1; repeat split; exact Hrun).
      destruct (aggregate_session _ _ _ _ st1) as [st2|] eqn:Hagg; [|discriminate].
      apply aggregate_session_frame in Hagg as [Hc Hp]. exists st2. auto. }
    destruct Hstep as (st2 & Hrest & Hc & Hp).
    destruct (IH _ _ Hrest) as (Hcache & Hlog & Hall).
    rewrite Hcache, Hlog, Hc, Hp. subst st1.
    rewrite cache_entries_cons. unfold parse_log at 2. cbn [snd]. rewrite Hloaded.
    unfold record_load. rewrite filter_cons. cbn [snd].
    destruct (is_hit cache f) eqn:Hhit.
    + rewrite decide_False by discriminate.
      fold (parse_log cache targets). split; [|split].
      * destruct (_cache_key f), queries; reflexivity.
      * destruct (_cache_key f), queries; reflexivity.
      * apply Forall_cons. split; [cbn; rewrite Hloaded; eauto|exact Hall].
    + rewrite decide_True by reflexivity. cbn [map snd].
      fold (parse_log cache targets). split; [|split].
      * destruct (_cache_key f), queries; reflexivity.
      * destruct (_cache_key f), queries; cbn; rewrite <- app_assoc; reflexivity.
      * apply Forall_cons. split; [cbn; rewrite Hloaded; eauto|exact Hall].
Qed.

(** Two scans that obtain the same queries for every file build the same
    sessions and rollups. *)
Lemma scan_simulation cache1 cache2 session_first_prompt targets :
  (forall target, target ∈ targets ->
     loaded cache2 (snd target) = loaded cache1 (snd target)) ->
  forall st1 st2 st1',
    rollups st2 = rollups st1 ->
    for_each (scan_target cache1 session_first_prompt) st1 targets = Some st1' ->
    exists st2',
      for_each (scan_target cache2 session_first_prompt) st2 targets = Some st2'
      /\ rollups st2' = rollups st1'.
Proof.
  induction targets as [|[project f] targets IH]; cbn [for_each];
    intros Hsame st1 st2 st1' Hroll Hrun.
  - injection Hrun as <-. exists st2. split; [reflexivity|exact Hroll].
  - unfold scan_target at 1 in Hrun. unfold scan_target at 1. cbn [fst snd] in *.
    rewrite scan_file_eq in Hrun. rewrite scan_file_eq.
    assert (Hf : loaded cache2 f = loaded cache1 f) by (apply (Hsame (project, f)); left).
    rewrite Hf.
    destruct (loaded cache1 f) as [queries|]; [|discriminate].
    cbn [mbind option_bind] in *.
    assert (Hroll1 : rollups (record_load cache2 f queries st2)
                     = rollups (record_load cache1 f queries st1))
      by (rewrite !record_load_rollups; exact Hroll).
    assert (Htail : forall target, target ∈ targets ->
              loaded cache2 (snd target) = loaded cache1 (snd target))
      by (intros target Hin; apply Hsame; right; exact Hin).
    destruct queries as [[|q qs]|]; try (eapply IH; eassumption).
    destruct (aggregate_session _ _ _ _ (record_load cache1 f _ st1)) as [st1a|] eqn:Hagg1;
      [|discriminate].
    pose proof (aggregate_session_rollups session_first_prompt project (f_stem f) (q :: qs)
                  (record_load cache1 f (Some (q :: qs)) st1)) as Hr1.
    pose proof (aggregate_session_rollups session_first_prompt project (f_stem f) (q :: qs)
                  (record_load cache2 f (Some (q :: qs)) st2)) as Hr2.
    rewrite Hroll1, Hr1, Hagg1 in Hr2.
    destruct (aggregate_session _ _ _ _ (record_load cache2 f _ st2)) as [st2a|];
      cbn [fmap option_fmap option_map] in Hr2; [|discriminate].
    apply (inj Some) in Hr2. eapply IH; [exact Htail| |exact Hrun].
    symmetry. exact Hr2.
Qed.

(** ** The new cache *)

Lemma cache_entries_other cache targets : forall m k,
  k ∉ fingerprints targets -> cache_entries cache targets m !! k = m !! k.
Proof.
  induction targets as [|[project f] targets IH]; intros m k Hk; [reflexivity|].
  rewrite cache_entries_cons. rewrite fingerprints_cons in Hk. cbn [snd] in *.
  destruct (_cache_key f) as [k0|].
  - apply not_elem_of_cons in Hk as [Hne Hk]. rewrite (IH _ _ Hk).
    destruct (loaded cache f) as [[qs|]|]; try reflexivity.
    apply lookup_insert_ne. congruence.
  - apply IH, Hk.
Qed.

Lemma cache_entries_lookup cache targets : forall m target k,
  NoDup (fingerprints targets) ->
  target ∈ targets -> _cache_key (snd target) = Some k ->
  cache_entries cache targets m !! k
  = match loaded cache (snd target) with
    | Some (Some qs) => Some qs
    | _ => m !! k
    end.
Proof.
  induction targets as [|[project f] targets IH]; intros m target k Hnd Hin Hk.
  - apply elem_of_nil in Hin. contradiction.
  - rewrite cache_entries_cons. rewrite fingerprints_cons in Hnd. cbn [snd] in Hnd |- *.
    apply elem_of_cons in Hin as [->|Hin].
    + cbn [snd] in *. rewrite Hk in *. apply NoDup_cons in Hnd as [Hfresh _].
      rewrite (cache_entries_other _ _ _ _ Hfresh).
      destruct (loaded cache f) as [[qs|]|]; try reflexivity. apply lookup_insert_eq.
    + assert (Hmem : k ∈ fingerprints targets).
      { unfold fingerprints. apply list_elem_of_omap. exists target. auto. }
      destruct (_cache_key f) as [k0|] eqn:Hk0.
      * apply NoDup_cons in Hnd as [Hfresh Hnd].
        rewrite (IH _ target k Hnd Hin Hk).
        destruct (loaded cache (snd target)) as [[qs|]|]; try reflexivity;
          destruct (loaded cache f) as [[qs0|]|]; try reflexivity;
          apply lookup_insert_ne; congruence.
      * apply (IH _ target k Hnd Hin Hk).
Qed.

Lemma cache_entries_elem cache targets : forall m k qs,
  cache_entries cache targets m !! k = Some qs ->
  m !! k = Some qs
  \/ exists target, target ∈ targets /\ _cache_key (snd target) = Some k
                    /\ loaded cache (snd target) = Some (Some qs).
Proof.
  induction targets as [|[project f] targets IH]; intros m k qs Hlook; [left; exact Hlook|].
  rewrite cache_entries_cons in Hlook. cbn [snd] in Hlook.
  apply IH in Hlook as [Hlook|(target & Hin & Hk & Hl)].
  - destruct (_cache_key f) as [k0|] eqn:Hk0; [|left; exact Hlook].
    destruct (loaded cache f) as [[qs0|]|] eqn:Hl0; try (left; exact Hlook).
    destruct (decide (k0 = k)) as [->|Hne].
    + rewrite lookup_insert_eq in Hlook. injection Hlook as ->.
      right. exists (project, f). split; [left|]. auto.
    + rewrite lookup_insert_ne in Hlook by exact Hne. left. exact Hlook.
  - right. exists target. split; [right; exact Hin|]. auto.
Qed.

(** A scan that starts from the cache a first scan wrote obtains the same
    queries for every file. *)
Lemma loaded_again cache targets target :
  NoDup (fingerprints targets) ->
  is_Some (loaded cache (snd target)) ->
  target ∈ targets ->
  loaded (cache_entries cache targets ∅) (snd target) = loaded cache (snd target).
Proof.
  intros Hnd [queries Hloaded] Hin. rewrite Hloaded.
  destruct (_cache_key (snd target)) as [k|] eqn:Hk.
  - pose proof (cache_entries_lookup cache targets ∅ target k Hnd Hin Hk) as Hnew.
    rewrite Hloaded in Hnew. destruct queries as [qs|].
    + apply (loaded_hit _ _ k qs Hk Hnew).
    + rewrite lookup_empty in Hnew.
      rewrite loaded_miss by (apply cache_hit_None; intros k' Hk'; congruence).
      rewrite <- Hloaded. symmetry. apply loaded_miss, loaded_skip_miss, Hloaded.
  - assert (Hmiss : forall c, lookup_key c (_cache_key (snd target)) = None)
      by (intros c; rewrite Hk; reflexivity).
    rewrite loaded_miss by apply Hmiss. rewrite <- Hloaded. symmetry.
    apply loaded_miss, Hmiss.
Qed.

Lemma cache_entries_same cache1 cache2 targets :
  (forall target, target ∈ targets ->
     loaded cache2 (snd target) = loaded cache1 (snd target)) ->
  forall m, cache_entries cache2 targets m = cache_entries cache1 targets m.
Proof.
  unfold cache_entries.
  induction targets as [|target targets IH]; intros Hsame m; [reflexivity|].
  cbn [fold_left]. rewrite (Hsame target) by left.
  apply IH. intros target' Hin. apply Hsame. right. exact Hin.
Qed.

(** ** Fingerprints identify paths *)

Lemma string_app_nil (s : string) : EmptyString +:+ s = s.
Proof. reflexivity. Qed.

Lemma string_app_cons (x : ascii) (a s : string) : String x a +:+ s = String x (a +:+ s).
Proof. reflexivity. Qed.

Lemma string_app_assoc (a b c : string) : (a +:+ b) +:+ c = a +:+ (b +:+ c).
Proof.
  induction a as [|x a IH]; [reflexivity|].
  change (String x ((a +:+ b) +:+ c) = String x (a +:+ (b +:+ c))).
  rewrite IH. reflexivity.
Qed.

Lemma colon_free_app_colon (a b : string) : colon_free (a +:+ String ":" b) = false.
Proof.
  induction a as [|x a IH]; [reflexivity|].
  change (negb (Ascii.eqb x ":") && colon_free (a +:+ String ":" b) = false).
  rewrite IH. apply andb_false_r.
Qed.

Lemma string_of_uint_colon_free d : colon_free (NilEmpty.string_of_uint d) = true.
Proof. induction d; cbn; auto. Qed.

Lemma str_of_int_colon_free n : colon_free (Py.str_of_int n) = true.
Proof.
  unfold Py.str_of_int, NilZero.string_of_int, NilZero.string_of_uint.
  destruct (Z.to_int n) as [u|u]; destruct u; cbn; auto using string_of_uint_colon_free.
Qed.

(** A text is cut in one way only at its last colon. *)
Lemma split_last_colon (a a' b b' : string) :
  colon_free b = true -> colon_free b' = true ->
  a +:+ String ":" b = a' +:+ String ":" b' -> a = a' /\ b = b'.
Proof.
  intros Hb Hb'. revert a'. induction a as [|x a IH]; intros [|x' a'] Heq;
    repeat (rewrite string_app_nil in Heq || rewrite string_app_cons in Heq).
  - injection Heq as ->. split; reflexivity.
  - injection Heq as <- ->. rewrite colon_free_app_colon in Hb. discriminate.
  - injection Heq as -> <-. rewrite colon_free_app_colon in Hb'. discriminate.
  - injection Heq as -> Heq. destruct (IH _ Heq) as [-> ->]. split; reflexivity.
Qed.

Lemma cache_key_path f g k :
  _cache_key f = Some k -> _cache_key g = Some k -> f_path f = f_path g.
Proof.
  unfold _cache_key.
  destruct (f_stat f) as [[mf sf]|]; [|discriminate].
  destruct (f_stat g) as [[mg sg]|]; [|discriminate].
  intros [= <-] [= Heq].
  change (f_path g +:+ (String ":" EmptyString +:+ Py.str_of_int mg)
            +:+ String ":" (Py.str_of_int sg)
          = f_path f +:+ (String ":" EmptyString +:+ Py.str_of_int mf)
            +:+ String ":" (Py.str_of_int sf)) in Heq.
  rewrite <- !string_app_assoc in Heq.
  apply split_last_colon in Heq as [Heq _]; try apply str_of_int_colon_free.
  rewrite !string_app_assoc in Heq.
  change (f_path g +:+ String ":" (Py.str_of_int mg)
          = f_path f +:+ String ":" (Py.str_of_int mf)) in Heq.
  apply split_last_colon in Heq as [Heq _]; try apply str_of_int_colon_free.
  symmetry. exact Heq.
Qed.

Lemma fingerprints_elem targets k :
  k ∈ fingerprints targets <->
  exists target, target ∈ targets /\ _cache_key (snd target) = Some k.
Proof. unfold fingerprints. apply list_elem_of_omap. Qed.

(** Files with distinct paths have distinct fingerprints. *)
Lemma fingerprints_NoDup targets : NoDup (paths targets) -> NoDup (fingerprints targets).
Proof.
  induction targets as [|target targets IH]; [intros _; apply NoDup_nil_2|].
  unfold paths. cbn [map]. fold (paths targets). rewrite fingerprints_cons.
  intros Hnd. apply NoDup_cons in Hnd as [Hfresh Hnd].
  destruct (_cache_key (snd target)) as [k|] eqn:Hk; [|apply IH, Hnd].
  apply NoDup_cons. split; [|apply IH, Hnd].
  intros Hin. apply fingerprints_elem in Hin as (target' & Hin & Hk').
  apply Hfresh. rewrite (cache_key_path _ _ _ Hk Hk').
  unfold paths. apply (list_elem_of_fmap_2 (fun t => f_path (snd t))), Hin.
Qed.

(** ** A completed scan *)

Lemma scanned_files_nil d :
  (forall entries, dk_projects d <> Some (Some entries)) -> scanned_files d = [].
Proof.
  unfold scanned_files. destruct (dk_projects d) as [[entries|]|]; try reflexivity.
  intros H. exfalso. apply (H entries). reflexivity.
Qed.

(** Without a projects directory that can be listed, the scan returns
    the empty result and touches nothing. *)
Lemma parse_all_sessions_no_listing {py : interpreter} d force_refresh :
  (forall entries, dk_projects d <> Some (Some entries)) ->
  parse_all_sessions py d force_refresh
  = Some {| result := _empty_result; disk_after := d; parsed_files := [] |}.
Proof.
  unfold parse_all_sessions. destruct (dk_projects d) as [[entries|]|]; try reflexivity.
  intros H. exfalso. apply (H entries). reflexivity.
Qed.

(** With one, a scan that completes has run the loop over the files and
    built the snapshot from the state the loop left. *)
Lemma parse_all_sessions_completed {py : interpreter} d force_refresh o entries :
  dk_projects d = Some (Some entries) ->
  parse_all_sessions py d force_refresh = Some o ->
  exists st,
    for_each (scan_target (loaded_cache d force_refresh) (history_of d))
      initial_state (scanned_files d) = Some st
    /\ build_snapshot py st = Some (result o)
    /\ disk_after o = _save_cache (st_new_cache st) d
    /\ parsed_files o = st_parsed st.
Proof.
  intros Hentries Hrun.
  destruct (@parse_all_sessions_entries py d force_refresh entries Hentries) as [Hraise|Heq];
    [congruence|]. rewrite Heq in Hrun.
  destruct (for_each _ _ _) as [st|] eqn:Hloop; [|discriminate].
  cbn [mbind option_bind] in Hrun.
  destruct (build_snapshot py st) as [snapshot|] eqn:Hsnap; [|discriminate].
  cbn [mbind option_bind] in Hrun. injection Hrun as <-. exists st.
  repeat split; first [reflexivity|assumption].
Qed.

Lemma save_cache_projects new_cache d :
  dk_projects (_save_cache new_cache d) = dk_projects d
  /\ dk_history (_save_cache new_cache d) = dk_history d
  /\ dk_cache_writable (_save_cache new_cache d) = dk_cache_writable d.
Proof. unfold _save_cache. destruct (dk_cache_writable d) eqn:Hw; cbn; auto. Qed.

Lemma disk_after_tree {py : interpreter} d force_refresh o :
  parse_all_sessions py d force_refresh = Some o ->
  scanned_files (disk_after o) = scanned_files d
  /\ history_of (disk_after o) = history_of d
  /\ dk_projects (disk_after o) = dk_projects d
  /\ dk_cache_writable (disk_after o) = dk_cache_writable d.
Proof.
  intros Hrun. destruct (dk_projects d) as [[entries|]|] eqn:Hp.
  - destruct (parse_all_sessions_completed _ _ _ _ Hp Hrun) as (st & _ & _ & -> & _).
    destruct (save_cache_projects (st_new_cache st) d) as (Hp' & Hh & Hw).
    unfold scanned_files, history_of. rewrite Hp', Hh, Hw, Hp. auto.
  - rewrite parse_all_sessions_no_listing in Hrun by (rewrite Hp; discriminate).
    injection Hrun as <-. cbn. auto.
  - rewrite parse_all_sessions_no_listing in Hrun by (rewrite Hp; discriminate).
    injection Hrun as <-. cbn. auto.
Qed.

(** The cache a completed scan saves, when the write succeeds. *)
Lemma saved_cache {py : interpreter} d force_refresh o entries :
  dk_projects d = Some (Some entries) ->
  dk_cache_writable d = true ->
  parse_all_sessions py d force_refresh = Some o ->
  loaded_cache (disk_after o) false
  = cache_entries (loaded_cache d force_refresh) (scanned_files d) ∅
  /\ dk_cache (disk_after o) = Some (CacheObject (loaded_cache (disk_after o) false))
  /\ parsed_files o = parse_log (loaded_cache d force_refresh) (scanned_files d)
  /\ Forall (fun target => is_Some (loaded (loaded_cache d force_refresh) (snd target)))
       (scanned_files d).
Proof.
  intros Hp Hw Hrun.
  destruct (parse_all_sessions_completed _ _ _ _ Hp Hrun) as (st & Hloop & _ & -> & ->).
  destruct (scan_targets_state _ _ _ _ _ Hloop) as (Hcache & Hlog & Hall).
  unfold _save_cache, loaded_cache, scan_cache, _load_cache. rewrite Hw. cbn.
  rewrite Hcache, Hlog. auto.
Qed.

Lemma NoDup_paths_eq targets target target' :
  NoDup (paths targets) -> target ∈ targets -> target' ∈ targets ->
  f_path (snd target) = f_path (snd target') -> target = target'.
Proof.
  unfold paths. induction targets as [|t targets IH]; intros Hnd Hin Hin' Hpath.
  - apply elem_of_nil in Hin. contradiction.
  - cbn [map] in Hnd. apply NoDup_cons in Hnd as [Hfresh Hnd].
    apply elem_of_cons in Hin as [->|Hin]; apply elem_of_cons in Hin' as [->|Hin'].
    + reflexivity.
    + exfalso. apply Hfresh. rewrite Hpath.
      apply (list_elem_of_fmap_2 (fun t => f_path (snd t))), Hin'.
    + exfalso. apply Hfresh. rewrite <- Hpath.
      apply (list_elem_of_fmap_2 (fun t => f_path (snd t))), Hin.
    + apply IH; assumption.
Qed.

Lemma parse_log_elem cache targets target :
  NoDup (paths targets) -> target ∈ targets ->
  f_path (snd target) ∈ parse_log cache targets <-> is_hit cache (snd target) = false.
Proof.
  intros Hnd Hin. unfold parse_log. split.
  - intros Hlog. apply list_elem_of_fmap in Hlog as (target' & Hpath & Hin').
    apply list_elem_of_filter in Hin' as [Hmiss Hin'].
    rewrite (NoDup_paths_eq _ _ _ Hnd Hin Hin' Hpath). exact Hmiss.
  - intros Hmiss. apply (list_elem_of_fmap_2 (fun t => f_path (snd t))).
    apply list_elem_of_filter. auto.
Qed.

(** After a scan, a file has an entry in the saved cache exactly when
    the scan obtained queries for it and it has a fingerprint. *)
Lemma is_hit_saved cache targets target :
  NoDup (fingerprints targets) ->
  is_Some (loaded cache (snd target)) ->
  target ∈ targets ->
  is_hit (cache_entries cache targets ∅) (snd target) = false
  <-> _cache_key (snd target) = None \/ loaded cache (snd target) = Some None.
Proof.
  intros Hnd [queries Hloaded] Hin. rewrite is_hit_false, cache_hit_None.
  destruct (_cache_key (snd target)) as [k|] eqn:Hk.
  - pose proof (cache_entries_lookup cache targets ∅ target k Hnd Hin Hk) as Hnew.
    rewrite Hloaded in Hnew. destruct queries as [qs|].
    + split.
      * intros H. specialize (H k eq_refl). congruence.
      * intros [[=]|Hskip]. congruence.
    + rewrite lookup_empty in Hnew. split; [intros _; right; exact Hloaded|].
      intros _ k' [= <-]. exact Hnew.
  - split; [intros _; left; reflexivity|]. intros _ k [=].
Qed.

(** The scan that follows a completed scan whose cache write
    succeeded. *)
Lemma rescan_step {py : interpreter} d force_refresh o1 :
  parse_all_sessions py d force_refresh = Some o1 ->
  dk_cache_writable d = true ->
  NoDup (paths (scanned_files d)) ->
  exists o2,
    parse_all_sessions py (disk_after o1) false = Some o2
    /\ result o2 = result o1
    /\ disk_after o2 = disk_after o1
    /\ parsed_files o2 = parse_log (loaded_cache (disk_after o1) false) (scanned_files d)
    /\ forall target, target ∈ scanned_files d ->
         is_hit (loaded_cache (disk_after o1) false) (snd target) = false
         <-> _cache_key (snd target) = None
             \/ loaded (loaded_cache d force_refresh) (snd target) = Some None.
Proof.
  intros Hrun Hw Hnd.
  destruct (dk_projects d) as [[entries|]|] eqn:Hp.
  2,3: rewrite parse_all_sessions_no_listing in Hrun by (rewrite Hp; discriminate);
       injection Hrun as <-; cbn [disk_after result parsed_files];
       rewrite scanned_files_nil by (rewrite Hp; discriminate);
       eexists; split;
         [apply parse_all_sessions_no_listing; rewrite Hp; discriminate|];
       cbn; repeat (split; [reflexivity|]);
       intros target Hin; apply elem_of_nil in Hin; contradiction.
  apply fingerprints_NoDup in Hnd as Hfp.
  destruct (saved_cache _ _ _ _ Hp Hw Hrun) as (Hsaved & Hdisk & _ & Hall).
  destruct (parse_all_sessions_completed _ _ _ _ Hp Hrun) as (st1 & Hloop & Hsnap & Hafter & _).
  destruct (disk_after_tree _ _ _ Hrun) as (Hfiles & Hhist & Hp' & Hw').
  rewrite Hp in Hp'. rewrite Hw in Hw'.
  set (cache := loaded_cache d force_refresh) in *.
  set (saved := loaded_cache (disk_after o1) false) in *.
  assert (Hsame : forall target, target ∈ scanned_files d ->
            loaded saved (snd target) = loaded cache (snd target)).
  { intros target Hin. rewrite Hsaved. apply loaded_again; [exact Hfp| |exact Hin].
    rewrite Forall_forall in Hall. apply Hall, Hin. }
  destruct (scan_simulation cache saved (history_of d) (scanned_files d) Hsame
              initial_state initial_state st1 eq_refl Hloop) as (st2 & Hloop2 & Hroll).
  destruct (scan_targets_state _ _ _ _ _ Hloop2) as (Hcache2 & Hlog2 & _).
  assert (Hnew : st_new_cache st2 = saved).
  { rewrite Hcache2. cbn [initial_state st_new_cache].
    rewrite (cache_entries_same cache saved _ Hsame). symmetry. exact Hsaved. }
  exists {| result := result o1;
            disk_after := _save_cache (st_new_cache st2) (disk_after o1);
            parsed_files := st_parsed st2 |}.
  split; [|split; [reflexivity|split; [|split]]].
  - assert (Hobject : cache_is_object (disk_after o1) = true)
      by (unfold cache_is_object; rewrite Hdisk; reflexivity).
    rewrite (parse_all_sessions_scan _ _ _ (or_intror Hobject) Hp'). fold saved.
    rewrite Hhist, Hfiles, Hloop2. cbn [mbind option_bind].
    rewrite <- build_snapshot_rollups, Hroll, build_snapshot_rollups, Hsnap. reflexivity.
  - cbn [disk_after]. rewrite Hnew. unfold _save_cache. rewrite Hw'.
    destruct (disk_after o1) as [projects history cache_file writable] eqn:Hd.
    cbn in *. subst saved. cbn in Hdisk. rewrite Hdisk. subst writable. reflexivity.
  - cbn [parsed_files]. rewrite Hlog2. reflexivity.
  - intros target Hin. subst saved. rewrite Hsaved. apply is_hit_saved; [exact Hfp| |exact Hin].
    rewrite Forall_forall in Hall. apply Hall, Hin.
Qed.

(** ** Re-scanning an unchanged tree *)

Lemma loaded_skip_iff cache f :
  loaded cache f = Some None <-> is_hit cache f = false /\ skipped f = true.
Proof.
  unfold skipped. split.
  - intros Hskip. pose proof (loaded_skip_miss _ _ Hskip) as Hmiss.
    rewrite (loaded_miss _ _ Hmiss) in Hskip. rewrite Hskip.
    split; [apply is_hit_false; exact Hmiss|reflexivity].
  - intros [Hmiss Hskip]. apply is_hit_false in Hmiss. rewrite (loaded_miss _ _ Hmiss).
    destruct (parse_result f) as [[qs|]|]; first [discriminate|reflexivity].
Qed.

Lemma left_uncached_iff cache f :
  left_uncached cache f = true
  <-> _cache_key f = None \/ loaded cache f = Some None.
Proof.
  unfold left_uncached. rewrite loaded_skip_iff.
  destruct (_cache_key f) as [k|].
  - rewrite andb_true_iff, negb_true_iff. split; [intros H; right; exact H|].
    intros [[=]|H]. exact H.
  - split; [intros _; left; reflexivity|reflexivity].
Qed.

Lemma filter_agree {A : Type} (P Q : A -> Prop) `{!forall x, Decision (P x)}
    `{!forall x, Decision (Q x)} (l : list A) :
  (forall x, x ∈ l -> P x <-> Q x) -> filter P l = filter Q l.
Proof.
  induction l as [|x l IH]; intros Hagree; [reflexivity|].
  rewrite !filter_cons. rewrite IH by (intros y Hy; apply Hagree; right; exact Hy).
  destruct (decide (P x)) as [HP|HP], (decide (Q x)) as [HQ|HQ]; try reflexivity;
    exfalso; apply (Hagree x ltac:(left)) in HP || apply HP, (Hagree x ltac:(left)), HQ;
    contradiction.
Qed.

Lemma filter_none {A : Type} (P : A -> Prop) `{!forall x, Decision (P x)} (l : list A) :
  (forall x, x ∈ l -> ~ P x) -> filter P l = [].
Proof.
  induction l as [|x l IH]; intros Hnone; [reflexivity|].
  rewrite filter_cons_False by (apply Hnone; left).
  apply IH. intros y Hy. apply Hnone. right. exact Hy.
Qed.

(** C9, as the code has it.  After a completed scan whose cache write
    succeeded, a second scan of the unchanged tree (files with distinct
    paths) completes with the same snapshot and leaves the same cache; it
    serves from the cache every file for which the first scan recorded
    queries, and parses again exactly the files the first scan left
    without a cache entry: those without a fingerprint, and those that
    were parsed and skipped because they could not be read or held no
    assistant record.  When there is no such file it parses nothing. *)
Theorem rescan_unchanged (py : interpreter) (d : disk) (force_refresh : bool) (o1 : outcome) :
  parse_all_sessions py d force_refresh = Some o1 ->
  dk_cache_writable d = true ->
  NoDup (paths (scanned_files d)) ->
  exists o2,
    parse_all_sessions py (disk_after o1) false = Some o2
    /\ result o2 = result o1
    /\ disk_after o2 = disk_after o1
    /\ parsed_files o2
       = paths (filter (fun target =>
                          left_uncached (loaded_cache d force_refresh) (snd target) = true)
                  (scanned_files d))
    /\ ((forall target, target ∈ scanned_files d ->
           left_uncached (loaded_cache d force_refresh) (snd target) = false) ->
        parsed_files o2 = []).
Proof.
  intros Hrun Hw Hnd.
  destruct (rescan_step d force_refresh o1 Hrun Hw Hnd)
    as (o2 & Hrun2 & Hresult & Hdisk & Hlog & Hmiss).
  assert (Hparsed : parsed_files o2
            = paths (filter (fun target =>
                               left_uncached (loaded_cache d force_refresh) (snd target)
                               = true) (scanned_files d))).
  { rewrite Hlog. unfold parse_log, paths. f_equal. apply filter_agree.
    intros target Hin. rewrite left_uncached_iff. apply Hmiss, Hin. }
  exists o2. repeat (split; [assumption|]).
  intros Hnone. rewrite Hparsed.
  rewrite filter_none; [reflexivity|].
  intros target Hin. rewrite (Hnone target Hin). discriminate.
Qed.

Lemma rescan_unchanged_witness :
  parse_all_sessions SampleDisk.python SampleDisk.two_files false = Some SampleDisk.first_scan
  /\ exists o2,
       parse_all_sessions SampleDisk.python (disk_after SampleDisk.first_scan) false = Some o2
       /\ result o2 = result SampleDisk.first_scan
       /\ disk_after o2 = disk_after SampleDisk.first_scan
       /\ parsed_files o2
          = paths (filter (fun target =>
                             left_uncached (loaded_cache SampleDisk.two_files false)
                               (snd target) = true)
                     (scanned_files SampleDisk.two_files))
       /\ ((forall target, target ∈ scanned_files SampleDisk.two_files ->
              left_uncached (loaded_cache SampleDisk.two_files false) (snd target) = false) ->
           parsed_files o2 = []).
Proof.
  split; [vm_compute; reflexivity|].
  apply (rescan_unchanged SampleDisk.python SampleDisk.two_files false SampleDisk.first_scan).
  - vm_compute; reflexivity.
  - reflexivity.
  - apply (bool_decide_unpack _). vm_compute. exact I.
Defined.

(** C9, as stated, fails: the second scan of an unchanged tree parses
    again the file that holds no assistant record. *)
Lemma rescan_reparses_counterexample :
  parse_all_sessions SampleDisk.python SampleDisk.two_files false = Some SampleDisk.first_scan
  /\ exists o2,
       parse_all_sessions SampleDisk.python (disk_after SampleDisk.first_scan) false = Some o2
       /\ result o2 = result SampleDisk.first_scan
       /\ parsed_files o2 = [f_path SampleDisk.quiet_file]
       /\ parsed_files o2 <> [].
Proof.
  split; [vm_compute; reflexivity|].
  eexists. split; [vm_compute; reflexivity|].
  split; [vm_compute; reflexivity|]. split; [vm_compute; reflexivity|]. discriminate.
Qed.

(** ** The cache a scan saves *)

(** C6, as the code has it.  For a completed scan of a projects
    directory whose cache write succeeded (files with distinct paths):
    a file whose fingerprint is in the loaded cache is not parsed, its
    stored query list is the one the scan uses, and it is stored under the
    same fingerprint in the saved cache; a file that is not served from
    the cache is parsed, and its queries are stored under its fingerprint
    when it has one and the parse gave at least one assistant record,
    while nothing is stored for it when it could not be parsed or held no
    assistant record; and the saved cache holds exactly the fingerprints
    of the scanned files that were served from the cache or parsed into
    at least one assistant record, so no fingerprint of another file
    survives. *)
Theorem scan_cache_behaviour (py : interpreter) (d : disk) (force_refresh : bool) (o : outcome)
    (entries : list project_entry) :
  dk_projects d = Some (Some entries) ->
  parse_all_sessions py d force_refresh = Some o ->
  dk_cache_writable d = true ->
  NoDup (paths (scanned_files d)) ->
  let cache := loaded_cache d force_refresh in
  let saved := loaded_cache (disk_after o) false in
  dk_cache (disk_after o) = Some (CacheObject saved)
  /\ (forall target k qs,
        target ∈ scanned_files d -> _cache_key (snd target) = Some k ->
        cache !! k = Some qs ->
        loaded cache (snd target) = Some (Some qs)
        /\ (f_path (snd target) ∉ parsed_files o)
        /\ saved !! k = Some qs)
  /\ (forall target,
        target ∈ scanned_files d -> is_hit cache (snd target) = false ->
        f_path (snd target) ∈ parsed_files o
        /\ loaded cache (snd target) = parse_result (snd target)
        /\ forall k, _cache_key (snd target) = Some k ->
             saved !! k = match parse_result (snd target) with
                          | Some (Some qs) => Some qs
                          | _ => None
                          end)
  /\ (forall k,
        is_Some (saved !! k)
        <-> (exists target, target ∈ scanned_files d
                            /\ _cache_key (snd target) = Some k
                            /\ left_uncached cache (snd target) = false)).
Proof.
  intros Hp Hrun Hw Hnd cache saved.
  apply fingerprints_NoDup in Hnd as Hfp.
  destruct (saved_cache _ _ _ _ Hp Hw Hrun) as (Hsaved & Hdisk & Hlog & Hall).
  fold cache in Hsaved, Hlog, Hall. fold saved in Hsaved, Hdisk.
  rewrite Forall_forall in Hall.
  split; [exact Hdisk|]. split; [|split].
  - intros target k qs Hin Hk Hc.
    pose proof (loaded_hit _ _ _ _ Hk Hc) as Hloaded. split; [exact Hloaded|]. split.
    + rewrite Hlog, (parse_log_elem _ _ _ Hnd Hin).
      assert (Hhit : is_hit cache (snd target) = true) by (apply is_hit_true; eauto).
      rewrite Hhit. discriminate.
    + rewrite Hsaved, (cache_entries_lookup _ _ _ _ _ Hfp Hin Hk), Hloaded. reflexivity.
  - intros target Hin Hmiss.
    pose proof (loaded_miss _ _ (proj1 (is_hit_false _ _) Hmiss)) as Hloaded.
    split; [rewrite Hlog; apply (parse_log_elem _ _ _ Hnd Hin), Hmiss|].
    split; [exact Hloaded|].
    intros k Hk. rewrite Hsaved, (cache_entries_lookup _ _ _ _ _ Hfp Hin Hk), Hloaded.
    destruct (parse_result (snd target)) as [[qs|]|]; first [reflexivity|apply lookup_empty].
  - intros k. rewrite Hsaved. split.
    + intros [qs Hlook]. apply cache_entries_elem in Hlook as [Hlook|(target & Hin & Hk & Hl)].
      * rewrite lookup_empty in Hlook. discriminate.
      * exists target. repeat (split; [assumption|]).
        destruct (left_uncached cache (snd target)) eqn:Hleft; [|reflexivity].
        apply left_uncached_iff in Hleft as [Hnone|Hskip]; congruence.
    + intros (target & Hin & Hk & Hleft).
      rewrite (cache_entries_lookup _ _ _ _ _ Hfp Hin Hk).
      destruct (Hall target Hin) as [[qs|] Hloaded]; rewrite Hloaded; [eauto|].
      assert (Htrue : left_uncached cache (snd target) = true)
        by (apply left_uncached_iff; right; exact Hloaded).
      congruence.
Qed.

Lemma scan_cache_behaviour_witness :
  let d := SampleDisk.two_files in
  let o := SampleDisk.first_scan in
  let cache := loaded_cache d false in
  let saved := loaded_cache (disk_after o) false in
  parse_all_sessions SampleDisk.python d false = Some o
  /\ dk_cache (disk_after o) = Some (CacheObject saved)
  /\ (forall target k qs,
        target ∈ scanned_files d -> _cache_key (snd target) = Some k ->
        cache !! k = Some qs ->
        loaded cache (snd target) = Some (Some qs)
        /\ (f_path (snd target) ∉ parsed_files o)
        /\ saved !! k = Some qs)
  /\ (forall target,
        target ∈ scanned_files d -> is_hit cache (snd target) = false ->
        f_path (snd target) ∈ parsed_files o
        /\ loaded cache (snd target) = parse_result (snd target)
        /\ forall k, _cache_key (snd target) = Some k ->
             saved !! k = match parse_result (snd target) with
                          | Some (Some qs) => Some qs
                          | _ => None
                          end)
  /\ (forall k,
        is_Some (saved !! k)
        <-> (exists target, target ∈ scanned_files d
                            /\ _cache_key (snd target) = Some k
                            /\ left_uncached cache (snd target) = false)).
Proof.
  intros d o cache saved. split; [vm_compute; reflexivity|].
  apply (scan_cache_behaviour SampleDisk.python d false o
           [ {| pe_name := "p"; pe_is_dir := true;
                pe_files := Some [SampleDisk.session_file; SampleDisk.quiet_file] |} ]).
  - reflexivity.
  - vm_compute; reflexivity.
  - reflexivity.
  - apply (bool_decide_unpack _). vm_compute. exact I.
Defined.

(** C6, as stated, fails: the file that holds no assistant record is not
    in the loaded cache and is parsed, yet the saved cache is empty, so
    its fingerprint is not among the saved ones. *)
Lemma scan_cache_counterexample :
  parse_all_sessions SampleDisk.python SampleDisk.quiet_only false = Some SampleDisk.quiet_scan
  /\ scanned_files SampleDisk.quiet_only = [("p"%string, SampleDisk.quiet_file)]
  /\ is_hit (loaded_cache SampleDisk.quiet_only false) SampleDisk.quiet_file = false
  /\ parsed_files SampleDisk.quiet_scan = [f_path SampleDisk.quiet_file]
  /\ is_Some (parse_jsonl_file (f_content SampleDisk.quiet_file))
  /\ is_Some (_cache_key SampleDisk.quiet_file)
  /\ dk_cache (disk_after SampleDisk.quiet_scan) = Some (CacheObject ∅)
  /\ ~ exists k qs,
        _cache_key SampleDisk.quiet_file = Some k
        /\ loaded_cache (disk_after SampleDisk.quiet_scan) false !! k = Some qs.
Proof.
  split; [vm_compute; reflexivity|]. split; [vm_compute; reflexivity|].
  split; [vm_compute; reflexivity|]. split; [vm_compute; reflexivity|].
  split; [vm_compute; eauto|]. split; [vm_compute; eauto|].
  split; [vm_compute; reflexivity|].
  intros (k & qs & _ & Hlook).
  change (loaded_cache (disk_after SampleDisk.quiet_scan) false)
    with (∅ : gmap string (list Query)) in Hlook.
  rewrite lookup_empty in Hlook. discriminate.
Qed.

(** ** Files without assistant records *)


Lemma scan_log {py : interpreter} d force_refresh o :
  parse_all_sessions py d force_refresh = Some o ->
  parsed_files o = parse_log (loaded_cache d force_refresh) (scanned_files d).
Proof.
  intros Hrun. destruct (dk_projects d) as [[entries|]|] eqn:Hp.
  - destruct (parse_all_sessions_completed _ _ _ _ Hp Hrun) as (st & Hloop & _ & _ & ->).
    destruct (scan_targets_state _ _ _ _ _ Hloop) as (_ & -> & _). reflexivity.
  - rewrite parse_all_sessions_no_listing in Hrun by (rewrite Hp; discriminate).
    injection Hrun as <-. rewrite scanned_files_nil by (rewrite Hp; discriminate).
    reflexivity.
  - rewrite parse_all_sessions_no_listing in Hrun by (rewrite Hp; discriminate).
    injection Hrun as <-. rewrite scanned_files_nil by (rewrite Hp; discriminate).
    reflexivity.
Qed.









(** ** Sums *)

Lemma sum_from {A : Type} (f : A -> Z) (l : list A) : forall a,
  fold_left (fun acc x => (acc + f x)%Z) l a = (a + sum_with f l)%Z.
Proof.
  unfold sum_with. induction l as [|x l IH]; intros a; cbn [fold_left]; [lia|].
  rewrite (IH (a + f x)%Z), (IH (0 + f x)%Z). lia.
Qed.

Lemma sum_with_nil {A : Type} (f : A -> Z) : sum_with f [] = 0%Z.
Proof. reflexivity. Qed.

Lemma sum_with_cons {A : Type} (f : A -> Z) (x : A) (l : list A) :
  sum_with f (x :: l) = (f x + sum_with f l)%Z.
Proof. unfold sum_with at 1. cbn [fold_left]. rewrite sum_from. lia. Qed.

Lemma sum_with_app {A : Type} (f : A -> Z) (l1 l2 : list A) :
  sum_with f (l1 ++ l2) = (sum_with f l1 + sum_with f l2)%Z.
Proof.
  induction l1 as [|x l1 IH]; cbn [app]; [rewrite sum_with_nil; lia|].
  rewrite !sum_with_cons, IH. lia.
Qed.

Lemma sum_with_add {A : Type} (f g : A -> Z) (l : list A) :
  sum_with (fun x => (f x + g x)%Z) l = (sum_with f l + sum_with g l)%Z.
Proof.
  induction l as [|x l IH]; [reflexivity|]. rewrite !sum_with_cons, IH. lia.
Qed.

Lemma sum_with_ext {A : Type} (f g : A -> Z) (l : list A) :
  Forall (fun x => f x = g x) l -> sum_with f l = sum_with g l.
Proof.
  induction 1 as [|x l Hx _ IH]; [reflexivity|]. rewrite !sum_with_cons, Hx, IH. reflexivity.
Qed.

Lemma sum_with_perm {A : Type} (f : A -> Z) (l1 l2 : list A) :
  l1 ≡ₚ l2 -> sum_with f l1 = sum_with f l2.
Proof.
  induction 1 as [|x l1 l2 _ IH|x y l|l1 l2 l3 _ IH1 _ IH2];
    rewrite ?sum_with_cons; lia.
Qed.

Lemma insert_sorted_perm {A : Type} (before : A -> A -> bool) (x : A) (l : list A) :
  insert_sorted before x l ≡ₚ x :: l.
Proof.
  induction l as [|y l IH]; cbn [insert_sorted]; [reflexivity|].
  destruct (before x y); [reflexivity|]. rewrite IH. apply Permutation_swap.
Qed.

(** The sort keeps the elements. *)
Lemma sorted_perm {A : Type} (before : A -> A -> bool) (l : list A) :
  sorted before l ≡ₚ l.
Proof.
  unfold sorted. induction l as [|x l IH]; cbn [foldr]; [reflexivity|].
  rewrite insert_sorted_perm, IH. reflexivity.
Qed.

Lemma sum_with_od_set {K V : Type} `{EqDecision K} (f : V -> Z) (k : K) (v : V)
    (d : list (K * V)) :
  sum_with f (od_values (od_set k v d))
  = (sum_with f (od_values d) + f v - default 0 (f <$> od_get k d))%Z.
Proof.
  unfold od_values. induction d as [|[k' v'] d IH]; cbn [od_set od_get map snd].
  - rewrite sum_with_cons, sum_with_nil. cbn. lia.
  - destruct (decide (k = k')) as [->|Hne]; cbn [map snd fmap option_fmap option_map default].
    + rewrite !sum_with_cons. unfold id. lia.
    + rewrite !sum_with_cons, IH. lia.
Qed.

(** ** What a session adds to the rollups *)

Lemma add_model_sum model_map q :
  sum_with mm_totalTokens (od_values (add_model model_map q))
  = (sum_with mm_totalTokens (od_values model_map)
     + if billed q then q_totalTokens q else 0)%Z.
Proof.
  unfold add_model, billed.
  destruct (bool_decide (q_model q = Some "<synthetic>"%string)
            || bool_decide (q_model q = Some "unknown"%string)); cbn [negb]; [lia|].
  rewrite sum_with_od_set. cbn [mm_totalTokens].
  destruct (od_get (q_model q) model_map); cbn; lia.
Qed.

Lemma add_models_sum queries : forall model_map,
  sum_with mm_totalTokens (od_values (fold_left add_model queries model_map))
  = (sum_with mm_totalTokens (od_values model_map)
     + sum_with q_totalTokens (filter (fun q => billed q = true) queries))%Z.
Proof.
  induction queries as [|q queries IH]; intros model_map; cbn [fold_left].
  - rewrite filter_nil, sum_with_nil. lia.
  - rewrite IH, add_model_sum, filter_cons.
    destruct (billed q); [rewrite decide_True by reflexivity|rewrite decide_False by discriminate];
      rewrite ?sum_with_cons; lia.
Qed.

Lemma add_daily_sum daily_map date input_tokens output_tokens cache_creation_tokens
    cache_read_tokens total_tokens cost n_queries :
  sum_with d_totalTokens
    (od_values (add_daily daily_map date input_tokens output_tokens cache_creation_tokens
                  cache_read_tokens total_tokens cost n_queries))
  = (sum_with d_totalTokens (od_values daily_map)
     + if decide (date <> "unknown"%string) then total_tokens else 0)%Z.
Proof.
  unfold add_daily. destruct (decide (date = "unknown"%string)) as [->|Hne].
  - rewrite bool_decide_eq_true_2 by reflexivity.
    rewrite decide_False by (intros H; apply H; reflexivity). lia.
  - rewrite bool_decide_eq_false_2 by exact Hne. rewrite decide_True by exact Hne.
    rewrite sum_with_od_set. cbn [d_totalTokens].
    destruct (od_get date daily_map); cbn; lia.
Qed.

Lemma aggregate_session_sums session_first_prompt project_dir session_id queries st st' :
  aggregate_session session_first_prompt project_dir session_id queries st = Some st' ->
  exists s,
    st_sessions st' = st_sessions st ++ [s]
    /\ session_adds_up s
    /\ s_totalTokens s = sum_with four_counts queries
    /\ sum_with d_totalTokens (od_values (st_daily_map st'))
       = (sum_with d_totalTokens (od_values (st_daily_map st))
          + if decide (dated s) then s_totalTokens s else 0)%Z
    /\ sum_with mm_totalTokens (od_values (st_model_map st'))
       = (sum_with mm_totalTokens (od_values (st_model_map st))
          + sum_with q_totalTokens (filter (fun q => billed q = true) queries))%Z.
Proof.
  unfold aggregate_session.
  destruct (match queries with [] => _ | _ => _ end) as [tool_density|]; [|discriminate].
  cbn [mbind option_bind]. intros [= <-]. eexists. split; [reflexivity|].
  cbn [st_daily_map st_model_map]. unfold session_adds_up, dated.
  cbn [s_totalTokens s_inputTokens s_outputTokens s_cacheCreationTokens s_cacheReadTokens
       s_date].
  split; [lia|]. split; [|split].
  - unfold four_counts.
    rewrite (sum_with_add (fun q => (q_inputTokens q + q_cacheCreationTokens q
                                     + q_cacheReadTokens q)%Z) q_outputTokens).
    rewrite (sum_with_add (fun q => (q_inputTokens q + q_cacheCreationTokens q)%Z)
               q_cacheReadTokens).
    rewrite (sum_with_add q_inputTokens q_cacheCreationTokens). reflexivity.
  - apply add_daily_sum.
  - apply add_models_sum.
Qed.

(** ** The empty snapshot *)

Lemma scan_no_queries cache session_first_prompt targets :
  (forall target, target ∈ targets -> yields_no_query cache (snd target)) ->
  forall st, exists st',
    for_each (scan_target cache session_first_prompt) st targets = Some st'
    /\ rollups st' = rollups st.
Proof.
  induction targets as [|[project f] targets IH]; intros Hnone st; cbn [for_each].
  - exists st. split; reflexivity.
  - unfold scan_target at 1. cbn [fst snd]. rewrite scan_file_eq.
    assert (Htail : forall target, target ∈ targets -> yields_no_query cache (snd target))
      by (intros target Hin; apply Hnone; right; exact Hin).
    destruct (Hnone (project, f) ltac:(left)) as [Hloaded|Hloaded]; cbn [snd] in Hloaded;
      rewrite Hloaded; cbn [mbind option_bind].
    + destruct (IH Htail (record_load cache f None st)) as (st' & Hrun & Hroll).
      exists st'. split; [exact Hrun|]. rewrite Hroll. apply record_load_rollups.
    + destruct (IH Htail (record_load cache f (Some []) st)) as (st' & Hrun & Hroll).
      exists st'. split; [exact Hrun|]. rewrite Hroll. apply record_load_rollups.
Qed.







(** ** Rollup consistency *)

Lemma scan_queries_cons cache target targets :
  scan_queries cache (target :: targets)
  = queries_of cache (snd target) ++ scan_queries cache targets.
Proof. reflexivity. Qed.

(** What the loop over the files adds to the sessions and to the sums of
    the daily and the model rollups. *)
Lemma scan_sums cache session_first_prompt targets : forall st st',
  for_each (scan_target cache session_first_prompt) st targets = Some st' ->
  exists new_sessions,
    st_sessions st' = st_sessions st ++ new_sessions
    /\ Forall session_adds_up new_sessions
    /\ sum_with s_totalTokens new_sessions
       = sum_with four_counts (scan_queries cache targets)
    /\ sum_with d_totalTokens (od_values (st_daily_map st'))
       = (sum_with d_totalTokens (od_values (st_daily_map st))
          + sum_with s_totalTokens (filter dated new_sessions))%Z
    /\ sum_with mm_totalTokens (od_values (st_model_map st'))
       = (sum_with mm_totalTokens (od_values (st_model_map st))
          + sum_with q_totalTokens
              (filter (fun q => billed q = true) (scan_queries cache targets)))%Z.
Proof.
  induction targets as [|[project f] targets IH]; cbn [for_each]; intros st st' Hrun.
  - injection Hrun as <-. exists []. rewrite app_nil_r.
    split; [reflexivity|]. split; [apply Forall_nil_2|].
    unfold scan_queries. cbn [flat_map]. rewrite !filter_nil, !sum_with_nil.
    repeat split; lia.
  - unfold scan_target at 1 in Hrun. cbn [fst snd] in Hrun. rewrite scan_file_eq in Hrun.
    rewrite scan_queries_cons. unfold queries_of. cbn [snd].
    destruct (loaded cache f) as [queries|] eqn:Hloaded; [|discriminate].
    cbn [mbind option_bind] in Hrun.
    set (st1 := record_load cache f queries st) in *.
    assert (Hst1 : st_sessions st1 = st_sessions st /\ st_daily_map st1 = st_daily_map st
                   /\ st_model_map st1 = st_model_map st).
    { subst st1. unfold record_load.
      destruct (is_hit cache f), (_cache_key f), queries; repeat split; reflexivity. }
    destruct Hst1 as (Hs1 & Hd1 & Hm1).
    destruct queries as [[|q qs]|].
    1,3: destruct (IH _ _ Hrun) as (new & Hs & Hadd & Htot & Hday & Hmod);
         exists new; rewrite Hs, Hday, Hmod, Hs1, Hd1, Hm1; cbn [app];
         repeat split; assumption.
    destruct (aggregate_session _ _ _ _ st1) as [st2|] eqn:Hagg; [|discriminate].
    apply aggregate_session_sums in Hagg as (s & Hs2 & Hsadd & Hstot & Hsday & Hsmod).
    destruct (IH _ _ Hrun) as (new & Hs & Hadd & Htot & Hday & Hmod).
    exists (s :: new). rewrite Hs, Hs2, Hs1, <- app_assoc. split; [reflexivity|].
    split; [apply Forall_cons; split; assumption|].
    rewrite Hday, Hmod, Hsday, Hsmod, Hd1, Hm1.
    rewrite filter_app, !sum_with_app, filter_cons, !sum_with_cons, Htot, Hstot.
    repeat split; rewrite ?sum_with_cons; try lia.
    destruct (decide (dated s)); rewrite ?sum_with_cons, ?Hstot, ?sum_with_cons; lia.
Qed.

Lemma filter_billed_all (queries : list Query) :
  Forall (fun q => billed q = true) queries ->
  filter (fun q => billed q = true) queries = queries.
Proof.
  induction 1 as [|q queries Hq _ IH]; [reflexivity|].
  rewrite filter_cons_True by exact Hq. rewrite IH. reflexivity.
Qed.

Lemma filter_dated_all (l : list Session) :
  (forall s, s ∈ l -> dated s) -> filter dated l = l.
Proof.
  induction l as [|s l IH]; intros Hall; [reflexivity|].
  rewrite filter_cons_True by (apply Hall; left).
  rewrite IH by (intros s' Hs'; apply Hall; right; exact Hs'). reflexivity.
Qed.

(** The queries of a scan add up when those of the cache do. *)
Lemma scan_queries_add_up cache targets :
  cache_adds_up cache -> Forall tokens_add_up (scan_queries cache targets).
Proof.
  intros Hcache. induction targets as [|[project f] targets IH]; [apply Forall_nil_2|].
  rewrite scan_queries_cons. apply Forall_app. split; [|exact IH].
  unfold queries_of. cbn [snd].
  destruct (loaded cache f) as [[qs|]|] eqn:Hloaded; try apply Forall_nil_2.
  destruct (lookup_key cache (_cache_key f)) as [[k qs']|] eqn:Hhit.
  - apply cache_hit_Some in Hhit as [Hk Hc].
    rewrite (loaded_hit _ _ _ _ Hk Hc) in Hloaded. injection Hloaded as <-.
    apply (Hcache k qs' Hc).
  - rewrite (loaded_miss _ _ Hhit) in Hloaded. unfold parse_result in Hloaded.
    destruct (parse_jsonl_file (f_content f)) as [p|]; [|discriminate].
    destruct (assistantEntries p) as [|e es]; [discriminate|].
    destruct (extract_session_data (e :: es) (userMessages p)) as [qs'|] eqn:Hextract;
      [|discriminate].
    injection Hloaded as <-. apply extract_session_data_queries in Hextract.
    eapply Forall_impl; [exact Hextract|]. intros q [Hq _]. exact Hq.
Qed.

Lemma build_snapshot_fields {py : interpreter} st snapshot :
  build_snapshot py st = Some snapshot ->
  sessions snapshot ≡ₚ st_sessions st
  /\ dailyUsage snapshot ≡ₚ od_values (st_daily_map st)
  /\ modelBreakdown snapshot ≡ₚ od_values (st_model_map st)
  /\ totalTokens (totals snapshot)
     = (sum_with s_inputTokens (sessions snapshot)
        + sum_with s_outputTokens (sessions snapshot)
        + sum_with s_cacheCreationTokens (sessions snapshot)
        + sum_with s_cacheReadTokens (sessions snapshot))%Z.
Proof.
  unfold build_snapshot. cbv zeta.
  match goal with
  | |- context [mbind _ ?m] => destruct m as [cache_hit_rate|]; [|discriminate]
  end.
  cbn [mbind option_bind].
  match goal with
  | |- context [mbind _ ?m] => destruct m as [avg_session|]; [|discriminate]
  end.
  cbn [mbind option_bind].
  match goal with
  | |- context [mbind _ ?m] => destruct m as [avg_query|]; [|discriminate]
  end.
  cbn [mbind option_bind]. intros [= <-].
  cbn [sessions dailyUsage modelBreakdown totals totalTokens].
  repeat split; try apply sorted_perm.
Qed.

Lemma sum_sessions_add_up (l : list Session) :
  Forall session_adds_up l ->
  (sum_with s_inputTokens l + sum_with s_outputTokens l
   + sum_with s_cacheCreationTokens l + sum_with s_cacheReadTokens l)%Z
  = sum_with s_totalTokens l.
Proof.
  induction 1 as [|s l Hs _ IH]; [reflexivity|].
  rewrite !sum_with_cons, <- IH, Hs. lia.
Qed.

(** C1, as the code has it.  For every completed scan the total of the
    totals record equals the sum of the totals of the emitted sessions.
    The sum over the daily rollups is the sum over the sessions whose
    date is not [unknown], so it agrees with the total when every emitted
    session has a date.  The sum over the model rollups is the sum of the
    totals of the queries of the scan whose model is neither [unknown]
    nor the synthetic one, so it agrees with the total when every query
    names such a model and the queries kept in the cache carry a total
    equal to the sum of their four counts. *)
Theorem rollup_consistency (py : interpreter) (d : disk) (force_refresh : bool) (o : outcome) :
  parse_all_sessions py d force_refresh = Some o ->
  let snapshot := result o in
  let queries := scan_queries (loaded_cache d force_refresh) (scanned_files d) in
  totalTokens (totals snapshot) = sum_with s_totalTokens (sessions snapshot)
  /\ sum_with d_totalTokens (dailyUsage snapshot)
     = sum_with s_totalTokens (filter dated (sessions snapshot))
  /\ sum_with mm_totalTokens (modelBreakdown snapshot)
     = sum_with q_totalTokens (filter (fun q => billed q = true) queries)
  /\ ((forall s, s ∈ sessions snapshot -> dated s) ->
      sum_with d_totalTokens (dailyUsage snapshot) = totalTokens (totals snapshot))
  /\ (cache_adds_up (loaded_cache d force_refresh) ->
      Forall (fun q => billed q = true) queries ->
      sum_with mm_totalTokens (modelBreakdown snapshot) = totalTokens (totals snapshot)).
Proof.
  intros Hrun snapshot queries.
  assert (Hmain :
    totalTokens (totals snapshot) = sum_with s_totalTokens (sessions snapshot)
    /\ sum_with d_totalTokens (dailyUsage snapshot)
       = sum_with s_totalTokens (filter dated (sessions snapshot))
    /\ sum_with mm_totalTokens (modelBreakdown snapshot)
       = sum_with q_totalTokens (filter (fun q => billed q = true) queries)
    /\ sum_with s_totalTokens (sessions snapshot) = sum_with four_counts queries).
  { subst snapshot queries. destruct (dk_projects d) as [[entries|]|] eqn:Hp.
    2,3: rewrite parse_all_sessions_no_listing in Hrun by (rewrite Hp; discriminate);
         injection Hrun as <-;
         rewrite scanned_files_nil by (rewrite Hp; discriminate);
         repeat split; reflexivity.
    destruct (parse_all_sessions_completed _ _ _ _ Hp Hrun) as (st & Hloop & Hsnap & _).
    destruct (scan_sums _ _ _ _ _ Hloop) as (new & Hs & Hadd & Htot & Hday & Hmod).
    cbn [initial_state st_sessions st_daily_map st_model_map app od_values map] in Hs, Hday, Hmod.
    rewrite sum_with_nil in Hday. rewrite sum_with_nil in Hmod.
    destruct (build_snapshot_fields _ _ Hsnap) as (Hps & Hpd & Hpm & Htotal).
    rewrite Hs in Hps.
    assert (Hadd' : Forall session_adds_up (sessions (result o)))
      by (rewrite Hps; exact Hadd).
    split; [rewrite Htotal; apply sum_sessions_add_up, Hadd'|]. split; [|split].
    - assert (Hf : filter dated (sessions (result o)) ≡ₚ filter dated new)
        by (rewrite Hps; reflexivity).
      rewrite (sum_with_perm _ _ _ Hpd), Hday, (sum_with_perm _ _ _ Hf). lia.
    - rewrite (sum_with_perm _ _ _ Hpm), Hmod. lia.
    - rewrite (sum_with_perm _ _ _ Hps). exact Htot. }
  destruct Hmain as (Htotal & Hdaily & Hmodel & Hcounts).
  repeat (split; [assumption|]). split.
  - intros Hdated. rewrite Hdaily, (filter_dated_all _ Hdated). symmetry. exact Htotal.
  - intros Hcache Hbilled. rewrite Hmodel, (filter_billed_all _ Hbilled), Htotal, Hcounts.
    apply sum_with_ext. eapply Forall_impl; [apply scan_queries_add_up, Hcache|].
    intros q Hq. exact Hq.
Qed.

Lemma rollup_consistency_witness :
  let d := SampleDisk.two_files in
  let snapshot := result SampleDisk.first_scan in
  let queries := scan_queries (loaded_cache d false) (scanned_files d) in
  parse_all_sessions SampleDisk.python d false = Some SampleDisk.first_scan
  /\ totalTokens (totals snapshot) = sum_with s_totalTokens (sessions snapshot)
  /\ sum_with d_totalTokens (dailyUsage snapshot)
     = sum_with s_totalTokens (filter dated (sessions snapshot))
  /\ sum_with mm_totalTokens (modelBreakdown snapshot)
     = sum_with q_totalTokens (filter (fun q => billed q = true) queries)
  /\ ((forall s, s ∈ sessions snapshot -> dated s) ->
      sum_with d_totalTokens (dailyUsage snapshot) = totalTokens (totals snapshot))
  /\ (cache_adds_up (loaded_cache d false) ->
      Forall (fun q => billed q = true) queries ->
      sum_with mm_totalTokens (modelBreakdown snapshot) = totalTokens (totals snapshot)).
Proof.
  intros d snapshot queries. split; [vm_compute; reflexivity|].
  apply (rollup_consistency SampleDisk.python d false SampleDisk.first_scan).
  vm_compute; reflexivity.
Defined.

(** C1, as stated, fails: the session of a file whose only assistant
    record has neither a time stamp nor a model counts 110 tokens in the
    totals and in the sessions, while the daily rollups and the model
    rollups are empty. *)
Lemma rollup_consistency_counterexample :
  let snapshot := result SampleDisk.undated_scan in
  parse_all_sessions SampleDisk.python SampleDisk.undated_only false = Some SampleDisk.undated_scan
  /\ totalTokens (totals snapshot) = 110%Z
  /\ sum_with s_totalTokens (sessions snapshot) = 110%Z
  /\ sum_with d_totalTokens (dailyUsage snapshot) = 0%Z
  /\ sum_with mm_totalTokens (modelBreakdown snapshot) = 0%Z
  /\ sum_with d_totalTokens (dailyUsage snapshot) <> totalTokens (totals snapshot)
  /\ sum_with mm_totalTokens (modelBreakdown snapshot) <> totalTokens (totals snapshot).
Proof.
  cbv zeta. split; [vm_compute; reflexivity|].
  repeat (split; [vm_compute; reflexivity|]). split; vm_compute; discriminate.
Qed.

(** * Further properties of the parser *)

(** ** Fingerprints and the lines of a file *)

Lemma to_int_not_nil n :
  Z.to_int n <> Decimal.Pos Decimal.Nil /\ Z.to_int n <> Decimal.Neg Decimal.Nil.
Proof.
  split; intros Heq; pose proof (DecimalZ.to_of (Z.to_int n)) as Hn;
    rewrite DecimalZ.of_to, Heq in Hn; discriminate.
Qed.

Lemma str_of_int_inj n n' : Py.str_of_int n = Py.str_of_int n' -> n = n'.
Proof.
  unfold Py.str_of_int. intros Heq. apply DecimalZ.to_int_inj.
  destruct (to_int_not_nil n) as [Hp Hn], (to_int_not_nil n') as [Hp' Hn'].
  pose proof (NilZero.isi _ Hp Hn) as H1. pose proof (NilZero.isi _ Hp' Hn') as H2.
  rewrite Heq, H2 in H1. injection H1 as ->. reflexivity.
Qed.

(** X1. The fingerprint of a file determines its path, its modification
    time and its size: two files for which [_cache_key] returns the same
    string have the same path and the same [stat] result, whatever
    colons the path holds. *)
Theorem cache_key_injective (f g : file) (k : string) :
  _cache_key f = Some k -> _cache_key g = Some k ->
  f_path f = f_path g /\ f_stat f = f_stat g.
Proof.
  intros Hf Hg. split; [exact (cache_key_path _ _ _ Hf Hg)|].
  pose proof (cache_key_path _ _ _ Hf Hg) as Hpath.
  unfold _cache_key in Hf, Hg.
  destruct (f_stat f) as [[mf sf]|]; [|discriminate].
  destruct (f_stat g) as [[mg sg]|]; [|discriminate].
  injection Hf as <-. injection Hg as Heq. rewrite Hpath in Heq.
  change (f_path g +:+ (String ":" EmptyString +:+ Py.str_of_int mg)
            +:+ String ":" (Py.str_of_int sg)
          = f_path g +:+ (String ":" EmptyString +:+ Py.str_of_int mf)
            +:+ String ":" (Py.str_of_int sf)) in Heq.
  rewrite <- !string_app_assoc in Heq.
  apply split_last_colon in Heq as [Heq Hsize]; try apply str_of_int_colon_free.
  rewrite !string_app_assoc in Heq.
  change (f_path g +:+ String ":" (Py.str_of_int mg)
          = f_path g +:+ String ":" (Py.str_of_int mf)) in Heq.
  apply split_last_colon in Heq as [_ Hmtime]; try apply str_of_int_colon_free.
  apply str_of_int_inj in Hsize, Hmtime. subst. reflexivity.
Qed.

Lemma cache_key_injective_witness :
  f_path SampleDisk.session_file = f_path SampleScan.twin_file
  /\ f_stat SampleDisk.session_file = f_stat SampleScan.twin_file.
Proof.
  apply (cache_key_injective SampleDisk.session_file SampleScan.twin_file
           "/home/u/.claude/projects/p/a.jsonl:1735729200000000000:2048");
    vm_compute; reflexivity.
Defined.

(** parse 
*)
Lemma parse_line_users message_map user_messages l message_map' user_messages' :
  parse_line (message_map, user_messages) l = Some (message_map', user_messages') ->
  user_messages' = user_messages ++ option_list (user_record l).
Proof.
  unfold parse_line, user_record. destruct l as [| | |e]; try (intros [= <- <-]; symmetry; apply app_nil_r); try discriminate.
  destruct (e_isSidechain e); [intros [= <- <-]; symmetry; apply app_nil_r|].
  destruct (bool_decide (e_type e = Some "user"%string)) eqn:Hu; cbn [orb negb andb].
  - destruct (e_message e) as [msg|]; [|intros [= <- <-]; symmetry; apply app_nil_r].
    destruct (bool_decide (m_role msg = Some "user"%string)); intros [= _ <-]; cbn [option_list];
      [reflexivity|symmetry; apply app_nil_r].
  - destruct (bool_decide (e_type e = Some "assistant"%string)); cbn [negb].
    + destruct (e_message e) as [msg|]; intros [= _ <-]; symmetry; apply app_nil_r.
    + intros [= <- <-]; symmetry; apply app_nil_r.
Qed.

Lemma parse_lines_users lines : forall message_map user_messages message_map' user_messages',
  for_each parse_line (message_map, user_messages) lines
  = Some (message_map', user_messages') ->
  user_messages' = user_messages ++ omap user_record lines.
Proof.
  induction lines as [|l lines IH]; intros mm um mm' um'; cbn [for_each].
  - intros [= <- <-]. symmetry; apply app_nil_r.
  - destruct (parse_line (mm, um) l) as [[mm1 um1]|] eqn:Hl; [|discriminate].
    intros Hrest. apply IH in Hrest as ->. apply parse_line_users in Hl as ->.
    rewrite <- app_assoc. f_equal.
    cbn [omap list_omap]. destruct (user_record l); reflexivity.
Qed.

Lemma parse_line_raises st l : parse_line st l = None <-> l = NotObject.
Proof.
  destruct st as [mm um]. unfold parse_line. destruct l as [| | |e]; try (split; [discriminate|discriminate]); try tauto.
  split; [|discriminate].
  destruct (e_isSidechain e); [discriminate|].
  destruct (negb _); [discriminate|]. destruct (e_message e); discriminate.
Qed.

Lemma parse_lines_raise lines : forall st,
  for_each parse_line st lines = None <-> NotObject ∈ lines.
Proof.
  induction lines as [|l lines IH]; intros st; cbn [for_each].
  - split; [discriminate|]. intros Hin. apply elem_of_nil in Hin as [].
  - rewrite elem_of_cons. destruct (parse_line st l) as [st1|] eqn:Hl.
    + rewrite IH. split; [auto|]. intros [Heq|Hin]; [|exact Hin].
      subst l. destruct st. discriminate.
    + apply parse_line_raises in Hl. split; auto.
Qed.

Lemma parse_lines_passed_over lines : forall st,
  for_each parse_line st (filter (fun l => passed_over l = false) lines)
  = for_each parse_line st lines.
Proof.
  induction lines as [|l lines IH]; intros st; [reflexivity|].
  destruct l as [| | |e].
  - rewrite filter_cons_False by (cbn; discriminate). cbn [for_each].
    destruct st as [mm um]. cbn [parse_line]. apply IH.
  - rewrite filter_cons_False by (cbn; discriminate). cbn [for_each].
    destruct st as [mm um]. cbn [parse_line]. apply IH.
  - rewrite filter_cons_True by reflexivity. cbn [for_each].
    destruct (parse_line st NotObject); [apply IH|reflexivity].
  - rewrite filter_cons_True by reflexivity. cbn [for_each].
    destruct (parse_line st (Object e)); [apply IH|reflexivity].
Qed.

(** X2. When [parse_jsonl_file] returns, its [userMessages] are the
    user records of the file, in the order of the lines and with their
    repetitions: the lines that hold an object that is not a side chain,
    has type [user] and a message whose role is [user].  User records
    are not deduplicated. *)
Theorem parse_jsonl_file_user_messages (lines : list line) (p : parsed) :
  parse_jsonl_file (Some lines) = Some p ->
  userMessages p = omap user_record lines.
Proof.
  unfold parse_jsonl_file.
  destruct (for_each parse_line ([], []) lines) as [[mm um]|] eqn:Hloop; [|discriminate].
  intros [= <-]. cbn [userMessages]. apply parse_lines_users in Hloop. exact Hloop.
Qed.

Lemma parse_jsonl_file_user_messages_witness :
  userMessages Sample.recurring_parsed = omap user_record Sample.recurring_lines.
Proof.
  apply (parse_jsonl_file_user_messages Sample.recurring_lines Sample.recurring_parsed).
  vm_compute. reflexivity.
Defined.

(** X3. [parse_jsonl_file] raises on a file that cannot be read; on a
    file that is read it raises exactly when one of the lines holds a
    JSON value that is not an object.  Blank lines and lines that are
    not JSON count for nothing: the result is that of the file without
    them. *)
Theorem parse_jsonl_file_raises (lines : list line) :
  parse_jsonl_file None = None
  /\ (parse_jsonl_file (Some lines) = None <-> NotObject ∈ lines)
  /\ parse_jsonl_file (Some (filter (fun l => passed_over l = false) lines))
     = parse_jsonl_file (Some lines).
Proof.
  split; [reflexivity|]. split.
  - rewrite <- (parse_lines_raise lines ([], [])). unfold parse_jsonl_file.
    destruct (for_each parse_line ([], []) lines) as [[mm um]|]; split; congruence.
  - unfold parse_jsonl_file. rewrite parse_lines_passed_over. reflexivity.
Qed.

(** ** The extractor *)

Lemma int_mul_float_Some n x :
  is_Some (Py.int_mul_float n x) <-> is_Some (Py.float_of_int n).
Proof.
  unfold Py.int_mul_float. destruct (Py.float_of_int n); cbn; split; intros [y Hy]; eauto; discriminate.
Qed.

Lemma in_float_range_spec (n : field Z) :
  in_float_range n = true
  <-> exists v x, get_default n 0%Z = Some v /\ Py.float_of_int v = Some x.
Proof.
  unfold in_float_range. rewrite bool_decide_eq_true.
  destruct (get_default n 0%Z) as [v|]; cbn [mbind option_bind].
  - split; [intros [x Hx]; eauto|]. intros (v' & x & [= <-] & Hx). eauto.
  - split; [intros [x [=]]|intros (v & x & [=] & _)].
Qed.

(** A turn of the loop over the assistant records: it raises on a record
    that breaks the extraction; of the others, a record that is not
    counted leaves the state as it is, and a counted one appends its
    query. *)
Lemma extract_entry_counted user_timeline user_idx queries e :
  (breaks_extraction e = true ->
   extract_entry user_timeline (user_idx, queries) e = None)
  /\ (breaks_extraction e = false -> counted e = false ->
      extract_entry user_timeline (user_idx, queries) e = Some (user_idx, queries))
  /\ (breaks_extraction e = false -> counted e = true ->
      let user_idx' := advance_cursor (length user_timeline) user_timeline
                         (e_timestamp e) user_idx in
      exists q,
        extract_entry user_timeline (user_idx, queries) e
        = Some (user_idx', queries ++ [q])
        /\ query_of_record e q
        /\ paired_at user_timeline user_idx' q
        /\ q_model q <> Some "<synthetic>"%string).
Proof.
  unfold breaks_extraction, extract_entry, counted, priceable, query_of_record, paired_at,
    entry_id, entry_content, e_message.
  destruct (e_message_field e) as [| |msg]; cbn [get mbind option_bind fmap option_fmap option_map];
    [repeat split; intros; (reflexivity || discriminate)..|].
  destruct (m_usage msg) as [u|]; [|repeat split; intros; (reflexivity || discriminate)].
  destruct (bool_decide (model_of msg = Some "<synthetic>"%string)) eqn:Hsyn;
    [repeat split; intros; (reflexivity || discriminate)|].
  apply bool_decide_eq_false in Hsyn.
  cbn [negb andb]. rewrite get_pricing_resolve. cbn [mbind option_bind].
  split; [|split; [discriminate|]].
  - intros Hbreak. apply negb_true_iff in Hbreak.
    destruct (get_default (input_tokens u) 0%Z) as [n1|] eqn:H1; [|reflexivity].
    destruct (get_default (cache_creation_input_tokens u) 0%Z) as [n2|] eqn:H2; [|reflexivity].
    destruct (get_default (cache_read_input_tokens u) 0%Z) as [n3|] eqn:H3; [|reflexivity].
    destruct (get_default (output_tokens u) 0%Z) as [n4|] eqn:H4; [|reflexivity].
    cbn [mbind option_bind]. unfold Py.int_mul_float.
    destruct (Py.float_of_int n1) as [f1|] eqn:F1; [|reflexivity].
    destruct (Py.float_of_int n2) as [f2|] eqn:F2; [|reflexivity].
    destruct (Py.float_of_int n3) as [f3|] eqn:F3; [|reflexivity].
    destruct (Py.float_of_int n4) as [f4|] eqn:F4; [|reflexivity].
    exfalso. rewrite !andb_false_iff in Hbreak.
    assert (Hall : forall n v x, get_default n 0%Z = Some v -> Py.float_of_int v = Some x ->
                     in_float_range n = true)
      by (intros n v x Hv Hx; apply in_float_range_spec; eauto).
    rewrite (Hall _ _ _ H1 F1), (Hall _ _ _ H2 F2), (Hall _ _ _ H3 F3), (Hall _ _ _ H4 F4)
      in Hbreak.
    destruct Hbreak as [[[?|?]|?]|?]; discriminate.
  - intros Hsafe _. apply negb_false_iff in Hsafe. rewrite !andb_true_iff in Hsafe.
    destruct Hsafe as [[[R1 R2] R3] R4].
    apply in_float_range_spec in R1 as (n1 & f1 & -> & F1).
    apply in_float_range_spec in R2 as (n2 & f2 & -> & F2).
    apply in_float_range_spec in R3 as (n3 & f3 & -> & F3).
    apply in_float_range_spec in R4 as (n4 & f4 & -> & F4).
    cbn [mbind option_bind]. unfold Py.int_mul_float. rewrite F1, F2, F3, F4.
    cbn [mbind option_bind].
    eexists. split; [reflexivity|]. cbn. repeat split; try reflexivity. exact Hsyn.
Qed.

(** The loop raises exactly when it meets a record that breaks the
    extraction. *)
Lemma extract_loop_raises user_timeline assistant_entries : forall st,
  for_each (extract_entry user_timeline) st assistant_entries = None
  <-> exists e, e ∈ assistant_entries /\ breaks_extraction e = true.
Proof.
  induction assistant_entries as [|e l IH]; intros [user_idx queries]; cbn [for_each].
  - split; [discriminate|]. intros (e & Hin & _). apply elem_of_nil in Hin as [].
  - destruct (extract_entry_counted user_timeline user_idx queries e) as (Hraise & Hskip & Hadd).
    destruct (breaks_extraction e) eqn:Hb; [|destruct (counted e) eqn:Hc].
    + rewrite (Hraise eq_refl). split; [|reflexivity]. intros _.
      exists e. split; [left|exact Hb].
    + destruct (Hadd eq_refl eq_refl) as (q & -> & _). rewrite IH.
      split; intros (e' & Hin & Hb'); exists e'; split; try assumption.
      * right. exact Hin.
      * apply elem_of_cons in Hin as [->|Hin]; [congruence|exact Hin].
    + rewrite (Hskip eq_refl eq_refl), IH.
      split; intros (e' & Hin & Hb'); exists e'; split; try assumption.
      * right. exact Hin.
      * apply elem_of_cons in Hin as [->|Hin]; [congruence|exact Hin].
Qed.

(** The queries the loop appends are those of the counted records, in
    their order. *)
Lemma extract_loop_records user_timeline assistant_entries : forall user_idx queries
    user_idx' queries',
  for_each (extract_entry user_timeline) (user_idx, queries) assistant_entries
  = Some (user_idx', queries') ->
  exists new,
    queries' = queries ++ new
    /\ Forall2 query_of_record (filter (fun e => counted e = true) assistant_entries) new
    /\ Forall (fun q => q_model q <> Some "<synthetic>"%string) new.
Proof.
  induction assistant_entries as [|e l IH]; intros user_idx queries user_idx' queries';
    cbn [for_each].
  - intros [= <- <-]. exists []. rewrite app_nil_r. repeat split; constructor.
  - destruct (extract_entry_counted user_timeline user_idx queries e) as (Hraise & Hskip & Hadd).
    destruct (breaks_extraction e) eqn:Hb; [|destruct (counted e) eqn:Hc].
    + rewrite (Hraise eq_refl). discriminate.
    + destruct (Hadd eq_refl eq_refl) as (q & -> & Hq & _ & Hsyn).
      intros Hrest. apply IH in Hrest as (new & -> & Hnew & Hsyns).
      exists (q :: new). rewrite <- app_assoc. split; [reflexivity|].
      rewrite filter_cons_True by exact Hc. split; constructor; assumption.
    + rewrite (Hskip eq_refl eq_refl). intros Hrest.
      apply IH in Hrest as (new & -> & Hnew & Hsyns).
      exists new. rewrite filter_cons_False by congruence. repeat split; assumption.
Qed.

Lemma next_precedes_bound user_timeline ts user_idx :
  next_precedes user_timeline ts user_idx = true -> (S user_idx < length user_timeline)%nat.
Proof.
  unfold next_precedes. intros H. apply andb_true_iff in H as [H _].
  apply bool_decide_eq_true in H. lia.
Qed.

Lemma advance_cursor_bound user_timeline ts : forall fuel user_idx,
  (user_idx < length user_timeline)%nat ->
  (advance_cursor fuel user_timeline ts user_idx < length user_timeline)%nat.
Proof.
  induction fuel as [|fuel IH]; intros user_idx Hlt; cbn [advance_cursor]; [exact Hlt|].
  destruct (next_precedes user_timeline ts user_idx) eqn:Hnext; [|exact Hlt].
  apply IH. apply next_precedes_bound in Hnext. exact Hnext.
Qed.

(** The cursor only moves forward, and stays on the time line. *)
Lemma extract_loop_cursor user_timeline assistant_entries : forall user_idx queries
    user_idx' queries',
  for_each (extract_entry user_timeline) (user_idx, queries) assistant_entries
  = Some (user_idx', queries') ->
  exists new positions,
    queries' = queries ++ new
    /\ Forall2 (paired_at user_timeline) positions new
    /\ StronglySorted le (user_idx :: positions)
    /\ ((user_idx < length user_timeline)%nat ->
        Forall (fun j => (j < length user_timeline)%nat) positions).
Proof.
  induction assistant_entries as [|e l IH]; intros user_idx queries user_idx' queries';
    cbn [for_each].
  - intros [= <- <-]. exists [], []. rewrite app_nil_r.
    repeat split; repeat constructor.
  - destruct (extract_entry_counted user_timeline user_idx queries e) as (Hraise & Hskip & Hadd).
    destruct (breaks_extraction e) eqn:Hb; [|destruct (counted e) eqn:Hc].
    + rewrite (Hraise eq_refl). discriminate.
    + destruct (Hadd eq_refl eq_refl) as (q & -> & _ & Hq & _).
      intros Hrest. apply IH in Hrest as (new & positions & -> & Hnew & Hsorted & Hbound).
      set (j := advance_cursor (length user_timeline) user_timeline (e_timestamp e) user_idx)
        in *.
      assert (Hle : (user_idx <= j)%nat)
        by apply (advance_cursor_spec user_timeline (e_timestamp e) (length user_timeline) user_idx).
      exists (q :: new), (j :: positions). rewrite <- app_assoc.
      split; [reflexivity|]. split; [constructor; assumption|]. split.
      * constructor; [exact Hsorted|]. constructor; [exact Hle|].
        apply StronglySorted_inv in Hsorted as [_ Hall].
        eapply Forall_impl; [exact Hall|]. intros k Hk. cbn in Hk. lia.
      * intros Hlt. assert (Hj : (j < length user_timeline)%nat)
          by apply advance_cursor_bound, Hlt.
        constructor; [exact Hj|]. apply Hbound, Hj.
    + rewrite (Hskip eq_refl eq_refl). apply IH.
Qed.

(** The loop over the user messages: it raises exactly on a message
    that breaks the time line, and every item it appends is that of a
    message. *)
Lemma timeline_item_raises (e : entry) :
  timeline_item e = None <-> breaks_timeline e = true.
Proof.
  unfold timeline_item, breaks_timeline, entry_content.
  destruct (e_isMeta e); cbn [negb andb]; [split; discriminate|].
  destruct (e_message_field e) as [| |msg]; cbn [mbind option_bind];
    [split; discriminate|split; reflexivity|].
  destruct (m_content msg) as [s|blocks|].
  - destruct (_ || _); split; discriminate.
  - cbn [mbind option_bind].
    destruct (mapM _ _) as [texts|] eqn:Htexts; cbn [mbind option_bind].
    + split; [discriminate|]. intros Hex. exfalso.
      apply existsb_exists in Hex as (b & Hin & Hb). apply andb_true_iff in Hb as [Ht Hn].
      apply bool_decide_eq_true in Ht.
      assert (Hnone : mapM (fun b => get_default (b_text b) EmptyString)
                        (filter (fun b => b_type b = Some "text"%string) blocks) = None).
      { apply mapM_None, Exists_exists. exists b. split.
        - apply list_elem_of_filter. split; [exact Ht|]. apply list_elem_of_In, Hin.
        - destruct (b_text b); (discriminate || reflexivity). }
      congruence.
    + split; [intros _|reflexivity].
      apply mapM_None, Exists_exists in Htexts as (b & Hin & Hb).
      apply list_elem_of_filter in Hin as [Ht Hin].
      apply existsb_exists. exists b. split; [apply list_elem_of_In, Hin|].
      apply andb_true_iff. split; [apply bool_decide_eq_true, Ht|].
      destruct (b_text b); (discriminate || reflexivity).
  - split; discriminate.
Qed.

Lemma build_timeline_loop (user_messages : list entry) : forall user_timeline,
  let body := fun user_timeline e =>
                item ← timeline_item e;
                Some match item with
                     | Some item => user_timeline ++ [item]
                     | None => user_timeline
                     end in
  (for_each body user_timeline user_messages = None
   <-> exists e, e ∈ user_messages /\ breaks_timeline e = true)
  /\ forall built, for_each body user_timeline user_messages = Some built ->
       exists new, built = user_timeline ++ new
                   /\ Forall (fun u => exists e, e ∈ user_messages
                                                /\ timeline_item e = Some (Some u)) new.
Proof.
  induction user_messages as [|e l IH]; intros user_timeline; cbn [for_each].
  - split.
    + split; [discriminate|]. intros (e & Hin & _). apply elem_of_nil in Hin as [].
    + intros built [= <-]. exists []. rewrite app_nil_r. split; [reflexivity|constructor].
  - destruct (timeline_item e) as [item|] eqn:Hitem; cbn [mbind option_bind].
    + assert (Hsafe : breaks_timeline e = false).
      { destruct (breaks_timeline e) eqn:Hb; [|reflexivity].
        apply timeline_item_raises in Hb. congruence. }
      destruct (IH match item with
                   | Some item => user_timeline ++ [item]
                   | None => user_timeline
                   end) as [Hraise Hbuilt]. split.
      * rewrite Hraise. split; intros (e' & Hin & Hb); exists e'; split; try assumption.
        -- right. exact Hin.
        -- apply elem_of_cons in Hin as [->|Hin]; [congruence|exact Hin].
      * intros built Hrun. apply Hbuilt in Hrun as (new & -> & Hnew).
        assert (Htail : Forall (fun u => exists e', e' ∈ e :: l
                                                    /\ timeline_item e' = Some (Some u)) new).
        { eapply Forall_impl; [exact Hnew|]. intros u (e' & Hin & He').
          exists e'. split; [right; exact Hin|exact He']. }
        destruct item as [item|].
        -- exists (item :: new). rewrite <- app_assoc. split; [reflexivity|].
           constructor; [|exact Htail]. exists e. split; [left|exact Hitem].
        -- exists new. split; [reflexivity|exact Htail].
    + split; [|discriminate]. split; [intros _|reflexivity].
      exists e. split; [left|]. apply timeline_item_raises, Hitem.
Qed.


Lemma timeline_text_truthy (user_messages : list entry) (u : user_item) :
  u ∈ user_timeline_of user_messages -> text u <> Some EmptyString.
Proof.
  unfold user_timeline_of. intros Hin.
  destruct (build_timeline user_messages) as [built|] eqn:Hbuilt;
    [|apply elem_of_nil in Hin as []].
  cbn [default] in Hin.
  apply (build_timeline_loop user_messages []) in Hbuilt as (new & -> & Hnew).
  cbn [app] in Hin. rewrite Forall_forall in Hnew.
  destruct (Hnew u Hin) as (e & _ & He). clear -He.
  unfold timeline_item in He. destruct (e_isMeta e); [discriminate|].
  destruct (entry_content e) as [content|]; [|discriminate]. cbn [mbind option_bind] in He.
  match type of He with (if ?c then _ else _) = _ => destruct c end; [discriminate|].
  match type of He with (?t ≫= _) = _ => destruct t as [txt|] end; [|discriminate].
  cbn [mbind option_bind] in He. injection He as <-. cbn [text]. unfold Py.or_none.
  destruct txt as [s|]; [|discriminate]. destruct s; cbn; discriminate.
Qed.

(** X4. The queries that [extract_session_data] returns are, in their
    order, one for each assistant record that has a usage object and a
    model other than [<synthetic>]; each query carries the message id,
    the time stamp, the model, the tool names and the thinking flag of
    its record.  No query has the model [<synthetic>], and there are at
    most as many queries as records. *)
Theorem extract_session_data_records
    (assistant_entries user_messages : list entry) (queries : list Query) :
  extract_session_data assistant_entries user_messages = Some queries ->
  Forall2 query_of_record (filter (fun e => counted e = true) assistant_entries) queries
  /\ Forall (fun q => q_model q <> Some "<synthetic>"%string) queries
  /\ (length queries <= length assistant_entries)%nat.
Proof.
  intros Hrun. apply extract_session_data_loop in Hrun as [_ Hrun]. revert Hrun.
  destruct (for_each _ _ assistant_entries) as [[user_idx queries']|] eqn:Hloop; [|discriminate].
  cbn. intros [= <-]. apply extract_loop_records in Hloop as (new & -> & Hnew & Hsyn).
  cbn [app]. repeat split; try assumption.
  rewrite <- (Forall2_length _ _ _ Hnew). apply length_filter.
Qed.

Lemma extract_session_data_records_witness :
  Forall2 query_of_record (filter (fun e => counted e = true) Sample.responses_15_20)
    Sample.queries_15_20
  /\ Forall (fun q => q_model q <> Some "<synthetic>"%string) Sample.queries_15_20
  /\ (length Sample.queries_15_20 <= length Sample.responses_15_20)%nat.
Proof.
  apply (extract_session_data_records Sample.responses_15_20 Sample.users_10_20
           Sample.queries_15_20).
  vm_compute. reflexivity.
Defined.


(** X6. The pairing cursor never goes back and never leaves the time
    line: the queries have positions in the user time line, which do not
    decrease from a query to the next, and each query carries the text
    and the time stamp of the item at its position.  When the time line
    is empty every query has neither prompt nor user time stamp.  No
    query carries the empty string as its prompt. *)
Theorem extract_session_data_cursor
    (assistant_entries user_messages : list entry) (queries : list Query) :
  extract_session_data assistant_entries user_messages = Some queries ->
  let user_timeline := user_timeline_of user_messages in
  (exists positions,
     Forall2 (paired_at user_timeline) positions queries
     /\ StronglySorted le positions
     /\ (user_timeline <> [] ->
         Forall (fun j => (j < length user_timeline)%nat) positions))
  /\ (user_timeline = [] ->
      Forall (fun q => q_userPrompt q = None /\ q_userTimestamp q = None) queries)
  /\ Forall (fun q => q_userPrompt q <> Some EmptyString) queries.
Proof.
  intros Hrun. apply extract_session_data_loop in Hrun as [_ Hrun]. revert Hrun.
  destruct (for_each _ _ assistant_entries) as [[user_idx queries']|] eqn:Hloop; [|discriminate].
  cbn. intros [= <-].
  apply extract_loop_cursor in Hloop as (new & positions & -> & Hnew & Hsorted & Hbound).
  cbn [app].
  assert (Hpaired : Forall2 (paired_at (user_timeline_of user_messages)) positions new)
    by exact Hnew.
  split; [|split].
  - exists positions. split; [exact Hnew|]. split.
    + apply StronglySorted_inv in Hsorted as [Hsorted _]. exact Hsorted.
    + intros Hne. apply Hbound.
      destruct (user_timeline_of user_messages); [congruence|cbn; lia].
  - intros Hnil. rewrite Hnil in Hpaired. clear -Hpaired.
    induction Hpaired as [|j q positions new [Hp Ht] _ IH]; constructor; [|exact IH].
    rewrite Hp, Ht. split; reflexivity.
  - clear -Hpaired. induction Hpaired as [|j q positions new [Hp Ht] _ IH];
      constructor; [|exact IH].
    rewrite Hp. destruct (user_timeline_of user_messages !! j) as [u|] eqn:Hj; [|discriminate].
    cbn. apply (timeline_text_truthy user_messages). apply list_elem_of_lookup. eauto.
Qed.

Lemma extract_session_data_cursor_witness :
  let user_timeline := user_timeline_of Sample.users_10_20 in
  (exists positions,
     Forall2 (paired_at user_timeline) positions Sample.queries_15_20
     /\ StronglySorted le positions
     /\ (user_timeline <> [] ->
         Forall (fun j => (j < length user_timeline)%nat) positions))
  /\ (user_timeline = [] ->
      Forall (fun q => q_userPrompt q = None /\ q_userTimestamp q = None)
        Sample.queries_15_20)
  /\ Forall (fun q => q_userPrompt q <> Some EmptyString) Sample.queries_15_20.
Proof.
  apply (extract_session_data_cursor Sample.responses_15_20 Sample.users_10_20
           Sample.queries_15_20).
  vm_compute. reflexivity.
Defined.

(** ** From a file to its queries *)

(** The assistant records a parse returns have pairwise distinct,
    non-empty identities. *)
Lemma parsed_identities (lines : list line) (p : parsed) :
  parse_jsonl_file (Some lines) = Some p ->
  NoDup (map entry_id (assistantEntries p))
  /\ Forall (fun e => exists k, entry_id e = Some k /\ k <> EmptyString) (assistantEntries p).
Proof.
  unfold parse_jsonl_file.
  destruct (for_each parse_line ([], []) lines) as [[message_map user_messages]|] eqn:Hloop;
    [|discriminate].
  intros [= <-]. cbn [assistantEntries].
  apply parse_lines_map in Hloop.
  destruct (set_records_spec (assistant_records lines)) as (_ & Hnd & Hlast).
  rewrite <- Hloop in Hnd, Hlast.
  assert (Hids : Forall (fun ke => entry_id (snd ke) = Some (fst ke) /\ fst ke <> EmptyString)
                   message_map).
  { apply Forall_forall. intros [k e] Hin. cbn [fst snd].
    destruct (Hlast k e Hin) as (pre & post & Hrecs & _).
    assert (Hrec : (k, e) ∈ assistant_records lines)
      by (rewrite Hrecs; apply elem_of_app; right; left).
    unfold assistant_records in Hrec. apply list_elem_of_omap in Hrec as (l & _ & Hl).
    split; [apply assistant_record_id in Hl as [_ Hid]; exact Hid|].
    unfold assistant_record in Hl. destruct l as [| | |e']; try discriminate.
    destruct (e_isSidechain e'); [discriminate|].
    destruct (bool_decide _); [|discriminate].
    destruct (e_message e') as [msg|]; [|discriminate].
    destruct (m_id msg) as [id|]; [|discriminate].
    destruct id; [discriminate|]. injection Hl as <- _. discriminate. }
  assert (Hmap : map entry_id (od_values message_map) = map Some (od_keys message_map)).
  { clear -Hids. induction Hids as [|[k e] l [Hid _] _ IH]; [reflexivity|].
    cbn. cbn in Hid. rewrite Hid. f_equal. exact IH. }
  split.
  - rewrite Hmap. apply (NoDup_fmap_2 Some), Hnd.
  - clear -Hids. induction Hids as [|[k e] l [Hid Hne] _ IH]; constructor; [|exact IH].
    exists k. split; assumption.
Qed.

Lemma records_message_ids (entries : list entry) (queries : list Query) :
  Forall2 query_of_record entries queries ->
  map q_messageId queries = map entry_id entries.
Proof.
  induction 1 as [|e q entries queries (Hid & _) _ IH]; [reflexivity|].
  cbn. rewrite Hid, IH. reflexivity.
Qed.

(** X7. The queries of one file, as [parse_jsonl_file] followed by
    [extract_session_data] gives them, have pairwise distinct message
    ids, and every one of them has a non-empty id. *)
Theorem parsed_queries_distinct (lines : list line) (p : parsed) (queries : list Query) :
  parse_jsonl_file (Some lines) = Some p ->
  extract_session_data (assistantEntries p) (userMessages p) = Some queries ->
  NoDup (map q_messageId queries)
  /\ Forall (fun q => exists id, q_messageId q = Some id /\ id <> EmptyString) queries.
Proof.
  intros Hparse Hextract. apply parsed_identities in Hparse as [Hnd Hids].
  apply extract_session_data_loop in Hextract as [_ Hextract].
  destruct (for_each _ _ (assistantEntries p)) as [[user_idx queries']|] eqn:Hloop;
    [|discriminate].
  cbn in Hextract. injection Hextract as <-.
  apply extract_loop_records in Hloop as (new & -> & Hnew & _). cbn [app].
  pose proof (records_message_ids _ _ Hnew) as Hmap. split.
  - rewrite Hmap. eapply sublist_NoDup; [exact Hnd|].
    apply fmap_sublist, sublist_filter.
  - assert (Hsome : Forall (fun o => exists id, o = Some id /\ id <> EmptyString)
                      (map q_messageId new)).
    { rewrite Hmap. apply Forall_fmap, Forall_forall. intros e He.
      apply list_elem_of_filter in He as [_ He].
      rewrite Forall_forall in Hids. apply (Hids e He). }
    rewrite Forall_forall in Hsome. apply Forall_forall. intros q Hq.
    apply Hsome. apply (list_elem_of_fmap_2 q_messageId), Hq.
Qed.

Lemma parsed_queries_distinct_witness :
  NoDup (map q_messageId SampleScan.recurring_queries)
  /\ Forall (fun q => exists id, q_messageId q = Some id /\ id <> EmptyString)
       SampleScan.recurring_queries.
Proof.
  apply (parsed_queries_distinct Sample.recurring_lines Sample.recurring_parsed
           SampleScan.recurring_queries); vm_compute; reflexivity.
Defined.

(** An exception out of [extract_session_data] is not caught: it ends
    the scan. *)
Lemma scan_raises_with {py : interpreter} d force_refresh target :
  target ∈ scanned_files d ->
  loaded (loaded_cache d force_refresh) (snd target) = None ->
  parse_all_sessions py d force_refresh = None.
Proof.
  intros Hin Hloaded.
  destruct (parse_all_sessions py d force_refresh) as [o|] eqn:Hscan; [|reflexivity].
  exfalso.
  destruct (dk_projects d) as [[entries|]|] eqn:Hprojects;
    try (unfold scanned_files in Hin; rewrite Hprojects in Hin; apply elem_of_nil in Hin as []).
  destruct (parse_all_sessions_completed d force_refresh o entries Hprojects Hscan)
    as (st & Hloop & _).
  apply scan_targets_state in Hloop as (_ & _ & Hall).
  rewrite Forall_forall in Hall. destruct (Hall target Hin) as [x Hx]. congruence.
Qed.

(** X8. One record can abort the whole scan.  When a scanned file that
    is not served from the cache is parsed and holds, among its
    assistant records, one that yields a query and has a token count
    that is [null] or that no [float] can hold, [parse_all_sessions]
    raises: the call of [extract_session_data] is outside the [try] that
    protects the parse. *)
Theorem scan_aborts_on_unpriceable (py : interpreter) (d : disk) (force_refresh : bool)
    (project : string) (f : file) (p : parsed) (e : entry) :
  (project, f) ∈ scanned_files d ->
  is_hit (loaded_cache d force_refresh) f = false ->
  parse_jsonl_file (f_content f) = Some p ->
  e ∈ assistantEntries p -> counted e = true -> priceable e = false ->
  parse_all_sessions py d force_refresh = None.
Proof.
  intros Hin Hmiss Hparse He Hc Hp.
  apply (scan_raises_with d force_refresh (project, f) Hin). cbn [snd].
  rewrite loaded_miss by (apply is_hit_false; exact Hmiss).
  unfold parse_result. rewrite Hparse.
  destruct (assistantEntries p) as [|e0 l] eqn:Hentries; [apply elem_of_nil in He as []|].
  assert (Hraise : extract_session_data (e0 :: l) (userMessages p) = None).
  { assert (Hbreak : breaks_extraction e = true).
    { unfold breaks_extraction. rewrite Hc, Hp.
      destruct (e_message_field e); reflexivity. }
    unfold extract_session_data.
    destruct (build_timeline (userMessages p)) as [user_timeline|]; [|reflexivity].
    cbn [mbind option_bind].
    assert (Hloop : for_each (extract_entry user_timeline) (O, []) (e0 :: l) = None)
      by (apply extract_loop_raises; exists e; split; assumption).
    rewrite Hloop. reflexivity. }
  rewrite Hraise. reflexivity.
Qed.

Lemma scan_aborts_on_unpriceable_witness :
  parse_all_sessions SampleDisk.python SampleHuge.huge_disk false = None.
Proof.
  apply (scan_aborts_on_unpriceable SampleDisk.python SampleHuge.huge_disk false
           "p" SampleHuge.huge_file
           {| assistantEntries :=
                [Sample.assistant_entry "m7" (Some "2025-01-02T08"%string)
                   Sample.opus (2 ^ 1024)];
              userMessages := [] |}
           (Sample.assistant_entry "m7" (Some "2025-01-02T08"%string)
              Sample.opus (2 ^ 1024))).
  - right. left.
  - vm_compute. reflexivity.
  - vm_compute. reflexivity.
  - left.
  - reflexivity.
  - vm_compute. reflexivity.
Defined.

(** ** The history *)

Lemma history_entry_get m l sid :
  match history_entry m l with
  | Some m' =>
      od_get sid m'
      = match od_get sid m with
        | Some v => Some v
        | None => first_display [l] sid
        end
  | None => l = HNotObject
  end.
Proof.
  destruct l as [| | |s display]; cbn [history_entry first_display];
    try (destruct (od_get sid m); reflexivity); try reflexivity.
  destruct s as [s|]; [|destruct (od_get sid m); reflexivity].
  set (text := Py.strip (default EmptyString display)).
  unfold usable_display.
  destruct (Py.truthy s) eqn:Hs; cbn [andb];
    [|rewrite andb_false_r; destruct (od_get sid m); reflexivity].
  destruct (Py.truthy text) eqn:Ht; cbn [andb];
    [|rewrite andb_false_r; destruct (od_get sid m); reflexivity].
  rewrite andb_true_r.
  destruct (od_get s m) as [v|] eqn:Hget.
  - rewrite bool_decide_eq_true_2 by eauto. cbn [negb].
    destruct (bool_decide (s = sid)) eqn:Heq.
    + apply bool_decide_eq_true in Heq. subst sid. rewrite Hget. reflexivity.
    + cbn [andb]. destruct (od_get sid m); reflexivity.
  - rewrite bool_decide_eq_false_2 by (intros [? ?]; discriminate). cbn [negb].
    destruct (Py.startswith text "/" && bool_decide (Py.len text < 30)%nat); cbn [negb].
    + rewrite andb_false_r. destruct (od_get sid m); reflexivity.
    + rewrite andb_true_r. destruct (bool_decide (s = sid)) eqn:Heq.
      * apply bool_decide_eq_true in Heq. subst sid. rewrite Hget.
        apply od_get_set_eq.
      * apply bool_decide_eq_false in Heq. rewrite od_get_set_ne by exact Heq.
        destruct (od_get sid m); reflexivity.
Qed.

Lemma first_display_cons l lines sid :
  first_display (l :: lines) sid
  = match l with
    | HNotObject => None
    | _ => match first_display [l] sid with
           | Some v => Some v
           | None => first_display lines sid
           end
    end.
Proof.
  destruct l as [| | |s display]; cbn [first_display]; try reflexivity.
  destruct s as [s|]; [|reflexivity].
  destruct (bool_decide (s = sid) && Py.truthy s && usable_display _); reflexivity.
Qed.

Lemma read_history_get lines sid : forall m,
  od_get sid (read_history m lines)
  = match od_get sid m with
    | Some v => Some v
    | None => first_display lines sid
    end.
Proof.
  induction lines as [|l lines IH]; intros m; cbn [read_history].
  - destruct (od_get sid m); reflexivity.
  - pose proof (history_entry_get m l sid) as Hl.
    destruct (history_entry m l) as [m'|] eqn:Hentry.
    + rewrite IH, Hl, (first_display_cons l lines).
      destruct (od_get sid m); [reflexivity|].
      destruct l; try reflexivity. discriminate.
    + subst l. destruct (od_get sid m); reflexivity.
Qed.

Lemma read_history_stops pre post : forall m,
  read_history m (pre ++ HNotObject :: post) = read_history m pre.
Proof.
  induction pre as [|l pre IH]; intros m; [reflexivity|].
  cbn [app read_history]. destruct (history_entry m l); [apply IH|reflexivity].
Qed.

Lemma first_display_usable (lines : list history_line) (sid v : string) :
  first_display lines sid = Some v -> sid <> EmptyString /\ usable_display v = true.
Proof.
  induction lines as [|l lines IH]; [discriminate|].
  destruct l as [| | |s display]; cbn [first_display]; try exact IH; try discriminate.
  destruct s as [s|]; [|exact IH].
  destruct (bool_decide (s = sid)) eqn:Heq; [|exact IH].
  destruct (Py.truthy s) eqn:Hs; [|exact IH].
  destruct (usable_display (Py.strip (default EmptyString display))) eqn:Hu; [|exact IH].
  cbn [andb]. intros [= <-]. apply bool_decide_eq_true in Heq. subst s.
  split; [destruct sid; [discriminate|discriminate]|exact Hu].
Qed.

(** X9. The display text that the history gives for a session is that
    of the first line that names the session and whose stripped text is
    usable (not empty, and not a slash command of fewer than 30
    characters), among the lines that come before the first one holding
    a JSON value that is not an object: such a line ends the reading.
    Every text that is stored is usable and has a non-empty key, and no
    key occurs twice. *)
Theorem read_history_first_display (lines : list history_line) :
  (forall sid, od_get sid (read_history [] lines) = first_display lines sid)
  /\ (forall sid v, od_get sid (read_history [] lines) = Some v ->
        sid <> EmptyString /\ usable_display v = true)
  /\ NoDup (od_keys (read_history [] lines))
  /\ (forall pre post, lines = pre ++ HNotObject :: post ->
        read_history [] lines = read_history [] pre).
Proof.
  assert (Hget : forall sid, od_get sid (read_history [] lines) = first_display lines sid)
    by (intros sid; apply read_history_get).
  split; [exact Hget|]. split; [|split].
  - intros sid v. rewrite Hget. apply first_display_usable.
  - clear Hget. assert (Hgen : forall m, NoDup (od_keys m) -> NoDup (od_keys (read_history m lines))).
    { induction lines as [|l lines IH]; intros m Hm; cbn [read_history]; [exact Hm|].
      destruct (history_entry m l) as [m'|] eqn:Hl; [|exact Hm].
      apply IH. destruct l as [| | |s display]; cbn [history_entry] in Hl;
        try (injection Hl as <-; exact Hm); try discriminate.
      destruct s as [s|]; [|injection Hl as <-; exact Hm].
      destruct (_ && _); [|injection Hl as <-; exact Hm].
      destruct (_ && _); injection Hl as <-; [exact Hm|].
      apply od_set_NoDup, Hm. }
    apply Hgen. apply NoDup_nil_2.
  - intros pre post ->. apply read_history_stops.
Qed.

(** ** Sorting and grouping *)

Section sorted_facts.
Context {A : Type} (before : A -> A -> bool).
Hypothesis before_total : forall x y, before x y = true \/ before y x = true.
Hypothesis before_trans : forall x y z,
  before x y = true -> before y z = true -> before x z = true.

Lemma insert_sorted_StronglySorted (x : A) (l : list A) :
  StronglySorted (fun a b => before a b = true) l ->
  StronglySorted (fun a b => before a b = true) (insert_sorted before x l).
Proof using before_total before_trans.
  induction 1 as [|y l Hl IH Hy]; cbn [insert_sorted]; [repeat constructor|].
  destruct (before x y) eqn:Hxy.
  - constructor; [constructor; assumption|]. constructor; [exact Hxy|].
    eapply Forall_impl; [exact Hy|]. intros z Hz. cbn in Hz. eauto.
  - constructor; [exact IH|].
    rewrite (insert_sorted_perm before x l). constructor; [|exact Hy].
    destruct (before_total x y) as [H|H]; [congruence|exact H].
Qed.

(** The sort orders the list. *)
Lemma sorted_StronglySorted (l : list A) :
  StronglySorted (fun a b => before a b = true) (sorted before l).
Proof using before_total before_trans.
  induction l as [|x l IH]; [constructor|]. cbn [sorted foldr].
  apply insert_sorted_StronglySorted, IH.
Qed.
End sorted_facts.

Lemma StronglySorted_weaken {A : Type} (R R' : A -> A -> Prop) (l : list A) :
  (forall a b, R a b -> R' a b) -> StronglySorted R l -> StronglySorted R' l.
Proof.
  intros Himpl. induction 1 as [|x l Hl IH Hx]; constructor; [exact IH|].
  eapply Forall_impl; [exact Hx|]. intros y. apply Himpl.
Qed.

(** Ordering by a count, largest first. *)
Lemma sorted_descending {A : Type} (count : A -> Z) (l : list A) :
  StronglySorted (fun a b => (count b <= count a)%Z)
    (sorted (fun a b => (count b <=? count a)%Z) l).
Proof.
  eapply StronglySorted_weaken;
    [|apply (sorted_StronglySorted (fun a b => (count b <=? count a)%Z))].
  - intros a b H. cbn in H. lia.
  - intros x y. lia.
  - intros x y z. lia.
Qed.

Section group_by_facts.
Context {K V A : Type} `{EqDecision K}.
Context (key : A -> K) (init : K -> V) (add : V -> A -> V).

Lemma group_step_get (m : list (K * V)) (a : A) (k : K) :
  od_get k (group_step key init add m a)
  = if decide (key a = k)
    then Some (add (default (init k) (od_get k m)) a)
    else od_get k m.
Proof.
  unfold group_step. destruct (decide (key a = k)) as [<-|Hne].
  - apply od_get_set_eq.
  - apply od_get_set_ne, Hne.
Qed.

Lemma group_get (l : list A) : forall (m : list (K * V)) (k : K),
  od_get k (fold_left (group_step key init add) l m) = group_row key init add m l k.
Proof.
  unfold group_row. induction l as [|a l IH]; intros m k; cbn [fold_left].
  - rewrite filter_nil. destruct (od_get k m); reflexivity.
  - rewrite IH, group_step_get. destruct (decide (key a = k)) as [Heq|Hne].
    + rewrite filter_cons_True by exact Heq. cbn [default fold_left].
      destruct (od_get k m); destruct (filter _ l); reflexivity.
    + rewrite filter_cons_False by exact Hne. reflexivity.
Qed.

Lemma group_step_keys (m : list (K * V)) (a : A) :
  NoDup (od_keys m) -> NoDup (od_keys (group_step key init add m a)).
Proof. apply od_set_NoDup. Qed.

Lemma group_keys_NoDup (l : list A) : forall (m : list (K * V)),
  NoDup (od_keys m) -> NoDup (od_keys (fold_left (group_step key init add) l m)).
Proof.
  induction l as [|a l IH]; intros m Hm; [exact Hm|]. apply IH, group_step_keys, Hm.
Qed.
End group_by_facts.

(** In a dictionary, the values are what the keys give. *)
Lemma od_values_get {K V : Type} `{EqDecision K} (d : list (K * V)) (v : V) :
  NoDup (od_keys d) ->
  v ∈ od_values d <-> exists k, od_get k d = Some v.
Proof.
  induction d as [|[k0 v0] d IH]; intros Hnd.
  - cbn. split; [intros Hin; apply elem_of_nil in Hin as []|intros [k Hk]; discriminate].
  - cbn [od_keys map fst] in Hnd. apply NoDup_cons in Hnd as [Hfresh Hnd].
    cbn [od_values map snd od_get]. rewrite elem_of_cons. fold (od_values d).
    rewrite (IH Hnd). split.
    + intros [->|[k Hk]].
      * exists k0. rewrite decide_True by reflexivity. reflexivity.
      * exists k. destruct (decide (k = k0)) as [->|Hne]; [|exact Hk].
        exfalso. apply Hfresh. apply od_get_Some_elem in Hk.
        apply (list_elem_of_fmap_2 fst) in Hk. exact Hk.
    + intros [k Hk]. destruct (decide (k = k0)) as [->|Hne].
      * left. congruence.
      * right. exists k. exact Hk.
Qed.

(** ** The aggregation of a session *)

Lemma slice_to_len (s : string) : forall n, (Py.len (Py.slice_to n s) <= n)%nat.
Proof.
  assert (Hcont : forall s, Py.len (Py.take_continuation s) = O).
  { clear. induction s as [|c s IH]; [reflexivity|]. cbn [Py.take_continuation].
    destruct (Py.is_continuation c) eqn:Hc; [|reflexivity].
    cbn [Py.len]. rewrite Hc. exact IH. }
  induction s as [|c s IH]; intros [|n]; cbn [Py.slice_to Py.len]; try lia.
  destruct (Py.is_continuation c) eqn:Hc.
  - cbn [Py.len]. rewrite Hc. apply IH.
  - destruct n as [|n]; cbn [Py.len]; rewrite Hc.
    + rewrite Hcont. lia.
    + specialize (IH (S n)). lia.
Qed.

Lemma slice_to_truthy (s : string) (n : nat) :
  s <> EmptyString -> Py.slice_to (S n) s <> EmptyString.
Proof.
  destruct s as [|c s]; [congruence|]. intros _. cbn [Py.slice_to].
  destruct (Py.is_continuation c); [discriminate|]. destruct n; discriminate.
Qed.

Lemma or_none_truthy (o : option string) (s : string) :
  Py.or_none o = Some s -> o = Some s /\ s <> EmptyString.
Proof.
  destruct o as [t|]; [|discriminate]. cbn. destruct t; [discriminate|].
  intros [= <-]. split; [reflexivity|discriminate].
Qed.

Lemma first_truthy_truthy {A : Type} (f : A -> option string) (l : list A) (s : string) :
  first_truthy f l = Some s -> s <> EmptyString.
Proof.
  unfold first_truthy. induction l as [|x l IH]; [discriminate|].
  cbn [omap list_omap]. destruct (Py.or_none (f x)) as [t|] eqn:Hx; [|exact IH].
  cbn. intros [= <-]. apply or_none_truthy in Hx as [_ Hx]. exact Hx.
Qed.

Lemma fold_left_flat_map {S A B : Type} (g : S -> B -> S) (h : A -> list B) (l : list A) :
  forall s,
  fold_left (fun s a => fold_left g (h a) s) l s = fold_left g (flat_map h l) s.
Proof.
  induction l as [|a l IH]; intros s; [reflexivity|].
  cbn [fold_left flat_map]. rewrite fold_left_app. apply IH.
Qed.

Lemma sum_with_four_counts (queries : list Query) :
  (sum_with q_inputTokens queries + sum_with q_cacheCreationTokens queries
   + sum_with q_cacheReadTokens queries + sum_with q_outputTokens queries)%Z
  = sum_with four_counts queries.
Proof.
  unfold four_counts.
  rewrite (sum_with_add (fun q => (q_inputTokens q + q_cacheCreationTokens q
                                   + q_cacheReadTokens q)%Z) q_outputTokens).
  rewrite (sum_with_add (fun q => (q_inputTokens q + q_cacheCreationTokens q)%Z)
             q_cacheReadTokens).
  rewrite (sum_with_add q_inputTokens q_cacheCreationTokens). reflexivity.
Qed.

(** What the aggregation of one file does to the state of the scan. *)
Lemma aggregate_session_maps session_first_prompt project_dir session_id queries st st' :
  aggregate_session session_first_prompt project_dir session_id queries st = Some st' ->
  exists s,
    st_sessions st' = st_sessions st ++ [s]
    /\ st_daily_map st' = daily_step (st_daily_map st) s
    /\ st_model_map st' = fold_left add_model queries (st_model_map st)
    /\ st_tool_frequency st'
       = fold_left count_up (flat_map q_tools queries) (st_tool_frequency st).
Proof.
  unfold aggregate_session.
  destruct (match queries with [] => _ | _ => _ end) as [tool_density|]; [|discriminate].
  cbn [mbind option_bind]. intros [= <-]. eexists. split; [reflexivity|].
  cbn [st_daily_map st_model_map st_tool_frequency]. unfold daily_step.
  repeat split. apply fold_left_flat_map.
Qed.

Lemma session_built_facts session_first_prompt input s :
  session_built session_first_prompt input s ->
  session_facts input s
  /\ s_firstPrompt s <> EmptyString
  /\ (Py.len (s_firstPrompt s) <= 200)%nat
  /\ (forall p, od_get (s_sessionId s) session_first_prompt = Some p -> p <> EmptyString ->
        s_firstPrompt s = Py.slice_to 200 p)
  /\ s_timestamp s <> Some EmptyString
  /\ s_date s = match s_timestamp s with
                | Some t => Py.split_head "T" t
                | None => "unknown"%string
                end
  /\ (snd input <> [] ->
      Py.truediv (s_totalToolCalls s) (s_queryCount s) = Some (s_toolDensity s)).
Proof.
  destruct input as [[project_dir session_id] queries].
  intros (st & st' & Hagg & Hs). cbn [fst snd] in Hagg. unfold aggregate_session in Hagg.
  destruct (match queries with [] => _ | _ => _ end) as [tool_density|] eqn:Hdensity;
    [|discriminate].
  cbn [mbind option_bind] in Hagg. injection Hagg as <-. cbn [st_sessions] in Hs.
  apply app_inv_head in Hs. injection Hs as <-.
  unfold session_facts. cbn [fst snd s_project s_sessionId s_queryCount s_inputTokens
    s_outputTokens s_cacheCreationTokens s_cacheReadTokens s_totalTokens s_thinkingTurns
    s_totalToolCalls s_firstPrompt s_timestamp s_date s_toolDensity].
  split; [|split; [|split; [|split; [|split; [|split]]]]].
  - repeat split; try reflexivity.
    + apply sum_with_four_counts.
    + unfold count_of. f_equal. f_equal. apply filter_agree. intros q _.
      destruct (q_hasThinking q); cbn; split; intros; (exact I || reflexivity || discriminate || tauto).
  - apply slice_to_truthy.
    destruct (Py.or_none (od_get session_id session_first_prompt)) as [p|] eqn:Hp.
    + apply or_none_truthy in Hp as [_ Hp]. exact Hp.
    + destruct (first_truthy q_userPrompt queries) as [p|] eqn:Hq; [|discriminate].
      cbn. apply first_truthy_truthy in Hq. exact Hq.
  - apply slice_to_len.
  - intros p Hget Hne. rewrite Hget. cbn. destruct p; [congruence|reflexivity].
  - destruct (first_truthy q_assistantTimestamp queries) as [t|] eqn:Ha.
    + apply first_truthy_truthy in Ha. congruence.
    + destruct (first_truthy q_userTimestamp queries) as [t|] eqn:Hu; [|discriminate].
      apply first_truthy_truthy in Hu. congruence.
  - reflexivity.
  - intros Hne. destruct queries as [|q qs]; [congruence|]. exact Hdensity.
Qed.

(** ** The loop over the files, as a loop over the sessions *)

Lemma record_load_fields cache f queries st :
  st_sessions (record_load cache f queries st) = st_sessions st
  /\ st_daily_map (record_load cache f queries st) = st_daily_map st
  /\ st_model_map (record_load cache f queries st) = st_model_map st
  /\ st_all_prompts (record_load cache f queries st) = st_all_prompts st
  /\ st_tool_frequency (record_load cache f queries st) = st_tool_frequency st.
Proof.
  unfold record_load.
  destruct (is_hit cache f), (_cache_key f), queries; repeat split; reflexivity.
Qed.

Lemma session_inputs_cons cache target targets :
  session_inputs cache (target :: targets)
  = match queries_of cache (snd target) with
    | [] => session_inputs cache targets
    | queries => (fst target, f_stem (snd target), queries) :: session_inputs cache targets
    end.
Proof.
  unfold session_inputs. cbn [omap list_omap].
  destruct (queries_of cache (snd target)); reflexivity.
Qed.

(** A turn of the loop over the files either leaves the sessions and the
    rollups as they are, when the file gives no query, or aggregates the
    queries of the file. *)
Lemma scan_target_step cache session_first_prompt st target st' :
  scan_target cache session_first_prompt st target = Some st' ->
  match queries_of cache (snd target) with
  | [] => rollups st' = rollups st
  | queries =>
      exists st1,
        rollups st1 = rollups st
        /\ aggregate_session session_first_prompt (fst target) (f_stem (snd target))
             queries st1 = Some st'
  end.
Proof.
  unfold scan_target, queries_of. rewrite scan_file_eq.
  destruct (loaded cache (snd target)) as [queries|]; [|discriminate].
  cbn [mbind option_bind].
  destruct queries as [[|q qs]|].
  - intros [= <-]. apply record_load_rollups.
  - intros Hagg. eexists. split; [|exact Hagg]. apply record_load_rollups.
  - intros [= <-]. apply record_load_rollups.
Qed.

Lemma rollups_fields st1 st2 :
  rollups st1 = rollups st2 ->
  st_sessions st1 = st_sessions st2 /\ st_daily_map st1 = st_daily_map st2
  /\ st_model_map st1 = st_model_map st2 /\ st_all_prompts st1 = st_all_prompts st2
  /\ st_tool_frequency st1 = st_tool_frequency st2.
Proof. unfold rollups. intros [= -> -> -> -> ->]. repeat split. Qed.

(** What the loop over the files leaves: one session per file that
    gives queries, and the three maps folded over the sessions and over
    the queries of the scan. *)
Lemma scan_maps cache session_first_prompt targets : forall st st',
  for_each (scan_target cache session_first_prompt) st targets = Some st' ->
  exists new_sessions,
    st_sessions st' = st_sessions st ++ new_sessions
    /\ Forall2 (session_built session_first_prompt) (session_inputs cache targets) new_sessions
    /\ st_daily_map st' = fold_left daily_step new_sessions (st_daily_map st)
    /\ st_model_map st'
       = fold_left add_model (scan_queries cache targets) (st_model_map st)
    /\ st_tool_frequency st'
       = fold_left count_up (flat_map q_tools (scan_queries cache targets))
           (st_tool_frequency st).
Proof.
  induction targets as [|target targets IH]; cbn [for_each]; intros st st' Hrun.
  - injection Hrun as <-. exists []. rewrite app_nil_r. repeat split. constructor.
  - destruct (scan_target cache session_first_prompt st target) as [st1|] eqn:Hstep;
      [|discriminate].
    apply scan_target_step in Hstep.
    destruct (IH _ _ Hrun) as (new & Hs & Hnew & Hday & Hmod & Htool).
    rewrite session_inputs_cons, scan_queries_cons.
    destruct (queries_of cache (snd target)) as [|q qs] eqn:Hqs.
    + apply rollups_fields in Hstep as (Hs1 & Hd1 & Hm1 & _ & Ht1).
      exists new. rewrite Hs, Hday, Hmod, Htool, Hs1, Hd1, Hm1, Ht1. cbn [app].
      repeat split. exact Hnew.
    + destruct Hstep as (st0 & Hst0 & Hagg).
      apply rollups_fields in Hst0 as (Hs0 & Hd0 & Hm0 & _ & Ht0).
      pose proof (aggregate_session_maps _ _ _ _ _ _ Hagg) as (s & Hs1 & Hd1 & Hm1 & Ht1).
      exists (s :: new).
      rewrite Hs, Hday, Hmod, Htool, Hs1, Hd1, Hm1, Ht1, Hs0, Hd0, Hm0, Ht0.
      rewrite <- app_assoc, flat_map_app, !fold_left_app. cbn [app fold_left].
      repeat split. constructor; [|exact Hnew].
      exists st0, st1. cbn [fst snd]. split; [exact Hagg|]. rewrite Hs1. reflexivity.
Qed.

(** The fields of the snapshot, from the state the loops leave. *)
Lemma build_snapshot_lists {py : interpreter} st snapshot :
  build_snapshot py st = Some snapshot ->
  sessions snapshot
  = sorted (fun a b => (s_totalTokens b <=? s_totalTokens a)%Z) (st_sessions st)
  /\ dailyUsage snapshot
     = sorted (fun a b => String.leb (d_date a) (d_date b)) (od_values (st_daily_map st))
  /\ modelBreakdown snapshot
     = sorted (fun a b => (mm_totalTokens b <=? mm_totalTokens a)%Z)
         (od_values (st_model_map st))
  /\ topPrompts snapshot
     = take 50 (sorted (fun a b => (pr_totalTokens b <=? pr_totalTokens a)%Z)
                  (st_all_prompts st))
  /\ projects snapshot
     = sorted (fun a b => (pj_totalTokens b <=? pj_totalTokens a)%Z)
         (od_values (fold_left add_project (sessions snapshot) []))
  /\ toolStats snapshot
     = sorted (fun a b => (t_count b <=? t_count a)%Z)
         (map (fun nc => {| t_name := fst nc; t_count := snd nc |}) (st_tool_frequency st)).
Proof.
  unfold build_snapshot. cbv zeta.
  match goal with
  | |- context [mbind _ ?m] => destruct m as [cache_hit_rate|]; [|discriminate]
  end.
  cbn [mbind option_bind].
  match goal with
  | |- context [mbind _ ?m] => destruct m as [avg_session|]; [|discriminate]
  end.
  cbn [mbind option_bind].
  match goal with
  | |- context [mbind _ ?m] => destruct m as [avg_query|]; [|discriminate]
  end.
  cbn [mbind option_bind]. intros [= <-].
  cbn [sessions dailyUsage modelBreakdown topPrompts projects toolStats].
  repeat split.
Qed.

Lemma build_snapshot_totals {py : interpreter} st snapshot :
  build_snapshot py st = Some snapshot ->
  let t := totals snapshot in
  totalInput t = sum_with s_inputTokens (sessions snapshot)
  /\ totalOutput t = sum_with s_outputTokens (sessions snapshot)
  /\ totalCacheCreation t = sum_with s_cacheCreationTokens (sessions snapshot)
  /\ totalCacheRead t = sum_with s_cacheReadTokens (sessions snapshot)
  /\ totalTokens t
     = (totalInput t + totalOutput t + totalCacheCreation t + totalCacheRead t)%Z
  /\ totalSessions t = Z.of_nat (length (sessions snapshot))
  /\ totalQueries t = sum_with s_queryCount (sessions snapshot)
  /\ totalThinkingTurns t = sum_with s_thinkingTurns (sessions snapshot)
  /\ totalCost t = sum_floats py (map s_cost (sessions snapshot)).
Proof.
  unfold build_snapshot. cbv zeta.
  match goal with
  | |- context [mbind _ ?m] => destruct m as [cache_hit_rate|]; [|discriminate]
  end.
  cbn [mbind option_bind].
  match goal with
  | |- context [mbind _ ?m] => destruct m as [avg_session|]; [|discriminate]
  end.
  cbn [mbind option_bind].
  match goal with
  | |- context [mbind _ ?m] => destruct m as [avg_query|]; [|discriminate]
  end.
  cbn [mbind option_bind]. intros [= <-].
  cbn [sessions totals totalInput totalOutput totalCacheCreation totalCacheRead
       totalTokens totalSessions totalQueries totalThinkingTurns totalCost].
  repeat split.
Qed.

(** A completed scan: the state its loop leaves, and its snapshot. *)
Lemma completed_scan {py : interpreter} d force_refresh o :
  parse_all_sessions py d force_refresh = Some o ->
  exists st,
    for_each (scan_target (loaded_cache d force_refresh) (history_of d))
      initial_state (scanned_files d) = Some st
    /\ build_snapshot py st = Some (result o).
Proof.
  intros Hscan. destruct (dk_projects d) as [[entries|]|] eqn:Hprojects.
  - destruct (parse_all_sessions_completed d force_refresh o entries Hprojects Hscan)
      as (st & Hloop & Hsnap & _). exists st. split; assumption.
  - rewrite parse_all_sessions_no_listing in Hscan by (intros entries; congruence).
    injection Hscan as <-. exists initial_state. unfold scanned_files. rewrite Hprojects.
    split; reflexivity.
  - rewrite parse_all_sessions_no_listing in Hscan by (intros entries; congruence).
    injection Hscan as <-. exists initial_state. unfold scanned_files. rewrite Hprojects.
    split; reflexivity.
Qed.

(** ** Sessions and totals *)

Lemma history_display_truthy d sid p :
  od_get sid (history_of d) = Some p -> p <> EmptyString.
Proof.
  unfold history_of. destruct (dk_history d) as [lines|]; [|discriminate].
  rewrite read_history_get. cbn [od_get]. intros Hp.
  apply first_display_usable in Hp as [_ Hp]. unfold usable_display in Hp.
  destruct p; [discriminate|discriminate].
Qed.

Lemma scan_queries_inputs cache targets :
  scan_queries cache targets = flat_map snd (session_inputs cache targets).
Proof.
  induction targets as [|target targets IH]; [reflexivity|].
  rewrite scan_queries_cons, session_inputs_cons, IH.
  destruct (queries_of cache (snd target)); reflexivity.
Qed.

Lemma session_inputs_elem cache targets input :
  input ∈ session_inputs cache targets ->
  snd input <> []
  /\ exists target, target ∈ targets
       /\ input = (fst target, f_stem (snd target), queries_of cache (snd target)).
Proof.
  unfold session_inputs. intros Hin. apply list_elem_of_omap in Hin as (target & Hin & Heq).
  destruct (queries_of cache (snd target)) as [|q qs] eqn:Hqs; [discriminate|].
  injection Heq as <-. split; [discriminate|]. exists target. rewrite Hqs. auto.
Qed.

Lemma sum_over_inputs (fs : Session -> Z) (fq : Query -> Z)
    (inputs : list (string * string * list Query)) (built : list Session) :
  Forall2 (fun input s => fs s = sum_with fq (snd input)) inputs built ->
  sum_with fs built = sum_with fq (flat_map snd inputs).
Proof.
  induction 1 as [|input s inputs built Hs _ IH]; [reflexivity|].
  cbn [flat_map]. rewrite sum_with_cons, sum_with_app, Hs, IH. reflexivity.
Qed.

Lemma length_sum_with {A : Type} (l : list A) :
  Z.of_nat (length l) = sum_with (fun _ => 1%Z) l.
Proof.
  induction l as [|x l IH]; [reflexivity|]. rewrite sum_with_cons. cbn [length]. lia.
Qed.

Lemma count_of_sum_with {A : Type} (P : A -> Prop) `{!forall x, Decision (P x)} (l : list A) :
  count_of P l = sum_with (fun x => if decide (P x) then 1%Z else 0%Z) l.
Proof.
  unfold count_of. induction l as [|x l IH]; [reflexivity|].
  rewrite sum_with_cons, <- IH, filter_cons. destruct (decide (P x)); cbn [length]; lia.
Qed.

Lemma count_of_bounds {A : Type} (P : A -> Prop) `{!forall x, Decision (P x)} (l : list A) :
  (0 <= count_of P l <= Z.of_nat (length l))%Z.
Proof. unfold count_of. pose proof (length_filter P l). lia. Qed.

Lemma sum_with_nonneg {A : Type} (f : A -> Z) (l : list A) :
  (forall x, 0 <= f x)%Z -> (0 <= sum_with f l)%Z.
Proof.
  intros Hf. induction l as [|x l IH]; [reflexivity|].
  rewrite sum_with_cons. specialize (Hf x). lia.
Qed.

(** The sessions a completed scan builds, before they are sorted. *)
Lemma scan_built {py : interpreter} d force_refresh o :
  parse_all_sessions py d force_refresh = Some o ->
  exists st built,
    build_snapshot py st = Some (result o)
    /\ sessions (result o) ≡ₚ built
    /\ Forall2 (session_built (history_of d))
         (session_inputs (loaded_cache d force_refresh) (scanned_files d)) built
    /\ st_daily_map st = fold_left daily_step built []
    /\ st_model_map st
       = fold_left add_model (scan_queries (loaded_cache d force_refresh) (scanned_files d)) []
    /\ st_tool_frequency st
       = fold_left count_up
           (flat_map q_tools (scan_queries (loaded_cache d force_refresh) (scanned_files d)))
           [].
Proof.
  intros Hscan. apply completed_scan in Hscan as (st & Hloop & Hsnap).
  apply scan_maps in Hloop as (built & Hs & Hbuilt & Hday & Hmod & Htool).
  cbn [initial_state st_sessions st_daily_map st_model_map st_tool_frequency app] in *.
  exists st, built. split; [exact Hsnap|].
  apply build_snapshot_lists in Hsnap as (Hsessions & _).
  rewrite Hsessions, Hs. split; [apply sorted_perm|]. repeat split; assumption.
Qed.

(** X10. A scan that completes returns one session for each scanned file
    that gives at least one query, and no other: up to the order, the
    sessions are built from these files one by one.  The project of a
    session is the name of the directory, its id the stem of the file,
    and its query count, its four token sums, its total, its thinking
    turns and its tool calls are those of the queries of the file. *)
Theorem sessions_of_files (py : interpreter) (d : disk) (force_refresh : bool) (o : outcome) :
  parse_all_sessions py d force_refresh = Some o ->
  let cache := loaded_cache d force_refresh in
  exists built,
    sessions (result o) ≡ₚ built
    /\ Forall2 session_facts (session_inputs cache (scanned_files d)) built
    /\ forall input, input ∈ session_inputs cache (scanned_files d) ->
         snd input <> []
         /\ exists target, target ∈ scanned_files d
              /\ input = (fst target, f_stem (snd target), queries_of cache (snd target)).
Proof.
  intros Hscan cache. apply scan_built in Hscan as (st & built & _ & Hperm & Hbuilt & _).
  exists built. split; [exact Hperm|]. split.
  - eapply Forall2_impl; [exact Hbuilt|]. intros input s Hs.
    apply session_built_facts in Hs as [Hs _]. exact Hs.
  - apply session_inputs_elem.
Qed.

Lemma sessions_of_files_witness :
  let d := SampleDisk.two_files in
  let cache := loaded_cache d false in
  exists built,
    sessions (result SampleDisk.first_scan) ≡ₚ built
    /\ Forall2 session_facts (session_inputs cache (scanned_files d)) built
    /\ forall input, input ∈ session_inputs cache (scanned_files d) ->
         snd input <> []
         /\ exists target, target ∈ scanned_files d
              /\ input = (fst target, f_stem (snd target), queries_of cache (snd target)).
Proof.
  apply (sessions_of_files SampleDisk.python SampleDisk.two_files false SampleDisk.first_scan).
  vm_compute. reflexivity.
Defined.

(** X11. Every session of a completed scan has at least one query, a
    number of thinking turns between 0 and its query count, a tool
    density that is its tool calls divided by its query count, and a
    total that is the sum of its four token fields.  Its first prompt is
    not empty and has at most 200 characters; it is the text of the
    history, cut at 200, when the history has one for the session.  Its
    time stamp is never the empty string, and its date is the part of
    the time stamp before the first [T], or [unknown] without a time
    stamp. *)
Theorem session_invariants (py : interpreter) (d : disk) (force_refresh : bool) (o : outcome)
    (s : Session) :
  parse_all_sessions py d force_refresh = Some o ->
  s ∈ sessions (result o) ->
  (1 <= s_queryCount s)%Z
  /\ (0 <= s_thinkingTurns s <= s_queryCount s)%Z
  /\ (0 <= s_totalToolCalls s)%Z
  /\ Py.truediv (s_totalToolCalls s) (s_queryCount s) = Some (s_toolDensity s)
  /\ s_totalTokens s
     = (s_inputTokens s + s_outputTokens s + s_cacheCreationTokens s + s_cacheReadTokens s)%Z
  /\ s_firstPrompt s <> EmptyString
  /\ (Py.len (s_firstPrompt s) <= 200)%nat
  /\ (forall p, od_get (s_sessionId s) (history_of d) = Some p ->
        s_firstPrompt s = Py.slice_to 200 p)
  /\ s_timestamp s <> Some EmptyString
  /\ s_date s = match s_timestamp s with
                | Some t => Py.split_head "T" t
                | None => "unknown"%string
                end.
Proof.
  intros Hscan Hin. apply scan_built in Hscan as (st & built & _ & Hperm & Hbuilt & _).
  rewrite Hperm in Hin.
  apply list_elem_of_lookup in Hin as [i Hi].
  destruct (Forall2_lookup_r _ _ _ _ _ Hbuilt Hi) as (input & Hinput & Hs).
  assert (Hne : snd input <> []).
  { apply (session_inputs_elem (loaded_cache d force_refresh) (scanned_files d)).
    apply list_elem_of_lookup. eauto. }
  apply session_built_facts in Hs
    as (Hfacts & Hprompt & Hlen & Hhist & Hstamp & Hdate & Hdensity).
  destruct Hfacts as (_ & _ & Hcount & Hi1 & Ho1 & Hcc1 & Hcr1 & Htot & Hthink & Htools).
  assert (Hpos : (1 <= Z.of_nat (length (snd input)))%Z)
    by (destruct (snd input); [congruence|cbn [length]; lia]).
  repeat split; try assumption.
  - lia.
  - rewrite Hthink. apply count_of_bounds.
  - rewrite Hthink, Hcount. apply count_of_bounds.
  - rewrite Htools. apply sum_with_nonneg. intros q. unfold tool_calls. lia.
  - apply Hdensity, Hne.
  - rewrite Htot, Hi1, Ho1, Hcc1, Hcr1, <- sum_with_four_counts. lia.
  - intros p Hp. apply (Hhist p Hp). apply (history_display_truthy d _ _ Hp).
Qed.

Lemma session_invariants_witness :
  let s := SampleScan.scanned_session in
  (1 <= s_queryCount s)%Z
  /\ (0 <= s_thinkingTurns s <= s_queryCount s)%Z
  /\ (0 <= s_totalToolCalls s)%Z
  /\ Py.truediv (s_totalToolCalls s) (s_queryCount s) = Some (s_toolDensity s)
  /\ s_totalTokens s
     = (s_inputTokens s + s_outputTokens s + s_cacheCreationTokens s
        + s_cacheReadTokens s)%Z
  /\ s_firstPrompt s <> EmptyString
  /\ (Py.len (s_firstPrompt s) <= 200)%nat
  /\ (forall p, od_get (s_sessionId s) (history_of SampleDisk.two_files) = Some p ->
        s_firstPrompt s = Py.slice_to 200 p)
  /\ s_timestamp s <> Some EmptyString
  /\ s_date s = match s_timestamp s with
                | Some t => Py.split_head "T" t
                | None => "unknown"%string
                end.
Proof.
  apply (session_invariants SampleDisk.python SampleDisk.two_files false
           SampleDisk.first_scan SampleScan.scanned_session);
    [vm_compute; reflexivity|apply list_elem_of_here].
Defined.

Lemma facts_sum (fs : Session -> Z) (fq : Query -> Z)
    (inputs : list (string * string * list Query)) (built : list Session) :
  (forall input s, session_facts input s -> fs s = sum_with fq (snd input)) ->
  Forall2 session_facts inputs built ->
  sum_with fs built = sum_with fq (flat_map snd inputs).
Proof.
  intros Hf Hbuilt. apply sum_over_inputs.
  eapply Forall2_impl; [exact Hbuilt|]. exact Hf.
Qed.

(** A completed scan has one session per file that gives queries. *)
Lemma scan_total_sessions {py : interpreter} d force_refresh o :
  parse_all_sessions py d force_refresh = Some o ->
  totalSessions (totals (result o))
  = Z.of_nat (length (session_inputs (loaded_cache d force_refresh) (scanned_files d))).
Proof.
  intros Hscan. apply scan_built in Hscan as (st & built & Hsnap & Hperm & Hbuilt & _).
  apply build_snapshot_totals in Hsnap as (_ & _ & _ & _ & _ & Hsess & _).
  rewrite Hsess, (Permutation_length Hperm), (Forall2_length _ _ _ Hbuilt). reflexivity.
Qed.

(** X12. The totals of a completed scan count every query of the scan:
    the number of sessions is the number of files that give a query, and
    the number of queries, the four token totals, the grand total and
    the thinking turns are those of all the queries of the scanned
    files, served from the cache or parsed. *)
Theorem totals_of_queries (py : interpreter) (d : disk) (force_refresh : bool) (o : outcome) :
  parse_all_sessions py d force_refresh = Some o ->
  let cache := loaded_cache d force_refresh in
  let queries := scan_queries cache (scanned_files d) in
  let t := totals (result o) in
  totalSessions t = Z.of_nat (length (session_inputs cache (scanned_files d)))
  /\ totalQueries t = Z.of_nat (length queries)
  /\ totalInput t = sum_with q_inputTokens queries
  /\ totalOutput t = sum_with q_outputTokens queries
  /\ totalCacheCreation t = sum_with q_cacheCreationTokens queries
  /\ totalCacheRead t = sum_with q_cacheReadTokens queries
  /\ totalTokens t = sum_with four_counts queries
  /\ totalThinkingTurns t = count_of (fun q => q_hasThinking q = true) queries.
Proof.
  intros Hscan cache queries t.
  apply scan_built in Hscan as (st & built & Hsnap & Hperm & Hbuilt & _).
  apply build_snapshot_totals in Hsnap
    as (Hin & Hout & Hcc & Hcr & Htot & Hsess & Hq & Hthink & _).
  assert (Hfacts : Forall2 session_facts (session_inputs cache (scanned_files d)) built).
  { eapply Forall2_impl; [exact Hbuilt|]. intros input s Hs.
    apply session_built_facts in Hs as [Hs _]. exact Hs. }
  subst t queries. unfold cache. rewrite scan_queries_inputs.
  rewrite Htot, Hin, Hout, Hcc, Hcr, Hsess, Hq, Hthink.
  rewrite !(sum_with_perm _ _ _ Hperm), (Permutation_length Hperm).
  rewrite <- (Forall2_length _ _ _ Hfacts).
  rewrite (facts_sum s_inputTokens q_inputTokens _ _) by (try exact Hfacts; intros ? ? H; apply H).
  rewrite (facts_sum s_outputTokens q_outputTokens _ _) by (try exact Hfacts; intros ? ? H; apply H).
  rewrite (facts_sum s_cacheCreationTokens q_cacheCreationTokens _ _)
    by (try exact Hfacts; intros ? ? H; apply H).
  rewrite (facts_sum s_cacheReadTokens q_cacheReadTokens _ _)
    by (try exact Hfacts; intros ? ? H; apply H).
  rewrite (facts_sum s_queryCount (fun _ => 1%Z) _ _)
    by (try exact Hfacts; intros input s H; rewrite <- length_sum_with; apply H).
  rewrite (facts_sum s_thinkingTurns
             (fun q => if decide (q_hasThinking q = true) then 1%Z else 0%Z) _ _)
    by (try exact Hfacts; intros input s H; rewrite <- count_of_sum_with; apply H).
  rewrite <- length_sum_with, <- count_of_sum_with, <- sum_with_four_counts.
  repeat split; try reflexivity. subst cache. lia.
Qed.

Lemma totals_of_queries_witness :
  let d := SampleDisk.two_files in
  let cache := loaded_cache d false in
  let queries := scan_queries cache (scanned_files d) in
  let t := totals (result SampleDisk.first_scan) in
  totalSessions t = Z.of_nat (length (session_inputs cache (scanned_files d)))
  /\ totalQueries t = Z.of_nat (length queries)
  /\ totalInput t = sum_with q_inputTokens queries
  /\ totalOutput t = sum_with q_outputTokens queries
  /\ totalCacheCreation t = sum_with q_cacheCreationTokens queries
  /\ totalCacheRead t = sum_with q_cacheReadTokens queries
  /\ totalTokens t = sum_with four_counts queries
  /\ totalThinkingTurns t = count_of (fun q => q_hasThinking q = true) queries.
Proof.
  apply (totals_of_queries SampleDisk.python SampleDisk.two_files false SampleDisk.first_scan).
  vm_compute. reflexivity.
Defined.

(** ** The order of the lists *)

Lemma take_StronglySorted {A : Type} (R : A -> A -> Prop) (n : nat) (l : list A) :
  StronglySorted R l -> StronglySorted R (take n l).
Proof.
  intros Hl. rewrite <- (take_drop n l) in Hl. apply StronglySorted_app_1_l in Hl. exact Hl.
Qed.

Lemma ltb_of_leb (a b : string) : String.leb a b = true -> a <> b -> String.ltb a b = true.
Proof.
  unfold String.leb, String.ltb. intros Hle Hne.
  destruct (String.compare a b) eqn:Hc; try reflexivity; try discriminate.
  apply String.compare_eq_iff in Hc. congruence.
Qed.

Lemma StronglySorted_strict {A : Type} (key : A -> string) (l : list A) :
  NoDup (map key l) ->
  StronglySorted (fun a b => String.leb (key a) (key b) = true) l ->
  StronglySorted (fun a b => String.ltb (key a) (key b) = true) l.
Proof.
  intros Hnd. induction 1 as [|x l Hl IH Hx]; [constructor|].
  cbn [map] in Hnd. apply NoDup_cons in Hnd as [Hfresh Hnd].
  constructor; [apply IH, Hnd|].
  apply Forall_forall. intros y Hy. rewrite Forall_forall in Hx.
  apply ltb_of_leb; [apply Hx, Hy|]. intros Heq. apply Hfresh. rewrite Heq.
  apply (list_elem_of_fmap_2 key), Hy.
Qed.

(** ** The rows of a grouping *)

Section group_rows.
Context {K V A : Type} `{EqDecision K}.
Context (key : A -> K) (init : K -> V) (add : V -> A -> V).

Lemma od_get_elem (d : list (K * V)) (k : K) (v : V) :
  NoDup (od_keys d) -> (k, v) ∈ d -> od_get k d = Some v.
Proof.
  induction d as [|[k0 v0] d IH]; intros Hnd Hin; [apply elem_of_nil in Hin as []|].
  cbn [od_keys map fst] in Hnd. apply NoDup_cons in Hnd as [Hfresh Hnd].
  cbn [od_get]. apply elem_of_cons in Hin as [[= -> ->]|Hin].
  - rewrite decide_True by reflexivity. reflexivity.
  - destruct (decide (k = k0)) as [->|Hne]; [|apply IH; assumption].
    exfalso. apply Hfresh. apply (list_elem_of_fmap_2 fst) in Hin. exact Hin.
Qed.

(** The rows of a rollup: one per key that occurs, folded over the
    elements that have this key, in their order. *)
Lemma group_values (l : list A) (row : V) :
  row ∈ od_values (fold_left (group_step key init add) l [])
  <-> exists k, filter (fun a => key a = k) l <> []
                /\ row = fold_left add (filter (fun a => key a = k) l) (init k).
Proof.
  rewrite od_values_get by (apply group_keys_NoDup, NoDup_nil_2).
  split; intros [k Hk]; exists k.
  - rewrite group_get in Hk. unfold group_row in Hk. cbn [od_get default] in Hk.
    destruct (filter (fun a => key a = k) l) as [|a g]; [discriminate|].
    injection Hk as <-. split; [discriminate|reflexivity].
  - destruct Hk as [Hne ->]. rewrite group_get. unfold group_row. cbn [od_get default].
    destruct (filter (fun a => key a = k) l) as [|a g]; [congruence|reflexivity].
Qed.

Lemma group_keys_elem (l : list A) (k : K) :
  k ∈ od_keys (fold_left (group_step key init add) l [])
  <-> exists a, a ∈ l /\ key a = k.
Proof.
  destruct (od_get k (fold_left (group_step key init add) l [])) as [v|] eqn:Hget.
  - split; [intros _|intros _].
    + rewrite group_get in Hget. unfold group_row in Hget. cbn [od_get default] in Hget.
      destruct (filter (fun a => key a = k) l) as [|a g] eqn:Hg; [discriminate|].
      exists a. assert (Ha : a ∈ filter (fun a => key a = k) l) by (rewrite Hg; left).
      apply list_elem_of_filter in Ha as [Hkey Ha]. split; assumption.
    + apply od_get_Some_elem in Hget. apply (list_elem_of_fmap_2 fst) in Hget. exact Hget.
  - split.
    + intros Hin. apply od_get_None in Hget. contradiction.
    + intros (a & Hin & Hkey). rewrite group_get in Hget. unfold group_row in Hget.
      cbn [od_get default] in Hget.
      assert (Ha : a ∈ filter (fun a => key a = k) l)
        by (apply list_elem_of_filter; auto).
      destruct (filter (fun a => key a = k) l); [apply elem_of_nil in Ha as []|discriminate].
Qed.

Context (row_key : V -> K).
Hypothesis row_key_init : forall k, row_key (init k) = k.
Hypothesis row_key_add : forall v a, row_key (add v a) = row_key v.

Lemma group_fold_key (g : list A) : forall v, row_key (fold_left add g v) = row_key v.
Proof using row_key_add.
  induction g as [|a g IH]; intros v; [reflexivity|]. cbn [fold_left].
  rewrite IH. apply row_key_add.
Qed.

(** Every row carries its key, so there is one row per key. *)
Lemma group_rows_keyed (l : list A) :
  map row_key (od_values (fold_left (group_step key init add) l []))
  = od_keys (fold_left (group_step key init add) l []).
Proof using row_key_init row_key_add.
  set (m := fold_left (group_step key init add) l []).
  assert (Hnd : NoDup (od_keys m)) by (apply group_keys_NoDup, NoDup_nil_2).
  assert (Hall : Forall (fun kv => row_key (snd kv) = fst kv) m).
  { apply Forall_forall. intros [k v] Hin. cbn [fst snd].
    apply od_get_elem in Hin; [|exact Hnd]. subst m. rewrite group_get in Hin.
    unfold group_row in Hin. cbn [od_get default] in Hin.
    destruct (filter (fun a => key a = k) l); [discriminate|].
    injection Hin as <-. rewrite group_fold_key, row_key_add. apply row_key_init. }
  clear -Hall. induction Hall as [|[k v] m Hkv _ IH]; [reflexivity|].
  cbn. cbn in Hkv. rewrite Hkv. f_equal. exact IH.
Qed.

Lemma group_rows_NoDup (l : list A) :
  NoDup (map row_key (od_values (fold_left (group_step key init add) l []))).
Proof using row_key_init row_key_add.
  rewrite group_rows_keyed. apply group_keys_NoDup, NoDup_nil_2.
Qed.
End group_rows.

(** ** The rollups as groupings *)

Lemma daily_step_group daily_map s :
  daily_step daily_map s
  = if decide (dated s) then group_step s_date daily_init daily_add daily_map s
    else daily_map.
Proof.
  unfold daily_step, add_daily, dated, group_step.
  destruct (decide (s_date s <> "unknown"%string)) as [Hd|Hd].
  - rewrite bool_decide_eq_false_2 by exact Hd. unfold daily_add, daily_init.
    destruct (od_get (s_date s) daily_map); reflexivity.
  - rewrite bool_decide_eq_true_2 by (destruct (decide (s_date s = "unknown"%string)); tauto).
    reflexivity.
Qed.

Lemma daily_fold_group (built : list Session) : forall daily_map,
  fold_left daily_step built daily_map
  = fold_left (group_step s_date daily_init daily_add) (filter dated built) daily_map.
Proof.
  induction built as [|s built IH]; intros daily_map; [reflexivity|].
  cbn [fold_left]. rewrite IH, daily_step_group, filter_cons.
  destruct (decide (dated s)); reflexivity.
Qed.

Lemma add_project_group project_map s :
  add_project project_map s = group_step s_project project_init project_add project_map s.
Proof.
  unfold add_project, group_step, project_add, project_init.
  destruct (od_get (s_project s) project_map); reflexivity.
Qed.

Lemma project_fold_group (l : list Session) : forall project_map,
  fold_left add_project l project_map
  = fold_left (group_step s_project project_init project_add) l project_map.
Proof.
  induction l as [|s l IH]; intros project_map; [reflexivity|].
  cbn [fold_left]. rewrite IH, add_project_group. reflexivity.
Qed.

Lemma add_model_group model_map q :
  add_model model_map q
  = if billed q then group_step q_model model_init model_add model_map q else model_map.
Proof.
  unfold add_model, billed, group_step, model_add, model_init.
  destruct (bool_decide (q_model q = Some "<synthetic>"%string)
            || bool_decide (q_model q = Some "unknown"%string)); [reflexivity|].
  cbn [negb]. destruct (od_get (q_model q) model_map); reflexivity.
Qed.

Lemma model_fold_group (queries : list Query) : forall model_map,
  fold_left add_model queries model_map
  = fold_left (group_step q_model model_init model_add)
      (filter (fun q => billed q = true) queries) model_map.
Proof.
  induction queries as [|q queries IH]; intros model_map; [reflexivity|].
  cbn [fold_left]. rewrite IH, add_model_group, filter_cons.
  destruct (billed q); [rewrite decide_True by reflexivity|rewrite decide_False by discriminate];
    reflexivity.
Qed.

Lemma count_up_fold {K : Type} `{EqDecision K} (keys : list K) : forall counts,
  fold_left count_up keys counts
  = fold_left (group_step id (fun _ => 0%Z) (fun c _ => (c + 1)%Z)) keys counts.
Proof. reflexivity. Qed.

(** ** The fields of a row *)

Lemma daily_fold_fields (group : list Session) : forall row,
  let row' := fold_left daily_add group row in
  d_date row' = d_date row
  /\ d_sessions row' = (d_sessions row + Z.of_nat (length group))%Z
  /\ d_queries row' = (d_queries row + sum_with s_queryCount group)%Z
  /\ d_inputTokens row' = (d_inputTokens row + sum_with s_inputTokens group)%Z
  /\ d_outputTokens row' = (d_outputTokens row + sum_with s_outputTokens group)%Z
  /\ d_cacheCreationTokens row'
     = (d_cacheCreationTokens row + sum_with s_cacheCreationTokens group)%Z
  /\ d_cacheReadTokens row' = (d_cacheReadTokens row + sum_with s_cacheReadTokens group)%Z
  /\ d_totalTokens row' = (d_totalTokens row + sum_with s_totalTokens group)%Z
  /\ d_cost row' = fsum_from s_cost (d_cost row) group.
Proof.
  induction group as [|s group IH]; intros row; cbn [fold_left].
  - rewrite !sum_with_nil. cbn. repeat split; lia.
  - destruct (IH (daily_add row s)) as (H1 & H2 & H3 & H4 & H5 & H6 & H7 & H8 & H9).
    cbv zeta. rewrite H1, H2, H3, H4, H5, H6, H7, H8, H9, !sum_with_cons.
    cbn [daily_add d_date d_sessions d_queries d_inputTokens d_outputTokens
         d_cacheCreationTokens d_cacheReadTokens d_totalTokens d_cost length].
    repeat split; lia.
Qed.

Lemma project_fold_fields (group : list Session) : forall row,
  let row' := fold_left project_add group row in
  pj_project row' = pj_project row
  /\ pj_sessionCount row' = (pj_sessionCount row + Z.of_nat (length group))%Z
  /\ pj_queryCount row' = (pj_queryCount row + sum_with s_queryCount group)%Z
  /\ pj_inputTokens row' = (pj_inputTokens row + sum_with s_inputTokens group)%Z
  /\ pj_outputTokens row' = (pj_outputTokens row + sum_with s_outputTokens group)%Z
  /\ pj_cacheCreationTokens row'
     = (pj_cacheCreationTokens row + sum_with s_cacheCreationTokens group)%Z
  /\ pj_cacheReadTokens row' = (pj_cacheReadTokens row + sum_with s_cacheReadTokens group)%Z
  /\ pj_totalTokens row' = (pj_totalTokens row + sum_with s_totalTokens group)%Z
  /\ pj_cost row' = fsum_from s_cost (pj_cost row) group.
Proof.
  induction group as [|s group IH]; intros row; cbn [fold_left].
  - rewrite !sum_with_nil. cbn. repeat split; lia.
  - destruct (IH (project_add row s)) as (H1 & H2 & H3 & H4 & H5 & H6 & H7 & H8 & H9).
    cbv zeta. rewrite H1, H2, H3, H4, H5, H6, H7, H8, H9, !sum_with_cons.
    cbn [project_add pj_project pj_sessionCount pj_queryCount pj_inputTokens pj_outputTokens
         pj_cacheCreationTokens pj_cacheReadTokens pj_totalTokens pj_cost length].
    repeat split; lia.
Qed.

Lemma model_fold_fields (group : list Query) : forall row,
  let row' := fold_left model_add group row in
  mm_model row' = mm_model row
  /\ mm_queryCount row' = (mm_queryCount row + Z.of_nat (length group))%Z
  /\ mm_inputTokens row' = (mm_inputTokens row + sum_with q_inputTokens group)%Z
  /\ mm_outputTokens row' = (mm_outputTokens row + sum_with q_outputTokens group)%Z
  /\ mm_cacheCreationTokens row'
     = (mm_cacheCreationTokens row + sum_with q_cacheCreationTokens group)%Z
  /\ mm_cacheReadTokens row' = (mm_cacheReadTokens row + sum_with q_cacheReadTokens group)%Z
  /\ mm_totalTokens row' = (mm_totalTokens row + sum_with q_totalTokens group)%Z
  /\ mm_cost row' = fsum_from q_cost (mm_cost row) group.
Proof.
  induction group as [|q group IH]; intros row; cbn [fold_left].
  - rewrite !sum_with_nil. cbn. repeat split; lia.
  - destruct (IH (model_add row q)) as (H1 & H2 & H3 & H4 & H5 & H6 & H7 & H8).
    cbv zeta. rewrite H1, H2, H3, H4, H5, H6, H7, H8, !sum_with_cons.
    cbn [model_add mm_model mm_queryCount mm_inputTokens mm_outputTokens
         mm_cacheCreationTokens mm_cacheReadTokens mm_totalTokens mm_cost length].
    repeat split; lia.
Qed.

Lemma count_fold {K : Type} (group : list K) : forall c,
  fold_left (fun c (_ : K) => (c + 1)%Z) group c = (c + Z.of_nat (length group))%Z.
Proof.
  induction group as [|t group IH]; intros c; cbn [fold_left length]; [lia|].
  rewrite IH. lia.
Qed.

(** ** The lists of the snapshot *)

Lemma sorted_elem {A : Type} (before : A -> A -> bool) (l : list A) (x : A) :
  x ∈ sorted before l <-> x ∈ l.
Proof. rewrite (sorted_perm before l). reflexivity. Qed.

Lemma sorted_NoDup_keys {A K : Type} (before : A -> A -> bool) (key : A -> K) (l : list A) :
  NoDup (map key l) -> NoDup (map key (sorted before l)).
Proof.
  intros Hnd. eapply NoDup_Permutation_proper; [|exact Hnd].
  apply fmap_Permutation, sorted_perm.
Qed.

Lemma filter_dated_date (k : string) (l : list Session) :
  k <> "unknown"%string ->
  filter (fun s => s_date s = k) (filter dated l) = filter (fun s => s_date s = k) l.
Proof.
  intros Hk. induction l as [|s l IH]; [reflexivity|].
  rewrite (filter_cons dated). destruct (decide (dated s)) as [Hd|Hd].
  - rewrite !filter_cons. destruct (decide (s_date s = k)); rewrite IH; reflexivity.
  - rewrite IH, filter_cons_False; [reflexivity|].
    unfold dated in Hd. intros Heq. apply Hd. congruence.
Qed.

(** The rows of the daily rollup of a completed scan. *)
Lemma daily_rows_built {py : interpreter} d force_refresh o :
  parse_all_sessions py d force_refresh = Some o ->
  exists built,
    sessions (result o) ≡ₚ built
    /\ dailyUsage (result o)
       = sorted (fun a b => String.leb (d_date a) (d_date b))
           (od_values (fold_left (group_step s_date daily_init daily_add)
                         (filter dated built) [])).
Proof.
  intros Hscan. apply scan_built in Hscan as (st & built & Hsnap & Hperm & _ & Hday & _).
  exists built. split; [exact Hperm|].
  apply build_snapshot_lists in Hsnap as (_ & Hdaily & _).
  rewrite Hdaily, Hday, daily_fold_group. reflexivity.
Qed.

(** X13. The lists of a snapshot are ordered: the sessions, the model
    rows, the prompts and the projects by decreasing total, the tools by
    decreasing count, and the days by strictly increasing date.  There
    are at most 50 prompts. *)
Theorem snapshot_ordered (py : interpreter) (d : disk) (force_refresh : bool) (o : outcome) :
  parse_all_sessions py d force_refresh = Some o ->
  let r := result o in
  StronglySorted (fun a b => (s_totalTokens b <= s_totalTokens a)%Z) (sessions r)
  /\ StronglySorted (fun a b => String.ltb (d_date a) (d_date b) = true) (dailyUsage r)
  /\ StronglySorted (fun a b => (mm_totalTokens b <= mm_totalTokens a)%Z) (modelBreakdown r)
  /\ StronglySorted (fun a b => (pr_totalTokens b <= pr_totalTokens a)%Z) (topPrompts r)
  /\ (length (topPrompts r) <= 50)%nat
  /\ StronglySorted (fun a b => (pj_totalTokens b <= pj_totalTokens a)%Z) (projects r)
  /\ StronglySorted (fun a b => (t_count b <= t_count a)%Z) (toolStats r).
Proof.
  intros Hscan r. pose proof (daily_rows_built d force_refresh o Hscan) as (built & _ & Hdaily).
  apply completed_scan in Hscan as (st & _ & Hsnap).
  apply build_snapshot_lists in Hsnap as (Hs & _ & Hm & Hp & Hpj & Ht).
  subst r. rewrite Hs at 1. rewrite Hm, Hp, Hpj, Ht, Hdaily.
  split; [apply sorted_descending|]. split; [|split; [apply sorted_descending|]].
  - apply StronglySorted_strict.
    + apply sorted_NoDup_keys.
      apply (group_rows_NoDup s_date daily_init daily_add d_date); reflexivity.
    + apply (sorted_StronglySorted (fun a b => String.leb (d_date a) (d_date b))).
      * intros x y. apply String.leb_total.
      * intros x y z. apply leb_trans.
  - split; [apply take_StronglySorted, sorted_descending|].
    split; [rewrite length_take; lia|].
    split; apply sorted_descending.
Qed.

Lemma snapshot_ordered_witness :
  let r := result SampleDisk.first_scan in
  StronglySorted (fun a b => (s_totalTokens b <= s_totalTokens a)%Z) (sessions r)
  /\ StronglySorted (fun a b => String.ltb (d_date a) (d_date b) = true) (dailyUsage r)
  /\ StronglySorted (fun a b => (mm_totalTokens b <= mm_totalTokens a)%Z) (modelBreakdown r)
  /\ StronglySorted (fun a b => (pr_totalTokens b <= pr_totalTokens a)%Z) (topPrompts r)
  /\ (length (topPrompts r) <= 50)%nat
  /\ StronglySorted (fun a b => (pj_totalTokens b <= pj_totalTokens a)%Z) (projects r)
  /\ StronglySorted (fun a b => (t_count b <= t_count a)%Z) (toolStats r).
Proof.
  apply (snapshot_ordered SampleDisk.python SampleDisk.two_files false SampleDisk.first_scan).
  vm_compute. reflexivity.
Defined.

(** X14. The daily rollup has one row for each date other than [unknown]
    that a session has, and no other row.  The row of a date counts the
    sessions of that date and adds up their queries and their token
    fields. *)
Theorem daily_rows (py : interpreter) (d : disk) (force_refresh : bool) (o : outcome) :
  parse_all_sessions py d force_refresh = Some o ->
  let r := result o in
  (forall row, row ∈ dailyUsage r ->
     let group := filter (fun s => s_date s = d_date row) (sessions r) in
     d_date row <> "unknown"%string
     /\ group <> []
     /\ d_sessions row = Z.of_nat (length group)
     /\ d_queries row = sum_with s_queryCount group
     /\ d_inputTokens row = sum_with s_inputTokens group
     /\ d_outputTokens row = sum_with s_outputTokens group
     /\ d_cacheCreationTokens row = sum_with s_cacheCreationTokens group
     /\ d_cacheReadTokens row = sum_with s_cacheReadTokens group
     /\ d_totalTokens row = sum_with s_totalTokens group)
  /\ (forall s, s ∈ sessions r -> s_date s <> "unknown"%string ->
        exists row, row ∈ dailyUsage r /\ d_date row = s_date s)
  /\ NoDup (map d_date (dailyUsage r)).
Proof.
  intros Hscan r. apply daily_rows_built in Hscan as (built & Hperm & Hdaily).
  subst r. rewrite Hdaily. split; [|split].
  - intros row Hrow. apply sorted_elem in Hrow.
    apply group_values in Hrow as (k & Hne & ->).
    destruct (daily_fold_fields (filter (fun s => s_date s = k) (filter dated built))
                (daily_init k)) as (H1 & H2 & H3 & H4 & H5 & H6 & H7 & H8 & _).
    cbv zeta in *. rewrite H1, H2, H3, H4, H5, H6, H7, H8.
    cbn [daily_init d_date d_sessions d_queries d_inputTokens d_outputTokens
         d_cacheCreationTokens d_cacheReadTokens d_totalTokens].
    assert (Hk : k <> "unknown"%string).
    { destruct (filter (fun s => s_date s = k) (filter dated built)) as [|s g] eqn:Hg;
        [congruence|].
      assert (Hs : s ∈ filter (fun s => s_date s = k) (filter dated built))
        by (rewrite Hg; left).
      apply list_elem_of_filter in Hs as [Hdate Hs].
      apply list_elem_of_filter in Hs as [Hdated _]. unfold dated in Hdated. congruence. }
    rewrite filter_dated_date in * by exact Hk.
    assert (Hgroup : filter (fun s => s_date s = k) (sessions (result o))
                     ≡ₚ filter (fun s => s_date s = k) built)
      by (apply filter_Permutation, Hperm).
    rewrite !(sum_with_perm _ _ _ Hgroup), (Permutation_length Hgroup).
    split; [exact Hk|]. split.
    + intros Hnil. rewrite Hnil in Hgroup. apply Permutation_nil_l in Hgroup. congruence.
    + repeat split; lia.
  - intros s Hs Hdate. rewrite Hperm in Hs.
    assert (Hkey : s_date s ∈ od_keys (fold_left (group_step s_date daily_init daily_add)
                                         (filter dated built) [])).
    { apply group_keys_elem. exists s. split; [|reflexivity].
      apply list_elem_of_filter. split; [exact Hdate|exact Hs]. }
    rewrite <- (group_rows_keyed s_date daily_init daily_add d_date) in Hkey
      by reflexivity.
    apply list_elem_of_fmap in Hkey as (row & Heq & Hrow).
    exists row. split; [apply sorted_elem, Hrow|congruence].
  - apply sorted_NoDup_keys.
    apply (group_rows_NoDup s_date daily_init daily_add d_date); reflexivity.
Qed.

Lemma daily_rows_witness :
  let r := result SampleDisk.first_scan in
  (forall row, row ∈ dailyUsage r ->
     let group := filter (fun s => s_date s = d_date row) (sessions r) in
     d_date row <> "unknown"%string
     /\ group <> []
     /\ d_sessions row = Z.of_nat (length group)
     /\ d_queries row = sum_with s_queryCount group
     /\ d_inputTokens row = sum_with s_inputTokens group
     /\ d_outputTokens row = sum_with s_outputTokens group
     /\ d_cacheCreationTokens row = sum_with s_cacheCreationTokens group
     /\ d_cacheReadTokens row = sum_with s_cacheReadTokens group
     /\ d_totalTokens row = sum_with s_totalTokens group)
  /\ (forall s, s ∈ sessions r -> s_date s <> "unknown"%string ->
        exists row, row ∈ dailyUsage r /\ d_date row = s_date s)
  /\ NoDup (map d_date (dailyUsage r)).
Proof.
  apply (daily_rows SampleDisk.python SampleDisk.two_files false SampleDisk.first_scan).
  vm_compute. reflexivity.
Defined.

(** ** The project, model and tool rollups *)

(** A sum over the rows of a grouping is the sum over what was grouped,
    when every element adds its share to its row. *)
Lemma group_sum {K V A : Type} `{EqDecision K} (key : A -> K) (init : K -> V)
    (add : V -> A -> V) (fv : V -> Z) (fa : A -> Z) :
  (forall k, fv (init k) = 0%Z) ->
  (forall v a, fv (add v a) = (fv v + fa a)%Z) ->
  forall (l : list A) (m : list (K * V)),
    sum_with fv (od_values (fold_left (group_step key init add) l m))
    = (sum_with fv (od_values m) + sum_with fa l)%Z.
Proof.
  intros Hinit Hadd. induction l as [|a l IH]; intros m; cbn [fold_left].
  - rewrite sum_with_nil. lia.
  - rewrite IH, sum_with_cons. unfold group_step. rewrite sum_with_od_set, Hadd.
    destruct (od_get (key a) m) as [v|]; cbn [default fmap option_fmap option_map].
    + unfold id. lia.
    + rewrite Hinit. lia.
Qed.

(** X15. The project rollup has one row for each project that a session
    has, and no other row.  The row of a project counts its sessions,
    adds up their queries and their token fields, and adds their costs
    from left to right in the order of the sorted sessions.  Over all
    the rows the totals, the sessions and the queries add up to those of
    the snapshot. *)
Theorem project_rows (py : interpreter) (d : disk) (force_refresh : bool) (o : outcome) :
  parse_all_sessions py d force_refresh = Some o ->
  let r := result o in
  (forall row, row ∈ projects r ->
     let group := filter (fun s => s_project s = pj_project row) (sessions r) in
     group <> []
     /\ pj_sessionCount row = Z.of_nat (length group)
     /\ pj_queryCount row = sum_with s_queryCount group
     /\ pj_inputTokens row = sum_with s_inputTokens group
     /\ pj_outputTokens row = sum_with s_outputTokens group
     /\ pj_cacheCreationTokens row = sum_with s_cacheCreationTokens group
     /\ pj_cacheReadTokens row = sum_with s_cacheReadTokens group
     /\ pj_totalTokens row = sum_with s_totalTokens group
     /\ pj_cost row = fsum_with s_cost group)
  /\ (forall s, s ∈ sessions r -> exists row, row ∈ projects r /\ pj_project row = s_project s)
  /\ NoDup (map pj_project (projects r))
  /\ sum_with pj_totalTokens (projects r) = totalTokens (totals r)
  /\ sum_with pj_sessionCount (projects r) = totalSessions (totals r)
  /\ sum_with pj_queryCount (projects r) = totalQueries (totals r).
Proof.
  intros Hscan r.
  pose proof (scan_built d force_refresh o Hscan) as (st & built & Hsnap & Hperm & Hbuilt & _).
  pose proof (build_snapshot_totals st _ Hsnap)
    as (Hin & Hout & Hcc & Hcr & Htot & Hsess & Hq & _).
  apply build_snapshot_lists in Hsnap as (_ & _ & _ & _ & Hpj & _).
  subst r. rewrite Hpj, project_fold_group.
  split; [|split; [|split; [|split; [|split]]]].
  - intros row Hrow. apply sorted_elem in Hrow.
    apply group_values in Hrow as (k & Hne & ->).
    destruct (project_fold_fields (filter (fun s => s_project s = k) (sessions (result o)))
                (project_init k)) as (H1 & H2 & H3 & H4 & H5 & H6 & H7 & H8 & H9).
    cbv zeta in *. rewrite H1, H2, H3, H4, H5, H6, H7, H8, H9.
    cbn [project_init pj_project pj_sessionCount pj_queryCount pj_inputTokens
         pj_outputTokens pj_cacheCreationTokens pj_cacheReadTokens pj_totalTokens pj_cost].
    split; [exact Hne|]. repeat split; lia.
  - intros s Hs.
    assert (Hkey : s_project s
                   ∈ od_keys (fold_left (group_step s_project project_init project_add)
                                (sessions (result o)) [])).
    { apply group_keys_elem. exists s. split; [exact Hs|reflexivity]. }
    rewrite <- (group_rows_keyed s_project project_init project_add pj_project) in Hkey
      by reflexivity.
    apply list_elem_of_fmap in Hkey as (row & Heq & Hrow).
    exists row. split; [apply sorted_elem, Hrow|congruence].
  - apply sorted_NoDup_keys.
    apply (group_rows_NoDup s_project project_init project_add pj_project); reflexivity.
  - rewrite (sum_with_perm _ _ _ (sorted_perm _ _)).
    rewrite (group_sum s_project project_init project_add pj_totalTokens s_totalTokens)
      by reflexivity.
    rewrite Htot, Hin, Hout, Hcc, Hcr, sum_sessions_add_up; [cbn; lia|].
    rewrite Hperm. clear -Hbuilt.
    induction Hbuilt as [|input s inputs built Hs _ IH]; constructor; [|exact IH].
    apply session_built_facts in Hs as [Hs _].
    destruct Hs as (_ & _ & _ & Hi & Ho & Hcc & Hcr & Htot & _).
    unfold session_adds_up. rewrite Htot, Hi, Ho, Hcc, Hcr, <- sum_with_four_counts. lia.
  - rewrite (sum_with_perm _ _ _ (sorted_perm _ _)).
    rewrite (group_sum s_project project_init project_add pj_sessionCount (fun _ => 1%Z))
      by reflexivity.
    rewrite Hsess, <- length_sum_with. cbn. lia.
  - rewrite (sum_with_perm _ _ _ (sorted_perm _ _)).
    rewrite (group_sum s_project project_init project_add pj_queryCount s_queryCount)
      by reflexivity.
    rewrite Hq. cbn. lia.
Qed.

Lemma project_rows_witness :
  let r := result SampleDisk.first_scan in
  (forall row, row ∈ projects r ->
     let group := filter (fun s => s_project s = pj_project row) (sessions r) in
     group <> []
     /\ pj_sessionCount row = Z.of_nat (length group)
     /\ pj_queryCount row = sum_with s_queryCount group
     /\ pj_inputTokens row = sum_with s_inputTokens group
     /\ pj_outputTokens row = sum_with s_outputTokens group
     /\ pj_cacheCreationTokens row = sum_with s_cacheCreationTokens group
     /\ pj_cacheReadTokens row = sum_with s_cacheReadTokens group
     /\ pj_totalTokens row = sum_with s_totalTokens group
     /\ pj_cost row = fsum_with s_cost group)
  /\ (forall s, s ∈ sessions r -> exists row, row ∈ projects r /\ pj_project row = s_project s)
  /\ NoDup (map pj_project (projects r))
  /\ sum_with pj_totalTokens (projects r) = totalTokens (totals r)
  /\ sum_with pj_sessionCount (projects r) = totalSessions (totals r)
  /\ sum_with pj_queryCount (projects r) = totalQueries (totals r).
Proof.
  apply (project_rows SampleDisk.python SampleDisk.two_files false SampleDisk.first_scan).
  vm_compute. reflexivity.
Defined.

(** Every billed query of a completed scan has its row in the model
    rollup. *)
Lemma model_row_of_query {py : interpreter} d force_refresh o q :
  parse_all_sessions py d force_refresh = Some o ->
  q ∈ scan_queries (loaded_cache d force_refresh) (scanned_files d) ->
  billed q = true ->
  exists row, row ∈ modelBreakdown (result o) /\ mm_model row = q_model q.
Proof.
  intros Hscan Hq Hbilled.
  pose proof (scan_built d force_refresh o Hscan) as (st & built & Hsnap & _ & _ & _ & Hmod & _).
  apply build_snapshot_lists in Hsnap as (_ & _ & Hm & _).
  rewrite Hm, Hmod, model_fold_group.
  set (queries := scan_queries (loaded_cache d force_refresh) (scanned_files d)) in *.
  assert (Hkey : q_model q
                 ∈ od_keys (fold_left (group_step q_model model_init model_add)
                              (filter (fun q => billed q = true) queries) [])).
  { apply group_keys_elem. exists q. split; [|reflexivity].
    apply list_elem_of_filter. split; assumption. }
  rewrite <- (group_rows_keyed q_model model_init model_add mm_model) in Hkey
    by reflexivity.
  apply list_elem_of_fmap in Hkey as (row & Heq & Hrow).
  exists row. split; [apply sorted_elem, Hrow|congruence].
Qed.

(** X16. The model rollup has one row for each model, other than
    [<synthetic>] and [unknown], that a query of the scan has, and no
    other row.  The row of a model counts its queries, adds up their
    token fields and their totals, and adds their costs from left to
    right in the order of the scan. *)
Theorem model_rows (py : interpreter) (d : disk) (force_refresh : bool) (o : outcome) :
  parse_all_sessions py d force_refresh = Some o ->
  let r := result o in
  let queries := scan_queries (loaded_cache d force_refresh) (scanned_files d) in
  (forall row, row ∈ modelBreakdown r ->
     let group := filter (fun q => q_model q = mm_model row) queries in
     mm_model row <> Some "<synthetic>"%string
     /\ mm_model row <> Some "unknown"%string
     /\ group <> []
     /\ mm_queryCount row = Z.of_nat (length group)
     /\ mm_inputTokens row = sum_with q_inputTokens group
     /\ mm_outputTokens row = sum_with q_outputTokens group
     /\ mm_cacheCreationTokens row = sum_with q_cacheCreationTokens group
     /\ mm_cacheReadTokens row = sum_with q_cacheReadTokens group
     /\ mm_totalTokens row = sum_with q_totalTokens group
     /\ mm_cost row = fsum_with q_cost group)
  /\ (forall q, q ∈ queries -> billed q = true ->
        exists row, row ∈ modelBreakdown r /\ mm_model row = q_model q)
  /\ NoDup (map mm_model (modelBreakdown r)).
Proof.
  intros Hscan r queries.
  pose proof (fun q => model_row_of_query d force_refresh o q Hscan) as Hcover.
  pose proof (scan_built d force_refresh o Hscan) as (st & built & Hsnap & _ & _ & _ & Hmod & _).
  apply build_snapshot_lists in Hsnap as (_ & _ & Hm & _).
  subst r. split; [|split; [exact Hcover|]]; rewrite Hm, Hmod, model_fold_group; fold queries.
  - intros row Hrow. apply sorted_elem in Hrow.
    apply group_values in Hrow as (k & Hne & ->).
    destruct (model_fold_fields
                (filter (fun q => q_model q = k) (filter (fun q => billed q = true) queries))
                (model_init k)) as (H1 & H2 & H3 & H4 & H5 & H6 & H7 & H8).
    cbv zeta in *. rewrite H1, H2, H3, H4, H5, H6, H7, H8.
    cbn [model_init mm_model mm_queryCount mm_inputTokens mm_outputTokens
         mm_cacheCreationTokens mm_cacheReadTokens mm_totalTokens mm_cost].
    assert (Hk : k <> Some "<synthetic>"%string /\ k <> Some "unknown"%string).
    { destruct (filter (fun q => q_model q = k) (filter (fun q => billed q = true) queries))
        as [|q g] eqn:Hg; [congruence|].
      assert (Hq : q ∈ filter (fun q => q_model q = k)
                         (filter (fun q => billed q = true) queries))
        by (rewrite Hg; left).
      apply list_elem_of_filter in Hq as [Hmodel Hq].
      apply list_elem_of_filter in Hq as [Hbilled _]. unfold billed in Hbilled.
      apply negb_true_iff, orb_false_iff in Hbilled as [Hs Hu].
      apply bool_decide_eq_false in Hs, Hu. split; congruence. }
    assert (Hsame : filter (fun q => q_model q = k) (filter (fun q => billed q = true) queries)
                    = filter (fun q => q_model q = k) queries).
    { clear -Hk. induction queries as [|q l IH]; [reflexivity|].
      rewrite (filter_cons (fun q => billed q = true)).
      destruct (decide (billed q = true)) as [Hb|Hb].
      - rewrite !filter_cons. destruct (decide (q_model q = k)); rewrite IH; reflexivity.
      - rewrite IH, filter_cons_False; [reflexivity|]. intros Heq. apply Hb.
        unfold billed. apply negb_true_iff, orb_false_iff.
        split; apply bool_decide_eq_false; destruct Hk; congruence. }
    rewrite Hsame in *. destruct Hk as [Hs Hu].
    split; [exact Hs|]. split; [exact Hu|]. split; [exact Hne|]. repeat split; lia.
  - apply sorted_NoDup_keys.
    apply (group_rows_NoDup q_model model_init model_add mm_model); reflexivity.
Qed.

Lemma model_rows_witness :
  let d := SampleDisk.two_files in
  let r := result SampleDisk.first_scan in
  let queries := scan_queries (loaded_cache d false) (scanned_files d) in
  (forall row, row ∈ modelBreakdown r ->
     let group := filter (fun q => q_model q = mm_model row) queries in
     mm_model row <> Some "<synthetic>"%string
     /\ mm_model row <> Some "unknown"%string
     /\ group <> []
     /\ mm_queryCount row = Z.of_nat (length group)
     /\ mm_inputTokens row = sum_with q_inputTokens group
     /\ mm_outputTokens row = sum_with q_outputTokens group
     /\ mm_cacheCreationTokens row = sum_with q_cacheCreationTokens group
     /\ mm_cacheReadTokens row = sum_with q_cacheReadTokens group
     /\ mm_totalTokens row = sum_with q_totalTokens group
     /\ mm_cost row = fsum_with q_cost group)
  /\ (forall q, q ∈ queries -> billed q = true ->
        exists row, row ∈ modelBreakdown r /\ mm_model row = q_model q)
  /\ NoDup (map mm_model (modelBreakdown r)).
Proof.
  apply (model_rows SampleDisk.python SampleDisk.two_files false SampleDisk.first_scan).
  vm_compute. reflexivity.
Defined.

(** X17. The tool statistics have one row for each tool name that a
    query of the scan uses, and no other row; the count of a tool is the
    number of its uses.  The counts add up to the number of tool uses,
    which is also the sum of the tool calls of the sessions. *)
Theorem tool_rows (py : interpreter) (d : disk) (force_refresh : bool) (o : outcome) :
  parse_all_sessions py d force_refresh = Some o ->
  let r := result o in
  let tools :=
    flat_map q_tools (scan_queries (loaded_cache d force_refresh) (scanned_files d)) in
  (forall row, row ∈ toolStats r ->
     t_name row ∈ tools /\ t_count row = count_of (fun t => t = t_name row) tools)
  /\ (forall t, t ∈ tools -> exists row, row ∈ toolStats r /\ t_name row = t)
  /\ NoDup (map t_name (toolStats r))
  /\ sum_with t_count (toolStats r) = Z.of_nat (length tools)
  /\ sum_with t_count (toolStats r) = sum_with s_totalToolCalls (sessions r).
Proof.
  intros Hscan r tools.
  pose proof (scan_built d force_refresh o Hscan)
    as (st & built & Hsnap & Hperm & Hbuilt & _ & _ & Htool).
  apply build_snapshot_lists in Hsnap as (_ & _ & _ & _ & _ & Ht).
  fold tools in Htool. rewrite count_up_fold in Htool.
  set (frequency := fold_left (group_step id (fun _ => 0%Z) (fun c _ => (c + 1)%Z)) tools [])
    in *.
  assert (Hnd : NoDup (od_keys frequency)) by (apply group_keys_NoDup, NoDup_nil_2).
  assert (Hrows : forall row, row ∈ toolStats r
                  <-> od_get (t_name row) frequency = Some (t_count row)).
  { intros row. subst r. rewrite Ht, Htool, sorted_elem, list_elem_of_fmap. split.
    - intros ([name count] & -> & Hin). cbn [t_name t_count fst snd].
      apply od_get_elem; assumption.
    - intros Hget. exists (t_name row, t_count row). split; [destruct row; reflexivity|].
      apply od_get_Some_elem, Hget. }
  assert (Hget : forall t, od_get t frequency
                 = match filter (fun t' => t' = t) tools with
                   | [] => None
                   | group => Some (Z.of_nat (length group))
                   end).
  { intros t. subst frequency. rewrite group_get. unfold group_row.
    cbn [od_get default id]. destruct (filter (fun a => a = t) tools) as [|a g]; [reflexivity|].
    rewrite count_fold. f_equal. }
  assert (Hsum : sum_with t_count (toolStats r) = Z.of_nat (length tools)).
  { subst r. rewrite Ht, Htool, (sum_with_perm _ _ _ (sorted_perm _ _)).
    transitivity (sum_with id (od_values frequency)).
    - unfold od_values. generalize frequency. clear. intros l.
      induction l as [|[n c] l IH]; [reflexivity|].
      cbn [map]. rewrite !sum_with_cons, IH. reflexivity.
    - subst frequency.
      rewrite (group_sum id (fun _ => 0%Z) (fun c _ => (c + 1)%Z) id (fun _ => 1%Z))
        by reflexivity.
      rewrite <- length_sum_with. cbn. lia. }
  split; [|split; [|split; [|split]]].
  - intros row Hrow. apply Hrows in Hrow. rewrite Hget in Hrow. unfold count_of.
    destruct (filter (fun t' => t' = t_name row) tools) as [|a g] eqn:Hg; [discriminate|].
    injection Hrow as <-. split; [|reflexivity].
    assert (Ha : a ∈ filter (fun t' => t' = t_name row) tools) by (rewrite Hg; left).
    apply list_elem_of_filter in Ha as [-> Ha]. exact Ha.
  - intros t Hin. specialize (Hget t).
    destruct (filter (fun t' => t' = t) tools) as [|a g] eqn:Hg.
    + assert (Ht' : t ∈ filter (fun t' => t' = t) tools)
        by (apply list_elem_of_filter; auto).
      rewrite Hg in Ht'. apply elem_of_nil in Ht' as [].
    + exists {| t_name := t; t_count := Z.of_nat (length (a :: g)) |}.
      split; [|reflexivity]. apply Hrows. exact Hget.
  - subst r. rewrite Ht, Htool. apply sorted_NoDup_keys.
    rewrite <- list_fmap_compose.
    replace (map (t_name ∘ (fun nc : string * Z => {| t_name := nc.1; t_count := nc.2 |}))
               frequency) with (od_keys frequency) by reflexivity.
    exact Hnd.
  - exact Hsum.
  - rewrite Hsum. subst r tools. rewrite (sum_with_perm _ _ _ Hperm).
    rewrite scan_queries_inputs.
    assert (Hfacts : Forall2 session_facts
                       (session_inputs (loaded_cache d force_refresh) (scanned_files d)) built).
    { eapply Forall2_impl; [exact Hbuilt|]. intros input s Hs.
      apply session_built_facts in Hs as [Hs _]. exact Hs. }
    rewrite (facts_sum s_totalToolCalls tool_calls _ _ )
      by (try exact Hfacts; intros ? ? H; apply H).
    generalize (flat_map snd (session_inputs (loaded_cache d force_refresh) (scanned_files d))).
    clear. intros l. induction l as [|q l IH]; [reflexivity|].
    cbn [flat_map]. rewrite length_app, sum_with_cons, <- IH. unfold tool_calls. lia.
Qed.

Lemma tool_rows_witness :
  let d := SampleDisk.two_files in
  let r := result SampleDisk.first_scan in
  let tools := flat_map q_tools (scan_queries (loaded_cache d false) (scanned_files d)) in
  (forall row, row ∈ toolStats r ->
     t_name row ∈ tools /\ t_count row = count_of (fun t => t = t_name row) tools)
  /\ (forall t, t ∈ tools -> exists row, row ∈ toolStats r /\ t_name row = t)
  /\ NoDup (map t_name (toolStats r))
  /\ sum_with t_count (toolStats r) = Z.of_nat (length tools)
  /\ sum_with t_count (toolStats r) = sum_with s_totalToolCalls (sessions r).
Proof.
  apply (tool_rows SampleDisk.python SampleDisk.two_files false SampleDisk.first_scan).
  vm_compute. reflexivity.
Defined.

(** ** The prompt list *)

Lemma fold_left_invariant {S A : Type} (I : S -> Prop) (f : S -> A -> S) (l : list A) :
  (forall s a, a ∈ l -> I s -> I (f s a)) -> forall s, I s -> I (fold_left f l s).
Proof.
  induction l as [|a l IH]; intros Hf s Hs; [exact Hs|]. cbn [fold_left].
  apply IH.
  - intros s' a' Ha'. apply Hf. right. exact Ha'.
  - apply Hf; [left|exact Hs].
Qed.

Section prompts.
Context (date session_id : string) (primary_model : option string).
Context (queries : list Query) (base : list Prompt).

Lemma flush_prompt_grouped (ps : prompt_state) :
  grouping date session_id primary_model queries base ps ->
  exists new, flush_prompt date session_id primary_model ps = base ++ new
              /\ Forall (prompt_grouped date session_id primary_model queries) new.
Proof.
  intros (Hcurrent & new & Hall & Hnew). unfold flush_prompt.
  destruct (current_prompt ps) as [cp|] eqn:Hcp; [|exists new; split; assumption].
  destruct (Py.truthy cp) eqn:Htruthy; cbn [andb]; [|exists new; split; assumption].
  destruct (bool_decide _) eqn:Hpos; [|exists new; split; assumption].
  apply bool_decide_eq_true in Hpos.
  eexists (new ++ [_]). rewrite Hall, <- app_assoc. split; [reflexivity|].
  apply Forall_app. split; [exact Hnew|]. constructor; [|constructor].
  unfold prompt_grouped. cbn.
  destruct (Hcurrent cp eq_refl) as (q & Hq & Hprompt).
  repeat split; try reflexivity; try lia.
  exists q, cp. repeat split; try assumption. destruct cp; [discriminate|discriminate].
Qed.

Lemma group_prompt_grouping (ps : prompt_state) (q : Query) :
  q ∈ queries -> grouping date session_id primary_model queries base ps ->
  grouping date session_id primary_model queries base
    (group_prompt date session_id primary_model ps q).
Proof.
  intros Hq Hps. unfold group_prompt.
  destruct (Py.truthy_opt (q_userPrompt q)
            && negb (bool_decide (q_userPrompt q = current_prompt ps))) eqn:Hnew.
  - destruct (flush_prompt_grouped ps Hps) as (new & Hall & Hgrouped).
    split; cbn [current_prompt all_prompts].
    + intros text Htext. exists q. split; assumption.
    + exists new. split; assumption.
  - destruct Hps as (Hcurrent & new & Hall & Hgrouped).
    split; cbn [current_prompt all_prompts]; [exact Hcurrent|].
    exists new. split; assumption.
Qed.
End prompts.

(** What the aggregation of one file adds to the prompt list. *)
Lemma aggregate_session_prompts session_first_prompt project_dir session_id queries st st' :
  aggregate_session session_first_prompt project_dir session_id queries st = Some st' ->
  exists s new,
    st_sessions st' = st_sessions st ++ [s]
    /\ st_all_prompts st' = st_all_prompts st ++ new
    /\ Forall (prompt_of_session queries s) new.
Proof.
  unfold aggregate_session.
  destruct (match queries with [] => _ | _ => _ end) as [tool_density|]; [|discriminate].
  cbn [mbind option_bind]. intros [= <-]. cbn [st_sessions st_all_prompts].
  eexists.
  match goal with
  | |- context [flush_prompt ?date ?sid ?pm (fold_left _ queries ?init)] =>
      set (dt := date); set (primary := pm); set (ps0 := init)
  end.
  destruct (flush_prompt_grouped dt session_id primary queries (st_all_prompts st)
              (fold_left (group_prompt dt session_id primary) queries ps0))
    as (new & Hall & Hnew).
  - apply (fold_left_invariant (grouping dt session_id primary queries (st_all_prompts st))).
    + intros ps q Hq Hps. apply group_prompt_grouping; assumption.
    + split; cbn [current_prompt all_prompts ps0]; [discriminate|].
      exists []. rewrite app_nil_r. split; [reflexivity|constructor].
  - exists new. split; [reflexivity|]. split; [exact Hall|].
    eapply Forall_impl; [exact Hnew|]. intros p Hp. exact Hp.
Qed.

Lemma scan_prompts cache session_first_prompt targets : forall st st',
  for_each (scan_target cache session_first_prompt) st targets = Some st' ->
  exists new_sessions new_prompts,
    st_sessions st' = st_sessions st ++ new_sessions
    /\ st_all_prompts st' = st_all_prompts st ++ new_prompts
    /\ Forall (fun p => exists target s,
                 target ∈ targets /\ s ∈ new_sessions
                 /\ prompt_of_session (queries_of cache (snd target)) s p) new_prompts.
Proof.
  induction targets as [|target targets IH]; cbn [for_each]; intros st st' Hrun.
  - injection Hrun as <-. exists [], []. rewrite !app_nil_r. repeat split. constructor.
  - destruct (scan_target cache session_first_prompt st target) as [st1|] eqn:Hstep;
      [|discriminate].
    apply scan_target_step in Hstep.
    destruct (IH _ _ Hrun) as (sessions' & prompts' & Hs & Hp & Hall).
    assert (Hall' : forall extra,
              Forall (fun p => exists target' s,
                        target' ∈ target :: targets /\ s ∈ extra ++ sessions'
                        /\ prompt_of_session (queries_of cache (snd target')) s p) prompts').
    { intros extra. eapply Forall_impl; [exact Hall|].
      intros p (target' & s & Hin & Hs' & Hprompt). exists target', s.
      split; [right; exact Hin|]. split; [|exact Hprompt].
      apply elem_of_app. right. exact Hs'. }
    destruct (queries_of cache (snd target)) as [|q qs] eqn:Hqs.
    + apply rollups_fields in Hstep as (Hs1 & _ & _ & Hp1 & _).
      exists sessions', prompts'. rewrite Hs, Hp, Hs1, Hp1. repeat split. apply (Hall' []).
    + destruct Hstep as (st0 & Hst0 & Hagg).
      apply rollups_fields in Hst0 as (Hs0 & _ & _ & Hp0 & _).
      apply aggregate_session_prompts in Hagg as (s & new & Hs1 & Hp1 & Hnew).
      exists (s :: sessions'), (new ++ prompts').
      rewrite Hs, Hp, Hs1, Hp1, Hs0, Hp0, <- !app_assoc. repeat split.
      apply Forall_app. split; [|apply (Hall' [s])].
      eapply Forall_impl; [exact Hnew|]. intros p Hprompt.
      exists target, s. rewrite Hqs. split; [left|]. split; [left|exact Hprompt].
Qed.

(** X18. For every entry of the prompt list there are a session of
    the snapshot and a scanned file such that the entry carries the id,
    the date and the primary model of the session, and its text is the
    first 300 characters of the prompt, not empty, of one of the queries
    of the file.  The text is not empty, and the total is positive and
    is the sum of the four counts of the entry. *)
Theorem top_prompts_grouped (py : interpreter) (d : disk) (force_refresh : bool) (o : outcome)
    (p : Prompt) :
  parse_all_sessions py d force_refresh = Some o ->
  p ∈ topPrompts (result o) ->
  pr_prompt p <> EmptyString
  /\ (Py.len (pr_prompt p) <= 300)%nat
  /\ exists target s,
       target ∈ scanned_files d /\ s ∈ sessions (result o)
       /\ prompt_of_session (queries_of (loaded_cache d force_refresh) (snd target)) s p.
Proof.
  intros Hscan Hp. apply completed_scan in Hscan as (st & Hloop & Hsnap).
  apply scan_prompts in Hloop as (new_sessions & new_prompts & Hs & Hprompts & Hall).
  cbn [initial_state st_sessions st_all_prompts app] in Hs, Hprompts.
  apply build_snapshot_lists in Hsnap as (Hsessions & _ & _ & Htop & _).
  rewrite Htop in Hp.
  match type of Hp with _ ∈ take 50 ?l =>
    assert (Hp' : p ∈ l) by (rewrite <- (take_drop 50 l); apply elem_of_app; left; exact Hp)
  end.
  clear Hp. rename Hp' into Hp. apply sorted_elem in Hp.
  rewrite Hprompts in Hp. rewrite Forall_forall in Hall.
  destruct (Hall p Hp) as (target & s & Htarget & Hsession & Hprompt).
  assert (Hfacts := Hprompt).
  destruct Hfacts as (_ & _ & _ & _ & _ & q & text & _ & _ & Htext & ->).
  split; [apply slice_to_truthy, Htext|]. split; [apply slice_to_len|].
  exists target, s. split; [exact Htarget|]. split; [|exact Hprompt].
  rewrite Hsessions, Hs. apply sorted_elem, Hsession.
Qed.

Lemma top_prompts_grouped_witness :
  let d := SampleDisk.two_files in
  let p := SampleScan.scanned_prompt in
  pr_prompt p <> EmptyString
  /\ (Py.len (pr_prompt p) <= 300)%nat
  /\ exists target s,
       target ∈ scanned_files d /\ s ∈ sessions (result SampleDisk.first_scan)
       /\ prompt_of_session (queries_of (loaded_cache d false) (snd target)) s p.
Proof.
  apply (top_prompts_grouped SampleDisk.python SampleDisk.two_files false
           SampleDisk.first_scan SampleScan.scanned_prompt);
    [vm_compute; reflexivity|apply list_elem_of_here].
Defined.

(** ** The primary model *)

Lemma first_occurrence_split {A : Type} `{EqDecision A} (l : list A) (x : A) :
  x ∈ l -> exists l1 l2, l = l1 ++ x :: l2 /\ x ∉ l1.
Proof.
  induction l as [|y l IH]; intros Hin; [apply elem_of_nil in Hin as []|].
  destruct (decide (x = y)) as [->|Hne].
  - exists [], l. split; [reflexivity|]. apply not_elem_of_nil.
  - apply elem_of_cons in Hin as [Heq|Hin]; [congruence|].
    destruct (IH Hin) as (l1 & l2 & -> & Hfresh). exists (y :: l1), l2.
    split; [reflexivity|]. intros Hx. apply elem_of_cons in Hx as [Heq|Hx]; auto.
Qed.

Lemma NoDup_split_unique {A : Type} (a a' b b' : list A) (x : A) :
  NoDup (a ++ x :: b) -> a ++ x :: b = a' ++ x :: b' -> a = a'.
Proof.
  revert a'. induction a as [|y a IH]; intros a' Hnd Heq.
  - destruct a' as [|y' a']; [reflexivity|]. cbn in Heq. injection Heq as <- ->.
    cbn in Hnd. apply NoDup_cons in Hnd as [Hfresh _]. exfalso. apply Hfresh.
    apply elem_of_app. right. left.
  - destruct a' as [|y' a'].
    + cbn in Heq. injection Heq as -> <-. cbn in Hnd. apply NoDup_cons in Hnd as [Hfresh _].
      exfalso. apply Hfresh. apply elem_of_app. right. left.
    + cbn in Heq. injection Heq as <- Heq. cbn in Hnd. apply NoDup_cons in Hnd as [_ Hnd].
      f_equal. apply IH; assumption.
Qed.

(** [max] with a key returns the first of the entries that have the
    largest count. *)
Lemma fold_best {K : Type} (d' : list (K * Z)) : forall pre k c post,
  Forall (fun kc => (snd kc < c)%Z) pre ->
  Forall (fun kc => (snd kc <= c)%Z) post ->
  exists pre' k' c' post',
    pre ++ (k, c) :: post ++ d' = pre' ++ (k', c') :: post'
    /\ fold_left (fun best kc' => if (snd best <? snd kc')%Z then kc' else best) d' (k, c)
       = (k', c')
    /\ Forall (fun kc => (snd kc < c')%Z) pre'
    /\ Forall (fun kc => (snd kc <= c')%Z) post'.
Proof.
  induction d' as [|[k1 c1] d' IH]; intros pre k c post Hpre Hpost; cbn [fold_left].
  - exists pre, k, c, post. rewrite app_nil_r. repeat split; assumption.
  - cbn [snd]. destruct (c <? c1)%Z eqn:Hlt.
    + apply Z.ltb_lt in Hlt.
      destruct (IH (pre ++ (k, c) :: post) k1 c1 []) as (pre' & k' & c' & post' & Heq & Hbest & H1 & H2).
      * apply Forall_app. split; [|constructor; [cbn; lia|]].
        -- eapply Forall_impl; [exact Hpre|]. cbn. intros; lia.
        -- eapply Forall_impl; [exact Hpost|]. cbn. intros; lia.
      * constructor.
      * exists pre', k', c', post'. split; [|repeat split; assumption].
        rewrite <- Heq. rewrite <- !app_assoc. cbn [app]. reflexivity.
    + apply Z.ltb_ge in Hlt.
      destruct (IH pre k c (post ++ [(k1, c1)])) as (pre' & k' & c' & post' & Heq & Hbest & H1 & H2).
      * exact Hpre.
      * apply Forall_app. split; [exact Hpost|]. constructor; [cbn; lia|constructor].
      * exists pre', k', c', post'. split; [|repeat split; assumption].
        rewrite <- Heq. rewrite <- !app_assoc. cbn [app]. reflexivity.
Qed.

Lemma max_key_spec {K : Type} (d : list (K * Z)) :
  d <> [] ->
  exists pre k c post,
    max_key d = Some k /\ d = pre ++ (k, c) :: post
    /\ Forall (fun kc => (snd kc < c)%Z) pre
    /\ Forall (fun kc => (snd kc <= c)%Z) post.
Proof.
  destruct d as [|[k0 c0] d']; [congruence|]. intros _. unfold max_key.
  destruct (fold_best d' [] k0 c0 []) as (pre & k & c & post & Heq & Hbest & H1 & H2);
    try constructor.
  exists pre, k, c, post. rewrite Hbest. cbn [fst]. cbn [app] in Heq.
  repeat split; assumption.
Qed.

Section counting.
Context {K : Type} `{EqDecision K}.

Lemma counts_get (keys : list K) (k : K) :
  od_get k (fold_left count_up keys [])
  = match filter (fun x => x = k) keys with
    | [] => None
    | group => Some (Z.of_nat (length group))
    end.
Proof.
  rewrite count_up_fold, group_get. unfold group_row. cbn [od_get default id].
  destruct (filter (fun a => a = k) keys) as [|a g]; [reflexivity|].
  rewrite count_fold. f_equal.
Qed.

Lemma counts_NoDup (keys : list K) : NoDup (od_keys (fold_left count_up keys [])).
Proof. rewrite count_up_fold. apply group_keys_NoDup, NoDup_nil_2. Qed.

Lemma counts_keys (keys : list K) (k : K) :
  k ∈ od_keys (fold_left count_up keys []) <-> k ∈ keys.
Proof.
  rewrite count_up_fold, group_keys_elem. unfold id. split.
  - intros (a & Ha & <-). exact Ha.
  - intros Hk. exists k. auto.
Qed.

Lemma counts_entry (keys : list K) (k : K) (c : Z) :
  (k, c) ∈ fold_left count_up keys [] ->
  k ∈ keys /\ c = count_of (fun x => x = k) keys.
Proof.
  intros Hin. apply od_get_elem in Hin; [|apply counts_NoDup].
  rewrite counts_get in Hin. unfold count_of.
  destruct (filter (fun x => x = k) keys) as [|a g] eqn:Hg; [discriminate|].
  injection Hin as <-. split; [|reflexivity].
  assert (Ha : a ∈ filter (fun x => x = k) keys) by (rewrite Hg; left).
  apply list_elem_of_filter in Ha as [-> Ha]. exact Ha.
Qed.

Lemma count_up_keys (m : list (K * Z)) (k : K) :
  od_keys (count_up m k) = if decide (k ∈ od_keys m) then od_keys m else od_keys m ++ [k].
Proof. apply od_keys_set. Qed.

Lemma counts_keys_grow (l : list K) : forall m,
  exists extra, od_keys (fold_left count_up l m) = od_keys m ++ extra.
Proof.
  induction l as [|a l IH]; intros m; cbn [fold_left].
  - exists []. rewrite app_nil_r. reflexivity.
  - destruct (IH (count_up m a)) as [extra ->].
    rewrite count_up_keys. destruct (decide (a ∈ od_keys m)).
    + exists extra. reflexivity.
    + exists (a :: extra). rewrite <- app_assoc. reflexivity.
Qed.

(** The most frequent key, the first one on equal counts. *)
Lemma max_key_counts (keys : list K) (fallback : K) :
  keys <> [] ->
  let m := default fallback (max_key (fold_left count_up keys [])) in
  (forall k, (count_of (fun x => x = k) keys <= count_of (fun x => x = m) keys)%Z)
  /\ exists pre post,
       keys = pre ++ m :: post /\ (m ∉ pre)
       /\ forall k, k ∈ pre ->
            (count_of (fun x => x = k) keys < count_of (fun x => x = m) keys)%Z.
Proof.
  intros Hne. set (d := fold_left count_up keys []).
  assert (Hnd : NoDup (od_keys d)) by apply counts_NoDup.
  assert (Hd : d <> []).
  { destruct keys as [|a keys]; [congruence|].
    assert (Ha : a ∈ od_keys d) by (apply counts_keys; left).
    intros Hnil. rewrite Hnil in Ha. apply elem_of_nil in Ha as []. }
  destruct (max_key_spec d Hd) as (dpre & k & c & dpost & Hmax & Hsplit & Hpre & Hpost).
  cbv zeta. rewrite Hmax. change (default fallback (Some k)) with k.
  assert (Hk : (k, c) ∈ d) by (rewrite Hsplit; apply elem_of_app; right; left).
  apply counts_entry in Hk as [Hk Hc].
  assert (Hentries : forall k' c', (k', c') ∈ d -> c' = count_of (fun x => x = k') keys).
  { intros k' c' Hin. apply counts_entry in Hin as [_ Hin]. exact Hin. }
  split.
  - intros k'. destruct (decide (k' ∈ keys)) as [Hin|Hout].
    + assert (Hkey : k' ∈ od_keys d) by (apply counts_keys; exact Hin).
      apply list_elem_of_fmap in Hkey as ([k1 c'] & Heq & Hin'). cbn in Heq. subst k1.
      rewrite <- Hc, <- (Hentries k' c' Hin').
      rewrite Hsplit in Hin'. apply elem_of_app in Hin' as [Hin'|Hin'].
      * rewrite Forall_forall in Hpre. specialize (Hpre _ Hin'). cbn in Hpre. lia.
      * apply elem_of_cons in Hin' as [[= _ ->]|Hin']; [lia|].
        rewrite Forall_forall in Hpost. specialize (Hpost _ Hin'). cbn in Hpost. lia.
    + unfold count_of at 1. rewrite filter_none; [|intros x Hx ->; contradiction].
      cbn [length]. rewrite <- Hc. 
      pose proof (count_of_bounds (fun x => x = k) keys) as Hb. lia.
  - destruct (first_occurrence_split keys k Hk) as (pre & post & Hkeys & Hfresh).
    exists pre, post. split; [exact Hkeys|]. split; [exact Hfresh|].
    intros k' Hin'.
    assert (Hprefix : od_keys (fold_left count_up pre []) = od_keys dpre).
    { assert (Hkpre : k ∉ od_keys (fold_left count_up pre []))
        by (rewrite counts_keys; exact Hfresh).
      destruct (counts_keys_grow post (count_up (fold_left count_up pre []) k))
        as [extra Hextra].
      rewrite count_up_keys in Hextra.
      rewrite decide_False in Hextra by exact Hkpre.
      assert (Hkeys_d : od_keys d = od_keys (fold_left count_up pre []) ++ k :: extra).
      { subst d. rewrite Hkeys, fold_left_app. cbn [fold_left].
        rewrite Hextra, <- app_assoc. reflexivity. }
      eapply (NoDup_split_unique _ _ extra (od_keys dpost) k).
      - rewrite <- Hkeys_d. exact Hnd.
      - rewrite <- Hkeys_d, Hsplit. unfold od_keys. rewrite map_app. reflexivity. }
    assert (Hkey : k' ∈ od_keys dpre).
    { rewrite <- Hprefix. apply counts_keys. exact Hin'. }
    apply list_elem_of_fmap in Hkey as ([k1 c'] & Heq & Hin1). cbn in Heq. subst k1.
    rewrite <- Hc, <- (Hentries k' c').
    + rewrite Forall_forall in Hpre. specialize (Hpre _ Hin1). exact Hpre.
    + rewrite Hsplit. apply elem_of_app. left. exact Hin1.
Qed.
End counting.

Lemma fold_left_fmap {S A B : Type} (g : S -> B -> S) (h : A -> B) (l : list A) : forall s,
  fold_left (fun s a => g s (h a)) l s = fold_left g (map h l) s.
Proof. induction l as [|a l IH]; intros s; [reflexivity|]. cbn. apply IH. Qed.

Lemma session_built_primary session_first_prompt input s :
  session_built session_first_prompt input s ->
  snd input <> [] ->
  most_frequent (map q_model (snd input)) (s_model s).
Proof.
  destruct input as [[project_dir session_id] queries].
  intros (st & st' & Hagg & Hs) Hne. cbn [fst snd] in *. unfold aggregate_session in Hagg.
  destruct (match queries with [] => _ | _ => _ end) as [tool_density|]; [|discriminate].
  cbn [mbind option_bind] in Hagg. injection Hagg as <-. cbn [st_sessions] in Hs.
  apply app_inv_head in Hs. injection Hs as <-. cbn [s_model].
  rewrite (fold_left_fmap count_up q_model queries).
  apply (max_key_counts (map q_model queries) (Some "unknown"%string)).
  destruct queries; [congruence|discriminate].
Qed.

(** X19. The model of a session is the most frequent model of its
    queries, and among the most frequent ones the first to occur: every
    model that a query has before its first occurrence is strictly less
    frequent. *)
Theorem primary_model_most_frequent (py : interpreter) (d : disk) (force_refresh : bool)
    (o : outcome) :
  parse_all_sessions py d force_refresh = Some o ->
  exists built,
    sessions (result o) ≡ₚ built
    /\ Forall2 (fun input s =>
                  s_project s = fst (fst input) /\ s_sessionId s = snd (fst input)
                  /\ most_frequent (map q_model (snd input)) (s_model s))
         (session_inputs (loaded_cache d force_refresh) (scanned_files d)) built.
Proof.
  intros Hscan. apply scan_built in Hscan as (st & built & _ & Hperm & Hbuilt & _).
  exists built. split; [exact Hperm|].
  apply Forall2_same_length_lookup. split; [apply (Forall2_length _ _ _ Hbuilt)|].
  intros i input s Hinput Hs.
  destruct (Forall2_lookup_l _ _ _ _ _ Hbuilt Hinput) as (s' & Hs' & Hsb).
  assert (s' = s) by congruence. subst s'.
  pose proof (session_built_facts _ _ _ Hsb) as ((Hp & Hid & _) & _).
  split; [exact Hp|]. split; [exact Hid|].
  apply (session_built_primary _ _ _ Hsb).
  apply (session_inputs_elem (loaded_cache d force_refresh) (scanned_files d)).
  apply list_elem_of_lookup. eauto.
Qed.

Lemma primary_model_most_frequent_witness :
  let d := SampleDisk.two_files in
  exists built,
    sessions (result SampleDisk.first_scan) ≡ₚ built
    /\ Forall2 (fun input s =>
                  s_project s = fst (fst input) /\ s_sessionId s = snd (fst input)
                  /\ most_frequent (map q_model (snd input)) (s_model s))
         (session_inputs (loaded_cache d false) (scanned_files d)) built.
Proof.
  apply (primary_model_most_frequent SampleDisk.python SampleDisk.two_files false
           SampleDisk.first_scan).
  vm_compute. reflexivity.
Defined.

(** ** The cache file and the disk *)

Lemma filter_all {A : Type} (P : A -> Prop) `{!forall x, Decision (P x)} (l : list A) :
  (forall x, P x) -> filter P l = l.
Proof.
  intros HP. induction l as [|x l IH]; [reflexivity|].
  rewrite filter_cons_True by apply HP. f_equal. exact IH.
Qed.

Lemma parse_log_no_cache targets : parse_log ∅ targets = paths targets.
Proof.
  unfold parse_log, paths. f_equal. apply filter_all. intros target.
  apply is_hit_false, cache_hit_None. intros k _. apply lookup_empty.
Qed.

(** X20. A forced scan parses every scanned file and does not depend on
    the cache file: with any other content of the cache file, or none,
    it returns the same snapshot, parses the same files and, when it
    writes the cache, leaves the same disk. *)
Theorem force_refresh_ignores_cache (py : interpreter) (d : disk) (o : outcome)
    (cache : option cache_file) :
  parse_all_sessions py d true = Some o ->
  parsed_files o = paths (scanned_files d)
  /\ exists o',
       parse_all_sessions py (with_cache cache d) true = Some o'
       /\ result o' = result o
       /\ parsed_files o' = parsed_files o
       /\ (forall entries, dk_projects d = Some (Some entries) ->
           dk_cache_writable d = true -> disk_after o' = disk_after o).
Proof.
  intros Hscan. split.
  - rewrite (scan_log d true o Hscan). apply parse_log_no_cache.
  - unfold parse_all_sessions in *. cbn [with_cache dk_projects dk_history].
    destruct (dk_projects d) as [[entries|]|].
    + destruct (for_each _ _ _) as [st|]; [|discriminate]. cbn [mbind option_bind] in *.
      destruct (build_snapshot py st) as [snapshot|]; [|discriminate].
      cbn [mbind option_bind] in *. injection Hscan as <-.
      eexists. split; [reflexivity|]. cbn [result parsed_files disk_after].
      repeat split. intros entries' _ Hw. unfold _save_cache.
      cbn [dk_cache_writable with_cache dk_projects dk_history]. rewrite Hw. reflexivity.
    + injection Hscan as <-. eexists. split; [reflexivity|].
      cbn [result parsed_files disk_after]. repeat split. discriminate.
    + injection Hscan as <-. eexists. split; [reflexivity|].
      cbn [result parsed_files disk_after]. repeat split. discriminate.
Qed.

Lemma force_refresh_ignores_cache_witness :
  let d := SampleDisk.two_files in
  let o := SampleScan.forced_scan in
  parsed_files o = paths (scanned_files d)
  /\ exists o',
       parse_all_sessions SampleDisk.python
         (with_cache (dk_cache (disk_after SampleDisk.first_scan)) d) true = Some o'
       /\ result o' = result o
       /\ parsed_files o' = parsed_files o
       /\ (forall entries, dk_projects d = Some (Some entries) ->
           dk_cache_writable d = true -> disk_after o' = disk_after o).
Proof.
  apply (force_refresh_ignores_cache SampleDisk.python SampleDisk.two_files
           SampleScan.forced_scan (dk_cache (disk_after SampleDisk.first_scan))).
  vm_compute. reflexivity.
Defined.



(** * Properties of the optimizer and of the route *)

(** ** Project names *)

Lemma startswith_nil (s : string) : Py.startswith s EmptyString = true.
Proof. destruct s; reflexivity. Qed.

Lemma replace_hyphens_all (s : string) :
  Py.replace_from "-" "/" O None s = slashes s.
Proof.
  induction s as [|c s IH]; [reflexivity|].
  cbn [Py.replace_from slashes negb andb Py.startswith fmap option_fmap option_map
       String.length Nat.sub].
  destruct (Ascii.eqb "-" c) eqn:Hc.
  - apply Ascii.eqb_eq in Hc. subst c. rewrite startswith_nil, IH. reflexivity.
  - rewrite Ascii.eqb_sym, Hc. rewrite IH. reflexivity.
Qed.

Lemma slashes_replace_some (s : string) : forall n,
  slashes (Py.replace_from "-" "/" O (Some n) s) = slashes s.
Proof.
  induction s as [|c s IH]; intros n; [reflexivity|].
  cbn [Py.replace_from Py.startswith fmap option_fmap option_map String.length Nat.sub].
  destruct n as [|n]; cbn [negb andb].
  - cbn [slashes]. rewrite IH. reflexivity.
  - destruct (Ascii.eqb "-" c) eqn:Hc.
    + apply Ascii.eqb_eq in Hc. subst c. rewrite startswith_nil.
      change (slashes (String "/" (Py.replace_from "-" "/" 0 (Some n) s))
              = slashes (String "-" s)).
      cbn [slashes]. rewrite IH. reflexivity.
    + cbn [slashes]. rewrite IH. reflexivity.
Qed.

Lemma slashes_no_hyphen (s : string) : Py.contains "-" (slashes s) = false.
Proof.
  induction s as [|c s IH]; [reflexivity|].
  cbn [slashes Py.contains Py.startswith]. rewrite IH, orb_false_r.
  destruct (Ascii.eqb c "-") eqn:Hc; [reflexivity|].
  rewrite Ascii.eqb_sym, Hc. reflexivity.
Qed.

Lemma slashes_length (s : string) : String.length (slashes s) = String.length s.
Proof. induction s as [|c s IH]; [reflexivity|]. cbn. rewrite IH. reflexivity. Qed.

Lemma slashes_idempotent (s : string) : slashes (slashes s) = slashes s.
Proof.
  induction s as [|c s IH]; [reflexivity|]. cbn [slashes]. rewrite IH.
  destruct (Ascii.eqb c "-") eqn:Hc; [reflexivity|rewrite Hc; reflexivity].
Qed.

(** X22. The two branches of [_format_project_name] give the same
    result: the name with every hyphen turned into a slash, also the
    hyphens that belong to a directory name.  The result has no hyphen
    and the length of the name, and formatting it again changes
    nothing. *)
Theorem format_project_name_slashes (name : string) :
  _format_project_name name = slashes name
  /\ Py.contains "-" (_format_project_name name) = false
  /\ String.length (_format_project_name name) = String.length name
  /\ _format_project_name (_format_project_name name) = _format_project_name name.
Proof.
  assert (Heq : forall s, _format_project_name s = slashes s).
  { intros s. unfold _format_project_name, Py.replace.
    destruct (Py.startswith s "-").
    - rewrite replace_hyphens_all. apply slashes_replace_some.
    - apply replace_hyphens_all. }
  rewrite !Heq. split; [reflexivity|].
  split; [apply slashes_no_hyphen|]. split; [apply slashes_length|apply slashes_idempotent].
Qed.

(** ** The tips *)

Ltac catalogued :=
  unfold tip_entry, tip_catalogue; cbn [tip_id tip_icon tip_title tip_impact];
  repeat (first [apply list_elem_of_here | apply list_elem_of_further]).

Ltac conditioned :=
  unfold tip_condition; cbv zeta; repeat match goal with |- _ /\ _ => split end;
  intros Hid; try discriminate Hid.

Lemma cache_tip_appends data tips :
  appends data "low-cache-hit" tips (cache_tip (totals data) tips)
  \/ appends data "great-cache" tips (cache_tip (totals data) tips).
Proof.
  unfold cache_tip.
  destruct ((cacheHitRate (totals data) <? 0.5)%float) eqn:Hlow;
    destruct (bool_decide (totalSessions (totals data) > 3)%Z) eqn:Hmany; cbn [andb];
    try apply bool_decide_eq_true in Hmany.
  - left. right. eexists. split; [reflexivity|]. split; [reflexivity|].
    split; [catalogued|conditioned; split; assumption].
  - left. left. rewrite andb_false_r. reflexivity.
  - destruct ((0.8 <=? cacheHitRate (totals data))%float) eqn:Hhigh; cbn [andb].
    + right. right. eexists. split; [reflexivity|]. split; [reflexivity|].
      split; [catalogued|conditioned; split; assumption].
    + left. left. reflexivity.
  - left. left. rewrite andb_false_r. reflexivity.
Qed.

Lemma short_sessions_tip_appends data tips tips' :
  short_sessions_tip (sessions data) tips = Some tips' ->
  appends data "many-short-sessions" tips tips'.
Proof.
  unfold short_sessions_tip.
  destruct (Py.int_mul_float _ _) as [half|]; [|discriminate]. cbn [mbind option_bind].
  destruct (Py.int_gt_float _ _); cbn [andb]; [|intros [= <-]; left; reflexivity].
  destruct (bool_decide _) eqn:Hlen; intros [= <-]; [|left; reflexivity].
  apply bool_decide_eq_true in Hlen. unfold len_list in Hlen.
  right. eexists. split; [reflexivity|]. split; [reflexivity|].
  split; [catalogued|conditioned; lia].
Qed.

Lemma tool_density_tip_appends py data tips tips' :
  tool_density_tip py (sessions data) (totals data) tips = Some tips' ->
  appends data "high-tool-density" tips tips'.
Proof.
  unfold tool_density_tip.
  destruct (match sessions data with [] => _ | _ => _ end) as [avg|]; [|discriminate].
  cbn [mbind option_bind].
  destruct (Py.float_gt_int _ _); cbn [andb]; [|intros [= <-]; left; reflexivity].
  destruct (bool_decide _) eqn:Hq; intros [= <-]; [|left; reflexivity].
  apply bool_decide_eq_true in Hq.
  right. eexists. split; [reflexivity|]. split; [reflexivity|].
  split; [catalogued|conditioned; lia].
Qed.

Lemma thinking_tip_appends data tips tips' :
  thinking_tip (totals data) tips = Some tips' ->
  appends data "heavy-thinking" tips tips'.
Proof.
  unfold thinking_tip.
  destruct (bool_decide (totalThinkingTurns _ > 0)%Z) eqn:Ht; cbn [andb];
    [|intros [= <-]; left; reflexivity].
  destruct (bool_decide (totalQueries _ > 0)%Z) eqn:Hq; [|intros [= <-]; left; reflexivity].
  apply bool_decide_eq_true in Ht, Hq.
  destruct (Py.truediv _ _) as [ratio|]; [|discriminate]. cbn [mbind option_bind].
  destruct (0.3 <? ratio)%float; intros [= <-]; [|left; reflexivity].
  right. eexists. split; [reflexivity|]. split; [reflexivity|].
  split; [catalogued|conditioned; split; lia].
Qed.

Lemma opus_tip_appends data tips tips' :
  opus_tip (modelBreakdown data) (totals data) tips = Some tips' ->
  appends data "opus-heavy" tips tips'.
Proof.
  unfold opus_tip.
  destruct (opus_rows _) as [opus_models|]; [|discriminate]. cbn [mbind option_bind].
  destruct (Py.int_mul_float _ _) as [half|]; [|discriminate]. cbn [mbind option_bind].
  destruct (Py.int_gt_float _ _); cbn [andb]; [|intros [= <-]; left; reflexivity].
  destruct (bool_decide _) eqn:Ht; [|intros [= <-]; left; reflexivity].
  apply bool_decide_eq_true in Ht.
  destruct (Py.truediv _ _) as [share|]; [|discriminate]. cbn [mbind option_bind].
  intros [= <-].
  right. eexists. split; [reflexivity|]. split; [reflexivity|].
  split; [catalogued|conditioned; lia].
Qed.

Lemma project_tip_appends data tips tips' :
  project_tip (projects data) (totals data) tips = Some tips' ->
  appends data "project-concentration" tips tips'.
Proof.
  unfold project_tip.
  destruct (projects data) as [|top_project [|second rest]] eqn:Hprojects;
    try (intros [= <-]; left; reflexivity).
  destruct (bool_decide (totalTokens (totals data) = 0)%Z) eqn:Hzero.
  - cbn [mbind option_bind].
    replace (0.7 <? 0)%float with false by reflexivity.
    intros [= <-]. left. reflexivity.
  - apply bool_decide_eq_false in Hzero.
    destruct (Py.truediv _ _) as [ratio|]; [|discriminate]. cbn [mbind option_bind].
    destruct (0.7 <? ratio)%float; intros [= <-]; [|left; reflexivity].
    right. eexists. split; [reflexivity|]. split; [reflexivity|].
    split; [catalogued|conditioned]. rewrite Hprojects. cbn [length]. split; [lia|exact Hzero].
Qed.

Lemma input_ratio_tip_appends data tips tips' :
  input_ratio_tip (totals data) tips = Some tips' ->
  appends data "high-input-ratio" tips tips'.
Proof.
  unfold input_ratio_tip.
  destruct (bool_decide (totalOutput _ > 0)%Z) eqn:Ho; cbn [andb];
    [|intros [= <-]; left; reflexivity].
  destruct (bool_decide (totalInput _ > 0)%Z) eqn:Hi; [|intros [= <-]; left; reflexivity].
  apply bool_decide_eq_true in Ho, Hi. cbv zeta.
  destruct (Py.truediv _ _) as [ratio|]; [|discriminate]. cbn [mbind option_bind].
  destruct (Py.float_gt_int _ _); intros [= <-]; [|left; reflexivity].
  right. eexists. split; [reflexivity|]. split; [reflexivity|].
  split; [catalogued|conditioned; split; lia].
Qed.

Lemma usage_spike_tip_appends data tips tips' :
  usage_spike_tip (dailyUsage data) tips = Some tips' ->
  appends data "usage-spike" tips tips'.
Proof.
  unfold usage_spike_tip.
  destruct (bool_decide _) eqn:Hlen; [|intros [= <-]; left; reflexivity].
  apply bool_decide_eq_true in Hlen. unfold len_list in Hlen. cbv zeta.
  destruct (Py.truediv _ _) as [avg7|]; [|discriminate]. cbn [mbind option_bind].
  destruct (max_key _) as [max_day|]; [|discriminate]. cbn [mbind option_bind].
  destruct (Py.int_gt_float _ _ && Py.float_gt_int _ _); [|intros [= <-]; left; reflexivity].
  destruct (_format_tokens _) as [formatted|]; [|discriminate]. cbn [mbind option_bind].
  destruct (Py.int_div_float _ _) as [times|]; [|discriminate]. cbn [mbind option_bind].
  intros [= <-].
  right. eexists. split; [reflexivity|]. split; [reflexivity|].
  split; [catalogued|conditioned; lia].
Qed.

Lemma staged_next data k id tips tips' :
  drop 2 tip_ids !! k = Some id ->
  staged data k tips -> appends data id tips tips' -> staged data (S k) tips'.
Proof.
  intros Hid (first & rest & -> & Hfirst & Hrest & Hall) Happ.
  unfold staged. rewrite (take_S_r _ _ _ Hid).
  destruct Happ as [->|(t & -> & Ht & Hentry & Hcond)].
  - exists first, rest. repeat split; try assumption. apply sublist_inserts_r, Hrest.
  - exists first, (rest ++ [t]). rewrite app_assoc. split; [reflexivity|].
    split; [exact Hfirst|]. split.
    + rewrite map_app. cbn [map]. rewrite Ht. apply sublist_app; [exact Hrest|reflexivity].
    + apply Forall_app. split; [exact Hall|]. constructor; [|constructor].
      rewrite Ht. split; assumption.
Qed.

Lemma generate_optimizations_staged (py : interpreter) (data : Snapshot) (tips : list Tip) :
  generate_optimizations py data = Some tips -> staged data 7 tips.
Proof.
  unfold generate_optimizations. cbv zeta.
  destruct (bool_decide _).
  { intros [= <-]. exists [], []. repeat split; [left; reflexivity|apply sublist_nil_l|constructor]. }
  assert (H0 : staged data 0 (cache_tip (totals data) [])).
  { destruct (cache_tip_appends data []) as [[->|(t & -> & Ht & Hentry & Hcond)]
                                            |[->|(t & -> & Ht & Hentry & Hcond)]].
    - exists [], []. repeat split; [left; reflexivity|apply sublist_nil_l|constructor].
    - exists [t], []. repeat split; [right; left; eauto|apply sublist_nil_l|].
      constructor; [rewrite Ht; split; assumption|constructor].
    - exists [], []. repeat split; [left; reflexivity|apply sublist_nil_l|constructor].
    - exists [t], []. repeat split; [right; right; eauto|apply sublist_nil_l|].
      constructor; [rewrite Ht; split; assumption|constructor]. }
  destruct (short_sessions_tip _ _) as [tips1|] eqn:H1; [|discriminate]. cbn [mbind option_bind].
  destruct (tool_density_tip _ _ _ _) as [tips2|] eqn:H2; [|discriminate]. cbn [mbind option_bind].
  destruct (thinking_tip _ _) as [tips3|] eqn:H3; [|discriminate]. cbn [mbind option_bind].
  destruct (opus_tip _ _ _) as [tips4|] eqn:H4; [|discriminate]. cbn [mbind option_bind].
  destruct (project_tip _ _ _) as [tips5|] eqn:H5; [|discriminate]. cbn [mbind option_bind].
  destruct (input_ratio_tip _ _) as [tips6|] eqn:H6; [|discriminate]. cbn [mbind option_bind].
  destruct (usage_spike_tip _ _) as [tips7|] eqn:H7; [|discriminate]. cbn [mbind option_bind].
  intros [= <-].
  apply short_sessions_tip_appends in H1. apply tool_density_tip_appends in H2.
  apply thinking_tip_appends in H3. apply opus_tip_appends in H4.
  apply project_tip_appends in H5. apply input_ratio_tip_appends in H6.
  apply usage_spike_tip_appends in H7.
  eapply staged_next; [|eapply staged_next; [|eapply staged_next; [|eapply staged_next;
    [|eapply staged_next; [|eapply staged_next; [|eapply staged_next; [|exact H0|exact H1]
    |exact H2]|exact H3]|exact H4]|exact H5]|exact H6]|exact H7]; reflexivity.
Qed.

(** X23. The tips that [generate_optimizations] returns come in the
    order of the nine tips of the code, each at most once, and never the
    two cache tips together, so there are at most eight; the icon, the
    title and the impact of a tip are those that go with its
    identifier. *)
Theorem generate_optimizations_catalogue (py : interpreter) (data : Snapshot)
    (tips : list Tip) :
  generate_optimizations py data = Some tips ->
  sublist (map tip_id tips) tip_ids
  /\ NoDup (map tip_id tips)
  /\ ~ ("low-cache-hit"%string ∈ map tip_id tips /\ "great-cache"%string ∈ map tip_id tips)
  /\ (length tips <= 8)%nat
  /\ Forall (fun t => tip_entry t ∈ tip_catalogue) tips.
Proof.
  intros Hgen. apply generate_optimizations_staged in Hgen
    as (first & rest & -> & Hfirst & Hrest & Hall).
  rewrite firstn_all2 in Hrest by (cbn; lia).
  assert (Hsub : sublist (map tip_id (first ++ rest)) tip_ids).
  { rewrite map_app. change tip_ids with (take 2 tip_ids ++ drop 2 tip_ids).
    apply sublist_app; [|exact Hrest].
    destruct Hfirst as [->|[(t & -> & Ht)|(t & -> & Ht)]]; cbn [map]; try rewrite Ht.
    - apply sublist_nil_l.
    - apply sublist_skip, sublist_nil_l.
    - apply sublist_cons, sublist_skip, sublist_nil_l. }
  assert (Hnd : NoDup tip_ids) by (apply (bool_decide_unpack _); vm_compute; exact I).
  assert (Hrest_ids : forall id, id ∈ map tip_id rest ->
            id <> "low-cache-hit"%string /\ id <> "great-cache"%string).
  { intros id Hin. eapply elem_of_sublist in Hin; [|exact Hrest].
    cbn in Hin. repeat (apply elem_of_cons in Hin as [->|Hin]; [split; discriminate|]).
    apply elem_of_nil in Hin as []. }
  split; [exact Hsub|]. split; [eapply sublist_NoDup; eassumption|].
  split; [|split].
  - rewrite map_app. intros [Hlow Hgreat].
    apply elem_of_app in Hlow as [Hlow|Hlow]; [|apply Hrest_ids in Hlow as [? _]; congruence].
    apply elem_of_app in Hgreat as [Hgreat|Hgreat];
      [|apply Hrest_ids in Hgreat as [_ ?]; congruence].
    destruct Hfirst as [->|[(t & -> & Ht)|(t & -> & Ht)]]; cbn [map] in *.
    + apply elem_of_nil in Hlow as [].
    + rewrite Ht in Hgreat. apply list_elem_of_singleton in Hgreat. discriminate.
    + rewrite Ht in Hlow. apply list_elem_of_singleton in Hlow. discriminate.
  - rewrite length_app. apply sublist_length in Hrest. rewrite length_map in Hrest.
    cbn in Hrest. destruct Hfirst as [->|[(t & -> & Ht)|(t & -> & Ht)]]; cbn [length]; lia.
  - eapply Forall_impl; [exact Hall|]. intros t [Ht _]. exact Ht.
Qed.

Lemma generate_optimizations_catalogue_witness :
  let tips := SampleScan.busy_tips in
  sublist (map tip_id tips) tip_ids
  /\ NoDup (map tip_id tips)
  /\ ~ ("low-cache-hit"%string ∈ map tip_id tips /\ "great-cache"%string ∈ map tip_id tips)
  /\ (length tips <= 8)%nat
  /\ Forall (fun t => tip_entry t ∈ tip_catalogue) tips.
Proof.
  apply (generate_optimizations_catalogue SampleDisk.python SampleScan.busy
           SampleScan.busy_tips).
  vm_compute. reflexivity.
Defined.

(** X24. No tip is given without the condition that guards it: with no
    session there is no tip at all, and each tip that is returned comes
    with the threshold of its block on the data, for instance more than
    three sessions for the cache tips, more than five sessions for the
    short sessions and more than seven days for the spike. *)
Theorem generate_optimizations_conditions (py : interpreter) (data : Snapshot)
    (tips : list Tip) :
  generate_optimizations py data = Some tips ->
  (totalSessions (totals data) = 0%Z -> tips = [])
  /\ forall t, t ∈ tips -> tip_condition data (tip_id t).
Proof.
  intros Hgen. split.
  - intros Hzero. unfold generate_optimizations in Hgen. cbv zeta in Hgen.
    rewrite bool_decide_eq_true_2 in Hgen by exact Hzero. congruence.
  - apply generate_optimizations_staged in Hgen as (first & rest & -> & _ & _ & Hall).
    rewrite Forall_forall in Hall. intros t Ht. apply (Hall t Ht).
Qed.

Lemma generate_optimizations_conditions_witness :
  (totalSessions (totals SampleScan.busy) = 0%Z -> SampleScan.busy_tips = [])
  /\ forall t, t ∈ SampleScan.busy_tips -> tip_condition SampleScan.busy (tip_id t).
Proof.
  apply (generate_optimizations_conditions SampleDisk.python SampleScan.busy
           SampleScan.busy_tips).
  vm_compute. reflexivity.
Defined.

(** ** Token counts *)

Lemma int_ge_float_1e3 (n : Z) : Py.int_ge_float n 1e3 = bool_decide (1000 <= n)%Z.
Proof.
  unfold Py.int_ge_float, Py.compare_int_float.
  change (Prim2SF 1e3) with (S754_finite false 8796093022208000 (-43)).
  cbv iota beta. change (Z.pow_pos 2 43) with 8796093022208%Z.
  destruct (Z.compare_spec (n * 8796093022208) 8796093022208000) as [H|H|H];
    symmetry; [apply bool_decide_eq_true|apply bool_decide_eq_false|apply bool_decide_eq_true];
    lia.
Qed.

Lemma int_ge_float_1e6 (n : Z) : Py.int_ge_float n 1e6 = bool_decide (1000000 <= n)%Z.
Proof.
  unfold Py.int_ge_float, Py.compare_int_float.
  change (Prim2SF 1e6) with (S754_finite false 8589934592000000 (-33)).
  cbv iota beta. change (Z.pow_pos 2 33) with 8589934592%Z.
  destruct (Z.compare_spec (n * 8589934592) 8589934592000000) as [H|H|H];
    symmetry; [apply bool_decide_eq_true|apply bool_decide_eq_false|apply bool_decide_eq_true];
    lia.
Qed.

Lemma format_tokens_below_million (k : nat) :
  (k < 50)%nat -> _format_tokens (999950 + Z.of_nat k) = Some "1000.0K"%string.
Proof.
  intros Hk.
  do 50 (destruct k as [|k]; [vm_compute; reflexivity|]). lia.
Qed.

(** X25. [_format_tokens] prints a count below 1000 as the integer it
    is, negative counts included; and it prints the counts from 999950
    to 999999 as [1000.0K], since the rounding to one decimal comes
    after the choice of the unit. *)
Theorem format_tokens_units (n : Z) :
  ((n < 1000)%Z -> _format_tokens n = Some (Py.str_of_int n))
  /\ ((999950 <= n < 1000000)%Z -> _format_tokens n = Some "1000.0K"%string).
Proof.
  split.
  - intros Hn. unfold _format_tokens. rewrite int_ge_float_1e6, int_ge_float_1e3.
    rewrite !bool_decide_eq_false_2 by lia. reflexivity.
  - intros Hn. replace n with (999950 + Z.of_nat (Z.to_nat (n - 999950)))%Z by lia.
    apply format_tokens_below_million. lia.
Qed.

Lemma format_tokens_units_witness :
  _format_tokens (-5) = Some "-5"%string
  /\ _format_tokens 999950 = Some "1000.0K"%string.
Proof.
  split.
  - apply (proj1 (format_tokens_units (-5))). lia.
  - apply (proj2 (format_tokens_units 999950)). lia.
Defined.

(** ** A model that is [null] *)

Lemma opus_rows_raises (model_breakdown : list ModelRollup) : forall opus_models,
  (exists m, m ∈ model_breakdown /\ mm_model m = None) ->
  for_each
    (fun (opus_models : list ModelRollup) m =>
       model ← mm_model m;
       Some (if Py.contains "opus" (Py.lower model) then opus_models ++ [m]
             else opus_models))
    opus_models model_breakdown = None.
Proof.
  induction model_breakdown as [|m l IH]; intros opus_models (m0 & Hin & Hnull).
  - apply elem_of_nil in Hin as [].
  - cbn [for_each]. destruct (mm_model m) as [model|] eqn:Hm; [|reflexivity].
    cbn [mbind option_bind]. apply IH. exists m0. split; [|exact Hnull].
    apply elem_of_cons in Hin as [->|Hin]; [congruence|exact Hin].
Qed.

Lemma generate_optimizations_null_model (py : interpreter) (data : Snapshot) :
  totalSessions (totals data) <> 0%Z ->
  (exists m, m ∈ modelBreakdown data /\ mm_model m = None) ->
  generate_optimizations py data = None.
Proof.
  intros Hsessions Hnull. unfold generate_optimizations. cbv zeta.
  rewrite bool_decide_eq_false_2 by exact Hsessions.
  destruct (short_sessions_tip _ _) as [tips1|]; [|reflexivity]. cbn [mbind option_bind].
  destruct (tool_density_tip _ _ _ _) as [tips2|]; [|reflexivity]. cbn [mbind option_bind].
  destruct (thinking_tip _ _) as [tips3|]; [|reflexivity]. cbn [mbind option_bind].
  unfold opus_tip, opus_rows. rewrite opus_rows_raises by exact Hnull. reflexivity.
Qed.

(** X26. A query whose model is [null] passes the parser and breaks the
    optimizer: when a scan completes and one of its queries has no
    model, [generate_optimizations] raises on the snapshot of the scan,
    and so does the first request of the route. *)
Theorem null_model_raises (py : interpreter) (d : disk) (force_refresh : bool) (o : outcome)
    (q : Query) :
  parse_all_sessions py d force_refresh = Some o ->
  q ∈ scan_queries (loaded_cache d force_refresh) (scanned_files d) ->
  q_model q = None ->
  generate_optimizations py (result o) = None
  /\ server.usage py None d force_refresh = None.
Proof.
  intros Hscan Hq Hmodel.
  assert (Hgen : generate_optimizations py (result o) = None).
  { apply generate_optimizations_null_model.
    - rewrite (scan_total_sessions d force_refresh o Hscan).
      rewrite scan_queries_inputs in Hq.
      destruct (session_inputs (loaded_cache d force_refresh) (scanned_files d));
        [apply elem_of_nil in Hq as []|cbn [length]; lia].
    - destruct (model_row_of_query d force_refresh o q Hscan Hq) as (row & Hrow & Heq).
      + unfold billed. rewrite Hmodel. reflexivity.
      + exists row. split; [exact Hrow|congruence]. }
  split; [exact Hgen|].
  unfold server.usage. rewrite Hscan. cbn [mbind option_bind]. rewrite Hgen. reflexivity.
Qed.

Lemma null_model_raises_witness :
  generate_optimizations SampleDisk.python (result SampleNull.null_model_scan) = None
  /\ server.usage SampleDisk.python None SampleNull.null_model_disk false = None.
Proof.
  apply (null_model_raises SampleDisk.python SampleNull.null_model_disk false
           SampleNull.null_model_scan SampleNull.null_model_query).
  - vm_compute. reflexivity.
  - left.
  - reflexivity.
Defined.

(** ** The route *)

Lemma save_cache_with_cache new_cache cache d :
  exists cache', _save_cache new_cache (with_cache cache d) = with_cache cache' d.
Proof.
  unfold _save_cache. cbn [with_cache dk_cache_writable dk_projects dk_history].
  destruct (dk_cache_writable d) eqn:Hw; [exists (Some (CacheObject new_cache))|exists cache];
    unfold with_cache; rewrite ?Hw; reflexivity.
Qed.

(** A forced scan gives the same snapshot whatever the cache file
    holds, and leaves the tree as it is. *)
Lemma forced_scan_with_cache {py : interpreter} d cache1 cache2 o :
  parse_all_sessions py (with_cache cache1 d) true = Some o ->
  exists o' cache',
    parse_all_sessions py (with_cache cache2 d) true = Some o'
    /\ result o' = result o
    /\ disk_after o' = with_cache cache' d.
Proof.
  unfold parse_all_sessions. cbn [with_cache dk_projects dk_history].
  destruct (dk_projects d) as [[entries|]|].
  - destruct (for_each _ _ _) as [st|]; [|discriminate]. cbn [mbind option_bind].
    destruct (build_snapshot py st) as [snapshot|]; [|discriminate].
    cbn [mbind option_bind]. intros [= <-].
    destruct (save_cache_with_cache (st_new_cache st) cache2 d) as [cache' Hsave].
    eexists _, cache'. split; [reflexivity|]. split; [reflexivity|exact Hsave].
  - intros [= <-]. eexists _, cache2. repeat split.
  - intros [= <-]. eexists _, cache2. repeat split.
Qed.

Lemma serve_unchanged {py : interpreter} d cache0 o tips (requests : list bool) :
  forall cache,
  parse_all_sessions py (with_cache cache0 d) true = Some o ->
  generate_optimizations py (result o) = Some tips ->
  let r := {| server.data := result o; server.optimizations := tips |} in
  serve py (Some r) (with_cache cache d) requests = Some (repeat r (length requests)).
Proof.
  intros cache Hscan Hgen r. revert cache.
  induction requests as [|refresh requests IH]; intros cache; [reflexivity|].
  cbn [serve length repeat]. destruct refresh.
  - unfold server.usage.
    destruct (forced_scan_with_cache d cache0 cache o Hscan)
      as (o' & cache' & -> & Hres & Hdisk).
    cbn [mbind option_bind]. rewrite Hres, Hgen. cbn [mbind option_bind].
    rewrite Hdisk. fold r. rewrite IH. reflexivity.
  - cbn [server.usage mbind option_bind]. rewrite IH. reflexivity.
Qed.

(** X27. On a tree that does not change, the route keeps returning its
    first response.  When the first request succeeds, on a disk without
    cache file or with a forced refresh, the response is stored in
    [_cached_data], its tips are those of its snapshot, and every
    sequence of later requests, forced or not, succeeds and returns this
    response again. *)
Theorem usage_idempotent (py : interpreter) (d : disk) (refresh : bool) (r : server.Response)
    (_cached_data : option server.Response) (d' : disk) (requests : list bool) :
  dk_cache d = None \/ refresh = true ->
  server.usage py None d refresh = Some (r, _cached_data, d') ->
  _cached_data = Some r
  /\ generate_optimizations py (server.data r) = Some (server.optimizations r)
  /\ serve py _cached_data d' requests = Some (repeat r (length requests)).
Proof.
  intros Hcache Husage.
  assert (Hd : d = with_cache (dk_cache d) d) by (destruct d; reflexivity).
  assert (Hforced : parse_all_sessions py d refresh
                    = parse_all_sessions py (with_cache (dk_cache d) d) true).
  { destruct Hcache as [Hnone| ->]; [|rewrite <- Hd; reflexivity].
    rewrite <- Hd. destruct refresh; [reflexivity|].
    unfold parse_all_sessions, _load_cache. rewrite Hnone. reflexivity. }
  unfold server.usage in Husage. rewrite Hforced in Husage.
  destruct (parse_all_sessions py (with_cache (dk_cache d) d) true) as [o|] eqn:Hscan;
    [|discriminate].
  cbn [mbind option_bind] in Husage.
  destruct (generate_optimizations py (result o)) as [tips|] eqn:Hgen; [|discriminate].
  cbn [mbind option_bind] in Husage. injection Husage as <- <- <-.
  split; [reflexivity|]. split; [exact Hgen|].
  destruct (forced_scan_with_cache d (dk_cache d) (dk_cache d) o Hscan)
    as (o' & cache' & Hscan' & _ & Hdisk).
  assert (o' = o) by congruence. subst o'. rewrite Hdisk.
  apply (serve_unchanged d (dk_cache d) o tips requests cache' Hscan Hgen).
Qed.

Lemma usage_idempotent_witness :
  let r := SampleScan.first_response in
  Some r = Some r
  /\ generate_optimizations SampleDisk.python (server.data r) = Some (server.optimizations r)
  /\ serve SampleDisk.python (Some r) (disk_after SampleDisk.first_scan) [false; true; false]
     = Some (repeat r 3).
Proof.
  apply (usage_idempotent SampleDisk.python SampleDisk.two_files false
           SampleScan.first_response (Some SampleScan.first_response)
           (disk_after SampleDisk.first_scan) [false; true; false]);
    [left; reflexivity|vm_compute; reflexivity].
Defined.

(** ** The route on a tree that changes, and without sessions *)

Lemma usage_stores (py : interpreter) d refresh r _cached_data d' :
  server.usage py None d refresh = Some (r, _cached_data, d') -> _cached_data = Some r.
Proof.
  unfold server.usage.
  destruct (parse_all_sessions py d refresh) as [o|]; [|discriminate]. cbn [mbind option_bind].
  destruct (generate_optimizations py (result o)) as [tips|]; [|discriminate].
  cbn [mbind option_bind]. intros [= <- <- _]. reflexivity.
Qed.

Lemma serve_on_cached (py : interpreter) (r : server.Response) (requests : list (bool * disk)) :
  Forall (fun request => fst request = false) requests ->
  serve_on py (Some r) requests = Some (repeat r (length requests)).
Proof.
  induction 1 as [|[refresh d] requests Hrefresh _ IH]; [reflexivity|].
  cbn [fst] in Hrefresh. subst refresh. cbn [serve_on server.usage mbind option_bind].
  rewrite IH. reflexivity.
Qed.

(** X28. Without [refresh] the route never looks at the disk again:
    once a first request has succeeded, every request that does not ask
    for a refresh returns the first response, whatever the tree has
    become in between. *)
Theorem usage_stale_without_refresh (py : interpreter) (d : disk) (refresh : bool)
    (r : server.Response) (_cached_data : option server.Response) (d' : disk)
    (requests : list (bool * disk)) :
  server.usage py None d refresh = Some (r, _cached_data, d') ->
  Forall (fun request => fst request = false) requests ->
  serve_on py _cached_data requests = Some (repeat r (length requests)).
Proof.
  intros Husage Hrequests. rewrite (usage_stores py d refresh r _cached_data d' Husage).
  apply serve_on_cached. exact Hrequests.
Qed.

Lemma usage_stale_without_refresh_witness :
  serve_on SampleDisk.python (Some SampleScan.first_response)
    [(false, SampleDisk.quiet_only); (false, SampleNull.null_model_disk)]
  = Some (repeat SampleScan.first_response 2).
Proof.
  apply (usage_stale_without_refresh SampleDisk.python SampleDisk.two_files false
           SampleScan.first_response (Some SampleScan.first_response)
           (disk_after SampleDisk.first_scan)
           [(false, SampleDisk.quiet_only); (false, SampleNull.null_model_disk)]).
  - vm_compute. reflexivity.
  - repeat constructor.
Defined.


